(** * refua-bench: a shallow embedding of the execution-and-gating engine

    The development follows the Python package [refua_bench]:

    - [Py]          the fragment of Python's data model the package relies on
                    (JSON-like values, [==], [float()], [int()], exceptions);
    - [Metrics]     [metrics.py]: [metric_direction], [compute_metric];
    - [Schema]      [schema.py]: the suite dataclasses;
    - [Runner]      [runner.py]: [_run_task], [run_benchmark], [to_dict];
    - [RunArtifact] [run_artifact.py]: [validate_run_artifact];
    - [Compare]     [compare.py]: [compare_runs], the paired bootstrap and
                    [_quantile].

    Python floats are IEEE 754 binary64 numbers, and so are Rocq's primitive
    floats: scores, thresholds and confidence bounds are values of [float],
    with NaN, the infinities and rounding as the interpreter has them. *)

From Stdlib Require Import ZArith String Ascii List Bool Lia Floats.
From Stdlib Require Import Permutation Sorted.
From Stdlib Require Uint63.
From Stdlib Require Import DecimalString DecimalZ.
Import ListNotations.

Set Warnings "-register-all,-inexact-float".
Local Open Scope list_scope.
Local Open Scope string_scope.

(* ===================================================================== *)
(** * Python values, exceptions and builtins                               *)
(* ===================================================================== *)

Module Py.

(** The values that flow through the package are what [json] and [yaml]
    produce: [None], booleans, integers, floats, strings, lists and
    string-keyed dictionaries. A dictionary keeps its insertion order. *)
Inductive pyval : Type :=
| PNone : pyval
| PBool : bool -> pyval
| PInt : Z -> pyval
| PFloat : float -> pyval
| PStr : string -> pyval
| PList : list pyval -> pyval
| PDict : list (string * pyval) -> pyval.

Definition pydict : Type := list (string * pyval).

(** The exceptions the package raises or lets through. *)
Inductive exn : Type :=
| ValueError : string -> exn
| TypeError : string -> exn
| KeyError : string -> exn
| IndexError : string -> exn
| OverflowError : string -> exn.

Inductive result (A : Type) : Type :=
| Ok : A -> result A
| Raise : exn -> result A.

Arguments Ok {A} _.
Arguments Raise {A} _.

Definition bind {A B : Type} (c : result A) (k : A -> result B) : result B :=
  match c with
  | Ok a => k a
  | Raise e => Raise e
  end.

Definition is_ok {A : Type} (c : result A) : bool :=
  match c with Ok _ => true | Raise _ => false end.

Definition raises {A : Type} (c : result A) : bool := negb (is_ok c).

(** ** Dictionaries *)

(** [key in d] and [d[key]]. *)
Fixpoint dict_get {V : Type} (d : list (string * V)) (key : string) : option V :=
  match d with
  | [] => None
  | (k, v) :: rest => if String.eqb k key then Some v else dict_get rest key
  end.

Definition dict_mem {V : Type} (d : list (string * V)) (key : string) : bool :=
  match dict_get d key with Some _ => true | None => false end.

(** [d.get(key)] on a dictionary of values: [None] when the key is absent. *)
Definition get (d : pydict) (key : string) : pyval :=
  match dict_get d key with Some v => v | None => PNone end.

(** [d[key] = v]: an existing key keeps its position, a new one goes last. *)
Fixpoint dict_set {V : Type} (d : list (string * V)) (key : string) (v : V)
  : list (string * V) :=
  match d with
  | [] => [(key, v)]
  | (k, w) :: rest =>
      if String.eqb k key then (k, v) :: rest else (k, w) :: dict_set rest key v
  end.

Definition keys {V : Type} (d : list (string * V)) : list string := map fst d.

(** A Python dictionary never holds a key twice. The association lists built
    by [dict_set] have this property; payloads given from outside are
    well formed when it holds at every level. *)
Fixpoint nodup_keys (seen : list string) (ks : list string) : bool :=
  match ks with
  | [] => true
  | k :: rest =>
      negb (existsb (String.eqb k) seen) && nodup_keys (k :: seen) rest
  end.

Fixpoint wf (v : pyval) : bool :=
  match v with
  | PList l => forallb wf l
  | PDict d =>
      nodup_keys [] (map fst d)
      && (fix wf_items (items : list (string * pyval)) : bool :=
            match items with
            | [] => true
            | (_, w) :: rest => wf w && wf_items rest
            end) d
  | _ => true
  end.

(** ** Numbers *)

(** [float(n)] for an integer [n]: the nearest binary64 value, ties to even;
    beyond the range this is an infinity, where Python raises
    [OverflowError]. *)
Definition Z2float (z : Z) : float :=
  SF2Prim (binary_normalize prec emax z 0 false).

(** [float(n)] for a length or a count [n]: these are machine integers in
    CPython (below 2^63), and their conversion is the primitive one. *)
Definition nat2float (n : nat) : float :=
  PrimFloat.of_uint63 (Uint63.of_Z (Z.of_nat n)).

(** The integer a finite float denotes when it is one. *)
Definition float_integer_value (f : float) : option Z :=
  match Prim2SF f with
  | S754_zero _ => Some 0%Z
  | S754_finite s m e =>
      let v := if s then Z.neg m else Z.pos m in
      if (0 <=? e)%Z then Some (v * 2 ^ e)%Z
      else if (v mod 2 ^ (- e) =? 0)%Z then Some (v / 2 ^ (- e))%Z
      else None
  | _ => None
  end.

(** [int(x)] for a float: truncation toward zero. *)
Definition float_trunc (f : float) : result Z :=
  match Prim2SF f with
  | S754_zero _ => Ok 0%Z
  | S754_finite s m e =>
      let q := if (0 <=? e)%Z then (Z.pos m * 2 ^ e)%Z
               else (Z.pos m / 2 ^ (- e))%Z in
      Ok (if s then (- q)%Z else q)
  | S754_infinity _ => Raise (OverflowError "cannot convert float infinity to integer")
  | S754_nan => Raise (ValueError "cannot convert float NaN to integer")
  end.

Definition bool_Z (b : bool) : Z := if b then 1%Z else 0%Z.

(** [str(n)] for an integer and for a boolean, as f-strings print them. *)
Definition str_int (z : Z) : string := NilZero.string_of_int (Z.to_int z).
Definition str_nat (n : nat) : string := str_int (Z.of_nat n).
Definition str_bool (b : bool) : string := if b then "True" else "False".

(** ** Equality *)

(** [a == b]. Booleans are the integers 0 and 1; an integer equals a float
    when the float denotes that integer; NaN equals nothing; lists compare
    element by element and dictionaries key by key, whatever the order.
    (CPython's containers first test their elements for identity; objects
    have no identity here, so a NaN inside a list differs from itself.) *)
Definition num_eq_float (z : Z) (f : float) : bool :=
  match float_integer_value f with
  | Some v => (z =? v)%Z
  | None => false
  end.

Fixpoint py_eq (a b : pyval) {struct a} : bool :=
  match a with
  | PNone => match b with PNone => true | _ => false end
  | PBool x =>
      match b with
      | PBool y => Bool.eqb x y
      | PInt y => (bool_Z x =? y)%Z
      | PFloat y => num_eq_float (bool_Z x) y
      | _ => false
      end
  | PInt x =>
      match b with
      | PBool y => (x =? bool_Z y)%Z
      | PInt y => (x =? y)%Z
      | PFloat y => num_eq_float x y
      | _ => false
      end
  | PFloat x =>
      match b with
      | PBool y => num_eq_float (bool_Z y) x
      | PInt y => num_eq_float y x
      | PFloat y => PrimFloat.eqb x y
      | _ => false
      end
  | PStr x => match b with PStr y => String.eqb x y | _ => false end
  | PList xs =>
      match b with
      | PList ys =>
          (fix all2 (l : list pyval) (r : list pyval) {struct l} : bool :=
             match l, r with
             | [], [] => true
             | x :: l', y :: r' => py_eq x y && all2 l' r'
             | _, _ => false
             end) xs ys
      | _ => false
      end
  | PDict d =>
      match b with
      | PDict d' =>
          Nat.eqb (length d) (length d')
          && (fix items (l : list (string * pyval)) {struct l} : bool :=
                match l with
                | [] => true
                | (k, v) :: l' =>
                    match dict_get d' k with
                    | Some w => py_eq v w && items l'
                    | None => false
                    end
                end) d
      | _ => false
      end
  end.

(** [l[i]]: a negative index counts from the end. *)
Definition py_index {A : Type} (l : list A) (i : Z) : result A :=
  let n := Z.of_nat (length l) in
  let j := if (i <? 0)%Z then (i + n)%Z else i in
  if (j <? 0)%Z then Raise (IndexError "list index out of range")
  else match nth_error l (Z.to_nat j) with
       | Some x => Ok x
       | None => Raise (IndexError "list index out of range")
       end.

(** [max(a, b)] on floats: [b] only when it is greater than [a]. *)
Definition py_max (a b : float) : float := if (a <? b)%float then b else a.

(** ** Builtins that are taken as given *)

(** Three builtins are parameters of the development: parsing a string as a
    float ([float("1e3")]; [None] stands for [ValueError]), [sum] over a
    list of floats (a left fold up to Python 3.11, compensated summation
    from 3.12 on) and [repr]. No theorem below depends on which
    implementation is chosen. *)
Record Builtins : Type := {
  float_of_str : string -> option float;
  py_sum : list float -> float;
  py_repr : pyval -> string
}.

Section WithBuiltins.
Context (py : Builtins).

(** [float(v)]. *)
Definition py_float (v : pyval) : result float :=
  match v with
  | PFloat f => Ok f
  | PInt z =>
      let f := Z2float z in
      if is_infinity f then Raise (OverflowError "int too large to convert to float")
      else Ok f
  | PBool b => Ok (Z2float (bool_Z b))
  | PStr s =>
      match float_of_str py s with
      | Some f => Ok f
      | None => Raise (ValueError ("could not convert string to float: " ++ py_repr py v))
      end
  | _ => Raise (TypeError "float() argument must be a string or a real number")
  end.

End WithBuiltins.

(** ** Strings *)

(** [str.isspace] on the code points below 256. *)
Definition is_space (c : ascii) : bool :=
  let n := nat_of_ascii c in
  (Nat.leb 9 n && Nat.leb n 13) || (Nat.leb 28 n && Nat.leb n 32)
  || Nat.eqb n 133 || Nat.eqb n 160.

Fixpoint lstrip (s : string) : string :=
  match s with
  | String c rest => if is_space c then lstrip rest else s
  | EmptyString => EmptyString
  end.

Fixpoint rstrip (s : string) : string :=
  match s with
  | EmptyString => EmptyString
  | String c rest =>
      match rstrip rest with
      | EmptyString => if is_space c then EmptyString else String c EmptyString
      | r => String c r
      end
  end.

(** [s.strip()]. *)
Definition strip (s : string) : string := rstrip (lstrip s).

(** [sorted] on strings (by code point) and on floats (by [<]), as a stable
    insertion sort; on floats without NaN any stable sort agrees with it. *)
Fixpoint insert_by {A : Type} (lt : A -> A -> bool) (x : A) (l : list A) : list A :=
  match l with
  | [] => [x]
  | y :: rest => if lt x y then x :: l else y :: insert_by lt x rest
  end.

Definition sorted_by {A : Type} (lt : A -> A -> bool) (l : list A) : list A :=
  fold_left (fun acc x => insert_by lt x acc) l [].

Definition sorted_str : list string -> list string := sorted_by String.ltb.
Definition sorted_float : list float -> list float := sorted_by PrimFloat.ltb.

(** A set of strings, as the list of its members without repeats. *)
Definition set_of (l : list string) : list string := nodup string_dec l.
Definition set_mem (x : string) (s : list string) : bool := existsb (String.eqb x) s.
Definition set_diff (a b : list string) : list string :=
  filter (fun x => negb (set_mem x b)) a.
Definition set_eq (a b : list string) : bool :=
  forallb (fun x => set_mem x b) a && forallb (fun x => set_mem x a) b.

End Py.

Declare Scope py_scope.
Delimit Scope py_scope with py.
Notation "x <- c ;; k" := (Py.bind c (fun x => k))
  (at level 61, c at next level, right associativity) : py_scope.
Notation "c ;;; k" := (Py.bind c (fun _ => k))
  (at level 61, right associativity) : py_scope.
Local Open Scope py_scope.

(* ===================================================================== *)
(** * metrics.py                                                           *)
(* ===================================================================== *)

Module Metrics.
Import Py.

Definition _METRIC_DIRECTIONS : list (string * string) :=
  [ ("mae", "lower");
    ("rmse", "lower");
    ("accuracy", "higher");
    ("exact_match", "higher");
    ("f1", "higher") ].

Definition metric_direction (metric : string) : result string :=
  match dict_get _METRIC_DIRECTIONS metric with
  | Some d => Ok d
  | None => Raise (ValueError ("Unsupported metric: " ++ metric))
  end.

(** The confusion counts of [_f1_binary]'s loop: true positives, false
    positives and false negatives, by equality with the positive label. *)
Record confusion : Type := {
  true_positive : nat;
  false_positive : nat;
  false_negative : nat
}.

Definition confusion_step (positive_label : pyval) (acc : confusion)
  (item : pyval * pyval) : confusion :=
  let (exp, pred) := item in
  let exp_positive := py_eq exp positive_label in
  let pred_positive := py_eq pred positive_label in
  if exp_positive && pred_positive then
    {| true_positive := S (true_positive acc);
       false_positive := false_positive acc;
       false_negative := false_negative acc |}
  else if negb exp_positive && pred_positive then
    {| true_positive := true_positive acc;
       false_positive := S (false_positive acc);
       false_negative := false_negative acc |}
  else if exp_positive && negb pred_positive then
    {| true_positive := true_positive acc;
       false_positive := false_positive acc;
       false_negative := S (false_negative acc) |}
  else acc.

Definition confusion_counts (expected predicted : list pyval)
  (positive_label : pyval) : confusion :=
  fold_left (confusion_step positive_label) (combine expected predicted)
    {| true_positive := 0; false_positive := 0; false_negative := 0 |}.

(** [a / b] on two counts: both are converted exactly, then divided. *)
Definition count_div (a b : nat) : float := (nat2float a / nat2float b)%float.

Definition _f1_binary (expected predicted : list pyval) (positive_label : pyval)
  : float :=
  let c := confusion_counts expected predicted positive_label in
  let tp := true_positive c in
  let fp := false_positive c in
  let fn := false_negative c in
  if Nat.eqb tp 0 && Nat.eqb fp 0 && Nat.eqb fn 0 then 1%float
  else
    let precision_denom := tp + fp in
    let recall_denom := tp + fn in
    let precision :=
      if Nat.eqb precision_denom 0 then 0%float else count_div tp precision_denom in
    let recall :=
      if Nat.eqb recall_denom 0 then 0%float else count_div tp recall_denom in
    if (precision + recall =? 0)%float then 0%float
    else (2 * precision * recall / (precision + recall))%float.

(** [x ** 2] on a float, taken as the correctly rounded square: a finite
    [x] whose square is too large raises [OverflowError]; an infinite [x]
    gives infinity and NaN gives NaN. *)
Definition float_square (x : float) : result float :=
  let square := (x * x)%float in
  if is_finite x && is_infinity square then
    Raise (OverflowError "(34, 'Numerical result out of range')")
  else Ok square.

(** [[(exp - pred) ** 2 for exp, pred in zip(expected, predicted)]]: the
    first square that overflows ends the comprehension. *)
Fixpoint squared_differences (pairs : list (float * float)) : result (list float) :=
  match pairs with
  | [] => Ok []
  | (exp, pred) :: rest =>
      square <- float_square (exp - pred)%float ;;
      squares <- squared_differences rest ;;
      Ok (square :: squares)
  end.

Section WithBuiltins.
Context (py : Builtins).

Fixpoint _to_float_list (values : list pyval) : result (list float) :=
  match values with
  | [] => Ok []
  | value :: rest =>
      match py_float py value with
      | Ok f => fs <- _to_float_list rest ;; Ok (f :: fs)
      | Raise (TypeError _) | Raise (ValueError _) =>
          Raise (ValueError ("Expected numeric value, got " ++ py_repr py value))
      | Raise e => Raise e
      end
  end.

Definition compute_metric (metric : string)
  (expected_values predicted_values : list pyval) (positive_label : pyval)
  : result float :=
  if negb (Nat.eqb (length expected_values) (length predicted_values)) then
    Raise (ValueError "expected_values and predicted_values must have equal length")
  else if Nat.eqb (length expected_values) 0 then
    Raise (ValueError "Cannot compute a metric on empty values")
  else if String.eqb metric "mae" then
    expected <- _to_float_list expected_values ;;
    predicted <- _to_float_list predicted_values ;;
    let absolute_errors :=
      map (fun ep => abs (fst ep - snd ep)%float) (combine expected predicted) in
    Ok (py_sum py absolute_errors / nat2float (length expected))%float
  else if String.eqb metric "rmse" then
    expected <- _to_float_list expected_values ;;
    predicted <- _to_float_list predicted_values ;;
    squared_errors <- squared_differences (combine expected predicted) ;;
    let mse := (py_sum py squared_errors / nat2float (length expected))%float in
    Ok (sqrt mse)
  else if String.eqb metric "accuracy" || String.eqb metric "exact_match" then
    let matches :=
      length (filter (fun ep => py_eq (fst ep) (snd ep))
                     (combine expected_values predicted_values)) in
    Ok (count_div matches (length expected_values))
  else if String.eqb metric "f1" then
    Ok (_f1_binary expected_values predicted_values positive_label)
  else Raise (ValueError ("Unsupported metric: " ++ metric)).

End WithBuiltins.

End Metrics.

(* ===================================================================== *)
(** * schema.py: the suite dataclasses                                     *)
(* ===================================================================== *)

Module Schema.
Import Py.

Definition SUPPORTED_METRICS : list string :=
  ["mae"; "rmse"; "accuracy"; "exact_match"; "f1"].

Record BenchmarkCase : Type := {
  case_id : string;
  input : pydict;
  expected : pydict;
  tags : list string
}.

Record BenchmarkTask : Type := {
  task_id : string;
  metric : string;
  prediction_key : string;
  expected_key : string;
  regression_tolerance : float;
  weight : float;
  positive_label : pyval;
  cases : list BenchmarkCase
}.

Record BenchmarkSuite : Type := {
  name : string;
  version : string;
  description : string;
  tasks : list BenchmarkTask;
  metadata : pydict
}.

End Schema.

(* ===================================================================== *)
(** * runner.py                                                            *)
(* ===================================================================== *)

Module Runner.
Import Py.

Record CaseResult : Type := {
  case_id : string;
  expected : pyval;
  predicted : pyval;
  duration_ms : float;
  error : option string
}.

Record TaskResult : Type := {
  task_id : string;
  metric : string;
  direction : string;
  score : option float;
  cases_total : nat;
  case_failures : nat;
  case_results : list CaseResult
}.

Record BenchmarkRun : Type := {
  run_id : string;
  suite_name : string;
  suite_version : string;
  adapter : string;
  started_at : string;
  finished_at : string;
  summary : pydict;
  task_results : list TaskResult;
  provenance : pydict
}.

(** A prediction source ([adapters.ModelAdapter]): a name and [predict].
    The source may keep state between calls, so [predict] threads a state of
    type [St]; a call either returns the output mapping or raises an
    exception, of which the runner only keeps [str(exc)]. *)
Record ModelAdapter (St : Type) : Type := {
  name : string;
  predict : St -> Schema.BenchmarkTask -> Schema.BenchmarkCase
            -> (string + pydict) * St
}.

Arguments name {St} _.
Arguments predict {St} _ _ _ _.

(** What the runner reads from its surroundings: the monotonic clock (its
    readings in the order of the calls to [perf_counter]), the wall clock
    (the two calls to [datetime.now(UTC).isoformat()]) and [uuid4().hex]. *)
Record Env : Type := {
  perf_counter : nat -> float;
  now_isoformat : nat -> string;
  uuid4_hex : string
}.

Section WithBuiltins.
Context (py : Builtins) (env : Env) {St : Type} (adapter_obj : ModelAdapter St).

(** The variables of [_run_task]'s loop, with the adapter's state and the
    number of clock readings taken so far. *)
Record task_loop : Type := {
  expected_values : list pyval;
  predicted_values : list pyval;
  loop_case_results : list CaseResult;
  loop_case_failures : nat;
  loop_state : St;
  loop_tick : nat
}.

Definition missing_prediction_key (task : Schema.BenchmarkTask)
  (case : Schema.BenchmarkCase) : string :=
  "Missing prediction key '" ++ Schema.prediction_key task
    ++ "' in adapter output for case '" ++ Schema.case_id case ++ "'".

(** One iteration of [for case in task.cases]. *)
Definition run_case (task : Schema.BenchmarkTask) (acc : task_loop)
  (case : Schema.BenchmarkCase) : task_loop :=
  let expected := get (Schema.expected case) (Schema.expected_key task) in
  let start := perf_counter env (loop_tick acc) in
  let (outcome, st') := predict adapter_obj (loop_state acc) task case in
  let stop := perf_counter env (S (loop_tick acc)) in
  let duration_ms := ((stop - start) * 1000)%float in
  let attempt : string + pyval :=
    match outcome with
    | inl msg => inl msg
    | inr output =>
        match dict_get output (Schema.prediction_key task) with
        | None =>
            (* str(KeyError(msg)) is repr(msg) *)
            inl (py_repr py (PStr (missing_prediction_key task case)))
        | Some predicted => inr predicted
        end
    end in
  match attempt with
  | inr predicted =>
      {| expected_values := expected_values acc ++ [expected];
         predicted_values := predicted_values acc ++ [predicted];
         loop_case_results :=
           loop_case_results acc ++
             [ {| case_id := Schema.case_id case;
                  expected := expected;
                  predicted := predicted;
                  duration_ms := duration_ms;
                  error := None |} ];
         loop_case_failures := loop_case_failures acc;
         loop_state := st';
         loop_tick := S (S (loop_tick acc)) |}
  | inl msg =>
      {| expected_values := expected_values acc;
         predicted_values := predicted_values acc;
         loop_case_results :=
           loop_case_results acc ++
             [ {| case_id := Schema.case_id case;
                  expected := expected;
                  predicted := PNone;
                  duration_ms := duration_ms;
                  error := Some msg |} ];
         loop_case_failures := S (loop_case_failures acc);
         loop_state := st';
         loop_tick := S (S (loop_tick acc)) |}
  end.

Definition run_cases (task : Schema.BenchmarkTask) (st : St) (tick : nat)
  : task_loop :=
  fold_left (run_case task) (Schema.cases task)
    {| expected_values := [];
       predicted_values := [];
       loop_case_results := [];
       loop_case_failures := 0;
       loop_state := st;
       loop_tick := tick |}.

Definition _run_task (task : Schema.BenchmarkTask) (st : St) (tick : nat)
  : result (TaskResult * St * nat) :=
  let l := run_cases task st tick in
  score <-
    (match expected_values l with
     | [] => Ok None
     | _ :: _ =>
         s <- Metrics.compute_metric py (Schema.metric task)
                (expected_values l) (predicted_values l)
                (Schema.positive_label task) ;;
         Ok (Some s)
     end) ;;
  direction <- Metrics.metric_direction (Schema.metric task) ;;
  Ok ({| task_id := Schema.task_id task;
         metric := Schema.metric task;
         direction := direction;
         score := score;
         cases_total := length (Schema.cases task);
         case_failures := loop_case_failures l;
         case_results := loop_case_results l |},
      loop_state l, loop_tick l).

(** The variables of [run_benchmark]'s loop. *)
Record suite_loop : Type := {
  acc_task_results : list TaskResult;
  acc_cases_total : nat;
  acc_case_failures : nat;
  acc_tasks_with_errors : nat;
  acc_state : St;
  acc_tick : nat
}.

Definition score_is_none (r : TaskResult) : bool :=
  match score r with None => true | Some _ => false end.

Fixpoint run_tasks (tasks : list Schema.BenchmarkTask) (acc : suite_loop)
  : result suite_loop :=
  match tasks with
  | [] => Ok acc
  | task :: rest =>
      out <- _run_task task (acc_state acc) (acc_tick acc) ;;
      let '(res, st', tick') := out in
      run_tasks rest
        {| acc_task_results := acc_task_results acc ++ [res];
           acc_cases_total := acc_cases_total acc + cases_total res;
           acc_case_failures := acc_case_failures acc + case_failures res;
           acc_tasks_with_errors :=
             if Nat.ltb 0 (case_failures res) || score_is_none res
             then S (acc_tasks_with_errors acc)
             else acc_tasks_with_errors acc;
           acc_state := st';
           acc_tick := tick' |}
  end.

Definition run_benchmark (suite : Schema.BenchmarkSuite) (st : St)
  (provenance_arg : option pydict) : result BenchmarkRun :=
  let started_at_ := now_isoformat env 0 in
  acc <- run_tasks (Schema.tasks suite)
           {| acc_task_results := [];
              acc_cases_total := 0;
              acc_case_failures := 0;
              acc_tasks_with_errors := 0;
              acc_state := st;
              acc_tick := 0 |} ;;
  let summary_ : pydict :=
    [ ("tasks_total", PInt (Z.of_nat (length (Schema.tasks suite))));
      ("tasks_with_errors", PInt (Z.of_nat (acc_tasks_with_errors acc)));
      ("cases_total", PInt (Z.of_nat (acc_cases_total acc)));
      ("case_failures", PInt (Z.of_nat (acc_case_failures acc)));
      ("all_cases_succeeded", PBool (Nat.eqb (acc_case_failures acc) 0)) ] in
  let finished_at_ := now_isoformat env 1 in
  Ok {| run_id := uuid4_hex env;
        suite_name := Schema.name suite;
        suite_version := Schema.version suite;
        adapter := name adapter_obj;
        started_at := started_at_;
        finished_at := finished_at_;
        summary := summary_;
        provenance := match provenance_arg with None => [] | Some p => p end;
        task_results := acc_task_results acc |}.

End WithBuiltins.

(** [BenchmarkRun.to_dict], that is [dataclasses.asdict]: every dataclass
    becomes a dictionary of its fields, in declaration order. *)
Definition opt_float (o : option float) : pyval :=
  match o with Some f => PFloat f | None => PNone end.

Definition opt_str (o : option string) : pyval :=
  match o with Some s => PStr s | None => PNone end.

Definition case_to_dict (c : CaseResult) : pyval :=
  PDict [ ("case_id", PStr (case_id c));
          ("expected", expected c);
          ("predicted", predicted c);
          ("duration_ms", PFloat (duration_ms c));
          ("error", opt_str (error c)) ].

Definition task_to_dict (t : TaskResult) : pyval :=
  PDict [ ("task_id", PStr (task_id t));
          ("metric", PStr (metric t));
          ("direction", PStr (direction t));
          ("score", opt_float (score t));
          ("cases_total", PInt (Z.of_nat (cases_total t)));
          ("case_failures", PInt (Z.of_nat (case_failures t)));
          ("case_results", PList (map case_to_dict (case_results t))) ].

Definition to_dict (r : BenchmarkRun) : pyval :=
  PDict [ ("run_id", PStr (run_id r));
          ("suite_name", PStr (suite_name r));
          ("suite_version", PStr (suite_version r));
          ("adapter", PStr (adapter r));
          ("started_at", PStr (started_at r));
          ("finished_at", PStr (finished_at r));
          ("summary", PDict (summary r));
          ("task_results", PList (map task_to_dict (task_results r)));
          ("provenance", PDict (provenance r)) ].

End Runner.

(* ===================================================================== *)
(** * run_artifact.py                                                      *)
(* ===================================================================== *)

Module RunArtifact.
Import Py.

Definition _TOP_LEVEL_KEYS : list string :=
  [ "run_id"; "suite_name"; "suite_version"; "adapter"; "started_at";
    "finished_at"; "summary"; "task_results"; "provenance" ].

Definition _SUMMARY_KEYS : list string :=
  [ "tasks_total"; "tasks_with_errors"; "cases_total"; "case_failures";
    "all_cases_succeeded" ].

Definition _TASK_KEYS : list string :=
  [ "task_id"; "metric"; "direction"; "score"; "cases_total";
    "case_failures"; "case_results" ].

Definition _CASE_KEYS : list string :=
  [ "case_id"; "expected"; "predicted"; "duration_ms"; "error" ].

Definition _require_mapping (value : pyval) (path : string) : result pydict :=
  match value with
  | PDict d => Ok d
  | _ => Raise (ValueError (path ++ " must be an object"))
  end.

Definition _require_list (value : pyval) (path : string) : result (list pyval) :=
  match value with
  | PList l => Ok l
  | _ => Raise (ValueError (path ++ " must be a list"))
  end.

Definition _require_non_empty_str (value : pyval) (path : string) : result string :=
  match value with
  | PStr s =>
      let normalized := strip s in
      if String.eqb normalized "" then
        Raise (ValueError (path ++ " must be a non-empty string"))
      else Ok normalized
  | _ => Raise (ValueError (path ++ " must be a string"))
  end.

Definition _require_non_negative_int (value : pyval) (path : string) : result Z :=
  match value with
  | PInt z =>
      if (z <? 0)%Z then
        Raise (ValueError (path ++ " must be a non-negative integer"))
      else Ok z
  | _ => Raise (ValueError (path ++ " must be a non-negative integer"))
  end.

Definition _require_bool (value : pyval) (path : string) : result bool :=
  match value with
  | PBool b => Ok b
  | _ => Raise (ValueError (path ++ " must be a boolean"))
  end.

Definition _require_finite_number (value : pyval) (path : string) : result float :=
  match value with
  | PInt z =>
      (* float(value) on an int *)
      let numeric := Z2float z in
      if is_infinity numeric then
        Raise (OverflowError "int too large to convert to float")
      else Ok numeric
  | PFloat numeric =>
      if is_finite numeric then Ok numeric
      else Raise (ValueError (path ++ " must be a finite number"))
  | _ => Raise (ValueError (path ++ " must be a finite number"))
  end.

Definition _require_non_negative_finite_number (value : pyval) (path : string)
  : result float :=
  numeric <- _require_finite_number value path ;;
  if (numeric <? 0)%float then Raise (ValueError (path ++ " must be >= 0"))
  else Ok numeric.

Definition _require_optional_finite_number (value : pyval) (path : string)
  : result (option float) :=
  match value with
  | PNone => Ok None
  | _ => numeric <- _require_finite_number value path ;; Ok (Some numeric)
  end.

Definition is_none (v : pyval) : bool :=
  match v with PNone => true | _ => false end.

Section WithBuiltins.
Context (py : Builtins).

Definition repr_strs (l : list string) : string :=
  py_repr py (PList (map PStr l)).

Definition _validate_key_set (payload : pydict) (required : list string)
  (path : string) : result unit :=
  let keys_ := set_of (keys payload) in
  let missing := sorted_str (set_diff required keys_) in
  let extra := sorted_str (set_diff keys_ required) in
  match missing, extra with
  | [], [] => Ok tt
  | _, _ =>
      Raise (ValueError (path ++ " has invalid keys (missing=" ++ repr_strs missing
                           ++ ", extra=" ++ repr_strs extra ++ ")"))
  end.

(** The loop over [case_results_raw]: [case_ids] and
    [observed_case_failures] are its variables. *)
Fixpoint validate_cases (task_path : string) (case_results_raw : list pyval)
  (case_index : nat) (case_ids : list string) (observed_case_failures : Z)
  : result Z :=
  match case_results_raw with
  | [] => Ok observed_case_failures
  | case_item :: rest =>
      let case_path : string :=
        task_path ++ ".case_results[" ++ str_nat case_index ++ "]" in
      case <- _require_mapping case_item case_path ;;
      _validate_key_set case _CASE_KEYS case_path ;;;
      case_id <- _require_non_empty_str (get case "case_id") (case_path ++ ".case_id") ;;
      if set_mem case_id case_ids then
        Raise (ValueError ("Duplicate case_id in " ++ task_path ++ ": '" ++ case_id ++ "'"))
      else
        _require_non_negative_finite_number (get case "duration_ms")
          (case_path ++ ".duration_ms") ;;;
        observed <-
          (match get case "error" with
           | PNone => Ok observed_case_failures
           | PStr _ => Ok (observed_case_failures + 1)%Z
           | _ => Raise (ValueError (case_path ++ ".error must be a string or null"))
           end) ;;
        validate_cases task_path rest (S case_index) (case_id :: case_ids) observed
  end.

(** The variables of the loop over [task_results_raw]. *)
Record task_acc : Type := {
  task_ids : list string;
  case_totals_sum : Z;
  case_failures_sum : Z;
  tasks_with_errors : Z;
  task_map : list (string * pydict)
}.

Definition validate_task (source : string) (index : nat) (task_item : pyval)
  (acc : task_acc) : result task_acc :=
  let task_path : string := source ++ ".task_results[" ++ str_nat index ++ "]" in
  task <- _require_mapping task_item task_path ;;
  _validate_key_set task _TASK_KEYS task_path ;;;
  task_id <- _require_non_empty_str (get task "task_id") (task_path ++ ".task_id") ;;
  if set_mem task_id (task_ids acc) then
    Raise (ValueError ("Duplicate task_id in " ++ source ++ ": '" ++ task_id ++ "'"))
  else
    _require_non_empty_str (get task "metric") (task_path ++ ".metric") ;;;
    direction <- _require_non_empty_str (get task "direction") (task_path ++ ".direction") ;;
    if negb (String.eqb direction "higher" || String.eqb direction "lower") then
      Raise (ValueError (task_path ++ ".direction must be 'higher' or 'lower'"))
    else
      _require_optional_finite_number (get task "score") (task_path ++ ".score") ;;;
      cases_total <- _require_non_negative_int (get task "cases_total")
                       (task_path ++ ".cases_total") ;;
      case_failures <- _require_non_negative_int (get task "case_failures")
                         (task_path ++ ".case_failures") ;;
      if (cases_total <? case_failures)%Z then
        Raise (ValueError (task_path ++ ".case_failures cannot exceed cases_total"))
      else
        case_results_raw <- _require_list (get task "case_results")
                              (task_path ++ ".case_results") ;;
        if negb (Z.of_nat (length case_results_raw) =? cases_total)%Z then
          Raise (ValueError (task_path ++ ".cases_total=" ++ str_int cases_total
                               ++ " does not match len(case_results)="
                               ++ str_nat (length case_results_raw)))
        else
          observed_case_failures <- validate_cases task_path case_results_raw 0 [] 0%Z ;;
          if negb (observed_case_failures =? case_failures)%Z then
            Raise (ValueError (task_path ++ ".case_failures=" ++ str_int case_failures
                                 ++ " does not match observed failures "
                                 ++ str_int observed_case_failures))
          else
            Ok {| task_ids := task_id :: task_ids acc;
                  case_totals_sum := (case_totals_sum acc + cases_total)%Z;
                  case_failures_sum := (case_failures_sum acc + case_failures)%Z;
                  tasks_with_errors :=
                    if (0 <? case_failures)%Z || is_none (get task "score")
                    then (tasks_with_errors acc + 1)%Z
                    else tasks_with_errors acc;
                  task_map := dict_set (task_map acc) task_id task |}.

Fixpoint validate_tasks (source : string) (task_results_raw : list pyval)
  (index : nat) (acc : task_acc) : result task_acc :=
  match task_results_raw with
  | [] => Ok acc
  | task_item :: rest =>
      acc' <- validate_task source index task_item acc ;;
      validate_tasks source rest (S index) acc'
  end.

(** The loop of [_validate_suite_alignment] that collects a task's case
    identifiers. *)
Fixpoint collect_case_ids (prefix : string) (run_case_results : list pyval)
  (index : nat) (run_case_ids : list string) : result (list string) :=
  match run_case_results with
  | [] => Ok run_case_ids
  | case_item :: rest =>
      let p : string := prefix ++ ".case_results[" ++ str_nat index ++ "]" in
      case <- _require_mapping case_item p ;;
      cid <- _require_non_empty_str (get case "case_id") (p ++ ".case_id") ;;
      collect_case_ids prefix rest (S index) (cid :: run_case_ids)
  end.

Definition align_task (source : string) (task_map_ : list (string * pydict))
  (task : Schema.BenchmarkTask) : result unit :=
  let tid := Schema.task_id task in
  let prefix : string := source ++ ".task_results[" ++ tid ++ "]" in
  run_task <-
    (match dict_get task_map_ tid with
     | Some t => Ok t
     | None => Raise (KeyError (py_repr py (PStr tid)))
     end) ;;
  run_metric <- _require_non_empty_str (get run_task "metric") (prefix ++ ".metric") ;;
  if negb (String.eqb run_metric (Schema.metric task)) then
    Raise (ValueError (source ++ " task '" ++ tid ++ "' metric '" ++ run_metric
                         ++ "' does not match suite metric '" ++ Schema.metric task ++ "'"))
  else
    run_direction <- _require_non_empty_str (get run_task "direction")
                       (prefix ++ ".direction") ;;
    expected_direction <- Metrics.metric_direction (Schema.metric task) ;;
    if negb (String.eqb run_direction expected_direction) then
      Raise (ValueError (source ++ " task '" ++ tid ++ "' direction '" ++ run_direction
                           ++ "' does not match expected '" ++ expected_direction ++ "'"))
    else
      run_case_results <- _require_list (get run_task "case_results")
                            (prefix ++ ".case_results") ;;
      let expected_case_ids := set_of (map Schema.case_id (Schema.cases task)) in
      run_case_ids_ <- collect_case_ids prefix run_case_results 0 [] ;;
      let run_case_ids := set_of run_case_ids_ in
      if negb (set_eq run_case_ids expected_case_ids) then
        let missing_cases := sorted_str (set_diff expected_case_ids run_case_ids) in
        let extra_cases := sorted_str (set_diff run_case_ids expected_case_ids) in
        Raise (ValueError (source ++ " task '" ++ tid
                             ++ "' case ids do not match suite (missing="
                             ++ repr_strs missing_cases ++ ", extra="
                             ++ repr_strs extra_cases ++ ")"))
      else
        run_cases_total <- _require_non_negative_int (get run_task "cases_total")
                             (prefix ++ ".cases_total") ;;
        if negb (run_cases_total =? Z.of_nat (length (Schema.cases task)))%Z then
          Raise (ValueError (source ++ " task '" ++ tid ++ "' cases_total="
                               ++ str_int run_cases_total
                               ++ " does not match suite case count "
                               ++ str_nat (length (Schema.cases task))))
        else Ok tt.

Fixpoint align_tasks (source : string) (task_map_ : list (string * pydict))
  (tasks : list Schema.BenchmarkTask) : result unit :=
  match tasks with
  | [] => Ok tt
  | task :: rest =>
      align_task source task_map_ task ;;; align_tasks source task_map_ rest
  end.

Definition _validate_suite_alignment (suite : Schema.BenchmarkSuite)
  (source suite_name suite_version : string)
  (task_map_ : list (string * pydict)) : result unit :=
  if negb (String.eqb suite_name (Schema.name suite)) then
    Raise (ValueError (source ++ ".suite_name='" ++ suite_name
                         ++ "' does not match suite.name='" ++ Schema.name suite ++ "'"))
  else if negb (String.eqb suite_version (Schema.version suite)) then
    Raise (ValueError (source ++ ".suite_version='" ++ suite_version
                         ++ "' does not match suite.version='"
                         ++ Schema.version suite ++ "'"))
  else
    let expected_task_ids := set_of (map Schema.task_id (Schema.tasks suite)) in
    let run_task_ids := set_of (keys task_map_) in
    if negb (set_eq run_task_ids expected_task_ids) then
      let missing := sorted_str (set_diff expected_task_ids run_task_ids) in
      let extra := sorted_str (set_diff run_task_ids expected_task_ids) in
      Raise (ValueError (source ++ ".task_results do not match suite tasks (missing="
                           ++ repr_strs missing ++ ", extra=" ++ repr_strs extra ++ ")"))
    else align_tasks source task_map_ (Schema.tasks suite).

Definition validate_run_artifact (payload : pyval) (source : string)
  (suite : option Schema.BenchmarkSuite) : result pydict :=
  run <- _require_mapping payload source ;;
  _validate_key_set run _TOP_LEVEL_KEYS source ;;;
  _require_non_empty_str (get run "run_id") (source ++ ".run_id") ;;;
  suite_name <- _require_non_empty_str (get run "suite_name") (source ++ ".suite_name") ;;
  suite_version <- _require_non_empty_str (get run "suite_version")
                     (source ++ ".suite_version") ;;
  _require_non_empty_str (get run "adapter") (source ++ ".adapter") ;;;
  _require_non_empty_str (get run "started_at") (source ++ ".started_at") ;;;
  _require_non_empty_str (get run "finished_at") (source ++ ".finished_at") ;;;
  summary <- _require_mapping (get run "summary") (source ++ ".summary") ;;
  _validate_key_set summary _SUMMARY_KEYS (source ++ ".summary") ;;;
  summary_tasks_total <- _require_non_negative_int (get summary "tasks_total")
                           (source ++ ".summary.tasks_total") ;;
  summary_tasks_with_errors <- _require_non_negative_int (get summary "tasks_with_errors")
                                 (source ++ ".summary.tasks_with_errors") ;;
  summary_cases_total <- _require_non_negative_int (get summary "cases_total")
                           (source ++ ".summary.cases_total") ;;
  summary_case_failures <- _require_non_negative_int (get summary "case_failures")
                             (source ++ ".summary.case_failures") ;;
  summary_all_cases_succeeded <- _require_bool (get summary "all_cases_succeeded")
                                   (source ++ ".summary.all_cases_succeeded") ;;
  task_results_raw <- _require_list (get run "task_results") (source ++ ".task_results") ;;
  provenance <- _require_mapping (get run "provenance") (source ++ ".provenance") ;;
  acc <- validate_tasks source task_results_raw 0
           {| task_ids := []; case_totals_sum := 0; case_failures_sum := 0;
              tasks_with_errors := 0; task_map := [] |} ;;
  if negb (summary_tasks_total =? Z.of_nat (length task_results_raw))%Z then
    Raise (ValueError (source ++ ".summary.tasks_total=" ++ str_int summary_tasks_total
                         ++ " does not match len(task_results)="
                         ++ str_nat (length task_results_raw)))
  else if negb (summary_cases_total =? case_totals_sum acc)%Z then
    Raise (ValueError (source ++ ".summary.cases_total=" ++ str_int summary_cases_total
                         ++ " does not match sum(task.cases_total)="
                         ++ str_int (case_totals_sum acc)))
  else if negb (summary_case_failures =? case_failures_sum acc)%Z then
    Raise (ValueError (source ++ ".summary.case_failures=" ++ str_int summary_case_failures
                         ++ " does not match sum(task.case_failures)="
                         ++ str_int (case_failures_sum acc)))
  else if negb (summary_tasks_with_errors =? tasks_with_errors acc)%Z then
    Raise (ValueError (source ++ ".summary.tasks_with_errors="
                         ++ str_int summary_tasks_with_errors
                         ++ " does not match observed value "
                         ++ str_int (tasks_with_errors acc)))
  else
    let expected_all_cases_succeeded := (summary_case_failures =? 0)%Z in
    if negb (Bool.eqb summary_all_cases_succeeded expected_all_cases_succeeded) then
      Raise (ValueError (source ++ ".summary.all_cases_succeeded="
                           ++ str_bool summary_all_cases_succeeded
                           ++ " does not match (case_failures == 0)="
                           ++ str_bool expected_all_cases_succeeded))
    else
      (match suite with
       | Some s => _validate_suite_alignment s source suite_name suite_version (task_map acc)
       | None => Ok tt
       end) ;;;
      Ok [ ("run_id", get run "run_id");
           ("suite_name", get run "suite_name");
           ("suite_version", get run "suite_version");
           ("adapter", get run "adapter");
           ("started_at", get run "started_at");
           ("finished_at", get run "finished_at");
           ("summary", PDict summary);
           ("task_results", PList task_results_raw);
           ("provenance", PDict provenance) ].

End WithBuiltins.

End RunArtifact.

(* ===================================================================== *)
(** * compare.py                                                           *)
(* ===================================================================== *)

Module Compare.
Import Py.

Record StatisticalPolicy : Type := {
  min_effect_size : float;
  bootstrap_resamples : Z;
  confidence_level : float;
  bootstrap_seed : option Z;
  fail_on_uncertain : bool
}.

Definition default_policy : StatisticalPolicy :=
  {| min_effect_size := 0;
     bootstrap_resamples := 0;
     confidence_level := 0.95;
     bootstrap_seed := None;
     fail_on_uncertain := false |}.

Definition bootstrap_enabled (p : StatisticalPolicy) : bool :=
  (0 <? bootstrap_resamples p)%Z.

Record TaskComparison : Type := {
  task_id : string;
  metric : string;
  direction : string;
  baseline_score : option float;
  candidate_score : option float;
  tolerance : float;
  threshold : float;
  delta : option float;
  regression_amount : option float;
  ci_low : option float;
  ci_high : option float;
  p_regression : option float;
  paired_cases : nat;
  status : string;
  message : string
}.

Record ComparisonReport : Type := {
  suite_name : string;
  suite_version : string;
  summary : pydict;
  policy : pydict;
  task_comparisons : list TaskComparison
}.

(** [random.Random]: the type of generator states, the state a seed gives,
    and one raw draw. [randrange(n)] returns a number below [n]; the model
    has this by reducing the raw draw modulo [n]. A generator built with
    [seed=None] is seeded by the operating system: [os_seed k] is what the
    system supplies for the generator of task [k]. *)
Record RandomImpl : Type := {
  rng : Type;
  Random : Z -> rng;
  draw : rng -> nat -> nat * rng
}.

Definition randrange (R : RandomImpl) (r : rng R) (n : nat) : nat * rng R :=
  let (k, r') := draw R r n in (Nat.modulo k n, r').

Definition _seed_for_task (seed : option Z) (task_index : nat) : option Z :=
  match seed with
  | None => None
  | Some s => Some (s + Z.of_nat task_index)%Z
  end.

Definition _quantile (values : list float) (probability : float) : result float :=
  match values with
  | [] => Raise (ValueError "Cannot compute quantile on empty values")
  | _ :: _ =>
      let sorted_values := sorted_float values in
      if (probability <=? 0)%float then py_index sorted_values 0
      else if (1 <=? probability)%float then py_index sorted_values (-1)
      else
        let position := (probability * nat2float (length sorted_values - 1))%float in
        low_index <- float_trunc position ;;
        let high_index :=
          Z.min (low_index + 1) (Z.of_nat (length sorted_values) - 1) in
        let fraction := (position - Z2float low_index)%float in
        low_value <- py_index sorted_values low_index ;;
        high_value <- py_index sorted_values high_index ;;
        Ok (low_value + (high_value - low_value) * fraction)%float
  end.

(** [_task_map] and [_case_map]: the entries of a list that are dictionaries
    with a string under [id_key], keyed by that string; a later entry
    replaces an earlier one with the same key. *)
Fixpoint index_by (id_key : string) (raw : list pyval)
  (acc : list (string * pydict)) : list (string * pydict) :=
  match raw with
  | [] => acc
  | PDict item :: rest =>
      match get item id_key with
      | PStr id => index_by id_key rest (dict_set acc id item)
      | _ => index_by id_key rest acc
      end
  | _ :: rest => index_by id_key rest acc
  end.

Definition _task_map (run_payload : pydict) : list (string * pydict) :=
  match dict_get run_payload "task_results" with
  | None => []
  | Some (PList raw_tasks) => index_by "task_id" raw_tasks []
  | Some _ => []
  end.

Definition _case_map (task_payload : pydict) : list (string * pydict) :=
  match dict_get task_payload "case_results" with
  | None => []
  | Some (PList raw_cases) => index_by "case_id" raw_cases []
  | Some _ => []
  end.

Definition is_none (v : pyval) : bool :=
  match v with PNone => true | _ => false end.

Definition paired_case (candidate_cases : list (string * pydict))
  (entry : string * pydict) : list (pyval * pyval * pyval * pyval) :=
  let (case_id, baseline_case) := entry in
  match dict_get candidate_cases case_id with
  | None => []
  | Some candidate_case =>
      if negb (is_none (get baseline_case "error"))
         || negb (is_none (get candidate_case "error")) then []
      else
        let baseline_expected := get baseline_case "expected" in
        let baseline_predicted := get baseline_case "predicted" in
        let candidate_expected := get candidate_case "expected" in
        let candidate_predicted := get candidate_case "predicted" in
        if is_none baseline_expected || is_none baseline_predicted then []
        else if is_none candidate_expected || is_none candidate_predicted then []
        else [(baseline_expected, baseline_predicted,
               candidate_expected, candidate_predicted)]
  end.

Definition _paired_cases (baseline_task candidate_task : pydict)
  : list (pyval * pyval * pyval * pyval) :=
  let baseline_cases := _case_map baseline_task in
  let candidate_cases := _case_map candidate_task in
  flat_map (paired_case candidate_cases) baseline_cases.

Section WithBuiltins.
Context (py : Builtins) (R : RandomImpl) (os_seed : nat -> Z).

Definition _extract_score (task_payload : option pydict) : result (option float) :=
  match task_payload with
  | None => Ok None
  | Some d =>
      match get d "score" with
      | PNone => Ok None
      | score =>
          match py_float py score with
          | Ok f => Ok (Some f)
          | Raise (TypeError _) | Raise (ValueError _) => Ok None
          | Raise e => Raise e
          end
      end
  end.

(** [[rng.randrange(n_cases) for _ in range(n_cases)]]. *)
Fixpoint draw_indices (r : rng R) (n_cases count : nat) : list nat * rng R :=
  match count with
  | O => ([], r)
  | S count' =>
      let (i, r1) := randrange R r n_cases in
      let (rest, r2) := draw_indices r1 n_cases count' in
      (i :: rest, r2)
  end.

Definition pick (column : list pyval) (indices : list nat) : list pyval :=
  map (fun idx => nth idx column PNone) indices.

Definition signed_regression (direction : string) (delta_ : float) : float :=
  if String.eqb direction "lower" then delta_ else (- delta_)%float.

(** The loop [for _ in range(resamples)]; [None] stands for the early
    [return None] on a [ValueError] of the metric. *)
Fixpoint resample (metric_ direction_ : string) (positive_label : pyval)
  (pairs : list (pyval * pyval * pyval * pyval)) (threshold_ : float)
  (todo : nat) (r : rng R) (regression_samples : list float)
  (regression_hits : nat) : result (option (list float * nat)) :=
  match todo with
  | O => Ok (Some (regression_samples, regression_hits))
  | S todo' =>
      let n_cases := length pairs in
      let (indices, r') := draw_indices r n_cases n_cases in
      let b_expected := pick (map (fun item => fst (fst (fst item))) pairs) indices in
      let b_predicted := pick (map (fun item => snd (fst (fst item))) pairs) indices in
      let c_expected := pick (map (fun item => snd (fst item)) pairs) indices in
      let c_predicted := pick (map (fun item => snd item) pairs) indices in
      let scores :=
        baseline_score_ <- Metrics.compute_metric py metric_ b_expected b_predicted
                             positive_label ;;
        candidate_score_ <- Metrics.compute_metric py metric_ c_expected c_predicted
                              positive_label ;;
        Ok (baseline_score_, candidate_score_) in
      match scores with
      | Raise (ValueError _) => Ok None
      | Raise e => Raise e
      | Ok (baseline_score_, candidate_score_) =>
          let delta_ := (candidate_score_ - baseline_score_)%float in
          let regression_amount_ := signed_regression direction_ delta_ in
          resample metric_ direction_ positive_label pairs threshold_ todo' r'
            (regression_samples ++ [regression_amount_])
            (if (threshold_ <? regression_amount_)%float
             then S regression_hits else regression_hits)
      end
  end.

Definition make_rng (seed : option Z) (task_index : nat) : rng R :=
  match seed with
  | Some s => Random R s
  | None => Random R (os_seed task_index)
  end.

(** [seed] is the value [_seed_for_task] returned; [task_index] only
    tells which operating-system seed an unseeded generator receives. *)
Definition _bootstrap_regression_stats (metric_ direction_ : string)
  (positive_label : pyval) (pairs : list (pyval * pyval * pyval * pyval))
  (threshold_ : float) (resamples : Z) (confidence_level_ : float)
  (seed : option Z) (task_index : nat)
  : result (option (float * float * float)) :=
  if Nat.ltb (length pairs) 2 || (resamples <=? 0)%Z then Ok None
  else
    let r := make_rng seed task_index in
    out <- resample metric_ direction_ positive_label pairs threshold_
             (Z.to_nat resamples) r [] 0 ;;
    match out with
    | None => Ok None
    | Some (regression_samples, regression_hits) =>
        let alpha := (1 - confidence_level_)%float in
        ci_low_ <- _quantile regression_samples (alpha / 2)%float ;;
        ci_high_ <- _quantile regression_samples (1 - alpha / 2)%float ;;
        let p_regression_ :=
          Metrics.count_div regression_hits (length regression_samples) in
        Ok (Some (ci_low_, ci_high_, p_regression_))
    end.

(** The variables of [compare_runs]'s loop. *)
Record compare_loop : Type := {
  comparisons : list TaskComparison;
  regressions : nat;
  uncertain : nat
}.

Definition missing_comparison (task : Schema.BenchmarkTask) (direction_ : string)
  (threshold_ : float) (baseline_score_ candidate_score_ : option float)
  (message_ : string) : TaskComparison :=
  {| task_id := Schema.task_id task;
     metric := Schema.metric task;
     direction := direction_;
     baseline_score := baseline_score_;
     candidate_score := candidate_score_;
     tolerance := Schema.regression_tolerance task;
     threshold := threshold_;
     delta := None;
     regression_amount := None;
     ci_low := None;
     ci_high := None;
     p_regression := None;
     paired_cases := 0;
     status := "regression";
     message := message_ |}.

(** The body of [for task_index, task in enumerate(suite.tasks)]: the
    comparison appended for the task. *)
Definition compare_task (active_policy : StatisticalPolicy)
  (baseline_tasks candidate_tasks : list (string * pydict))
  (task_index : nat) (task : Schema.BenchmarkTask) : result TaskComparison :=
  let baseline_task := dict_get baseline_tasks (Schema.task_id task) in
  let candidate_task := dict_get candidate_tasks (Schema.task_id task) in
  let threshold_ :=
    py_max (Schema.regression_tolerance task) (min_effect_size active_policy) in
  match baseline_task with
  | None =>
      direction_ <- Metrics.metric_direction (Schema.metric task) ;;
      candidate_score_ <- _extract_score candidate_task ;;
      Ok (missing_comparison task direction_ threshold_ None candidate_score_
            "Task missing in baseline run")
  | Some baseline_task_ =>
      match candidate_task with
      | None =>
          direction_ <- Metrics.metric_direction (Schema.metric task) ;;
          baseline_score_ <- _extract_score baseline_task ;;
          Ok (missing_comparison task direction_ threshold_ baseline_score_ None
                "Task missing in candidate run")
      | Some candidate_task_ =>
          baseline_score_ <- _extract_score baseline_task ;;
          candidate_score_ <- _extract_score candidate_task ;;
          match baseline_score_, candidate_score_ with
          | Some bs, Some cs =>
              direction_ <- Metrics.metric_direction (Schema.metric task) ;;
              let delta_ := (cs - bs)%float in
              let regression_amount_ := signed_regression direction_ delta_ in
              let point : string * string :=
                if (threshold_ <? regression_amount_)%float
                then ("regression", "Exceeded threshold")
                else ("pass", "Within threshold") in
              verdict <-
                (if bootstrap_enabled active_policy then
                   let paired_cases_data := _paired_cases baseline_task_ candidate_task_ in
                   bootstrap_stats <-
                     _bootstrap_regression_stats (Schema.metric task) direction_
                       (Schema.positive_label task) paired_cases_data threshold_
                       (bootstrap_resamples active_policy)
                       (confidence_level active_policy)
                       (_seed_for_task (bootstrap_seed active_policy) task_index)
                       task_index ;;
                   match bootstrap_stats with
                   | Some (ci_low_, ci_high_, p_regression_) =>
                       let reclassified : string * string :=
                         if (regression_amount_ <=? threshold_)%float then
                           ("pass", "Within threshold")
                         else if (threshold_ <? ci_low_)%float then
                           ("regression", "Bootstrap CI confirms regression")
                         else if (ci_high_ <=? threshold_)%float then
                           ("pass", "Bootstrap CI rejects regression")
                         else
                           ("uncertain",
                            "Regression signal is inconclusive under bootstrap CI") in
                       Ok (Some ci_low_, Some ci_high_, Some p_regression_,
                           length paired_cases_data, reclassified)
                   | None =>
                       Ok (None, None, None, length paired_cases_data,
                           if (threshold_ <? regression_amount_)%float
                           then ("uncertain", "Insufficient paired cases for bootstrap CI")
                           else point)
                   end
                 else Ok (None, None, None, 0, point)) ;;
              let '(ci_low_, ci_high_, p_regression_, paired_cases_, outcome) := verdict in
              Ok {| task_id := Schema.task_id task;
                    metric := Schema.metric task;
                    direction := direction_;
                    baseline_score := baseline_score_;
                    candidate_score := candidate_score_;
                    tolerance := Schema.regression_tolerance task;
                    threshold := threshold_;
                    delta := Some delta_;
                    regression_amount := Some regression_amount_;
                    ci_low := ci_low_;
                    ci_high := ci_high_;
                    p_regression := p_regression_;
                    paired_cases := paired_cases_;
                    status := fst outcome;
                    message := snd outcome |}
          | _, _ =>
              direction_ <- Metrics.metric_direction (Schema.metric task) ;;
              Ok (missing_comparison task direction_ threshold_ baseline_score_
                    candidate_score_ "Missing score in one of the runs")
          end
      end
  end.

(** The counters follow the status: the three early branches record
    ["regression"] and add one to [regressions]; the last branch tests
    the status it computed. *)
Definition count_status (acc : compare_loop) (c : TaskComparison) : compare_loop :=
  {| comparisons := comparisons acc ++ [c];
     regressions :=
       if String.eqb (status c) "regression" then S (regressions acc)
       else regressions acc;
     uncertain :=
       if String.eqb (status c) "regression" then uncertain acc
       else if String.eqb (status c) "uncertain" then S (uncertain acc)
       else uncertain acc |}.

Fixpoint compare_tasks (active_policy : StatisticalPolicy)
  (baseline_tasks candidate_tasks : list (string * pydict))
  (task_index : nat) (tasks : list Schema.BenchmarkTask) (acc : compare_loop)
  : result compare_loop :=
  match tasks with
  | [] => Ok acc
  | task :: rest =>
      c <- compare_task active_policy baseline_tasks candidate_tasks task_index task ;;
      compare_tasks active_policy baseline_tasks candidate_tasks (S task_index) rest
        (count_status acc c)
  end.

Definition opt_int (o : option Z) : pyval :=
  match o with Some z => PInt z | None => PNone end.

Definition compare_runs (suite : Schema.BenchmarkSuite)
  (baseline_run candidate_run : pydict) (policy_arg : option StatisticalPolicy)
  : result ComparisonReport :=
  let active_policy :=
    match policy_arg with None => default_policy | Some p => p end in
  let baseline_tasks := _task_map baseline_run in
  let candidate_tasks := _task_map candidate_run in
  acc <- compare_tasks active_policy baseline_tasks candidate_tasks 0
           (Schema.tasks suite)
           {| comparisons := []; regressions := 0; uncertain := 0 |} ;;
  let passed :=
    Nat.eqb (regressions acc) 0
    && (if fail_on_uncertain active_policy then Nat.eqb (uncertain acc) 0 else true) in
  let summary_ : pydict :=
    [ ("tasks_total", PInt (Z.of_nat (length (comparisons acc))));
      ("regressions", PInt (Z.of_nat (regressions acc)));
      ("uncertain", PInt (Z.of_nat (uncertain acc)));
      ("passed", PBool passed) ] in
  let policy_payload : pydict :=
    [ ("min_effect_size", PFloat (min_effect_size active_policy));
      ("bootstrap_resamples", PInt (bootstrap_resamples active_policy));
      ("confidence_level", PFloat (confidence_level active_policy));
      ("bootstrap_seed", opt_int (bootstrap_seed active_policy));
      ("fail_on_uncertain", PBool (fail_on_uncertain active_policy)) ] in
  Ok {| suite_name := Schema.name suite;
        suite_version := Schema.version suite;
        summary := summary_;
        policy := policy_payload;
        task_comparisons := comparisons acc |}.

End WithBuiltins.

End Compare.

(* ===================================================================== *)
(** * Sample surroundings for running the embedding                        *)
(* ===================================================================== *)

Module Samples.
Import Py.

(** One implementation of the builtins: [sum] as a left fold from 0,
    [repr] without escapes (a float prints as [<float>]), and a [float()]
    that accepts no string. The examples below convert no string. *)
Fixpoint join (sep : string) (l : list string) : string :=
  match l with
  | [] => ""
  | [x] => x
  | x :: rest => x ++ sep ++ join sep rest
  end.

Fixpoint repr (v : pyval) : string :=
  match v with
  | PNone => "None"
  | PBool b => str_bool b
  | PInt z => str_int z
  | PFloat _ => "<float>"
  | PStr s => "'" ++ s ++ "'"
  | PList l => "[" ++ join ", " (map repr l) ++ "]"
  | PDict d =>
      "{" ++ join ", "
               ((fix items (l : list (string * pyval)) : list string :=
                   match l with
                   | [] => []
                   | (k, w) :: rest => ("'" ++ k ++ "': " ++ repr w) :: items rest
                   end) d)
          ++ "}"
  end.

Definition builtins : Builtins :=
  {| float_of_str := fun _ => None;
     py_sum := fun l => fold_left PrimFloat.add l 0%float;
     py_repr := repr |}.

(** A linear congruential generator standing for [random.Random]. *)
Definition lcg : Compare.RandomImpl :=
  {| Compare.rng := Z;
     Compare.Random := fun seed => Z.abs seed;
     Compare.draw := fun r _ =>
       let r' := ((r * 1103515245 + 12345) mod 2147483648)%Z in
       (Z.to_nat (r' / 65536), r') |}.

(** A clock that advances by one millisecond at each reading. *)
Definition env : Runner.Env :=
  {| Runner.perf_counter := fun n => (nat2float n / 1000)%float;
     Runner.now_isoformat := fun n =>
       if Nat.eqb n 0 then "2025-01-01T00:00:00+00:00"
       else "2025-01-01T00:00:01+00:00";
     Runner.uuid4_hex := "0123456789abcdef0123456789abcdef" |}.

(** [adapters.GoldenAdapter]: the prediction is the case's expected mapping. *)
Definition GoldenAdapter : Runner.ModelAdapter unit :=
  {| Runner.name := "golden";
     Runner.predict := fun st _ case => (inr (Schema.expected case), st) |}.

(** An adapter that answers every case with one fixed output mapping. *)
Definition ConstantAdapter (output : pydict) : Runner.ModelAdapter unit :=
  {| Runner.name := "constant";
     Runner.predict := fun st _ _ => (inr output, st) |}.

(** An adapter whose every call raises. *)
Definition FailingAdapter : Runner.ModelAdapter unit :=
  {| Runner.name := "failing";
     Runner.predict := fun st _ _ => (inl "boom", st) |}.

Definition mk_case (id : string) (expected : pydict) : Schema.BenchmarkCase :=
  {| Schema.case_id := id; Schema.input := []; Schema.expected := expected;
     Schema.tags := [] |}.

Definition mk_task (id metric key : string) (tol : float)
  (cases : list Schema.BenchmarkCase) : Schema.BenchmarkTask :=
  {| Schema.task_id := id; Schema.metric := metric; Schema.prediction_key := key;
     Schema.expected_key := key; Schema.regression_tolerance := tol;
     Schema.weight := 1; Schema.positive_label := PInt 1; Schema.cases := cases |}.

(** The suite of the package's test fixture ([tests/conftest.py]). *)
Definition test_suite : Schema.BenchmarkSuite :=
  {| Schema.name := "test-suite";
     Schema.version := "1.0.0";
     Schema.description := "test";
     Schema.tasks :=
       [ mk_task "affinity_mae" "mae" "affinity" 0.05
           [ mk_case "a" [("affinity", PFloat (-9))];
             mk_case "b" [("affinity", PFloat (-8))] ];
         mk_task "tox_acc" "accuracy" "toxic" 0.01
           [ mk_case "c1" [("toxic", PInt 0)];
             mk_case "c2" [("toxic", PInt 1)] ] ];
     Schema.metadata := [] |}.

End Samples.

(** Run records of the test suite, as [run_benchmark(...).to_dict()] returns
    them for three prediction sources. *)
Module Fixtures.
Import Py Samples.

Definition record_of {St : Type} (adapter_obj : Runner.ModelAdapter St) (st : St)
  (suite : Schema.BenchmarkSuite) : pydict :=
  match Runner.run_benchmark builtins env adapter_obj suite st None with
  | Ok run => match Runner.to_dict run with PDict d => d | _ => [] end
  | Raise _ => []
  end.

Definition golden_record : pydict :=
  Eval vm_compute in record_of GoldenAdapter tt test_suite.

Definition failing_record : pydict :=
  Eval vm_compute in record_of FailingAdapter tt test_suite.

Definition shifted_record : pydict :=
  Eval vm_compute in
    record_of (ConstantAdapter [("affinity", PFloat (-8.5)); ("toxic", PInt 0)]) tt
      test_suite.

Definition seeded_policy : Compare.StatisticalPolicy :=
  {| Compare.min_effect_size := 0;
     Compare.bootstrap_resamples := 20;
     Compare.confidence_level := 0.95;
     Compare.bootstrap_seed := Some 7%Z;
     Compare.fail_on_uncertain := true |}.

End Fixtures.

(* ===================================================================== *)
(** * The F1 score                                                         *)
(* ===================================================================== *)

Module F1Spec.
Import Py Metrics.

(** The score as the specification words it: the confusion counts are the
    numbers of positions that satisfy each condition, and the score is a
    function of the three counts. *)
Definition is_tp (label : pyval) (ep : pyval * pyval) : bool :=
  py_eq (fst ep) label && py_eq (snd ep) label.
Definition is_fp (label : pyval) (ep : pyval * pyval) : bool :=
  negb (py_eq (fst ep) label) && py_eq (snd ep) label.
Definition is_fn (label : pyval) (ep : pyval * pyval) : bool :=
  py_eq (fst ep) label && negb (py_eq (snd ep) label).

Definition count {A : Type} (f : A -> bool) (l : list A) : nat :=
  length (filter f l).

Definition TP (expected predicted : list pyval) (label : pyval) : nat :=
  count (is_tp label) (combine expected predicted).
Definition FP (expected predicted : list pyval) (label : pyval) : nat :=
  count (is_fp label) (combine expected predicted).
Definition FN (expected predicted : list pyval) (label : pyval) : nat :=
  count (is_fn label) (combine expected predicted).

Definition ratio (num denom : nat) : float :=
  if Nat.eqb denom 0 then 0%float else (nat2float num / nat2float denom)%float.

Definition f1_of_counts (tp fp fn : nat) : float :=
  if Nat.eqb tp 0 && Nat.eqb fp 0 && Nat.eqb fn 0 then 1%float
  else
    let P := ratio tp (tp + fp) in
    let R := ratio tp (tp + fn) in
    if (P + R =? 0)%float then 0%float
    else (2 * P * R / (P + R))%float.

Lemma confusion_fold (label : pyval) (l : list (pyval * pyval)) (acc : confusion) :
  fold_left (confusion_step label) l acc =
  {| true_positive := true_positive acc + count (is_tp label) l;
     false_positive := false_positive acc + count (is_fp label) l;
     false_negative := false_negative acc + count (is_fn label) l |}.
Proof.
  revert acc.
  induction l as [|[e p] l IH]; intros acc; simpl.
  - destruct acc; unfold count; simpl. f_equal; lia.
  - rewrite IH. unfold confusion_step, count, is_tp, is_fp, is_fn. simpl.
    destruct (py_eq e label), (py_eq p label); simpl; f_equal; lia.
Qed.

Lemma confusion_counts_spec (expected predicted : list pyval) (label : pyval) :
  confusion_counts expected predicted label =
  {| true_positive := TP expected predicted label;
     false_positive := FP expected predicted label;
     false_negative := FN expected predicted label |}.
Proof.
  unfold confusion_counts. rewrite confusion_fold. reflexivity.
Qed.

Lemma _f1_binary_spec (expected predicted : list pyval) (label : pyval) :
  _f1_binary expected predicted label =
  f1_of_counts (TP expected predicted label) (FP expected predicted label)
    (FN expected predicted label).
Proof.
  unfold _f1_binary. rewrite confusion_counts_spec. reflexivity.
Qed.

(** C6. On two sequences of equal length that are not empty, the [f1]
    metric is the function [f1_of_counts] of the confusion counts taken by
    equality with the positive label: 1.0 when the three counts are zero,
    0.0 when precision plus recall is zero, and otherwise
    [2 * P * R / (P + R)], a ratio with a zero denominator counting as 0.
    On expected [1,1,0,0] and predicted [1,0,1,0] with positive label 1 the
    score is exactly 0.5. *)
Theorem f1_metric_spec :
  (forall (py : Builtins) (expected predicted : list pyval) (label : pyval),
      length expected = length predicted ->
      expected <> [] ->
      compute_metric py "f1" expected predicted label =
      Ok (f1_of_counts (TP expected predicted label) (FP expected predicted label)
            (FN expected predicted label)))
  /\ (forall py : Builtins,
         compute_metric py "f1" [PInt 1; PInt 1; PInt 0; PInt 0]
           [PInt 1; PInt 0; PInt 1; PInt 0] (PInt 1) = Ok 0.5%float).
Proof.
  split.
  - intros py expected predicted label Hlen Hne.
    unfold compute_metric.
    rewrite Hlen, Nat.eqb_refl. simpl negb. cbv iota.
    destruct predicted as [|p predicted].
    + destruct expected; [congruence | discriminate].
    + simpl length. simpl Nat.eqb. cbv iota.
      change (String.eqb "f1" "mae") with false.
      change (String.eqb "f1" "rmse") with false.
      change (String.eqb "f1" "accuracy" || String.eqb "f1" "exact_match") with false.
      change (String.eqb "f1" "f1") with true. cbv iota.
      rewrite _f1_binary_spec. reflexivity.
  - intros py. vm_compute. reflexivity.
Qed.

(** The general equation of C6 at the inputs of its example. *)
Lemma f1_metric_spec_witness :
  compute_metric Samples.builtins "f1" [PInt 1; PInt 1; PInt 0; PInt 0]
    [PInt 1; PInt 0; PInt 1; PInt 0] (PInt 1) =
  Ok (f1_of_counts 1 1 1).
Proof.
  apply (proj1 f1_metric_spec Samples.builtins
           [PInt 1; PInt 1; PInt 0; PInt 0] [PInt 1; PInt 0; PInt 1; PInt 0] (PInt 1)).
  - reflexivity.
  - discriminate.
Defined.

End F1Spec.

(* ===================================================================== *)
(** * Seeded comparisons are reproducible                                  *)
(* ===================================================================== *)

Module Determinism.
Import Py Compare.

Section Seeded.
Context (py : Builtins) (R : RandomImpl).

Lemma make_rng_seeded (os_seed : nat -> Z) (s : Z) (i : nat) :
  make_rng R os_seed (_seed_for_task (Some s) i) i = Random R (s + Z.of_nat i).
Proof. reflexivity. Qed.

Lemma bootstrap_stats_seeded (os1 os2 : nat -> Z) metric_ direction_ label pairs
  threshold_ resamples level (s : Z) (i : nat) :
  _bootstrap_regression_stats py R os1 metric_ direction_ label pairs threshold_
    resamples level (Some s) i =
  _bootstrap_regression_stats py R os2 metric_ direction_ label pairs threshold_
    resamples level (Some s) i.
Proof. reflexivity. Qed.

Lemma compare_task_seeded (os1 os2 : nat -> Z) (policy_ : StatisticalPolicy)
  (s : Z) baseline_tasks candidate_tasks (i : nat) (task : Schema.BenchmarkTask) :
  bootstrap_seed policy_ = Some s ->
  compare_task py R os1 policy_ baseline_tasks candidate_tasks i task =
  compare_task py R os2 policy_ baseline_tasks candidate_tasks i task.
Proof.
  intros Hseed. unfold compare_task. rewrite Hseed.
  destruct (dict_get baseline_tasks (Schema.task_id task)) as [b|]; [|reflexivity].
  destruct (dict_get candidate_tasks (Schema.task_id task)) as [c|]; [|reflexivity].
  destruct (_extract_score py (Some b)) as [[bs|]|e]; simpl; try reflexivity;
    destruct (_extract_score py (Some c)) as [[cs|]|e']; simpl; try reflexivity.
Qed.

Lemma compare_tasks_seeded (os1 os2 : nat -> Z) (policy_ : StatisticalPolicy)
  (s : Z) baseline_tasks candidate_tasks (tasks : list Schema.BenchmarkTask) :
  bootstrap_seed policy_ = Some s ->
  forall (i : nat) (acc : compare_loop),
    compare_tasks py R os1 policy_ baseline_tasks candidate_tasks i tasks acc =
    compare_tasks py R os2 policy_ baseline_tasks candidate_tasks i tasks acc.
Proof.
  intros Hseed. induction tasks as [|task rest IH]; intros i acc; simpl.
  - reflexivity.
  - rewrite (compare_task_seeded os1 os2 policy_ s _ _ i task Hseed).
    destruct (compare_task py R os2 policy_ baseline_tasks candidate_tasks i task);
      simpl; [apply IH | reflexivity].
Qed.

End Seeded.

(** Without a seed the outcome does depend on the operating system's
    supply: the same comparison under two supplies gives two reports. *)
Example unseeded_runs_differ :
  let unseeded :=
    {| min_effect_size := 0; bootstrap_resamples := 5; confidence_level := 0.5;
       bootstrap_seed := None; fail_on_uncertain := false |} in
  compare_runs Samples.builtins Samples.lcg (fun _ => 0%Z) Samples.test_suite
    Fixtures.golden_record Fixtures.shifted_record (Some unseeded) <>
  compare_runs Samples.builtins Samples.lcg (fun _ => 5%Z) Samples.test_suite
    Fixtures.golden_record Fixtures.shifted_record (Some unseeded).
Proof. vm_compute. intros H. discriminate H. Qed.

End Determinism.

(* ===================================================================== *)
(** * What the runner isolates and what aborts a run                       *)
(* ===================================================================== *)

Module RunnerFacts.
Import Py Runner.

Section Facts.
Context (py : Builtins) (env : Env) {St : Type} (adapter_obj : ModelAdapter St).

Lemma to_float_list_raises (values : list pyval) (v : pyval) :
  In v values ->
  raises (py_float py v) = true ->
  raises (Metrics._to_float_list py values) = true.
Proof.
  induction values as [|x rest IH]; intros Hin Hv; [contradiction|].
  simpl. destruct Hin as [->|Hin].
  - destruct (py_float py v) as [f|e]; [discriminate|]. destruct e; reflexivity.
  - destruct (py_float py x) as [f|e].
    + specialize (IH Hin Hv).
      destruct (Metrics._to_float_list py rest); [discriminate | reflexivity].
    + destruct e; reflexivity.
Qed.

Lemma numeric_metric_raises (metric_ : string) (expected_ predicted_ : list pyval)
  (label v : pyval) :
  metric_ = "mae" \/ metric_ = "rmse" ->
  In v (expected_ ++ predicted_) ->
  raises (py_float py v) = true ->
  raises (Metrics.compute_metric py metric_ expected_ predicted_ label) = true.
Proof.
  intros Hm Hin Hv. unfold Metrics.compute_metric.
  destruct (negb (Nat.eqb (length expected_) (length predicted_))); [reflexivity|].
  destruct (Nat.eqb (length expected_) 0); [reflexivity|].
  apply in_app_or in Hin.
  assert (Hcase :
    raises (Metrics._to_float_list py expected_) = true
    \/ raises (Metrics._to_float_list py predicted_) = true).
  { destruct Hin as [Hin|Hin]; [left|right]; eapply to_float_list_raises; eauto. }
  destruct Hm as [-> | ->]; simpl;
    destruct (Metrics._to_float_list py expected_) as [fe|ee]; simpl; try reflexivity;
    destruct (Metrics._to_float_list py predicted_) as [fp|ep]; simpl; try reflexivity;
    destruct Hcase as [H|H]; discriminate H.
Qed.

(** The loop extends the two lists of included values together. *)
Lemma run_case_lengths (task : Schema.BenchmarkTask) (acc : @task_loop St)
  (case : Schema.BenchmarkCase) :
  length (expected_values (run_case py env adapter_obj task acc case)) =
  length (predicted_values (run_case py env adapter_obj task acc case))
  <-> length (expected_values acc) = length (predicted_values acc).
Proof.
  unfold run_case.
  destruct (predict adapter_obj (loop_state acc) task case) as [[msg|output] st'];
    simpl; [tauto|].
  destruct (dict_get output (Schema.prediction_key task)); simpl; [|tauto].
  rewrite !length_app. simpl. lia.
Qed.

Lemma fold_run_case_lengths (task : Schema.BenchmarkTask)
  (cases : list Schema.BenchmarkCase) (acc : @task_loop St) :
  length (expected_values acc) = length (predicted_values acc) ->
  length (expected_values (fold_left (run_case py env adapter_obj task) cases acc)) =
  length (predicted_values (fold_left (run_case py env adapter_obj task) cases acc)).
Proof.
  revert acc. induction cases as [|c rest IH]; intros acc H; simpl; [exact H|].
  apply IH. apply run_case_lengths. exact H.
Qed.

Lemma run_cases_lengths (task : Schema.BenchmarkTask) (st : St) (tick : nat) :
  length (expected_values (run_cases py env adapter_obj task st tick)) =
  length (predicted_values (run_cases py env adapter_obj task st tick)).
Proof. unfold run_cases. apply fold_run_case_lengths. reflexivity. Qed.

(** A value enters the metric only with a case that succeeded; one value
    that [float()] rejects makes the task raise. *)
Lemma run_task_raises (task : Schema.BenchmarkTask) (st : St) (tick : nat) (v : pyval) :
  Schema.metric task = "mae" \/ Schema.metric task = "rmse" ->
  In v (expected_values (run_cases py env adapter_obj task st tick)
        ++ predicted_values (run_cases py env adapter_obj task st tick)) ->
  raises (py_float py v) = true ->
  raises (_run_task py env adapter_obj task st tick) = true.
Proof.
  intros Hm Hin Hv. unfold _run_task.
  pose proof (numeric_metric_raises (Schema.metric task) _ _
                (Schema.positive_label task) v Hm Hin Hv) as Hraise.
  pose proof (run_cases_lengths task st tick) as Hlen.
  destruct (expected_values (run_cases py env adapter_obj task st tick)) as [|x xs].
  - destruct (predicted_values (run_cases py env adapter_obj task st tick));
      [destruct Hin | discriminate Hlen].
  - destruct (Metrics.compute_metric py (Schema.metric task) (x :: xs)
                (predicted_values (run_cases py env adapter_obj task st tick))
                (Schema.positive_label task)); [discriminate Hraise | reflexivity].
Qed.

Lemma run_tasks_app (pre post : list Schema.BenchmarkTask) (acc : @suite_loop St) :
  run_tasks py env adapter_obj (pre ++ post) acc =
  bind (run_tasks py env adapter_obj pre acc) (run_tasks py env adapter_obj post).
Proof.
  revert acc. induction pre as [|t pre IH]; intros acc; simpl; [reflexivity|].
  destruct (_run_task py env adapter_obj t (acc_state acc) (acc_tick acc))
    as [[[res st'] tick']|e]; simpl; [apply IH | reflexivity].
Qed.

(** What the loop does with a prediction source that raises, or whose
    output lacks the prediction key: the case is recorded as failed. *)
Definition last_case (l : @task_loop St) : option CaseResult :=
  List.last (map Some (loop_case_results l)) None.

Lemma run_case_isolates (task : Schema.BenchmarkTask) (acc : @task_loop St)
  (case : Schema.BenchmarkCase) :
  (forall output, fst (predict adapter_obj (loop_state acc) task case) = inr output ->
                  dict_get output (Schema.prediction_key task) = None) ->
  exists msg,
    last_case (run_case py env adapter_obj task acc case) =
    Some {| case_id := Schema.case_id case;
            expected := get (Schema.expected case) (Schema.expected_key task);
            predicted := PNone;
            duration_ms :=
              ((perf_counter env (S (loop_tick acc)) - perf_counter env (loop_tick acc))
               * 1000)%float;
            error := Some msg |}
    /\ loop_case_failures (run_case py env adapter_obj task acc case) =
       S (loop_case_failures acc)
    /\ expected_values (run_case py env adapter_obj task acc case) = expected_values acc
    /\ predicted_values (run_case py env adapter_obj task acc case) = predicted_values acc.
Proof.
  intros Hfail. unfold run_case, last_case.
  destruct (predict adapter_obj (loop_state acc) task case) as [[msg|output] st'];
    simpl in *.
  - exists msg. rewrite map_app. cbn [map]. rewrite last_last. repeat split; reflexivity.
  - rewrite (Hfail output eq_refl). simpl.
    eexists. rewrite map_app. cbn [map]. rewrite last_last. repeat split; reflexivity.
Qed.

End Facts.

Definition init_loop {St : Type} (st : St) : @suite_loop St :=
  {| acc_task_results := [];
     acc_cases_total := 0;
     acc_case_failures := 0;
     acc_tasks_with_errors := 0;
     acc_state := st;
     acc_tick := 0 |}.

(** C9. The runner's loop turns a prediction source that raises, or an
    output without the prediction key, into a failed case and goes on. But
    when the tasks before [task] have run, [task] is scored with [mae] or
    [rmse], and one of the values included for it (so at least one case
    succeeded) is rejected by [float()], then [run_benchmark] raises: the
    run is aborted and no record is produced. *)
Theorem run_aborts_on_uncoercible_value :
  (forall (py : Builtins) (env : Env) (St : Type) (adapter_obj : ModelAdapter St)
          (task : Schema.BenchmarkTask) (acc : @task_loop St)
          (case : Schema.BenchmarkCase),
      (forall output,
          fst (predict adapter_obj (loop_state acc) task case) = inr output ->
          dict_get output (Schema.prediction_key task) = None) ->
      exists msg,
        last_case (run_case py env adapter_obj task acc case) =
        Some {| case_id := Schema.case_id case;
                expected := get (Schema.expected case) (Schema.expected_key task);
                predicted := PNone;
                duration_ms :=
                  ((perf_counter env (S (loop_tick acc))
                    - perf_counter env (loop_tick acc)) * 1000)%float;
                error := Some msg |}
        /\ loop_case_failures (run_case py env adapter_obj task acc case) =
           S (loop_case_failures acc)
        /\ expected_values (run_case py env adapter_obj task acc case) =
           expected_values acc
        /\ predicted_values (run_case py env adapter_obj task acc case) =
           predicted_values acc)
  /\ (forall (py : Builtins) (env : Env) (St : Type) (adapter_obj : ModelAdapter St)
             (suite : Schema.BenchmarkSuite) (st0 : St) (prov : option pydict)
             (pre post : list Schema.BenchmarkTask) (task : Schema.BenchmarkTask)
             (acc : @suite_loop St) (v : pyval),
         Schema.tasks suite = (pre ++ task :: post)%list ->
         run_tasks py env adapter_obj pre (init_loop st0) = Ok acc ->
         Schema.metric task = "mae" \/ Schema.metric task = "rmse" ->
         In v (expected_values
                 (run_cases py env adapter_obj task (acc_state acc) (acc_tick acc))
               ++ predicted_values
                    (run_cases py env adapter_obj task (acc_state acc) (acc_tick acc))) ->
         raises (py_float py v) = true ->
         exists e, run_benchmark py env adapter_obj suite st0 prov = Raise e).
Proof.
  split.
  - intros. apply run_case_isolates. assumption.
  - intros py env St adapter_obj suite st0 prov pre post task acc v Htasks Hpre Hm Hin Hv.
    unfold run_benchmark. rewrite Htasks, run_tasks_app.
    fold (init_loop st0). rewrite Hpre. simpl.
    pose proof (run_task_raises py env adapter_obj task (acc_state acc) (acc_tick acc)
                  v Hm Hin Hv) as Hraise.
    destruct (_run_task py env adapter_obj task (acc_state acc) (acc_tick acc))
      as [out|e]; [discriminate Hraise|].
    exists e. reflexivity.
Qed.

(** The example of C9: a [mae] task whose second case has no expected
    value under the task's key, run against a source that answers every
    case. The second case succeeds with a null expected value, and the run
    raises. *)
Definition null_expected_suite : Schema.BenchmarkSuite :=
  {| Schema.name := "null-expected";
     Schema.version := "1.0.0";
     Schema.description := "";
     Schema.tasks :=
       [ Samples.mk_task "t" "mae" "value" 0
           [ Samples.mk_case "a" [("value", PFloat 1)];
             Samples.mk_case "b" [] ] ];
     Schema.metadata := [] |}.

Lemma run_aborts_on_uncoercible_value_witness :
  exists e,
    run_benchmark Samples.builtins Samples.env
      (Samples.ConstantAdapter [("value", PFloat 1)]) null_expected_suite tt None
    = Raise e.
Proof.
  apply (proj2 run_aborts_on_uncoercible_value Samples.builtins Samples.env unit
           (Samples.ConstantAdapter [("value", PFloat 1)]) null_expected_suite tt None
           [] [] (Samples.mk_task "t" "mae" "value" 0
                    [ Samples.mk_case "a" [("value", PFloat 1)];
                      Samples.mk_case "b" [] ])
           (init_loop tt) PNone).
  - reflexivity.
  - reflexivity.
  - left. reflexivity.
  - vm_compute. right. left. reflexivity.
  - reflexivity.
Defined.

Example null_expected_run_raises :
  run_benchmark Samples.builtins Samples.env
    (Samples.ConstantAdapter [("value", PFloat 1)]) null_expected_suite tt None
  = Raise (ValueError "Expected numeric value, got None").
Proof. vm_compute. reflexivity. Qed.

End RunnerFacts.

(* ===================================================================== *)
(** * Facts about results, dictionaries and strings                        *)
(* ===================================================================== *)

Module PyFacts.
Import Py.

Lemma bind_ok {A B : Type} (c : result A) (k : A -> result B) (b : B) :
  bind c k = Ok b -> exists a, c = Ok a /\ k a = Ok b.
Proof. destruct c as [a|e]; simpl; intros H; [eauto | discriminate]. Qed.

Lemma bind_raise {A B : Type} (c : result A) (k : A -> result B) (e : exn) :
  c = Raise e -> bind c k = Raise e.
Proof. intros ->. reflexivity. Qed.

Lemma bind_ok_eq {A B : Type} (c : result A) (k : A -> result B) (a : A) :
  c = Ok a -> bind c k = k a.
Proof. intros ->. reflexivity. Qed.

(** Splits a hypothesis [bind c k = Ok b] into its two steps. *)
Tactic Notation "bind_inv" hyp(H) :=
  let a := fresh "a" in
  let Ha := fresh "Ha" in
  apply bind_ok in H; destruct H as [a [Ha H]].

Tactic Notation "bind_inv" hyp(H) "as" ident(a) ident(Ha) :=
  apply bind_ok in H; destruct H as [a [Ha H]].

Lemma dict_get_set_same {V : Type} (d : list (string * V)) (k : string) (v : V) :
  dict_get (dict_set d k v) k = Some v.
Proof.
  induction d as [|[k' w] d IH]; simpl.
  - rewrite String.eqb_refl. reflexivity.
  - destruct (String.eqb k' k) eqn:E; simpl; rewrite E; [reflexivity | exact IH].
Qed.

Lemma dict_get_set_other {V : Type} (d : list (string * V)) (k k' : string) (v : V) :
  k <> k' -> dict_get (dict_set d k v) k' = dict_get d k'.
Proof.
  intros Hne. induction d as [|[k0 w] d IH]; simpl.
  - destruct (String.eqb k k') eqn:E; [apply String.eqb_eq in E; contradiction | reflexivity].
  - destruct (String.eqb k0 k) eqn:E; simpl.
    + apply String.eqb_eq in E. subst k0.
      destruct (String.eqb k k') eqn:E'; [apply String.eqb_eq in E'; contradiction | reflexivity].
    + destruct (String.eqb k0 k'); [reflexivity | exact IH].
Qed.

Lemma get_set_same (d : pydict) (k : string) (v : pyval) :
  get (dict_set d k v) k = v.
Proof. unfold get. rewrite dict_get_set_same. reflexivity. Qed.

Lemma get_set_other (d : pydict) (k k' : string) (v : pyval) :
  k <> k' -> get (dict_set d k v) k' = get d k'.
Proof. intros H. unfold get. rewrite dict_get_set_other by exact H. reflexivity. Qed.

Lemma keys_set_present {V : Type} (d : list (string * V)) (k : string) (v : V) :
  In k (keys d) -> keys (dict_set d k v) = keys d.
Proof.
  unfold keys. induction d as [|[k0 w] d IH]; simpl; intros Hin; [contradiction|].
  destruct (String.eqb k0 k) eqn:E; simpl; [reflexivity|].
  f_equal. apply IH. destruct Hin as [Heq|Hin]; [|exact Hin].
  subst k0. rewrite String.eqb_refl in E. discriminate.
Qed.

Lemma dict_get_in_keys {V : Type} (d : list (string * V)) (k : string) (v : V) :
  dict_get d k = Some v -> In k (keys d).
Proof.
  unfold keys. induction d as [|[k0 w] d IH]; simpl; intros H; [discriminate|].
  destruct (String.eqb k0 k) eqn:E; [left; apply String.eqb_eq; exact E | right; auto].
Qed.

Lemma dict_get_none_keys {V : Type} (d : list (string * V)) (k : string) :
  dict_get d k = None <-> ~ In k (keys d).
Proof.
  unfold keys. induction d as [|[k0 w] d IH]; simpl.
  - tauto.
  - destruct (String.eqb k0 k) eqn:E.
    + apply String.eqb_eq in E. split; [discriminate | intros H; exfalso; apply H; auto].
    + apply String.eqb_neq in E. rewrite IH. tauto.
Qed.

Lemma set_mem_in (x : string) (s : list string) :
  set_mem x s = true <-> In x s.
Proof.
  unfold set_mem. rewrite existsb_exists. split.
  - intros [y [Hy E]]. apply String.eqb_eq in E. subst. exact Hy.
  - intros H. exists x. split; [exact H | apply String.eqb_refl].
Qed.

Lemma set_mem_not_in (x : string) (s : list string) :
  set_mem x s = false <-> ~ In x s.
Proof.
  rewrite <- set_mem_in. destruct (set_mem x s); split; intros; congruence.
Qed.

Lemma prefix_app (p rest : string) : String.prefix p (p ++ rest) = true.
Proof.
  induction p as [|c p IH]; simpl.
  - destruct rest; reflexivity.
  - destruct (Ascii.ascii_dec c c); [exact IH | congruence].
Qed.

Lemma append_assoc (a b c : string) : ((a ++ b) ++ c = a ++ (b ++ c))%string.
Proof. induction a as [|x a IH]; simpl; [reflexivity | rewrite IH; reflexivity]. Qed.

End PyFacts.

(* ===================================================================== *)
(** * The validator: what an accepted artifact satisfies                   *)
(* ===================================================================== *)

Module ArtifactSpec.
Import Py RunArtifact PyFacts.

(** Readers of a raw payload, as the specification speaks of it. *)
Definition field (v : pyval) (key : string) : pyval :=
  match v with PDict d => get d key | _ => PNone end.

Definition int_of (v : pyval) : Z :=
  match v with PInt z => z | _ => 0%Z end.

Definition error_non_null (case : pyval) : bool :=
  negb (is_none (field case "error")).

Definition count {A : Type} (f : A -> bool) (l : list A) : nat :=
  length (filter f l).

Definition task_has_errors (task : pyval) : bool :=
  (0 <? int_of (field task "case_failures"))%Z || is_none (field task "score").

Definition sum_field (key : string) (tasks : list pyval) : Z :=
  fold_right (fun t s => (int_of (field t key) + s)%Z) 0%Z tasks.

(** The per-task conditions: [case_failures <= cases_total], as many case
    results as [cases_total], case identifiers unique, and as many cases
    with a non-null error as [case_failures]. *)
Definition task_consistent (task : pyval) : Prop :=
  exists (cases_total case_failures : Z) (case_results : list pyval),
    field task "cases_total" = PInt cases_total
    /\ field task "case_failures" = PInt case_failures
    /\ field task "case_results" = PList case_results
    /\ (case_failures <= cases_total)%Z
    /\ Z.of_nat (length case_results) = cases_total
    /\ NoDup (map (fun c => field c "case_id") case_results)
    /\ Z.of_nat (count error_non_null case_results) = case_failures.

(** The conditions on the summary. *)
Definition summary_consistent (payload : pyval) : Prop :=
  exists (tasks : list pyval) (tasks_total tasks_with_errors cases_total case_failures : Z)
         (all_cases_succeeded : bool),
    field payload "task_results" = PList tasks
    /\ field (field payload "summary") "tasks_total" = PInt tasks_total
    /\ field (field payload "summary") "tasks_with_errors" = PInt tasks_with_errors
    /\ field (field payload "summary") "cases_total" = PInt cases_total
    /\ field (field payload "summary") "case_failures" = PInt case_failures
    /\ field (field payload "summary") "all_cases_succeeded" = PBool all_cases_succeeded
    /\ Forall task_consistent tasks
    /\ tasks_total = Z.of_nat (length tasks)
    /\ cases_total = sum_field "cases_total" tasks
    /\ case_failures = sum_field "case_failures" tasks
    /\ tasks_with_errors = Z.of_nat (count task_has_errors tasks)
    /\ all_cases_succeeded = (case_failures =? 0)%Z.

Lemma require_mapping_ok (v : pyval) (path : string) (d : pydict) :
  _require_mapping v path = Ok d -> v = PDict d.
Proof. destruct v; simpl; intros H; try discriminate. congruence. Qed.

Lemma require_list_ok (v : pyval) (path : string) (l : list pyval) :
  _require_list v path = Ok l -> v = PList l.
Proof. destruct v; simpl; intros H; try discriminate. congruence. Qed.

Lemma require_str_ok (v : pyval) (path : string) (s' : string) :
  _require_non_empty_str v path = Ok s' ->
  exists s, v = PStr s /\ s' = strip s /\ strip s <> "".
Proof.
  destruct v; simpl; intros H; try discriminate.
  destruct (String.eqb (strip s) "") eqn:E; [discriminate|].
  apply String.eqb_neq in E. exists s. repeat split; congruence.
Qed.

Lemma require_int_ok (v : pyval) (path : string) (z : Z) :
  _require_non_negative_int v path = Ok z -> v = PInt z /\ (0 <= z)%Z.
Proof.
  destruct v; simpl; intros H; try discriminate.
  destruct (z0 <? 0)%Z eqn:E; [discriminate|].
  apply Z.ltb_ge in E. split; congruence.
Qed.

Lemma require_bool_ok (v : pyval) (path : string) (b : bool) :
  _require_bool v path = Ok b -> v = PBool b.
Proof. destruct v; simpl; intros H; try discriminate. congruence. Qed.

Section Soundness.
Context (py : Builtins).

Lemma validate_cases_ok (task_path : string) (cases : list pyval) :
  forall (idx : nat) (seen : list string) (obs r : Z),
    validate_cases py task_path cases idx seen obs = Ok r ->
    r = (obs + Z.of_nat (count error_non_null cases))%Z
    /\ exists ids : list string,
         map (fun c => field c "case_id") cases = map PStr ids
         /\ NoDup (map strip ids)
         /\ (forall i, In i ids -> ~ In (strip i) seen).
Proof.
  induction cases as [|c rest IH]; intros idx seen obs r H; simpl in H.
  - inversion H; subst. split; [unfold count; simpl; lia|].
    exists []. simpl. repeat split; [constructor | contradiction].
  - bind_inv H. apply require_mapping_ok in Ha. subst c.
    bind_inv H. clear Ha.
    bind_inv H. apply require_str_ok in Ha. destruct Ha as [s [Hs [-> Hne]]].
    destruct (set_mem (strip s) seen) eqn:Hmem; [discriminate|].
    bind_inv H. clear Ha.
    bind_inv H.
    apply IH in H. destruct H as [Hr [ids [Hids [Hnd Hseen]]]].
    apply set_mem_not_in in Hmem.
    split.
    + subst r. unfold count, error_non_null. simpl.
      destruct (get a "error") eqn:Herr; simpl in Ha; try discriminate;
        inversion Ha; subst; simpl; lia.
    + exists (s :: ids). simpl. rewrite Hs, Hids. split; [reflexivity|]. split.
      * constructor; [|exact Hnd].
        intros Hin. apply in_map_iff in Hin. destruct Hin as [i [Hi Hin]].
        apply (Hseen i Hin). rewrite Hi. left. reflexivity.
      * intros i [<-|Hin]; [exact Hmem|].
        intros Hc. apply (Hseen i Hin). right. exact Hc.
Qed.

Lemma nodup_map_strip (ids : list string) :
  NoDup (map strip ids) -> NoDup (map PStr ids).
Proof.
  intros H. apply NoDup_map_inv in H.
  induction H as [|x l Hx Hl IH]; simpl; constructor; [|exact IH].
  intros Hin. apply in_map_iff in Hin. destruct Hin as [y [Hy Hin]].
  inversion Hy; subst. contradiction.
Qed.

Lemma validate_task_ok (source : string) (index : nat) (task_item : pyval)
  (acc acc' : task_acc) :
  validate_task py source index task_item acc = Ok acc' ->
  task_consistent task_item
  /\ case_totals_sum acc' = (case_totals_sum acc + int_of (field task_item "cases_total"))%Z
  /\ case_failures_sum acc' =
     (case_failures_sum acc + int_of (field task_item "case_failures"))%Z
  /\ tasks_with_errors acc' =
     (tasks_with_errors acc + if task_has_errors task_item then 1 else 0)%Z.
Proof.
  unfold validate_task. intros H.
  bind_inv H. apply require_mapping_ok in Ha. subst task_item.
  bind_inv H. clear Ha.
  bind_inv H. clear Ha.
  destruct (set_mem a1 (task_ids acc)); [discriminate|].
  bind_inv H. clear Ha.
  bind_inv H. clear Ha.
  destruct (negb (String.eqb a3 "higher" || String.eqb a3 "lower")); [discriminate|].
  bind_inv H. clear Ha.
  bind_inv H. apply require_int_ok in Ha. destruct Ha as [Hct Hct0].
  bind_inv H. apply require_int_ok in Ha. destruct Ha as [Hcf Hcf0].
  destruct (a5 <? a6)%Z eqn:Hle; [discriminate|]. apply Z.ltb_ge in Hle.
  bind_inv H. apply require_list_ok in Ha.
  destruct (negb (Z.of_nat (length a7) =? a5)%Z) eqn:Hlen; [discriminate|].
  apply negb_false_iff, Z.eqb_eq in Hlen.
  bind_inv H. apply validate_cases_ok in Ha0.
  destruct Ha0 as [Hobs [ids [Hids [Hnd _]]]].
  destruct (negb (a8 =? a6)%Z) eqn:Hobs'; [discriminate|].
  apply negb_false_iff, Z.eqb_eq in Hobs'.
  inversion H; subst acc'; clear H. simpl.
  unfold task_has_errors. simpl. rewrite Hct, Hcf. simpl.
  split; [|split; [reflexivity | split; [reflexivity|]]].
  - exists a5, a6, a7. simpl. repeat split; try assumption.
    + rewrite Hids. apply nodup_map_strip. exact Hnd.
    + lia.
  - destruct ((0 <? a6)%Z || is_none (get a "score")); lia.
Qed.

Lemma validate_tasks_ok (source : string) (tasks : list pyval) :
  forall (index : nat) (acc acc' : task_acc),
    validate_tasks py source tasks index acc = Ok acc' ->
    Forall task_consistent tasks
    /\ case_totals_sum acc' = (case_totals_sum acc + sum_field "cases_total" tasks)%Z
    /\ case_failures_sum acc' = (case_failures_sum acc + sum_field "case_failures" tasks)%Z
    /\ tasks_with_errors acc' =
       (tasks_with_errors acc + Z.of_nat (count task_has_errors tasks))%Z.
Proof.
  induction tasks as [|t rest IH]; intros index acc acc' H; simpl in H.
  - inversion H; subst. unfold count. simpl. repeat split; try lia. constructor.
  - bind_inv H. apply validate_task_ok in Ha. destruct Ha as [Hc [H1 [H2 H3]]].
    apply IH in H. destruct H as [Hf [H4 [H5 H6]]].
    split; [constructor; assumption|].
    unfold count in *. simpl. rewrite H4, H5, H6, H1, H2, H3.
    destruct (task_has_errors t); simpl length; repeat split; lia.
Qed.

End Soundness.
End ArtifactSpec.

(* ===================================================================== *)
(** * The validator accepts whole or rejects whole                         *)
(* ===================================================================== *)

Module ArtifactFacts.
Import Py RunArtifact PyFacts ArtifactSpec.

Section Summary.
Context (py : Builtins).

(** The five checks of the summary, with whatever follows them as [k]. *)
Definition summary_checks {A : Type} (source : string)
  (summary_tasks_total summary_tasks_with_errors summary_cases_total
     summary_case_failures : Z) (summary_all_cases_succeeded : bool)
  (n_tasks : nat) (acc : task_acc) (k : result A) : result A :=
  if negb (summary_tasks_total =? Z.of_nat n_tasks)%Z then
    Raise (ValueError (source ++ ".summary.tasks_total=" ++ str_int summary_tasks_total
                         ++ " does not match len(task_results)=" ++ str_nat n_tasks))
  else if negb (summary_cases_total =? case_totals_sum acc)%Z then
    Raise (ValueError (source ++ ".summary.cases_total=" ++ str_int summary_cases_total
                         ++ " does not match sum(task.cases_total)="
                         ++ str_int (case_totals_sum acc)))
  else if negb (summary_case_failures =? case_failures_sum acc)%Z then
    Raise (ValueError (source ++ ".summary.case_failures=" ++ str_int summary_case_failures
                         ++ " does not match sum(task.case_failures)="
                         ++ str_int (case_failures_sum acc)))
  else if negb (summary_tasks_with_errors =? tasks_with_errors acc)%Z then
    Raise (ValueError (source ++ ".summary.tasks_with_errors="
                         ++ str_int summary_tasks_with_errors
                         ++ " does not match observed value "
                         ++ str_int (tasks_with_errors acc)))
  else if negb (Bool.eqb summary_all_cases_succeeded (summary_case_failures =? 0)%Z) then
    Raise (ValueError (source ++ ".summary.all_cases_succeeded="
                         ++ str_bool summary_all_cases_succeeded
                         ++ " does not match (case_failures == 0)="
                         ++ str_bool (summary_case_failures =? 0)%Z))
  else k.

Definition init_acc : task_acc :=
  {| task_ids := []; case_totals_sum := 0; case_failures_sum := 0;
     tasks_with_errors := 0; task_map := [] |}.

Definition finish (run : pydict) (source suite_name suite_version : string)
  (summary : pydict) (task_results_raw : list pyval) (provenance : pydict)
  (acc : task_acc) (suite : option Schema.BenchmarkSuite) : result pydict :=
  (match suite with
   | Some s => _validate_suite_alignment py s source suite_name suite_version (task_map acc)
   | None => Ok tt
   end) ;;;
  Ok [ ("run_id", get run "run_id");
       ("suite_name", get run "suite_name");
       ("suite_version", get run "suite_version");
       ("adapter", get run "adapter");
       ("started_at", get run "started_at");
       ("finished_at", get run "finished_at");
       ("summary", PDict summary);
       ("task_results", PList task_results_raw);
       ("provenance", PDict provenance) ].

(** The part of the validator that reads the summary's entries. *)
Definition read_summary (source : string) (summary : pydict)
  : result (Z * Z * Z * Z * bool) :=
  a <- _require_non_negative_int (get summary "tasks_total")
         (source ++ ".summary.tasks_total") ;;
  b <- _require_non_negative_int (get summary "tasks_with_errors")
         (source ++ ".summary.tasks_with_errors") ;;
  c <- _require_non_negative_int (get summary "cases_total")
         (source ++ ".summary.cases_total") ;;
  d <- _require_non_negative_int (get summary "case_failures")
         (source ++ ".summary.case_failures") ;;
  e <- _require_bool (get summary "all_cases_succeeded")
         (source ++ ".summary.all_cases_succeeded") ;;
  Ok (a, b, c, d, e).

Definition read_header (source : string) (run : pydict) : result (string * string) :=
  _validate_key_set py run _TOP_LEVEL_KEYS source ;;;
  _require_non_empty_str (get run "run_id") (source ++ ".run_id") ;;;
  suite_name <- _require_non_empty_str (get run "suite_name") (source ++ ".suite_name") ;;
  suite_version <- _require_non_empty_str (get run "suite_version")
                     (source ++ ".suite_version") ;;
  _require_non_empty_str (get run "adapter") (source ++ ".adapter") ;;;
  _require_non_empty_str (get run "started_at") (source ++ ".started_at") ;;;
  _require_non_empty_str (get run "finished_at") (source ++ ".finished_at") ;;;
  Ok (suite_name, suite_version).

Lemma validate_staged (payload : pyval) (source : string)
  (suite : option Schema.BenchmarkSuite) :
  validate_run_artifact py payload source suite =
  (run <- _require_mapping payload source ;;
   names <- read_header source run ;;
   summary <- _require_mapping (get run "summary") (source ++ ".summary") ;;
   _validate_key_set py summary _SUMMARY_KEYS (source ++ ".summary") ;;;
   counts <- read_summary source summary ;;
   task_results_raw <- _require_list (get run "task_results") (source ++ ".task_results") ;;
   provenance <- _require_mapping (get run "provenance") (source ++ ".provenance") ;;
   acc <- validate_tasks py source task_results_raw 0 init_acc ;;
   let '(a, b, c, d, e) := counts in
   summary_checks source a b c d e (length task_results_raw) acc
     (finish run source (fst names) (snd names) summary task_results_raw provenance
        acc suite)).
Proof.
  unfold validate_run_artifact, read_header, read_summary, summary_checks, finish.
  destruct (_require_mapping payload source) as [run|]; [|reflexivity]. simpl.
  destruct (_validate_key_set py run _TOP_LEVEL_KEYS source); [|reflexivity]. simpl.
  repeat match goal with
  | |- context [bind ?c _] =>
      lazymatch c with
      | bind _ _ => fail
      | _ => destruct c; simpl; [|reflexivity]
      end
  end.
  reflexivity.
Qed.

Lemma summary_checks_ok {A : Type} (source : string) (a b c d : Z) (e : bool)
  (n : nat) (acc : task_acc) (k : result A) (x : A) :
  summary_checks source a b c d e n acc k = Ok x ->
  a = Z.of_nat n /\ c = case_totals_sum acc /\ d = case_failures_sum acc
  /\ b = tasks_with_errors acc /\ e = (d =? 0)%Z /\ k = Ok x.
Proof.
  unfold summary_checks. intros H.
  destruct (a =? Z.of_nat n)%Z eqn:E1; [|discriminate].
  destruct (c =? case_totals_sum acc)%Z eqn:E2; [|discriminate].
  destruct (d =? case_failures_sum acc)%Z eqn:E3; [|discriminate].
  destruct (b =? tasks_with_errors acc)%Z eqn:E4; [|discriminate].
  destruct (Bool.eqb e (d =? 0)%Z) eqn:E5; [|discriminate].
  simpl in H.
  apply Z.eqb_eq in E1, E2, E3, E4. apply Bool.eqb_prop in E5.
  repeat split; assumption.
Qed.

Lemma read_summary_ok (source : string) (summary : pydict) (a b c d : Z) (e : bool) :
  read_summary source summary = Ok (a, b, c, d, e) ->
  get summary "tasks_total" = PInt a
  /\ get summary "tasks_with_errors" = PInt b
  /\ get summary "cases_total" = PInt c
  /\ get summary "case_failures" = PInt d
  /\ get summary "all_cases_succeeded" = PBool e.
Proof.
  unfold read_summary. intros H.
  bind_inv H. apply require_int_ok in Ha. destruct Ha as [H1 _].
  bind_inv H. apply require_int_ok in Ha. destruct Ha as [H2 _].
  bind_inv H. apply require_int_ok in Ha. destruct Ha as [H3 _].
  bind_inv H. apply require_int_ok in Ha. destruct Ha as [H4 _].
  bind_inv H. apply require_bool_ok in Ha.
  inversion H; subst. repeat split; assumption.
Qed.

(** An accepted payload satisfies every cross-consistency condition. *)
Lemma validate_sound (payload : pyval) (source : string)
  (suite : option Schema.BenchmarkSuite) (v : pydict) :
  validate_run_artifact py payload source suite = Ok v ->
  summary_consistent payload.
Proof.
  rewrite validate_staged. intros H.
  bind_inv H as run Hrun. apply require_mapping_ok in Hrun. subst payload.
  bind_inv H as names Hnames.
  bind_inv H as summary Hsummary. apply require_mapping_ok in Hsummary.
  bind_inv H as u Hkeys.
  bind_inv H as counts Hcounts. destruct counts as [[[[ta tb] tc] td] te].
  apply read_summary_ok in Hcounts. destruct Hcounts as [S1 [S2 [S3 [S4 S5]]]].
  bind_inv H as tasks Htasks. apply require_list_ok in Htasks.
  bind_inv H as prov Hprov.
  bind_inv H as acc Hacc. apply validate_tasks_ok in Hacc.
  destruct Hacc as [Hf [T1 [T2 T3]]].
  apply summary_checks_ok in H. destruct H as [C1 [C2 [C3 [C4 [C5 _]]]]].
  simpl in T1, T2, T3.
  exists tasks, ta, tb, tc, td, te. simpl. rewrite Hsummary. simpl.
  repeat split; try assumption; lia.
Qed.


(** ** Changing one entry of the summary *)

Definition mutate_summary (payload : pyval) (key : string) (nv : pyval) : pyval :=
  match payload with
  | PDict run =>
      match get run "summary" with
      | PDict summary =>
          PDict (dict_set run "summary" (PDict (dict_set summary key nv)))
      | _ => payload
      end
  | _ => payload
  end.

Lemma get_in_keys (d : pydict) (k : string) :
  get d k <> PNone -> In k (keys d).
Proof.
  unfold get. destruct (dict_get d k) eqn:E; [|congruence].
  intros _. eapply dict_get_in_keys; eauto.
Qed.

Lemma validate_key_set_keys (d d' : pydict) (required : list string) (path : string) :
  keys d = keys d' ->
  _validate_key_set py d required path = _validate_key_set py d' required path.
Proof. intros H. unfold _validate_key_set. rewrite H. reflexivity. Qed.

Lemma read_header_set_summary (source : string) (run : pydict) (x : pyval) :
  In "summary" (keys run) ->
  read_header source (dict_set run "summary" x) = read_header source run.
Proof.
  intros Hin. unfold read_header.
  rewrite (validate_key_set_keys (dict_set run "summary" x) run)
    by (apply keys_set_present; exact Hin).
  rewrite !get_set_other by discriminate. reflexivity.
Qed.

Lemma require_int_raise (v : pyval) (path : string) (e : exn) :
  _require_non_negative_int v path = Raise e ->
  e = ValueError (path ++ " must be a non-negative integer").
Proof.
  destruct v; simpl; intros H; try (inversion H; reflexivity).
  destruct (z <? 0)%Z; inversion H; reflexivity.
Qed.

Lemma require_bool_raise (v : pyval) (path : string) (e : exn) :
  _require_bool v path = Raise e -> e = ValueError (path ++ " must be a boolean").
Proof. destruct v; simpl; intros H; inversion H; reflexivity. Qed.

Lemma prefix_lit (s p rest : string) : String.prefix (s ++ p) (s ++ p ++ rest) = true.
Proof. rewrite <- append_assoc. apply prefix_app. Qed.

Lemma read_summary_inv (source : string) (summary : pydict) (a b c d : Z) (e : bool) :
  read_summary source summary = Ok (a, b, c, d, e) ->
  _require_non_negative_int (get summary "tasks_total")
    (source ++ ".summary.tasks_total") = Ok a
  /\ _require_non_negative_int (get summary "tasks_with_errors")
       (source ++ ".summary.tasks_with_errors") = Ok b
  /\ _require_non_negative_int (get summary "cases_total")
       (source ++ ".summary.cases_total") = Ok c
  /\ _require_non_negative_int (get summary "case_failures")
       (source ++ ".summary.case_failures") = Ok d
  /\ _require_bool (get summary "all_cases_succeeded")
       (source ++ ".summary.all_cases_succeeded") = Ok e.
Proof.
  unfold read_summary. intros H.
  bind_inv H as a' H1. bind_inv H as b' H2. bind_inv H as c' H3.
  bind_inv H as d' H4. bind_inv H as e' H5.
  inversion H; subst. repeat split; assumption.
Qed.

(** The names a failure of the validator may carry for a summary entry. *)
Definition names_summary_entry (source key : string) {A : Type} (r : result A) : Prop :=
  exists msg, r = Raise (ValueError msg)
              /\ String.prefix (source ++ ".summary." ++ key) msg = true.

Lemma names_bind {A B : Type} (source key : string) (c : result A)
  (k : A -> result B) :
  names_summary_entry source key c -> names_summary_entry source key (bind c k).
Proof. intros [msg [-> Hp]]. exists msg. split; [reflexivity | exact Hp]. Qed.

Lemma mutated_entry_rejected (payload : pyval) (source : string)
  (suite : option Schema.BenchmarkSuite) (v : pydict) (key : string) (nv : pyval) :
  validate_run_artifact py payload source suite = Ok v ->
  In key _SUMMARY_KEYS ->
  nv <> field (field payload "summary") key ->
  names_summary_entry source key
    (validate_run_artifact py (mutate_summary payload key nv) source suite).
Proof.
  rewrite !validate_staged. intros H Hkey Hnv.
  bind_inv H as run Hrun. apply require_mapping_ok in Hrun. subst payload.
  bind_inv H as names Hnames.
  bind_inv H as summary Hsummary. apply require_mapping_ok in Hsummary.
  bind_inv H as u Hkeys.
  bind_inv H as counts Hcounts. destruct counts as [[[[ta tb] tc] td] te].
  pose proof (read_summary_ok _ _ _ _ _ _ _ Hcounts) as [S1 [S2 [S3 [S4 S5]]]].
  apply read_summary_inv in Hcounts. destruct Hcounts as [R1 [R2 [R3 [R4 R5]]]].
  bind_inv H as tasks Htasks.
  bind_inv H as prov Hprov.
  bind_inv H as acc Hacc.
  apply summary_checks_ok in H. destruct H as [C1 [C2 [C3 [C4 [C5 _]]]]].
  simpl in Hnv. rewrite Hsummary in Hnv. simpl in Hnv.
  assert (Hin : In "summary" (keys run)).
  { apply get_in_keys. rewrite Hsummary. discriminate. }
  assert (Hkin : In key (keys summary)).
  { apply get_in_keys. simpl in Hkey.
    destruct Hkey as [<-|[<-|[<-|[<-|[<-|[]]]]]]; congruence. }
  unfold mutate_summary. rewrite Hsummary. cbn [_require_mapping bind].
  rewrite read_header_set_summary by exact Hin. rewrite Hnames. cbn [bind].
  rewrite get_set_same. cbn [_require_mapping bind].
  rewrite (validate_key_set_keys (dict_set summary key nv) summary)
    by (apply keys_set_present; exact Hkin).
  rewrite Hkeys. cbn [bind].
  rewrite !(get_set_other run "summary") by discriminate.
  rewrite Htasks, Hprov. unfold read_summary.
  simpl in Hkey.
  destruct Hkey as [<-|[<-|[<-|[<-|[<-|[]]]]]];
    rewrite ?get_set_same, ?get_set_other by discriminate;
    rewrite ?R1, ?R2, ?R3, ?R4, ?R5; cbn [bind].
  - (* tasks_total *)
    destruct (_require_non_negative_int nv (source ++ ".summary.tasks_total"))
      as [a'|e] eqn:E.
    + apply require_int_ok in E. destruct E as [-> _].
      cbn [bind]. rewrite Hacc. cbn [bind]. unfold summary_checks.
      assert (Hne : (a' =? Z.of_nat (length tasks))%Z = false).
      { apply Z.eqb_neq. intros Heq. apply Hnv. rewrite S1. congruence. }
      rewrite Hne. cbn [negb]. eexists. split; [reflexivity|].
      exact (prefix_lit source ".summary.tasks_total" _).
    + apply require_int_raise in E. subst e. cbn [bind].
      eexists. split; [reflexivity|]. apply prefix_app.
  - (* tasks_with_errors *)
    destruct (_require_non_negative_int nv (source ++ ".summary.tasks_with_errors"))
      as [b'|e] eqn:E.
    + apply require_int_ok in E. destruct E as [-> _].
      cbn [bind]. rewrite Hacc. cbn [bind]. unfold summary_checks.
      assert (Hne : (b' =? tasks_with_errors acc)%Z = false).
      { apply Z.eqb_neq. intros Heq. apply Hnv. rewrite S2. congruence. }
      rewrite C1, C2, C3, !Z.eqb_refl, Hne. cbn [negb].
      eexists. split; [reflexivity|].
      exact (prefix_lit source ".summary.tasks_with_errors" _).
    + apply require_int_raise in E. subst e. cbn [bind].
      eexists. split; [reflexivity|]. apply prefix_app.
  - (* cases_total *)
    destruct (_require_non_negative_int nv (source ++ ".summary.cases_total"))
      as [c'|e] eqn:E.
    + apply require_int_ok in E. destruct E as [-> _].
      cbn [bind]. rewrite Hacc. cbn [bind]. unfold summary_checks.
      assert (Hne : (c' =? case_totals_sum acc)%Z = false).
      { apply Z.eqb_neq. intros Heq. apply Hnv. rewrite S3. congruence. }
      rewrite C1, !Z.eqb_refl, Hne. cbn [negb].
      eexists. split; [reflexivity|].
      exact (prefix_lit source ".summary.cases_total" _).
    + apply require_int_raise in E. subst e. cbn [bind].
      eexists. split; [reflexivity|]. apply prefix_app.
  - (* case_failures *)
    destruct (_require_non_negative_int nv (source ++ ".summary.case_failures"))
      as [d'|e] eqn:E.
    + apply require_int_ok in E. destruct E as [-> _].
      cbn [bind]. rewrite Hacc. cbn [bind]. unfold summary_checks.
      assert (Hne : (d' =? case_failures_sum acc)%Z = false).
      { apply Z.eqb_neq. intros Heq. apply Hnv. rewrite S4. congruence. }
      rewrite C1, C2, !Z.eqb_refl, Hne. cbn [negb].
      eexists. split; [reflexivity|].
      exact (prefix_lit source ".summary.case_failures" _).
    + apply require_int_raise in E. subst e. cbn [bind].
      eexists. split; [reflexivity|]. apply prefix_app.
  - (* all_cases_succeeded *)
    destruct (_require_bool nv (source ++ ".summary.all_cases_succeeded"))
      as [e'|e] eqn:E.
    + apply require_bool_ok in E. subst nv.
      cbn [bind]. rewrite Hacc. cbn [bind]. unfold summary_checks.
      assert (Hne : Bool.eqb e' (td =? 0)%Z = false).
      { apply Bool.eqb_false_iff. intros Heq. apply Hnv. rewrite S5. congruence. }
      rewrite Hne, C1, C2, C3, C4, !Z.eqb_refl. cbn [negb].
      eexists. split; [reflexivity|].
      exact (prefix_lit source ".summary.all_cases_succeeded" _).
    + apply require_bool_raise in E. subst e. cbn [bind].
      eexists. split; [reflexivity|]. apply prefix_app.
Qed.

End Summary.

(** As in the package's test: [cases_total] of the golden record's
    summary set to 999. *)
Example inflated_cases_total_message :
  validate_run_artifact Samples.builtins
    (mutate_summary (PDict Fixtures.golden_record) "cases_total" (PInt 999))
    "candidate" (Some Samples.test_suite)
  = Raise (ValueError
             "candidate.summary.cases_total=999 does not match sum(task.cases_total)=4").
Proof. vm_compute. reflexivity. Qed.

End ArtifactFacts.

(* ===================================================================== *)
(** * Where the validator looks at a task's metric                         *)
(* ===================================================================== *)

Module MetricCheck.
Import Py RunArtifact PyFacts ArtifactSpec ArtifactFacts.

(** The payload with the metric of its [i]-th task entry replaced. *)
Definition set_task_metric (payload : pyval) (i : nat) (m : string) : pyval :=
  match payload with
  | PDict run =>
      match get run "task_results" with
      | PList tasks =>
          match nth_error tasks i with
          | Some (PDict task) =>
              PDict (dict_set run "task_results"
                       (PList (firstn i tasks
                               ++ PDict (dict_set task "metric" (PStr m))
                               :: skipn (S i) tasks)))
          | _ => payload
          end
      | _ => payload
      end
  | _ => payload
  end.

Section Metric.
Context (py : Builtins).

(** Two states of the loop over the task entries that differ at most in
    [task_map], which only the alignment with a suite reads. *)
Definition same_counts (a b : task_acc) : Prop :=
  task_ids a = task_ids b
  /\ case_totals_sum a = case_totals_sum b
  /\ case_failures_sum a = case_failures_sum b
  /\ tasks_with_errors a = tasks_with_errors b.

Lemma same_counts_refl (a : task_acc) : same_counts a a.
Proof. repeat split. Qed.

Lemma validate_task_same_counts (source : string) (index : nat) (task_item : pyval)
  (acc acc' out : task_acc) :
  same_counts acc acc' ->
  validate_task py source index task_item acc = Ok out ->
  exists out', validate_task py source index task_item acc' = Ok out'
               /\ same_counts out out'.
Proof.
  intros [Hids [H1 [H2 H3]]] H. unfold validate_task in *.
  bind_inv H as task Htask. rewrite Htask. cbn [bind].
  bind_inv H as u Hkeys. rewrite Hkeys. cbn [bind].
  bind_inv H as task_id Hid. rewrite Hid. cbn [bind].
  rewrite <- Hids.
  destruct (set_mem task_id (task_ids acc)); [discriminate|].
  bind_inv H as mt Hmt. rewrite Hmt. cbn [bind].
  bind_inv H as dir Hdir. rewrite Hdir. cbn [bind].
  destruct (negb (String.eqb dir "higher" || String.eqb dir "lower")); [discriminate|].
  bind_inv H as sc Hsc. rewrite Hsc. cbn [bind].
  bind_inv H as ct Hct. rewrite Hct. cbn [bind].
  bind_inv H as cf Hcf. rewrite Hcf. cbn [bind].
  destruct (ct <? cf)%Z; [discriminate|].
  bind_inv H as cases Hcases. rewrite Hcases. cbn [bind].
  destruct (negb (Z.of_nat (length cases) =? ct)%Z); [discriminate|].
  bind_inv H as obs Hobs. rewrite Hobs. cbn [bind].
  destruct (negb (obs =? cf)%Z); [discriminate|].
  inversion H; subst out; clear H.
  eexists. split; [reflexivity|].
  unfold same_counts. simpl. rewrite H1, H2, H3, Hids. repeat split.
Qed.

Lemma validate_tasks_same_counts (source : string) (tasks : list pyval) :
  forall (index : nat) (acc acc' out : task_acc),
    same_counts acc acc' ->
    validate_tasks py source tasks index acc = Ok out ->
    exists out', validate_tasks py source tasks index acc' = Ok out'
                 /\ same_counts out out'.
Proof.
  induction tasks as [|t rest IH]; intros index acc acc' out Hs H; simpl in *.
  - inversion H; subst. exists acc'. split; [reflexivity | exact Hs].
  - bind_inv H as mid Hmid.
    destruct (validate_task_same_counts _ _ _ _ _ _ Hs Hmid) as [mid' [Hmid' Hs']].
    rewrite Hmid'. cbn [bind]. eapply IH; eauto.
Qed.

Lemma validate_task_metric (source : string) (index : nat) (task : pydict)
  (m : string) (acc out : task_acc) :
  strip m <> "" ->
  validate_task py source index (PDict task) acc = Ok out ->
  exists out',
    validate_task py source index (PDict (dict_set task "metric" (PStr m))) acc = Ok out'
    /\ same_counts out out'.
Proof.
  intros Hm H. unfold validate_task in *. cbn [_require_mapping bind] in *.
  bind_inv H as u Hkeys.
  bind_inv H as task_id Hid.
  destruct (set_mem task_id (task_ids acc)) eqn:Hmem; [discriminate|].
  bind_inv H as mt Hmt.
  assert (Hin : In "metric" (keys task)).
  { apply get_in_keys. apply require_str_ok in Hmt.
    destruct Hmt as [s [Hs _]]. rewrite Hs. discriminate. }
  rewrite (validate_key_set_keys py (dict_set task "metric" (PStr m)) task)
    by (apply keys_set_present; exact Hin).
  rewrite Hkeys. cbn [bind].
  rewrite get_set_same, !get_set_other by discriminate.
  rewrite Hid. cbn [bind]. rewrite Hmem.
  assert (Hreq : forall path, _require_non_empty_str (PStr m) path = Ok (strip m)).
  { intros path. simpl. destruct (String.eqb (strip m) "") eqn:E; [|reflexivity].
    apply String.eqb_eq in E. contradiction. }
  rewrite Hreq. cbn [bind].
  bind_inv H as dir Hdir. rewrite Hdir. cbn [bind].
  destruct (negb (String.eqb dir "higher" || String.eqb dir "lower")); [discriminate|].
  bind_inv H as sc Hsc. rewrite Hsc. cbn [bind].
  bind_inv H as ct Hct. rewrite Hct. cbn [bind].
  bind_inv H as cf Hcf. rewrite Hcf. cbn [bind].
  destruct (ct <? cf)%Z; [discriminate|].
  bind_inv H as cases Hcases. rewrite Hcases. cbn [bind].
  destruct (negb (Z.of_nat (length cases) =? ct)%Z); [discriminate|].
  bind_inv H as obs Hobs. rewrite Hobs. cbn [bind].
  destruct (negb (obs =? cf)%Z); [discriminate|].
  inversion H; subst out; clear H.
  eexists. split; [reflexivity|].
  unfold same_counts. simpl. repeat split.
Qed.

Lemma validate_tasks_app (source : string) (pre post : list pyval) :
  forall (index : nat) (acc : task_acc),
    validate_tasks py source (pre ++ post) index acc =
    bind (validate_tasks py source pre index acc)
         (validate_tasks py source post (index + length pre)).
Proof.
  induction pre as [|t pre IH]; intros index acc; simpl.
  - rewrite Nat.add_0_r. reflexivity.
  - destruct (validate_task py source index t acc); cbn [bind]; [|reflexivity].
    rewrite IH. rewrite <- Nat.add_succ_comm. reflexivity.
Qed.

Lemma split_nth {A : Type} (l : list A) (i : nat) (x : A) :
  nth_error l i = Some x -> l = (firstn i l ++ x :: skipn (S i) l)%list /\ length (firstn i l) = i.
Proof.
  revert i. induction l as [|y l IH]; intros [|i] H; simpl in *; try discriminate.
  - inversion H; subst. split; reflexivity.
  - destruct (IH i H) as [Heq Hlen]. split; [f_equal; exact Heq | f_equal; exact Hlen].
Qed.

Lemma metric_replaced_accepted (payload : pyval) (source : string) (v : pydict)
  (i : nat) (m : string) :
  strip m <> "" ->
  validate_run_artifact py payload source None = Ok v ->
  exists v', validate_run_artifact py (set_task_metric payload i m) source None = Ok v'.
Proof.
  intros Hm H. unfold set_task_metric.
  destruct payload as [| | | | |l|run]; try (exists v; exact H).
  destruct (get run "task_results") as [| | | | |tasks|] eqn:Htr; try (exists v; exact H).
  destruct (nth_error tasks i) as [[| | | | | |task]|] eqn:Hnth; try (exists v; exact H).
  destruct (split_nth _ _ _ Hnth) as [Hsplit Hlen].
  remember (firstn i tasks) as pre eqn:Hpre.
  remember (skipn (S i) tasks) as post eqn:Hpost.
  clear Hpre Hpost Hnth. subst tasks.
  rewrite validate_staged in *.
  cbn [_require_mapping bind] in *.
  bind_inv H as names Hnames.
  bind_inv H as summary Hsummary.
  bind_inv H as u Hkeys.
  bind_inv H as counts Hcounts. destruct counts as [[[[ta tb] tc] td] te].
  bind_inv H as tasks' Htasks. rewrite Htr in Htasks. cbn [_require_list] in Htasks.
  inversion Htasks; subst tasks'; clear Htasks.
  bind_inv H as prov Hprov.
  bind_inv H as acc Hacc.
  assert (Hin : In "task_results" (keys run)).
  { apply get_in_keys. rewrite Htr. discriminate. }
  unfold read_header in *.
  rewrite (validate_key_set_keys py (dict_set run "task_results" _) run)
    by (apply keys_set_present; exact Hin).
  rewrite get_set_same, !get_set_other by discriminate.
  rewrite Hnames. cbn [bind]. rewrite Hsummary. cbn [bind].
  rewrite Hkeys. cbn [bind]. rewrite Hcounts. cbn [bind _require_list].
  rewrite Hprov. cbn [bind].
  rewrite validate_tasks_app in Hacc.
  bind_inv Hacc as mid Hmid. cbn [validate_tasks] in Hacc.
  bind_inv Hacc as mid2 Hmid2.
  rewrite validate_tasks_app. rewrite Hmid. cbn [bind validate_tasks].
  destruct (validate_task_metric _ _ _ m _ _ Hm Hmid2) as [mid2' [Hmid2' Hs2]].
  rewrite Hmid2'. cbn [bind].
  destruct (validate_tasks_same_counts _ _ _ _ _ _ Hs2 Hacc) as [acc' [Hacc' Hs]].
  rewrite Hacc'. cbn [bind]. cbv beta iota.
  destruct Hs as [_ [E1 [E2 E3]]].
  apply summary_checks_ok in H. destruct H as [C1 [C2 [C3 [C4 [C5 _]]]]].
  unfold summary_checks.
  assert (Hl : length (pre ++ PDict (dict_set task "metric" (PStr m)) :: post)
               = length (pre ++ PDict task :: post)).
  { rewrite !length_app. reflexivity. }
  rewrite Hl, <- E1, <- E2, <- E3, <- C1, <- C2, <- C3, <- C4, <- C5.
  rewrite !Z.eqb_refl, Bool.eqb_reflx. cbn [negb]. unfold finish. cbn [bind].
  eexists. reflexivity.
Qed.


(** With a suite, the alignment compares each entry with the suite's task. *)
Definition entry_matches (entry : pydict) (task : Schema.BenchmarkTask) : Prop :=
  exists id_ metric_ direction_ : string,
    get entry "task_id" = PStr id_ /\ strip id_ = Schema.task_id task
    /\ get entry "metric" = PStr metric_ /\ strip metric_ = Schema.metric task
    /\ get entry "direction" = PStr direction_
    /\ Metrics.metric_direction (Schema.metric task) = Ok (strip direction_).

Lemma validate_task_map (source : string) (index : nat) (task_item : pyval)
  (acc out : task_acc) (k : string) (d : pydict) :
  validate_task py source index task_item acc = Ok out ->
  dict_get (task_map out) k = Some d ->
  dict_get (task_map acc) k = Some d
  \/ (task_item = PDict d /\ exists s, get d "task_id" = PStr s /\ strip s = k).
Proof.
  unfold validate_task. intros H Hget.
  bind_inv H as task Htask. apply require_mapping_ok in Htask. subst task_item.
  bind_inv H as u Hkeys.
  bind_inv H as task_id Hid. apply require_str_ok in Hid.
  destruct Hid as [s [Hs [-> Hne]]].
  destruct (set_mem (strip s) (task_ids acc)); [discriminate|].
  bind_inv H as mt Hmt.
  bind_inv H as dir Hdir.
  destruct (negb (String.eqb dir "higher" || String.eqb dir "lower")); [discriminate|].
  bind_inv H as sc Hsc.
  bind_inv H as ct Hct.
  bind_inv H as cf Hcf.
  destruct (ct <? cf)%Z; [discriminate|].
  bind_inv H as cases Hcases.
  destruct (negb (Z.of_nat (length cases) =? ct)%Z); [discriminate|].
  bind_inv H as obs Hobs.
  destruct (negb (obs =? cf)%Z); [discriminate|].
  inversion H; subst out; clear H. simpl in Hget.
  destruct (string_dec (strip s) k) as [<-|Hk].
  - rewrite dict_get_set_same in Hget. inversion Hget; subst.
    right. split; [reflexivity|]. exists s. split; [exact Hs | reflexivity].
  - rewrite dict_get_set_other in Hget by exact Hk. left. exact Hget.
Qed.

Lemma validate_tasks_map (source : string) (tasks : list pyval) :
  forall (index : nat) (acc out : task_acc) (k : string) (d : pydict),
    validate_tasks py source tasks index acc = Ok out ->
    dict_get (task_map out) k = Some d ->
    dict_get (task_map acc) k = Some d
    \/ (In (PDict d) tasks /\ exists s, get d "task_id" = PStr s /\ strip s = k).
Proof.
  induction tasks as [|t rest IH]; intros index acc out k d H Hget; simpl in H.
  - inversion H; subst. left. exact Hget.
  - bind_inv H as mid Hmid.
    destruct (IH _ _ _ _ _ H Hget) as [Hm|[Hin Hs]].
    + destruct (validate_task_map _ _ _ _ _ _ _ Hmid Hm) as [Ha|[-> Hs]].
      * left. exact Ha.
      * right. split; [left; reflexivity | exact Hs].
    + right. split; [right; exact Hin | exact Hs].
Qed.

Lemma align_task_ok (source : string) (task_map_ : list (string * pydict))
  (task : Schema.BenchmarkTask) (u : unit) :
  align_task py source task_map_ task = Ok u ->
  exists (entry : pydict) (metric_ direction_ : string),
    dict_get task_map_ (Schema.task_id task) = Some entry
    /\ get entry "metric" = PStr metric_ /\ strip metric_ = Schema.metric task
    /\ get entry "direction" = PStr direction_
    /\ Metrics.metric_direction (Schema.metric task) = Ok (strip direction_).
Proof.
  unfold align_task. intros H.
  bind_inv H as run_task Hrt.
  destruct (dict_get task_map_ (Schema.task_id task)) as [entry|] eqn:Hget;
    [|discriminate].
  inversion Hrt; subst run_task; clear Hrt.
  bind_inv H as run_metric Hm. apply require_str_ok in Hm.
  destruct Hm as [mt [Hmt [-> _]]].
  destruct (negb (String.eqb (strip mt) (Schema.metric task))) eqn:Em; [discriminate|].
  apply negb_false_iff, String.eqb_eq in Em.
  bind_inv H as run_direction Hd. apply require_str_ok in Hd.
  destruct Hd as [dir [Hdir [-> _]]].
  bind_inv H as expected_direction Hed.
  destruct (negb (String.eqb (strip dir) expected_direction)) eqn:Ed; [discriminate|].
  apply negb_false_iff, String.eqb_eq in Ed. subst expected_direction.
  exists entry, mt, dir. repeat split; assumption.
Qed.

Lemma align_tasks_ok (source : string) (task_map_ : list (string * pydict))
  (tasks : list Schema.BenchmarkTask) (u : unit) :
  align_tasks py source task_map_ tasks = Ok u ->
  forall task, In task tasks -> align_task py source task_map_ task = Ok tt.
Proof.
  induction tasks as [|t rest IH]; simpl; intros H task Hin; [contradiction|].
  bind_inv H as u' Hu. destruct u'.
  destruct Hin as [->|Hin]; [exact Hu | apply IH; assumption].
Qed.

Lemma suite_alignment_checks_metric (payload : pyval) (source : string)
  (suite : Schema.BenchmarkSuite) (v : pydict) :
  validate_run_artifact py payload source (Some suite) = Ok v ->
  forall task, In task (Schema.tasks suite) ->
    exists entry : pydict,
      (exists tasks, field payload "task_results" = PList tasks /\ In (PDict entry) tasks)
      /\ entry_matches entry task.
Proof.
  rewrite validate_staged. intros H task Hin.
  bind_inv H as run Hrun. apply require_mapping_ok in Hrun. subst payload.
  bind_inv H as names Hnames.
  bind_inv H as summary Hsummary.
  bind_inv H as u Hkeys.
  bind_inv H as counts Hcounts. destruct counts as [[[[ta tb] tc] td] te].
  bind_inv H as tasks Htasks. apply require_list_ok in Htasks.
  bind_inv H as prov Hprov.
  bind_inv H as acc Hacc.
  apply summary_checks_ok in H. destruct H as [_ [_ [_ [_ [_ H]]]]].
  unfold finish in H. bind_inv H as u2 Halign.
  unfold _validate_suite_alignment in Halign.
  destruct (negb (String.eqb (fst names) (Schema.name suite))); [discriminate|].
  destruct (negb (String.eqb (snd names) (Schema.version suite))); [discriminate|].
  destruct (negb (set_eq (set_of (keys (task_map acc)))
                    (set_of (map Schema.task_id (Schema.tasks suite)))));
    [discriminate|].
  pose proof (align_tasks_ok _ _ _ _ Halign task Hin) as Ht.
  apply align_task_ok in Ht.
  destruct Ht as [entry [mt [dir [Hget [Hmt [Hmt' [Hdir Hdir']]]]]]].
  destruct (validate_tasks_map _ _ _ _ _ _ _ Hacc Hget) as [Hinit|[Hentry [s [Hs Hs']]]].
  - discriminate Hinit.
  - exists entry. split.
    + exists tasks. split; [exact Htasks | exact Hentry].
    + exists s, mt, dir. repeat split; assumption.
Qed.

End Metric.

(** C10. Without a suite, the validator never looks at what a task's metric
    is: in an accepted payload (so every direction is ['higher'] or
    ['lower']) the metric of any task entry may be replaced by any string
    that is not blank, supported or not, and the payload is still accepted.
    With a suite, an accepted payload has, for each task of the suite, an
    entry whose metric is the suite's and whose direction is the one
    [metric_direction] gives for it. *)
Theorem metric_unchecked_without_suite :
  forall (py : Builtins) (payload : pyval) (source : string),
    (forall (v : pydict) (i : nat) (m : string),
        strip m <> "" ->
        validate_run_artifact py payload source None = Ok v ->
        exists v',
          validate_run_artifact py (set_task_metric payload i m) source None = Ok v')
    /\ (forall (suite : Schema.BenchmarkSuite) (v : pydict),
           validate_run_artifact py payload source (Some suite) = Ok v ->
           forall task, In task (Schema.tasks suite) ->
             exists entry : pydict,
               (exists tasks, field payload "task_results" = PList tasks
                              /\ In (PDict entry) tasks)
               /\ entry_matches entry task).
Proof.
  intros py payload source. split.
  - intros v i m Hm H. eapply metric_replaced_accepted; eauto.
  - intros suite v H. eapply suite_alignment_checks_metric; eauto.
Qed.

(** C10 on the fixture: the golden record with the metric of its first task
    renamed to ["pearson"], which no suite supports. *)
Lemma metric_unchecked_without_suite_witness :
  exists v',
    validate_run_artifact Samples.builtins
      (set_task_metric (PDict Fixtures.golden_record) 0 "pearson") "candidate" None
    = Ok v'.
Proof.
  refine (proj1 (metric_unchecked_without_suite Samples.builtins
                   (PDict Fixtures.golden_record) "candidate")
            Fixtures.golden_record 0 "pearson" _ _).
  - vm_compute. discriminate.
  - vm_compute. reflexivity.
Defined.

(** C10 does not hold for every non-empty string: a metric of one space
    is not empty, and without a suite the validator refuses the golden
    record that carries it, because [_require_non_empty_str] strips the
    string before it tests it. *)
Lemma blank_metric_refused_without_suite :
  (exists v,
     validate_run_artifact Samples.builtins (PDict Fixtures.golden_record)
       "candidate" None = Ok v)
  /\ " "%string <> ""%string
  /\ validate_run_artifact Samples.builtins
       (set_task_metric (PDict Fixtures.golden_record) 0 " ") "candidate" None
     = Raise (ValueError "candidate.task_results[0].metric must be a non-empty string").
Proof.
  split; [eexists; vm_compute; reflexivity|].
  split; [discriminate | vm_compute; reflexivity].
Qed.

Example renamed_metric_rejected_with_suite :
  validate_run_artifact Samples.builtins
    (set_task_metric (PDict Fixtures.golden_record) 0 "pearson") "candidate"
    (Some Samples.test_suite)
  = Raise (ValueError
             "candidate task 'affinity_mae' metric 'pearson' does not match suite metric 'mae'").
Proof. vm_compute. reflexivity. Qed.

End MetricCheck.

(* ===================================================================== *)
(** * Tasks and scores that are missing                                    *)
(* ===================================================================== *)

Module MissingData.
Import Py Compare PyFacts.

Section Missing.
Context (py : Builtins) (R : RandomImpl) (os_seed : nat -> Z).

(** When neither score raises on extraction, a task that is absent from a
    record, or whose score is null on a side, is recorded as a regression
    with the threshold [max(tolerance, min_effect_size)] and no delta,
    regression amount or bootstrap statistics. *)
Lemma missing_data_is_regression (policy_ : StatisticalPolicy)
  (baseline_tasks candidate_tasks : list (string * pydict)) (task_index : nat)
  (task : Schema.BenchmarkTask) (direction_ : string) (bs cs : option float) :
  Metrics.metric_direction (Schema.metric task) = Ok direction_ ->
  _extract_score py (dict_get baseline_tasks (Schema.task_id task)) = Ok bs ->
  _extract_score py (dict_get candidate_tasks (Schema.task_id task)) = Ok cs ->
  bs = None \/ cs = None ->
  exists c,
    compare_task py R os_seed policy_ baseline_tasks candidate_tasks task_index task = Ok c
    /\ status c = "regression"
    /\ threshold c = py_max (Schema.regression_tolerance task) (min_effect_size policy_)
    /\ delta c = None /\ regression_amount c = None
    /\ ci_low c = None /\ ci_high c = None /\ p_regression c = None.
Proof.
  intros Hdir Hb Hc Hnone. unfold compare_task.
  destruct (dict_get baseline_tasks (Schema.task_id task)) as [b|] eqn:Eb.
  - destruct (dict_get candidate_tasks (Schema.task_id task)) as [c|] eqn:Ec.
    + rewrite Hb, Hc. cbn [bind].
      destruct bs as [b'|]; destruct cs as [c'|];
        try (destruct Hnone; discriminate);
        rewrite Hdir; cbn [bind]; eexists; split; try reflexivity;
        repeat split; reflexivity.
    + rewrite Hdir, Hb. cbn [bind]. eexists. split; [reflexivity|].
      repeat split; reflexivity.
  - rewrite Hdir, Hc. cbn [bind]. eexists. split; [reflexivity|].
    repeat split; reflexivity.
Qed.

End Missing.

(** A task of the suite is absent from the baseline, and the candidate's
    entry for it carries an integer score beyond the range of a float. *)
Definition one_task_suite : Schema.BenchmarkSuite :=
  {| Schema.name := "s";
     Schema.version := "1";
     Schema.description := "";
     Schema.tasks := [Samples.mk_task "t" "accuracy" "y" 0 [Samples.mk_case "a" [("y", PInt 1)]]];
     Schema.metadata := [] |}.

Definition empty_run : pydict := [("task_results", PList [])].

Definition huge_score_run : pydict :=
  [("task_results", PList [PDict [("task_id", PStr "t"); ("score", PInt (10 ^ 400))]])].

(** C5 at that input: [float(score)] raises [OverflowError], which
    [_extract_score] does not catch, and [compare_runs] raises instead of
    recording a regression. *)
Theorem missing_task_overflow_escapes :
  forall (py : Builtins) (R : RandomImpl) (os_seed : nat -> Z)
         (policy_ : option StatisticalPolicy),
    compare_runs py R os_seed one_task_suite empty_run huge_score_run policy_
    = Raise (OverflowError "int too large to convert to float").
Proof. intros py R os_seed policy_. vm_compute. reflexivity. Qed.

End MissingData.

(* ===================================================================== *)
(** * Facts about binary64 arithmetic                                      *)
(* ===================================================================== *)

Module FloatFacts.

Local Open Scope float_scope.

Definition sf_is_nan (x : spec_float) : bool :=
  match x with S754_nan => true | _ => false end.

Lemma is_nan_spec (f : float) : is_nan f = sf_is_nan (Prim2SF f).
Proof.
  unfold Prim2SF. destruct (is_nan f); [reflexivity|].
  destruct (is_zero f); [reflexivity|].
  destruct (is_infinity f); [reflexivity|].
  destruct (Z.frexp f) as [r ex].
  destruct (shr_fexp prec emax (Uint63Axioms.to_Z (normfr_mantissa r)) (ex - prec) loc_Exact)
    as [s e'].
  destruct (shr_m s); reflexivity.
Qed.

(** A float that is neither NaN nor infinite is a zero or a finite number. *)
Definition sf_is_finite (x : spec_float) : bool :=
  match x with S754_zero _ | S754_finite _ _ _ => true | _ => false end.

Lemma is_finite_spec (f : float) : is_finite f = true -> sf_is_finite (Prim2SF f) = true.
Proof.
  unfold is_finite, Prim2SF. destruct (is_nan f); [discriminate|].
  destruct (is_infinity f); [discriminate|]. intros _.
  destruct (is_zero f); [reflexivity|].
  destruct (Z.frexp f) as [r ex].
  destruct (shr_fexp prec emax (Uint63Axioms.to_Z (normfr_mantissa r)) (ex - prec) loc_Exact)
    as [s e'].
  destruct (shr_m s); reflexivity.
Qed.

(** [x - x] is [+0] for a finite [x]. *)
Lemma sub_self (x : float) : is_finite x = true -> Prim2SF (x - x) = S754_zero false.
Proof.
  intros H. apply is_finite_spec in H. rewrite sub_spec.
  destruct (Prim2SF x) as [s|s| |s m e]; try discriminate.
  - destruct s; reflexivity.
  - unfold SF64sub, SFsub. rewrite Z.sub_diag. reflexivity.
Qed.

(** The sign of a float that is not NaN: negative, or at least zero. *)
Definition sf_nonneg (x : spec_float) : bool :=
  match x with
  | S754_zero _ => true
  | S754_infinity s => negb s
  | S754_finite s _ _ => negb s
  | S754_nan => false
  end.

Lemma zero_leb_spec (x : float) : (0 <=? x) = sf_nonneg (Prim2SF x).
Proof.
  rewrite leb_spec. change (Prim2SF 0) with (S754_zero false).
  destruct (Prim2SF x) as [s|s| |s m e]; try reflexivity; destruct s; reflexivity.
Qed.

Lemma leb_zero_nonneg (z x : float) (s : bool) :
  Prim2SF z = S754_zero s -> (0 <=? x) = true -> (z <=? x) = true /\ (x <? z) = false.
Proof.
  intros Hz Hx. rewrite zero_leb_spec in Hx.
  rewrite leb_spec, ltb_spec, Hz.
  destruct (Prim2SF x) as [s'|s'| |s' m e]; try discriminate;
    try (destruct s'; try discriminate); split; reflexivity.
Qed.

Lemma max_nonneg (tol mes : float) :
  is_nan tol = false -> (0 <=? mes) = true ->
  (0 <=? (if tol <? mes then mes else tol)) = true.
Proof.
  intros Hnan Hmes. destruct (tol <? mes) eqn:Hlt; [exact Hmes|].
  rewrite zero_leb_spec in *. rewrite is_nan_spec in Hnan. rewrite ltb_spec in Hlt.
  destruct (Prim2SF tol) as [s|s| |s m e]; try discriminate; try reflexivity;
    destruct (Prim2SF mes) as [s'|s'| |s' m' e']; try discriminate;
    destruct s; try reflexivity; destruct s'; try discriminate.
Qed.

Lemma opp_zero (x : float) (s : bool) :
  Prim2SF x = S754_zero s -> Prim2SF (- x) = S754_zero (negb s).
Proof. intros H. rewrite opp_spec, H. reflexivity. Qed.

End FloatFacts.

Module Rounding.
Local Open Scope Z_scope.

(** ** Shifting a mantissa to the right *)

Lemma shr_1_m (mrs : shr_record) :
  0 <= shr_m mrs -> shr_m (shr_1 mrs) = shr_m mrs / 2.
Proof.
  destruct mrs as [m r s]. simpl. intros Hm.
  destruct m as [|p|p]; [reflexivity | | lia].
  destruct p as [p|p|]; simpl.
  - rewrite Pos2Z.inj_xI. apply Z.div_unique with 1; lia.
  - rewrite Pos2Z.inj_xO. apply Z.div_unique with 0; lia.
  - reflexivity.
Qed.

Lemma pow2_xI (p : positive) : 2 ^ Z.pos p~1 = 2 * 2 ^ Z.pos p * 2 ^ Z.pos p.
Proof.
  replace (Z.pos p~1) with (1 + Z.pos p + Z.pos p) by lia.
  rewrite !Z.pow_add_r by lia. rewrite Z.pow_1_r. reflexivity.
Qed.

Lemma pow2_xO (p : positive) : 2 ^ Z.pos p~0 = 2 ^ Z.pos p * 2 ^ Z.pos p.
Proof.
  replace (Z.pos p~0) with (Z.pos p + Z.pos p) by lia.
  rewrite !Z.pow_add_r by lia. reflexivity.
Qed.

Lemma iter_shr_1_m (p : positive) :
  forall mrs, 0 <= shr_m mrs ->
    shr_m (iter_pos shr_1 p mrs) = shr_m mrs / 2 ^ Z.pos p.
Proof.
  induction p as [p IH|p IH|]; intros mrs Hm; simpl iter_pos.
  - assert (H1 : 0 <= shr_m (shr_1 mrs)).
    { rewrite shr_1_m by exact Hm. apply Z.div_pos; lia. }
    assert (H2 : 0 <= shr_m (iter_pos shr_1 p (shr_1 mrs))).
    { rewrite IH by exact H1. apply Z.div_pos; [exact H1 | apply Z.pow_pos_nonneg; lia]. }
    rewrite IH by exact H2. rewrite IH by exact H1. rewrite shr_1_m by exact Hm.
    rewrite !Z.div_div by (try apply Z.pow_pos_nonneg; lia).
    rewrite pow2_xI. f_equal. ring.
  - assert (H2 : 0 <= shr_m (iter_pos shr_1 p mrs)).
    { rewrite IH by exact Hm. apply Z.div_pos; [exact Hm | apply Z.pow_pos_nonneg; lia]. }
    rewrite IH by exact H2. rewrite IH by exact Hm.
    rewrite !Z.div_div by (try apply Z.pow_pos_nonneg; lia).
    rewrite pow2_xO. f_equal.
  - rewrite shr_1_m by exact Hm. rewrite Z.pow_1_r. reflexivity.
Qed.

(** [shr] either leaves the record alone or divides the mantissa by a
    power of two and raises the exponent as much. *)
Lemma shr_spec (mrs : shr_record) (e n : Z) :
  0 <= shr_m mrs ->
  exists k, 0 <= k
            /\ (k = 0 \/ k = n)
            /\ snd (shr mrs e n) = e + k
            /\ shr_m (fst (shr mrs e n)) = shr_m mrs / 2 ^ k.
Proof.
  intros Hm. unfold shr. destruct n as [|p|p].
  - exists 0. simpl. rewrite Z.div_1_r. repeat split; auto; lia.
  - exists (Z.pos p). simpl. rewrite iter_shr_1_m by exact Hm.
    repeat split; auto; lia.
  - exists 0. simpl. rewrite Z.div_1_r. repeat split; auto; lia.
Qed.

Lemma shr_m_of_loc (m : Z) (l : location) : shr_m (shr_record_of_loc m l) = m.
Proof. destruct l as [|[| |]]; reflexivity. Qed.

Lemma round_nearest_even_bounds (m : Z) (l : location) :
  m <= round_nearest_even m l <= m + 1.
Proof.
  unfold round_nearest_even. destruct l as [|[| |]]; try lia.
  destruct (Z.even m); lia.
Qed.

(** ** Digits *)

Lemma digits2_size (p : positive) : digits2_pos p = Pos.size p.
Proof. induction p; simpl; congruence. Qed.

Lemma digits2_bounds (p : positive) :
  2 ^ (Z.pos (digits2_pos p) - 1) <= Z.pos p < 2 ^ Z.pos (digits2_pos p).
Proof.
  induction p as [p IH|p IH|]; simpl digits2_pos.
  - rewrite Pos2Z.inj_succ, Pos2Z.inj_xI.
    replace (Z.succ (Z.pos (digits2_pos p)) - 1) with (1 + (Z.pos (digits2_pos p) - 1)) by lia.
    rewrite Z.pow_add_r by lia. rewrite Z.pow_succ_r by lia.
    change (2 ^ 1) with 2. lia.
  - rewrite Pos2Z.inj_succ. change (Z.pos p~0) with (2 * Z.pos p).
    replace (Z.succ (Z.pos (digits2_pos p)) - 1) with (1 + (Z.pos (digits2_pos p) - 1)) by lia.
    rewrite Z.pow_add_r by lia. rewrite Z.pow_succ_r by lia.
    change (2 ^ 1) with 2. lia.
  - simpl. lia.
Qed.

Lemma fexp_unfold (x : Z) : fexp prec emax x = Z.max (x - 53) (-1074).
Proof. reflexivity. Qed.


Lemma Zdigits2_le (m e1 B : Z) :
  0 <= m -> e1 <= 0 -> 1 <= B < 2 ^ 53 -> m <= B * 2 ^ (- e1) ->
  Zdigits2 m + e1 - 53 <= 0.
Proof.
  intros Hm He HB Hle. destruct m as [|p|p]; simpl Zdigits2; [lia | | lia].
  pose proof (digits2_bounds p) as [Hlo _].
  assert (Hpow : 0 < 2 ^ (- e1)) by (apply Z.pow_pos_nonneg; lia).
  assert (Hlt : 2 ^ (Z.pos (digits2_pos p) - 1) < 2 ^ (53 - e1)).
  { replace (53 - e1) with (53 + - e1) by lia. rewrite Z.pow_add_r by lia.
    eapply Z.le_lt_trans; [exact Hlo|]. eapply Z.le_lt_trans; [exact Hle|].
    apply Z.mul_lt_mono_pos_r; lia. }
  apply Z.pow_lt_mono_r_iff in Hlt; lia.
Qed.

(** Rounding a positive number that lies below an integer [B < 2^53]
    gives a zero or a finite number that is at most [B]. *)
Lemma round_below (P : positive) (e B : Z) :
  e <= 0 -> 1 <= B < 2 ^ 53 -> Z.pos P < B * 2 ^ (- e) ->
  match binary_round_aux prec emax false (Z.pos P) e loc_Exact with
  | S754_zero s => s = false
  | S754_finite s m e' => s = false /\ e' <= 0 /\ Z.pos m <= B * 2 ^ (- e')
  | _ => False
  end.
Proof.
  intros He HB HP. unfold binary_round_aux.
  (* first shift *)
  destruct (shr_fexp prec emax (Z.pos P) e loc_Exact) as [mrs1 e1] eqn:E1.
  unfold shr_fexp in E1.
  destruct (shr_spec (shr_record_of_loc (Z.pos P) loc_Exact) e
              (fexp prec emax (Zdigits2 (Z.pos P) + e) - e)) as [k1 [Hk1 [Hk1' [He1 Hm1]]]];
    [simpl; lia|].
  rewrite E1 in He1, Hm1. simpl fst in Hm1. simpl snd in He1.
  rewrite shr_m_of_loc in Hm1.
  assert (Hpk1 : 0 < 2 ^ k1) by (apply Z.pow_pos_nonneg; lia).
  assert (He1le : e1 <= 0).
  { destruct Hk1' as [->| ->]; [lia|].
    rewrite He1. rewrite fexp_unfold.
    pose proof (Zdigits2_le (Z.pos P) e B ltac:(lia) He HB ltac:(lia)). lia. }
  assert (Hm1nn : 0 <= shr_m mrs1).
  { rewrite Hm1. apply Z.div_pos; lia. }
  assert (Hm1lt : shr_m mrs1 + 1 <= B * 2 ^ (- e1)).
  { rewrite Hm1. assert (Z.pos P / 2 ^ k1 < B * 2 ^ (- e1)); [|lia].
    apply Z.div_lt_upper_bound; [exact Hpk1|].
    replace (- e) with (k1 + - e1) in HP by lia.
    rewrite Z.pow_add_r in HP by lia. lia. }
  (* rounding *)
  pose proof (round_nearest_even_bounds (shr_m mrs1) (loc_of_shr_record mrs1)) as HR.
  set (Rm := round_nearest_even (shr_m mrs1) (loc_of_shr_record mrs1)) in *.
  (* second shift *)
  destruct (shr_fexp prec emax Rm e1 loc_Exact) as [mrs2 e2] eqn:E2.
  unfold shr_fexp in E2.
  destruct (shr_spec (shr_record_of_loc Rm loc_Exact) e1
              (fexp prec emax (Zdigits2 Rm + e1) - e1)) as [k2 [Hk2 [Hk2' [He2 Hm2]]]];
    [simpl; lia|].
  rewrite E2 in He2, Hm2. simpl fst in Hm2. simpl snd in He2.
  rewrite shr_m_of_loc in Hm2.
  assert (Hpk2 : 0 < 2 ^ k2) by (apply Z.pow_pos_nonneg; lia).
  assert (He2le : e2 <= 0).
  { destruct Hk2' as [->| ->]; [lia|].
    rewrite He2. rewrite fexp_unfold.
    pose proof (Zdigits2_le Rm e1 B ltac:(lia) He1le HB ltac:(lia)). lia. }
  assert (Hm2nn : 0 <= shr_m mrs2).
  { rewrite Hm2. apply Z.div_pos; lia. }
  assert (Hm2le : shr_m mrs2 <= B * 2 ^ (- e2)).
  { rewrite Hm2. apply Z.div_le_upper_bound; [exact Hpk2|].
    replace (- e1) with (k2 + - e2) in Hm1lt by lia.
    rewrite Z.pow_add_r in Hm1lt by lia. lia. }
  destruct (shr_m mrs2) as [|m|m]; [reflexivity | | lia].
  assert (Hle : (e2 <=? emax - prec) = true).
  { apply Z.leb_le. change (emax - prec) with 971. lia. }
  rewrite Hle. repeat split; assumption.
Qed.


(** ** The float of a small integer *)

Lemma digits2_unique (p : positive) (d : Z) :
  2 ^ (d - 1) <= Z.pos p < 2 ^ d -> Z.pos (digits2_pos p) = d.
Proof.
  intros [Hlo Hhi]. pose proof (digits2_bounds p) as [Hlo' Hhi'].
  assert (0 < d).
  { destruct (Z.lt_trichotomy d 0) as [Hd|[Hd|Hd]]; [| |exact Hd].
    - rewrite Z.pow_neg_r in Hhi by exact Hd. lia.
    - subst d. simpl in Hhi. lia. }
  assert (H1 : 2 ^ (d - 1) < 2 ^ Z.pos (digits2_pos p)) by lia.
  assert (H2 : 2 ^ (Z.pos (digits2_pos p) - 1) < 2 ^ d) by lia.
  apply Z.pow_lt_mono_r_iff in H1; [|lia|lia].
  apply Z.pow_lt_mono_r_iff in H2; [|lia|lia].
  lia.
Qed.

Lemma iter_xO (b : positive) (k : positive) :
  Z.pos (Pos.iter xO b k) = Z.pos b * 2 ^ Z.pos k.
Proof.
  induction k as [|k IH] using Pos.peano_ind.
  - simpl. lia.
  - rewrite Pos.iter_succ. rewrite Pos2Z.inj_succ, Z.pow_succ_r by lia.
    change (Z.pos (Pos.iter xO b k)~0) with (2 * Z.pos (Pos.iter xO b k)).
    rewrite IH. ring.
Qed.

(** The float of an integer between 1 and 2^53 is that integer: a
    mantissa of 53 digits with an exponent that is not positive. *)
Lemma normalize_small (B : Z) :
  1 <= B < 2 ^ 53 ->
  exists (m : positive) (e : Z),
    binary_normalize prec emax B 0 false = S754_finite false m e
    /\ e <= 0 /\ Z.pos m = B * 2 ^ (- e).
Proof.
  intros HB. destruct B as [|b|b]; try lia.
  unfold binary_normalize, binary_round.
  pose proof (digits2_bounds b) as [Hlo Hhi].
  set (d := Z.pos (digits2_pos b)) in *.
  assert (Hd : 1 <= d <= 53).
  { split; [unfold d; lia|].
    assert (Hlt : 2 ^ (d - 1) < 2 ^ 53) by lia.
    apply Z.pow_lt_mono_r_iff in Hlt; lia. }
  assert (Hfexp : fexp prec emax (d + 0) = d - 53).
  { rewrite fexp_unfold. lia. }
  rewrite Hfexp. unfold shl_align.
  assert (Hround : forall (mz : positive) (ez : Z),
             Z.pos (digits2_pos mz) = 53 -> -52 <= ez <= 0 ->
             binary_round_aux prec emax false (Z.pos mz) ez loc_Exact
             = S754_finite false mz ez).
  { intros mz ez Hdz Hez. unfold binary_round_aux, shr_fexp.
    cbn [Zdigits2]. rewrite Hdz.
    replace (fexp prec emax (53 + ez) - ez) with 0 by (rewrite fexp_unfold; lia).
    cbn [shr shr_record_of_loc shr_m loc_of_shr_record round_nearest_even Zdigits2].
    rewrite Hdz.
    replace (fexp prec emax (53 + ez) - ez) with 0 by (rewrite fexp_unfold; lia).
    cbn [shr shr_record_of_loc shr_m].
    assert (Hle : (ez <=? emax - prec) = true).
    { apply Z.leb_le. change (emax - prec) with 971. lia. }
    rewrite Hle. reflexivity. }
  destruct (d - 53 - 0) as [|k|k] eqn:Hk.
  - exists b, 0. split; [|split; [lia | simpl; lia]].
    apply Hround; [fold d; lia | lia].
  - lia.
  - assert (Hkd : Z.pos k = 53 - d) by lia.
    assert (Hiter : Z.pos (Pos.iter xO b k) = Z.pos b * 2 ^ (53 - d)).
    { rewrite iter_xO, Hkd. reflexivity. }
    exists (Pos.iter xO b k), (d - 53). split; [|split; [lia|]].
    + apply Hround; [|lia].
      apply digits2_unique. rewrite Hiter.
      assert (Hp : 0 < 2 ^ (53 - d)) by (apply Z.pow_pos_nonneg; lia).
      assert (H52 : 2 ^ (53 - 1) = 2 ^ (d - 1) * 2 ^ (53 - d)).
      { rewrite <- Z.pow_add_r by lia. f_equal. lia. }
      assert (H53 : 2 ^ 53 = 2 ^ d * 2 ^ (53 - d)).
      { rewrite <- Z.pow_add_r by lia. f_equal. lia. }
      rewrite H52, H53. split.
      * apply Z.mul_le_mono_nonneg_r; lia.
      * apply Z.mul_lt_mono_pos_r; lia.
    + rewrite Hiter. f_equal. f_equal. lia.
Qed.

End Rounding.

Module FloatIndex.
Import Py Rounding FloatFacts.
Local Open Scope Z_scope.

(** The float of a length. *)
Lemma nat2float_spec (n : nat) :
  Z.of_nat n < 2 ^ 63 ->
  Prim2SF (nat2float n) = binary_normalize prec emax (Z.of_nat n) 0 false.
Proof.
  intros Hn. unfold nat2float. rewrite of_uint63_spec.
  rewrite Uint63.of_Z_spec. rewrite Z.mod_small; [reflexivity|].
  split; [lia|]. exact Hn.
Qed.

(** A float strictly between 0 and 1. *)
Lemma unit_interval_spec (p : float) :
  (p <=? 0)%float = false -> (1 <=? p)%float = false -> is_nan p = false ->
  exists (m : positive) (e : Z),
    Prim2SF p = S754_finite false m e /\ e < 0 /\ Z.pos m < 2 ^ (- e).
Proof.
  intros H0 H1 Hnan.
  rewrite leb_spec in H0, H1. rewrite is_nan_spec in Hnan.
  pose proof (Prim2SF_valid p) as Hvalid.
  change (Prim2SF 0) with (S754_zero false) in H0.
  change (Prim2SF 1) with (S754_finite false 4503599627370496 (-52)) in H1.
  destruct (Prim2SF p) as [s|s| |s m e]; try discriminate.
  - destruct s; discriminate.
  - destruct s; [discriminate|].
    exists m, e. split; [reflexivity|].
    unfold SFleb, SFcompare in H1.
    simpl in Hvalid. unfold bounded, canonical_mantissa in Hvalid.
    apply andb_prop in Hvalid. destruct Hvalid as [Hcan _].
    apply Z.eqb_eq in Hcan. rewrite fexp_unfold in Hcan.
    pose proof (digits2_bounds m) as [_ Hhi].
    destruct (Z.compare_spec (-52) e) as [He|He|He]; try discriminate.
    + subst e. rewrite Pos.compare_cont_spec in H1. simpl in H1.
      destruct (Pos.compare_spec 4503599627370496 m) as [Hm|Hm|Hm]; try discriminate.
      split; [reflexivity|]. change (2 ^ (- -52)) with 4503599627370496.
      exact Hm.
    + clear H0 H1 Hnan. split; [lia|].
      eapply Z.lt_le_trans; [exact Hhi|].
      apply Z.pow_le_mono_r; lia.
Qed.

(** [int(p * float(n))] for [0 < p < 1] and a length [n]: an index that
    is at most [n]. *)
Lemma trunc_scaled (p : float) (n : nat) :
  (p <=? 0)%float = false -> (1 <=? p)%float = false -> is_nan p = false ->
  Z.of_nat n < 2 ^ 53 ->
  exists k, float_trunc (p * nat2float n)%float = Ok k /\ 0 <= k <= Z.of_nat n.
Proof.
  intros H0 H1 Hnan Hn.
  destruct (unit_interval_spec p H0 H1 Hnan) as [mp [ep [HP [Hep Hmp]]]].
  unfold float_trunc. rewrite mul_spec, HP.
  rewrite nat2float_spec by (eapply Z.lt_trans; [exact Hn | reflexivity]).
  destruct (Z.eq_dec (Z.of_nat n) 0) as [Hz|Hnz].
  - rewrite Hz. simpl. exists 0. split; [reflexivity | lia].
  - destruct (normalize_small (Z.of_nat n) ltac:(lia)) as [mM [eM [HM [HeM HmM]]]].
    rewrite HM. unfold SF64mul, SFmul. cbn [xorb].
    pose proof (round_below (mp * mM) (ep + eM) (Z.of_nat n) ltac:(lia) ltac:(lia)) as Hr.
    assert (Hprod : Z.pos (mp * mM) < Z.of_nat n * 2 ^ (- (ep + eM))).
    { rewrite Pos2Z.inj_mul, HmM.
      replace (- (ep + eM)) with (- ep + - eM) by lia.
      rewrite Z.pow_add_r by lia.
      assert (0 < 2 ^ (- eM)) by (apply Z.pow_pos_nonneg; lia).
      assert (0 < Z.of_nat n * 2 ^ (- eM)) by lia.
      replace (Z.of_nat n * (2 ^ (- ep) * 2 ^ (- eM)))
        with (2 ^ (- ep) * (Z.of_nat n * 2 ^ (- eM))) by ring.
      apply Z.mul_lt_mono_pos_r; assumption. }
    specialize (Hr Hprod).
    destruct (binary_round_aux prec emax false (Z.pos (mp * mM)) (ep + eM) loc_Exact)
      as [s|s| |s m e]; try contradiction.
    + exists 0. split; [reflexivity | lia].
    + destruct Hr as [-> [He Hm]].
      assert (Hpow : 0 < 2 ^ (- e)) by (apply Z.pow_pos_nonneg; lia).
      destruct (0 <=? e) eqn:Hsign.
      * apply Z.leb_le in Hsign. assert (e = 0) by lia. subst e.
        eexists. split; [reflexivity|]. simpl in Hm. lia.
      * eexists. split; [reflexivity|]. split.
        -- apply Z.div_pos; lia.
        -- apply Z.div_le_upper_bound; [exact Hpow | lia].
Qed.

End FloatIndex.

Module FloatOrder.
Import FloatFacts.
Local Open Scope Z_scope.

(** The comparison of two finite numbers of the same sign, as [SFcompare]
    writes it: by exponent, then by mantissa. *)
Definition cmp_fin (m1 : positive) (e1 : Z) (m2 : positive) (e2 : Z) : comparison :=
  match Z.compare e1 e2 with
  | Lt => Lt
  | Gt => Gt
  | Eq => Pos.compare_cont Eq m1 m2
  end.

Lemma cmp_fin_spec (m1 : positive) (e1 : Z) (m2 : positive) (e2 : Z) :
  match cmp_fin m1 e1 m2 e2 with
  | Lt => e1 < e2 \/ (e1 = e2 /\ Z.pos m1 < Z.pos m2)
  | Eq => e1 = e2 /\ Z.pos m1 = Z.pos m2
  | Gt => e2 < e1 \/ (e1 = e2 /\ Z.pos m2 < Z.pos m1)
  end.
Proof.
  unfold cmp_fin. destruct (Z.compare_spec e1 e2) as [He|He|He]; [|lia|lia].
  rewrite Pos.compare_cont_spec. simpl.
  destruct (Pos.compare_spec m1 m2) as [Hm|Hm|Hm]; simpl.
  - subst. auto.
  - right. split; [exact He | apply Pos2Z.pos_lt_pos; exact Hm].
  - right. split; [exact He | apply Pos2Z.pos_lt_pos; exact Hm].
Qed.

(** A key that orders the floats that are not NaN as [SFcompare] does:
    the class first (negative infinity, negative, zero, positive, positive
    infinity), then exponent and mantissa, reversed on the negative side. *)
Definition sf_key (x : spec_float) : Z * Z * Z :=
  match x with
  | S754_infinity true => (-2, 0, 0)
  | S754_finite true m e => (-1, - e, - Z.pos m)
  | S754_zero _ => (0, 0, 0)
  | S754_nan => (0, 0, 0)
  | S754_finite false m e => (1, e, Z.pos m)
  | S754_infinity false => (2, 0, 0)
  end.

Definition key_lt (a b : Z * Z * Z) : Prop :=
  let '(a1, a2, a3) := a in
  let '(b1, b2, b3) := b in
  a1 < b1 \/ (a1 = b1 /\ (a2 < b2 \/ (a2 = b2 /\ a3 < b3))).

Definition key_le (a b : Z * Z * Z) : Prop := key_lt a b \/ a = b.

Lemma sf_compare_key (x y : spec_float) :
  sf_is_nan x = false -> sf_is_nan y = false ->
  match SFcompare x y with
  | Some Lt => key_lt (sf_key x) (sf_key y)
  | Some Eq => sf_key x = sf_key y
  | Some Gt => key_lt (sf_key y) (sf_key x)
  | None => False
  end.
Proof.
  destruct x as [sx|sx| |sx mx ex], y as [sy|sy| |sy my ey];
    intros Hx Hy; try discriminate;
    try (destruct sx); try (destruct sy); simpl; try reflexivity; try lia.
  - (* both negative *)
    pose proof (cmp_fin_spec mx ex my ey) as Hs. unfold cmp_fin in Hs.
    destruct (ex ?= ey); [|lia|lia].
    destruct (Pos.compare_cont Eq mx my); simpl.
    + destruct Hs as [-> Hm]. inversion Hm; subst. reflexivity.
    + lia.
    + lia.
  - (* both positive *)
    pose proof (cmp_fin_spec mx ex my ey) as Hs. unfold cmp_fin in Hs.
    destruct (ex ?= ey); [|lia|lia].
    destruct (Pos.compare_cont Eq mx my); simpl.
    + destruct Hs as [-> Hm]. inversion Hm; subst. reflexivity.
    + lia.
    + lia.
Qed.

Lemma key_le_trans (a b c : Z * Z * Z) : key_le a b -> key_le b c -> key_le a c.
Proof.
  destruct a as [[a1 a2] a3], b as [[b1 b2] b3], c as [[c1 c2] c3].
  unfold key_le, key_lt. intros [H1|H1] [H2|H2].
  - left. lia.
  - inversion H2; subst. left. exact H1.
  - inversion H1; subst. left. exact H2.
  - inversion H1; inversion H2; subst. right. reflexivity.
Qed.

Lemma key_total (a b : Z * Z * Z) : key_lt a b \/ a = b \/ key_lt b a.
Proof.
  destruct a as [[a1 a2] a3], b as [[b1 b2] b3]. unfold key_lt.
  destruct (Z.lt_trichotomy a1 b1) as [H|[H|H]];
    destruct (Z.lt_trichotomy a2 b2) as [H'|[H'|H']];
    destruct (Z.lt_trichotomy a3 b3) as [H''|[H''|H'']];
    subst; auto; try (left; lia); try (right; right; lia).
Qed.

Lemma key_lt_irrefl (a b : Z * Z * Z) : key_lt a b -> key_le b a -> False.
Proof.
  destruct a as [[a1 a2] a3], b as [[b1 b2] b3]. unfold key_le, key_lt.
  intros H [H'|H']; [lia | inversion H'; subst; lia].
Qed.

Lemma sf_leb_key (x y : spec_float) :
  sf_is_nan x = false -> sf_is_nan y = false ->
  (SFleb x y = true <-> key_le (sf_key x) (sf_key y)).
Proof.
  intros Hx Hy. pose proof (sf_compare_key x y Hx Hy) as Hc.
  pose proof (key_lt_irrefl (sf_key y) (sf_key x)) as Hirr.
  unfold SFleb. destruct (SFcompare x y) as [[| |]|]; try contradiction.
  - split; [right; exact Hc | reflexivity].
  - split; [left; exact Hc | reflexivity].
  - split; [discriminate | intros H; exfalso; apply Hirr; assumption].
Qed.

Lemma sf_ltb_key (x y : spec_float) :
  sf_is_nan x = false -> sf_is_nan y = false ->
  (SFltb x y = true <-> key_lt (sf_key x) (sf_key y)).
Proof.
  intros Hx Hy. pose proof (sf_compare_key x y Hx Hy) as Hc.
  unfold SFltb. destruct (SFcompare x y) as [[| |]|]; try contradiction.
  - split; [discriminate|]. intros H. exfalso.
    apply (key_lt_irrefl _ _ H). right. symmetry. exact Hc.
  - split; [intros _; exact Hc | reflexivity].
  - split; [discriminate|]. intros H. exfalso.
    apply (key_lt_irrefl _ _ H). left. exact Hc.
Qed.

(** ** The order of the floats that are not NaN *)

Local Open Scope float_scope.

Lemma leb_trans (x y z : float) :
  is_nan x = false -> is_nan y = false -> is_nan z = false ->
  (x <=? y) = true -> (y <=? z) = true -> (x <=? z) = true.
Proof.
  rewrite !is_nan_spec, !leb_spec. intros Hx Hy Hz Hxy Hyz.
  apply sf_leb_key in Hxy; try assumption.
  apply sf_leb_key in Hyz; try assumption.
  apply sf_leb_key; try assumption.
  eapply key_le_trans; eauto.
Qed.

Lemma leb_total (x y : float) :
  is_nan x = false -> is_nan y = false -> (x <? y) = false -> (y <=? x) = true.
Proof.
  rewrite !is_nan_spec, leb_spec, ltb_spec. intros Hx Hy Hlt.
  apply sf_leb_key; try assumption.
  destruct (key_total (sf_key (Prim2SF x)) (sf_key (Prim2SF y))) as [H|[H|H]].
  - apply (sf_ltb_key (Prim2SF x) (Prim2SF y) Hx Hy) in H. congruence.
  - right. symmetry. exact H.
  - left. exact H.
Qed.

Lemma ltb_leb (x y : float) : (x <? y) = true -> (x <=? y) = true.
Proof.
  rewrite leb_spec, ltb_spec. unfold SFleb, SFltb.
  destruct (SFcompare (Prim2SF x) (Prim2SF y)) as [[| |]|]; congruence.
Qed.

Lemma leb_refl (x : float) : is_nan x = false -> (x <=? x) = true.
Proof.
  rewrite is_nan_spec, leb_spec. intros Hx.
  apply sf_leb_key; try assumption. right. reflexivity.
Qed.

Lemma leb_not_nan (x y : float) :
  (x <=? y) = true -> is_nan x = false /\ is_nan y = false.
Proof.
  rewrite !is_nan_spec, leb_spec. unfold SFleb.
  destruct (Prim2SF x), (Prim2SF y); simpl; intros H; try discriminate; auto.
Qed.

End FloatOrder.

(* ===================================================================== *)
(** * Sorting and quantiles                                                *)
(* ===================================================================== *)

Module SortFacts.
Import Py FloatFacts FloatOrder.

Lemma insert_by_length {A : Type} (lt : A -> A -> bool) (x : A) (l : list A) :
  length (insert_by lt x l) = S (length l).
Proof.
  induction l as [|y rest IH]; simpl; [reflexivity|].
  destruct (lt x y); simpl; [reflexivity | rewrite IH; reflexivity].
Qed.

Lemma insert_by_perm {A : Type} (lt : A -> A -> bool) (x : A) (l : list A) :
  Permutation (insert_by lt x l) (x :: l).
Proof.
  induction l as [|y rest IH]; simpl; [apply Permutation_refl|].
  destruct (lt x y); [apply Permutation_refl|].
  eapply perm_trans; [apply perm_skip; exact IH | apply perm_swap].
Qed.

Lemma fold_insert_perm {A : Type} (lt : A -> A -> bool) (l acc : list A) :
  Permutation (fold_left (fun a x => insert_by lt x a) l acc) (l ++ acc)%list.
Proof.
  revert acc. induction l as [|x rest IH]; intros acc; simpl; [apply Permutation_refl|].
  eapply perm_trans; [apply IH|].
  eapply perm_trans; [apply Permutation_app_head; apply insert_by_perm|].
  apply Permutation_sym, Permutation_middle.
Qed.

(** [sorted] returns a rearrangement of its argument. *)
Lemma sorted_by_perm {A : Type} (lt : A -> A -> bool) (l : list A) :
  Permutation (sorted_by lt l) l.
Proof.
  unfold sorted_by. eapply perm_trans; [apply fold_insert_perm|].
  rewrite app_nil_r. apply Permutation_refl.
Qed.

Lemma sorted_by_length {A : Type} (lt : A -> A -> bool) (l : list A) :
  length (sorted_by lt l) = length l.
Proof. apply Permutation_length, sorted_by_perm. Qed.

(** ** Floats without NaN are sorted in ascending order *)

Definition no_nan (l : list float) : Prop := Forall (fun x => is_nan x = false) l.

Definition fle (x y : float) : Prop := (x <=? y)%float = true.

Lemma insert_sorted (x : float) (l : list float) :
  is_nan x = false -> no_nan l -> StronglySorted fle l ->
  StronglySorted fle (insert_by PrimFloat.ltb x l).
Proof.
  intros Hx Hl Hs. induction l as [|y rest IH]; simpl.
  - constructor; constructor.
  - inversion Hl as [|? ? Hy Hrest]; subst.
    inversion Hs as [|? ? Hsrest Hall]; subst.
    destruct (x <? y)%float eqn:Hlt.
    + constructor; [exact Hs|].
      constructor; [apply ltb_leb; exact Hlt|].
      rewrite Forall_forall in *. intros z Hz.
      eapply leb_trans; [exact Hx | exact Hy | apply Hrest; exact Hz
                        | apply ltb_leb; exact Hlt | apply Hall; exact Hz].
    + constructor; [apply IH; assumption|].
      rewrite Forall_forall in *. intros z Hz.
      apply (Permutation_in _ (insert_by_perm PrimFloat.ltb x rest)) in Hz.
      destruct Hz as [<-|Hz]; [apply leb_total; assumption | apply Hall; exact Hz].
Qed.

Lemma fold_insert_sorted (l acc : list float) :
  no_nan l -> no_nan acc -> StronglySorted fle acc ->
  StronglySorted fle (fold_left (fun a x => insert_by PrimFloat.ltb x a) l acc).
Proof.
  revert acc. induction l as [|x rest IH]; intros acc Hl Hacc Hs; simpl; [exact Hs|].
  inversion Hl as [|? ? Hx Hrest]; subst.
  apply IH; [exact Hrest | | apply insert_sorted; assumption].
  unfold no_nan in *. rewrite Forall_forall in *. intros z Hz.
  apply (Permutation_in _ (insert_by_perm PrimFloat.ltb x acc)) in Hz.
  destruct Hz as [<-|Hz]; [exact Hx | apply Hacc; exact Hz].
Qed.

Lemma sorted_float_sorted (l : list float) :
  no_nan l -> StronglySorted fle (sorted_float l).
Proof.
  intros Hl. unfold sorted_float, sorted_by.
  apply fold_insert_sorted; [exact Hl | constructor | constructor].
Qed.

Lemma sorted_no_nan (l : list float) : no_nan l -> no_nan (sorted_float l).
Proof.
  unfold no_nan. rewrite !Forall_forall. intros H x Hx.
  apply H. eapply Permutation_in; [apply sorted_by_perm | exact Hx].
Qed.

(** In a sorted list the first element is a lower bound and the last an
    upper bound. *)
Lemma sorted_head_min (x : float) (l : list float) :
  no_nan (x :: l) -> StronglySorted fle (x :: l) ->
  forall y, In y (x :: l) -> fle x y.
Proof.
  intros Hn Hs y [<-|Hy].
  - inversion Hn; subst. apply leb_refl. assumption.
  - inversion Hs as [|? ? _ Hall]; subst. rewrite Forall_forall in Hall. auto.
Qed.

Lemma sorted_last_max (l : list float) (d : float) :
  no_nan l -> StronglySorted fle l ->
  forall y, In y l -> fle y (last l d).
Proof.
  intros Hn Hs. induction l as [|x rest IH]; intros y Hy; [contradiction|].
  inversion Hn as [|? ? Hx Hrest]; subst.
  inversion Hs as [|? ? Hsrest Hall]; subst.
  destruct rest as [|z rest'].
  - destruct Hy as [<-|[]]. simpl. apply leb_refl. exact Hx.
  - change (last (x :: z :: rest') d) with (last (z :: rest') d).
    destruct Hy as [<-|Hy]; [|apply IH; assumption].
    rewrite Forall_forall in Hall. apply Hall.
    clear. revert z. induction rest' as [|w r IHr]; intros z; [left; reflexivity|].
    change (last (z :: w :: r) d) with (last (w :: r) d). right. apply IHr.
Qed.

End SortFacts.

Module QuantileFacts.
Import Py Compare FloatFacts FloatOrder FloatIndex SortFacts.

Lemma py_index_nth {A : Type} (l : list A) (k : Z) (d : A) :
  (0 <= k < Z.of_nat (length l))%Z ->
  py_index l k = Ok (nth (Z.to_nat k) l d).
Proof.
  intros Hk. unfold py_index.
  destruct (k <? 0)%Z eqn:E; [apply Z.ltb_lt in E; lia|]. rewrite E.
  destruct (nth_error l (Z.to_nat k)) as [x|] eqn:Hn.
  - rewrite (nth_error_nth _ _ d Hn). reflexivity.
  - apply nth_error_None in Hn. lia.
Qed.

Lemma py_index_last {A : Type} (l : list A) (d : A) :
  l <> [] -> py_index l (-1) = Ok (last l d).
Proof.
  intros Hne. destruct (exists_last Hne) as [l' [a ->]].
  unfold py_index. change (-1 <? 0)%Z with true. cbv iota.
  rewrite last_last, length_app. cbn [length].
  destruct (-1 + Z.of_nat (length l' + 1) <? 0)%Z eqn:E; [apply Z.ltb_lt in E; lia|].
  replace (Z.to_nat (-1 + Z.of_nat (length l' + 1))) with (length l' + 0)%nat by lia.
  rewrite nth_error_app2 by lia.
  replace (length l' + 0 - length l')%nat with 0%nat by lia. reflexivity.
Qed.

Lemma one_leb_positive (p : float) :
  (1 <=? p)%float = true -> (p <=? 0)%float = false.
Proof.
  rewrite !leb_spec.
  change (Prim2SF 0) with (S754_zero false).
  change (Prim2SF 1) with (S754_finite false 4503599627370496 (-52)).
  destruct (Prim2SF p) as [s|s| |s m e]; try discriminate;
    destruct s; try discriminate; reflexivity.
Qed.

Lemma mul_nan_l (p x : float) : is_nan p = true -> is_nan (p * x)%float = true.
Proof.
  rewrite !is_nan_spec, mul_spec.
  destruct (Prim2SF p); try discriminate. reflexivity.
Qed.

Lemma nan_not_leb (p x : float) :
  is_nan p = true -> (p <=? x)%float = false /\ (x <=? p)%float = false.
Proof.
  rewrite is_nan_spec, !leb_spec.
  destruct (Prim2SF p); try discriminate. intros _.
  split; [reflexivity | destruct (Prim2SF x); reflexivity].
Qed.

Lemma sorted_nonempty (values : list float) :
  values <> [] -> sorted_float values <> [].
Proof.
  intros Hne Hs. apply Hne. apply length_zero_iff_nil.
  rewrite <- (sorted_by_length PrimFloat.ltb values).
  unfold sorted_float in Hs. rewrite Hs. reflexivity.
Qed.

Lemma quantile_nonempty (values : list float) (p : float) :
  values <> [] ->
  _quantile values p =
  let sorted_values := sorted_float values in
  if (p <=? 0)%float then py_index sorted_values 0
  else if (1 <=? p)%float then py_index sorted_values (-1)
  else
    let position := (p * nat2float (length sorted_values - 1))%float in
    low_index <- float_trunc position ;;
    let high_index :=
      Z.min (low_index + 1) (Z.of_nat (length sorted_values) - 1) in
    let fraction := (position - Z2float low_index)%float in
    low_value <- py_index sorted_values low_index ;;
    high_value <- py_index sorted_values high_index ;;
    Ok (low_value + (high_value - low_value) * fraction)%float.
Proof. destruct values; [congruence | reflexivity]. Qed.

Lemma quantile_returns (values : list float) (p : float) :
  values <> [] -> is_nan p = false ->
  (Z.of_nat (length values) <= 2 ^ 53)%Z ->
  exists v, _quantile values p = Ok v.
Proof.
  intros Hne Hnan Hlen. unfold _quantile.
  pose proof (sorted_nonempty values Hne) as Hsne.
  pose proof (sorted_by_length PrimFloat.ltb values) as Hslen.
  fold (sorted_float values) in Hslen.
  destruct values as [|x rest]; [congruence|].
  set (sv := sorted_float (x :: rest)) in *.
  assert (Hpos : (0 < length sv)%nat).
  { destruct sv; [congruence | simpl; lia]. }
  destruct (p <=? 0)%float eqn:H0.
  - rewrite (py_index_nth sv 0 0%float) by lia. eauto.
  - destruct (1 <=? p)%float eqn:H1.
    + rewrite (py_index_last sv 0%float Hsne). eauto.
    + destruct (trunc_scaled p (length sv - 1) H0 H1 Hnan) as [k [Hk Hkb]].
      { rewrite Hslen. simpl length in *. lia. }
      rewrite Hk. cbn [bind].
      rewrite (py_index_nth sv k 0%float) by lia. cbn [bind].
      rewrite (py_index_nth sv _ 0%float) by lia. cbn [bind]. eauto.
Qed.

(** [_quantile] fails on an empty list and on a NaN probability, and
    otherwise returns a value. *)
Theorem quantile_total :
  (forall p, _quantile [] p = Raise (ValueError "Cannot compute quantile on empty values"))
  /\ (forall values p,
         values <> [] -> is_nan p = true ->
         _quantile values p = Raise (ValueError "cannot convert float NaN to integer"))
  /\ (forall values p,
         values <> [] -> is_nan p = false ->
         (Z.of_nat (length values) <= 2 ^ 53)%Z ->
         exists v, _quantile values p = Ok v).
Proof.
  split; [reflexivity|]. split.
  - intros values p Hne Hnan. unfold _quantile.
    destruct values as [|x rest]; [congruence|].
    destruct (nan_not_leb p 0 Hnan) as [-> _].
    destruct (nan_not_leb p 1 Hnan) as [_ ->].
    pose proof (mul_nan_l p (nat2float (length (sorted_float (x :: rest)) - 1)) Hnan) as Hm.
    unfold float_trunc. rewrite is_nan_spec in Hm.
    destruct (Prim2SF (p * nat2float (length (sorted_float (x :: rest)) - 1))%float);
      try discriminate. reflexivity.
  - intros values p. apply quantile_returns.
Qed.


(** At a probability of 0 or less [_quantile] returns the smallest value of
    a list without NaN, and at 1 or more the largest. *)
Theorem quantile_extremes (values : list float) (p : float) :
  values <> [] -> no_nan values ->
  ((p <=? 0)%float = true ->
   exists v, _quantile values p = Ok v /\ In v values
             /\ forall x, In x values -> (v <=? x)%float = true)
  /\ ((1 <=? p)%float = true ->
      exists v, _quantile values p = Ok v /\ In v values
                /\ forall x, In x values -> (x <=? v)%float = true).
Proof.
  intros Hne Hnn.
  pose proof (sorted_nonempty values Hne) as Hsne.
  pose proof (sorted_float_sorted values Hnn) as Hsorted.
  pose proof (sorted_no_nan values Hnn) as Hsnn.
  pose proof (sorted_by_perm PrimFloat.ltb values) as Hperm.
  fold (sorted_float values) in Hperm.
  unfold _quantile. destruct values as [|x0 rest]; [congruence|].
  set (sv := sorted_float (x0 :: rest)) in *.
  split.
  - intros H0. rewrite H0.
    destruct sv as [|y sv'] eqn:Hsv; [congruence|].
    exists y. split; [reflexivity|]. split.
    + eapply Permutation_in; [exact Hperm | left; reflexivity].
    + intros x Hx. apply (sorted_head_min y sv' Hsnn Hsorted).
      eapply Permutation_in; [apply Permutation_sym; exact Hperm | exact Hx].
  - intros H1. rewrite (one_leb_positive p H1), H1.
    rewrite (py_index_last sv 0%float Hsne).
    exists (last sv 0%float). split; [reflexivity|]. split.
    + eapply Permutation_in; [exact Hperm|].
      destruct (exists_last Hsne) as [l' [a ->]]. rewrite last_last.
      apply in_or_app. right. left. reflexivity.
    + intros x Hx. apply (sorted_last_max sv 0%float Hsnn Hsorted).
      eapply Permutation_in; [apply Permutation_sym; exact Hperm | exact Hx].
Qed.

(** Strictly between 0 and 1, [_quantile] interpolates between two
    neighbours of the sorted list: with [position = p * (n - 1)] and
    [k = int(position)], which is an index of the list, the result is
    [s[k] + (s[min(k+1, n-1)] - s[k]) * (position - k)]. *)
Theorem quantile_interpolates (values : list float) (p : float) :
  values <> [] ->
  (p <=? 0)%float = false -> (1 <=? p)%float = false -> is_nan p = false ->
  (Z.of_nat (length values) <= 2 ^ 53)%Z ->
  let s := sorted_float values in
  let n := length values in
  let position := (p * nat2float (n - 1))%float in
  exists k : Z,
    float_trunc position = Ok k
    /\ (0 <= k <= Z.of_nat n - 1)%Z
    /\ _quantile values p =
       Ok (nth (Z.to_nat k) s 0
           + (nth (Z.to_nat (Z.min (k + 1) (Z.of_nat n - 1))) s 0 - nth (Z.to_nat k) s 0)
             * (position - Z2float k))%float.
Proof.
  intros Hne H0 H1 Hnan Hlen s n position.
  pose proof (sorted_by_length PrimFloat.ltb values) as Hslen.
  fold (sorted_float values) in Hslen. fold s in Hslen.
  assert (Hpos : (0 < n)%nat).
  { unfold n. destruct values; [congruence | simpl; lia]. }
  destruct (trunc_scaled p (n - 1) H0 H1 Hnan) as [k [Hk Hkb]]; [unfold n; lia|].
  exists k. split; [exact Hk|]. split; [lia|].
  rewrite (quantile_nonempty values p Hne). cbv zeta.
  fold s. rewrite H0, H1, Hslen. fold n. fold position.
  fold position in Hk. rewrite Hk. cbn [bind].
  rewrite (py_index_nth s k 0%float) by lia. cbn [bind].
  rewrite (py_index_nth s _ 0%float) by lia. cbn [bind]. reflexivity.
Qed.


Definition sample_values : list float := [4; 2; 0; 3; 1]%float.

Lemma sample_values_no_nan : no_nan sample_values.
Proof. repeat constructor. Qed.

Lemma quantile_total_witness : exists v, _quantile sample_values 0.3 = Ok v.
Proof.
  apply (proj2 (proj2 quantile_total) sample_values 0.3%float).
  - discriminate.
  - reflexivity.
  - apply Z.leb_le. reflexivity.
Defined.

Lemma quantile_extremes_witness :
  ((0 <=? 0)%float = true ->
   exists v, _quantile sample_values 0 = Ok v /\ In v sample_values
             /\ forall x, In x sample_values -> (v <=? x)%float = true)
  /\ ((1 <=? 0)%float = true ->
      exists v, _quantile sample_values 0 = Ok v /\ In v sample_values
                /\ forall x, In x sample_values -> (x <=? v)%float = true).
Proof.
  apply (quantile_extremes sample_values 0%float).
  - discriminate.
  - exact sample_values_no_nan.
Defined.

Lemma quantile_interpolates_witness :
  exists k : Z,
    float_trunc (0.3 * nat2float (5 - 1))%float = Ok k
    /\ (0 <= k <= Z.of_nat 5 - 1)%Z
    /\ _quantile sample_values 0.3 =
       Ok (nth (Z.to_nat k) (sorted_float sample_values) 0
           + (nth (Z.to_nat (Z.min (k + 1) (Z.of_nat 5 - 1))) (sorted_float sample_values) 0
              - nth (Z.to_nat k) (sorted_float sample_values) 0)
             * (0.3 * nat2float (5 - 1) - Z2float k))%float.
Proof.
  apply (quantile_interpolates sample_values 0.3%float).
  - discriminate.
  - reflexivity.
  - reflexivity.
  - reflexivity.
  - apply Z.leb_le. reflexivity.
Defined.

(** The values the package's specification lists for [[0, 1, 2, 3, 4]]. *)
Example quantile_examples :
  _quantile [0; 1; 2; 3; 4]%float 0.5 = Ok 2%float
  /\ _quantile [0; 1; 2; 3; 4]%float 0 = Ok 0%float
  /\ _quantile [0; 1; 2; 3; 4]%float 1 = Ok 4%float.
Proof. repeat split; vm_compute; reflexivity. Qed.

End QuantileFacts.

(* ===================================================================== *)
(** * The metric table and the metrics that count                          *)
(* ===================================================================== *)

Module MetricFacts.
Import Py Metrics.

Lemma in_supported (m : string) :
  In m Schema.SUPPORTED_METRICS <->
  m = "mae" \/ m = "rmse" \/ m = "accuracy" \/ m = "exact_match" \/ m = "f1".
Proof. simpl. intuition congruence. Qed.

Lemma supported_direction (m : string) :
  In m Schema.SUPPORTED_METRICS ->
  exists d, metric_direction m = Ok d /\ (d = "higher" \/ d = "lower").
Proof.
  intros H. apply in_supported in H.
  destruct H as [->|[->|[->|[->| ->]]]]; eexists; (split; [reflexivity|]); auto.
Qed.

(** The loader's set of supported metrics, the direction table and the
    dispatch of [compute_metric] agree: a supported metric has a direction,
    ['higher'] or ['lower']; any other name makes [metric_direction] raise,
    and [compute_metric] raises for it too, whatever the values. *)
Theorem metric_tables_agree (py : Builtins) (m : string) :
  (In m Schema.SUPPORTED_METRICS ->
   exists d, metric_direction m = Ok d /\ (d = "higher" \/ d = "lower"))
  /\ (~ In m Schema.SUPPORTED_METRICS ->
      metric_direction m = Raise (ValueError ("Unsupported metric: " ++ m))
      /\ forall expected predicted label,
           exists msg, compute_metric py m expected predicted label
                       = Raise (ValueError msg)).
Proof.
  split.
  - apply supported_direction.
  - intros H. rewrite in_supported in H.
    assert (E1 : String.eqb "mae" m = false) by (apply String.eqb_neq; intuition congruence).
    assert (E2 : String.eqb "rmse" m = false) by (apply String.eqb_neq; intuition congruence).
    assert (E3 : String.eqb "accuracy" m = false) by (apply String.eqb_neq; intuition congruence).
    assert (E4 : String.eqb "exact_match" m = false)
      by (apply String.eqb_neq; intuition congruence).
    assert (E5 : String.eqb "f1" m = false) by (apply String.eqb_neq; intuition congruence).
    split.
    + unfold metric_direction, _METRIC_DIRECTIONS. cbn [dict_get].
      rewrite E1, E2, E3, E4, E5. reflexivity.
    + intros expected predicted label. unfold compute_metric.
      destruct (negb (Nat.eqb (length expected) (length predicted))); [eauto|].
      destruct (Nat.eqb (length expected) 0); [eauto|].
      rewrite (String.eqb_sym m "mae"), (String.eqb_sym m "rmse"),
        (String.eqb_sym m "accuracy"), (String.eqb_sym m "exact_match"),
        (String.eqb_sym m "f1"), E1, E2, E3, E4, E5.
      cbn [orb]. eauto.
Qed.

(** ** Rearranging the cases *)

Lemma count_perm {A : Type} (f : A -> bool) (l l' : list A) :
  Permutation l l' -> length (filter f l) = length (filter f l').
Proof.
  intros H. induction H; simpl.
  - reflexivity.
  - destruct (f x); simpl; congruence.
  - destruct (f x), (f y); reflexivity.
  - congruence.
Qed.

Lemma combine_length_eq {A B : Type} (a : list A) (b : list B) :
  length a = length b -> length (combine a b) = length a.
Proof. intros H. rewrite length_combine, H. apply Nat.min_id. Qed.

(** [accuracy], [exact_match] and [f1] depend only on which pairs of
    expected and predicted values occur, not on their order: rearranging
    the two sequences together leaves the result unchanged. *)
Theorem counting_metrics_permutation_invariant (py : Builtins) (m : string)
  (expected predicted expected' predicted' : list pyval) (label : pyval) :
  m = "accuracy" \/ m = "exact_match" \/ m = "f1" ->
  length expected = length predicted ->
  length expected' = length predicted' ->
  Permutation (combine expected predicted) (combine expected' predicted') ->
  compute_metric py m expected predicted label =
  compute_metric py m expected' predicted' label.
Proof.
  intros Hm Hlen Hlen' Hperm.
  assert (Hl : length expected = length expected').
  { rewrite <- (combine_length_eq expected predicted Hlen).
    rewrite <- (combine_length_eq expected' predicted' Hlen').
    apply Permutation_length. exact Hperm. }
  unfold compute_metric.
  rewrite <- Hlen, <- Hlen', !Nat.eqb_refl, <- Hl. cbn [negb].
  destruct (Nat.eqb (length expected) 0); [reflexivity|].
  destruct Hm as [->|[->| ->]]; cbn [String.eqb Ascii.eqb Bool.eqb orb andb].
  - rewrite (count_perm _ _ _ Hperm). reflexivity.
  - rewrite (count_perm _ _ _ Hperm). reflexivity.
  - rewrite !F1Spec._f1_binary_spec. unfold F1Spec.TP, F1Spec.FP, F1Spec.FN, F1Spec.count.
    rewrite (count_perm (F1Spec.is_tp label) _ _ Hperm),
      (count_perm (F1Spec.is_fp label) _ _ Hperm),
      (count_perm (F1Spec.is_fn label) _ _ Hperm).
    reflexivity.
Qed.

Lemma counting_metrics_permutation_invariant_witness :
  compute_metric Samples.builtins "f1" [PInt 1; PInt 1; PInt 0; PInt 0]
    [PInt 1; PInt 0; PInt 1; PInt 0] (PInt 1) =
  compute_metric Samples.builtins "f1" [PInt 0; PInt 1; PInt 0; PInt 1]
    [PInt 1; PInt 1; PInt 0; PInt 0] (PInt 1).
Proof.
  apply counting_metrics_permutation_invariant.
  - right. right. reflexivity.
  - reflexivity.
  - reflexivity.
  - simpl.
    apply (perm_trans (l' := [(PInt 1, PInt 0); (PInt 1, PInt 1); (PInt 0, PInt 1);
                              (PInt 0, PInt 0)])).
    + apply perm_swap.
    + apply (perm_trans (l' := [(PInt 1, PInt 0); (PInt 0, PInt 1); (PInt 1, PInt 1);
                                (PInt 0, PInt 0)])).
      * apply perm_skip. apply perm_swap.
      * apply (perm_trans (l' := [(PInt 0, PInt 1); (PInt 1, PInt 0); (PInt 1, PInt 1);
                                  (PInt 0, PInt 0)])).
        -- apply perm_swap.
        -- apply perm_skip.
           apply (perm_trans (l' := [(PInt 1, PInt 1); (PInt 1, PInt 0); (PInt 0, PInt 0)])).
           ++ apply perm_swap.
           ++ apply perm_skip. apply perm_swap.
Defined.

Lemma metric_tables_agree_witness :
  exists d, metric_direction "rmse" = Ok d /\ (d = "higher" \/ d = "lower").
Proof.
  apply (proj1 (metric_tables_agree Samples.builtins "rmse")).
  simpl. auto.
Defined.

End MetricFacts.

(* ===================================================================== *)
(** * What a run record holds                                              *)
(* ===================================================================== *)

Module RunRecord.
Import Py Runner PyFacts.
Local Open Scope list_scope.

Definition failed (c : CaseResult) : bool :=
  match error c with Some _ => true | None => false end.

Definition count_failed (cs : list CaseResult) : nat := length (filter failed cs).

Definition has_errors (t : TaskResult) : bool :=
  Nat.ltb 0 (case_failures t) || score_is_none t.

Definition sum_of (f : TaskResult -> nat) (ts : list TaskResult) : nat :=
  fold_right (fun t s => f t + s) 0 ts.

(** A case result against the case it was made from. *)
Definition case_matches (task : Schema.BenchmarkTask) (case : Schema.BenchmarkCase)
  (c : CaseResult) : Prop :=
  case_id c = Schema.case_id case
  /\ expected c = get (Schema.expected case) (Schema.expected_key task)
  /\ (failed c = true -> predicted c = PNone).

(** A task result against the task it was made from. *)
Definition task_matches (task : Schema.BenchmarkTask) (t : TaskResult) : Prop :=
  task_id t = Schema.task_id task
  /\ metric t = Schema.metric task
  /\ Metrics.metric_direction (Schema.metric task) = Ok (direction t)
  /\ cases_total t = length (Schema.cases task)
  /\ Forall2 (case_matches task) (Schema.cases task) (case_results t)
  /\ case_failures t = count_failed (case_results t)
  /\ case_failures t <= cases_total t
  /\ (score t = None <-> case_failures t = cases_total t).

(** The summary the runner writes for a list of task results. *)
Definition summary_of (ts : list TaskResult) : pydict :=
  [ ("tasks_total", PInt (Z.of_nat (length ts)));
    ("tasks_with_errors", PInt (Z.of_nat (length (filter has_errors ts))));
    ("cases_total", PInt (Z.of_nat (sum_of cases_total ts)));
    ("case_failures", PInt (Z.of_nat (sum_of case_failures ts)));
    ("all_cases_succeeded", PBool (Nat.eqb (sum_of case_failures ts) 0)) ].

Section Loop.
Context (py : Builtins) (env : Env) {St : Type} (adapter_obj : ModelAdapter St).

Lemma run_case_step (task : Schema.BenchmarkTask) (acc : @task_loop St)
  (case : Schema.BenchmarkCase) :
  exists c,
    loop_case_results (run_case py env adapter_obj task acc case) =
    loop_case_results acc ++ [c]
    /\ case_matches task case c
    /\ loop_case_failures (run_case py env adapter_obj task acc case) =
       loop_case_failures acc + (if failed c then 1 else 0)
    /\ length (expected_values (run_case py env adapter_obj task acc case)) =
       length (expected_values acc) + (if failed c then 0 else 1).
Proof.
  unfold run_case.
  destruct (predict adapter_obj (loop_state acc) task case) as [[msg|output] st'].
  - eexists. cbn [loop_case_results loop_case_failures expected_values].
    split; [reflexivity|]. unfold case_matches, failed. cbn.
    repeat split; lia.
  - destruct (dict_get output (Schema.prediction_key task)) as [p|].
    + eexists. cbn [loop_case_results loop_case_failures expected_values].
      split; [reflexivity|]. unfold case_matches, failed. cbn.
      rewrite length_app. cbn. repeat split; try lia; try discriminate.
    + eexists. cbn [loop_case_results loop_case_failures expected_values].
      split; [reflexivity|]. unfold case_matches, failed. cbn.
      repeat split; lia.
Qed.

Lemma count_failed_app (a b : list CaseResult) :
  count_failed (a ++ b) = count_failed a + count_failed b.
Proof. unfold count_failed. rewrite filter_app, length_app. reflexivity. Qed.

Lemma count_failed_le (cs : list CaseResult) : count_failed cs <= length cs.
Proof. apply filter_length_le. Qed.

Lemma fold_run_case_steps (task : Schema.BenchmarkTask)
  (cases : list Schema.BenchmarkCase) :
  forall acc : @task_loop St,
  exists cs,
    loop_case_results (fold_left (run_case py env adapter_obj task) cases acc) =
    loop_case_results acc ++ cs
    /\ Forall2 (case_matches task) cases cs
    /\ loop_case_failures (fold_left (run_case py env adapter_obj task) cases acc) =
       loop_case_failures acc + count_failed cs
    /\ length (expected_values (fold_left (run_case py env adapter_obj task) cases acc))
       + count_failed cs =
       length (expected_values acc) + length cs.
Proof.
  induction cases as [|case rest IH]; intros acc.
  - exists []. cbn. rewrite app_nil_r. repeat split; try lia. constructor.
  - cbn [fold_left].
    destruct (run_case_step task acc case) as [c [Hres [Hm [Hf He]]]].
    destruct (IH (run_case py env adapter_obj task acc case)) as [cs [Hres' [Hm' [Hf' He']]]].
    exists (c :: cs). rewrite Hres', Hres, <- app_assoc. split; [reflexivity|].
    split; [constructor; assumption|].
    change (c :: cs) with ([c] ++ cs). rewrite count_failed_app.
    unfold count_failed at 1 3. cbn [filter app length].
    rewrite Hf', Hf. rewrite He in He'.
    destruct (failed c); cbn [length]; split; lia.
Qed.

(** What [_run_task] returns for a task, when it returns. *)
Lemma run_task_matches (task : Schema.BenchmarkTask) (st st' : St) (tick tick' : nat)
  (t : TaskResult) :
  _run_task py env adapter_obj task st tick = Ok (t, st', tick') ->
  task_matches task t.
Proof.
  unfold _run_task, run_cases. intros H.
  destruct (fold_run_case_steps task (Schema.cases task)
              {| expected_values := []; predicted_values := [];
                 loop_case_results := []; loop_case_failures := 0;
                 loop_state := st; loop_tick := tick |})
    as [cs [Hres [Hm [Hf He]]]].
  cbn [loop_case_results loop_case_failures expected_values app length Nat.add] in *.
  set (l := fold_left (run_case py env adapter_obj task) (Schema.cases task) _) in *.
  pose proof (Forall2_length Hm) as Hlen.
  pose proof (count_failed_le cs) as Hle.
  bind_inv H as sc Hsc. bind_inv H as d Hd.
  inversion H; subst t st' tick'; clear H.
  unfold task_matches. cbn [task_id metric direction cases_total case_results
                            case_failures score].
  rewrite Hres, Hf.
  repeat split; try assumption; try lia.
  - intros ->. destruct (expected_values l) as [|x xs] eqn:E.
    + cbn [length] in He. lia.
    + bind_inv Hsc as s Hs. discriminate.
  - intros Heq. destruct (expected_values l) as [|x xs] eqn:E.
    + inversion Hsc. reflexivity.
    + cbn [length] in He. lia.
Qed.

Lemma sum_of_app (f : TaskResult -> nat) (a b : list TaskResult) :
  sum_of f (a ++ b) = sum_of f a + sum_of f b.
Proof.
  unfold sum_of.
  induction a as [|x a IH]; cbn [app fold_right]; [reflexivity | rewrite IH; lia].
Qed.

Lemma run_tasks_steps (tasks : list Schema.BenchmarkTask) :
  forall acc out : @suite_loop St,
    run_tasks py env adapter_obj tasks acc = Ok out ->
    exists ts,
      acc_task_results out = acc_task_results acc ++ ts
      /\ Forall2 task_matches tasks ts
      /\ acc_cases_total out = acc_cases_total acc + sum_of cases_total ts
      /\ acc_case_failures out = acc_case_failures acc + sum_of case_failures ts
      /\ acc_tasks_with_errors out =
         acc_tasks_with_errors acc + length (filter has_errors ts).
Proof.
  induction tasks as [|task rest IH]; intros acc out H; cbn [run_tasks] in H.
  - inversion H; subst out. exists []. cbn. rewrite app_nil_r.
    repeat split; try lia. constructor.
  - bind_inv H as o Ho. destruct o as [[t st'] tick'].
    apply run_task_matches in Ho.
    apply IH in H. cbn [acc_task_results acc_cases_total acc_case_failures
                        acc_tasks_with_errors] in H.
    destruct H as [ts [Hres [Hm [Hc [Hf He]]]]].
    exists (t :: ts). rewrite Hres, <- app_assoc. split; [reflexivity|].
    split; [constructor; assumption|].
    cbn [sum_of fold_right filter]. fold (sum_of cases_total ts).
    fold (sum_of case_failures ts).
    rewrite Hc, Hf, He. fold (has_errors t).
    destruct (has_errors t); cbn [length]; repeat split; lia.
Qed.

End Loop.

Lemma run_benchmark_shape (py : Builtins) (env : Env) (St : Type)
  (adapter_obj : ModelAdapter St) (suite : Schema.BenchmarkSuite) (st : St)
  (prov : option pydict) (r : BenchmarkRun) :
  run_benchmark py env adapter_obj suite st prov = Ok r ->
  suite_name r = Schema.name suite
  /\ suite_version r = Schema.version suite
  /\ adapter r = name adapter_obj
  /\ Forall2 task_matches (Schema.tasks suite) (task_results r)
  /\ summary r = summary_of (task_results r).
Proof.
  unfold run_benchmark. intros H. bind_inv H as out Hout.
  apply run_tasks_steps in Hout.
  cbn [acc_task_results acc_cases_total acc_case_failures acc_tasks_with_errors
       app Nat.add] in Hout.
  destruct Hout as [ts [Hres [Hm [Hc [Hf He]]]]].
  inversion H; subst r; clear H.
  cbn [suite_name suite_version adapter task_results summary].
  rewrite Hres, Hc, Hf, He.
  repeat split; try assumption.
  unfold summary_of. rewrite (Forall2_length Hm). reflexivity.
Qed.

(** Whatever the prediction source does, a record that [run_benchmark]
    returns mirrors the suite: its name and version are the suite's, it has
    one task result per task, in the suite's order, with the task's
    identifier and metric, the direction of that metric and one case
    result per case, in order, with the case's identifier and expected
    value; [case_failures] counts the case results with an error and
    [cases_total] the cases; the score is null exactly when every case
    failed; and the summary holds the totals over the task results. *)
Theorem run_record_mirrors_suite (py : Builtins) (env : Env) (St : Type)
  (adapter_obj : ModelAdapter St) (suite : Schema.BenchmarkSuite) (st : St)
  (prov : option pydict) (r : BenchmarkRun) :
  run_benchmark py env adapter_obj suite st prov = Ok r ->
  suite_name r = Schema.name suite
  /\ suite_version r = Schema.version suite
  /\ adapter r = name adapter_obj
  /\ Forall2 task_matches (Schema.tasks suite) (task_results r)
  /\ summary r = summary_of (task_results r).
Proof. apply run_benchmark_shape. Qed.

Lemma run_record_mirrors_suite_witness :
  exists r,
    run_benchmark Samples.builtins Samples.env Samples.FailingAdapter
      Samples.test_suite tt None = Ok r
    /\ Forall2 task_matches (Schema.tasks Samples.test_suite) (task_results r)
    /\ summary r = summary_of (task_results r).
Proof.
  destruct (run_benchmark Samples.builtins Samples.env Samples.FailingAdapter
              Samples.test_suite tt None) as [r|e] eqn:E; [|vm_compute in E; discriminate E].
  exists r. split; [reflexivity|].
  apply (run_record_mirrors_suite Samples.builtins Samples.env unit Samples.FailingAdapter
           Samples.test_suite tt None r) in E.
  split; apply E.
Defined.

End RunRecord.

(* ===================================================================== *)
(** * A fresh run record passes the validator                              *)
(* ===================================================================== *)

Module FreshRecord.
Import Py Runner RunArtifact PyFacts RunRecord.
Local Open Scope list_scope.

(** Not blank: something is left after [strip]. Clean: [strip] changes
    nothing and the string is not empty, as for every identifier that
    went through the loader's [_required_str]. *)
Definition nonblank (s : string) : bool := negb (String.eqb (strip s) "").

Definition clean (s : string) : bool :=
  String.eqb (strip s) s && negb (String.eqb s "").

Fixpoint distinct (l : list string) : bool :=
  match l with
  | [] => true
  | x :: rest => negb (set_mem x rest) && distinct rest
  end.

Definition task_ids_ok (task : Schema.BenchmarkTask) : bool :=
  clean (Schema.task_id task)
  && forallb clean (map Schema.case_id (Schema.cases task))
  && distinct (map Schema.case_id (Schema.cases task)).

Definition ids_ok (suite : Schema.BenchmarkSuite) : bool :=
  clean (Schema.name suite)
  && forallb task_ids_ok (Schema.tasks suite)
  && distinct (map Schema.task_id (Schema.tasks suite)).

Definition env_ok {St : Type} (env : Env) (adapter_obj : ModelAdapter St) : bool :=
  nonblank (uuid4_hex env) && nonblank (now_isoformat env 0)
  && nonblank (now_isoformat env 1) && nonblank (name adapter_obj).

(** The measurements of a record: every score present is finite, every
    duration is finite and not negative. *)
Definition case_measured (c : CaseResult) : bool :=
  is_finite (duration_ms c) && negb (duration_ms c <? 0)%float.

Definition task_measured (t : TaskResult) : bool :=
  match score t with Some s => is_finite s | None => true end
  && forallb case_measured (case_results t).

Definition measured (r : BenchmarkRun) : bool := forallb task_measured (task_results r).

Definition case_dict (c : CaseResult) : pydict :=
  match case_to_dict c with PDict d => d | _ => [] end.

Definition task_dict (t : TaskResult) : pydict :=
  match task_to_dict t with PDict d => d | _ => [] end.

Definition run_dict (r : BenchmarkRun) : pydict :=
  match to_dict r with PDict d => d | _ => [] end.

(** The validator's loop variables after one more task result. *)
Definition step_acc (acc : task_acc) (t : TaskResult) : task_acc :=
  {| task_ids := strip (task_id t) :: task_ids acc;
     case_totals_sum := (case_totals_sum acc + Z.of_nat (cases_total t))%Z;
     case_failures_sum := (case_failures_sum acc + Z.of_nat (case_failures t))%Z;
     tasks_with_errors :=
       if has_errors t then (tasks_with_errors acc + 1)%Z else tasks_with_errors acc;
     task_map := dict_set (task_map acc) (strip (task_id t)) (task_dict t) |}.

Lemma distinct_NoDup (l : list string) : distinct l = true <-> NoDup l.
Proof.
  induction l as [|x l IH]; cbn [distinct].
  - split; [constructor | reflexivity].
  - rewrite andb_true_iff, negb_true_iff, set_mem_not_in, IH.
    split; [intros [H1 H2]; constructor; assumption | intros H; inversion H; auto].
Qed.

Lemma clean_spec (s : string) : clean s = true -> strip s = s /\ nonblank s = true.
Proof.
  unfold clean, nonblank. rewrite andb_true_iff, negb_true_iff.
  intros [H1 H2]. apply String.eqb_eq in H1. rewrite H1. split; [reflexivity|].
  rewrite H2. reflexivity.
Qed.

Lemma require_str_complete (s path : string) :
  nonblank s = true -> _require_non_empty_str (PStr s) path = Ok (strip s).
Proof.
  unfold nonblank, _require_non_empty_str. rewrite negb_true_iff. intros ->. reflexivity.
Qed.

Lemma set_diff_nil (a b : list string) :
  (forall x, In x a -> In x b) -> set_diff a b = [].
Proof.
  intros H. unfold set_diff. induction a as [|x a IH]; cbn [filter]; [reflexivity|].
  assert (Hx : set_mem x b = true) by (apply set_mem_in, H; left; reflexivity).
  rewrite Hx. cbn [negb]. apply IH. intros y Hy. apply H. right. exact Hy.
Qed.

Lemma set_of_in (l : list string) (x : string) : In x (set_of l) <-> In x l.
Proof. unfold set_of. apply nodup_In. Qed.

Lemma set_eq_complete (a b : list string) :
  (forall x, In x a <-> In x b) -> set_eq a b = true.
Proof.
  intros H. unfold set_eq. rewrite andb_true_iff, !forallb_forall.
  split; intros x Hx; apply set_mem_in, H; exact Hx.
Qed.

Section Complete.
Context (py : Builtins).

Lemma key_set_complete (d : pydict) (required : list string) (path : string) :
  keys d = required -> _validate_key_set py d required path = Ok tt.
Proof.
  intros H. unfold _validate_key_set. rewrite H.
  rewrite (set_diff_nil required (set_of required))
    by (intros x Hx; apply set_of_in; exact Hx).
  rewrite (set_diff_nil (set_of required) required)
    by (intros x Hx; apply set_of_in; exact Hx).
  reflexivity.
Qed.

(** ** The case results *)

Lemma validate_cases_complete (task_path : string) (cs : list CaseResult) :
  forall (idx : nat) (seen : list string) (obs : Z),
    forallb case_measured cs = true ->
    forallb nonblank (map case_id cs) = true ->
    NoDup (map (fun c => strip (case_id c)) cs) ->
    (forall c, In c cs -> ~ In (strip (case_id c)) seen) ->
    validate_cases py task_path (map case_to_dict cs) idx seen obs =
    Ok (obs + Z.of_nat (count_failed cs))%Z.
Proof.
  induction cs as [|c rest IH]; intros idx seen obs Hm Hnb Hnd Hseen.
  - cbn. f_equal. lia.
  - cbn [map forallb] in Hm, Hnb, Hnd. apply andb_true_iff in Hm, Hnb.
    destruct Hm as [Hmc Hm]. destruct Hnb as [Hnbc Hnb].
    inversion Hnd as [|x l Hx Hnd']; subst.
    cbn [map validate_cases].
    change (case_to_dict c) with (PDict (case_dict c)).
    cbn [_require_mapping bind].
    rewrite (key_set_complete (case_dict c) _CASE_KEYS) by reflexivity.
    cbn [bind].
    change (get (case_dict c) "case_id") with (PStr (case_id c)).
    rewrite (require_str_complete _ _ Hnbc). cbn [bind].
    assert (Hfresh : set_mem (strip (case_id c)) seen = false).
    { apply set_mem_not_in. apply Hseen. left. reflexivity. }
    rewrite Hfresh.
    change (get (case_dict c) "duration_ms") with (PFloat (duration_ms c)).
    unfold case_measured in Hmc. apply andb_true_iff in Hmc.
    destruct Hmc as [Hfin Hneg]. apply negb_true_iff in Hneg.
    unfold _require_non_negative_finite_number, _require_finite_number.
    rewrite Hfin. cbn [bind]. rewrite Hneg. cbn [bind].
    change (get (case_dict c) "error") with (opt_str (error c)).
    assert (Hcount : count_failed (c :: rest)
                     = (if failed c then 1 else 0) + count_failed rest).
    { unfold count_failed. cbn [filter]. destruct (failed c); reflexivity. }
    rewrite Hcount. unfold failed.
    assert (Hrest : forall c', In c' rest -> ~ In (strip (case_id c')) (strip (case_id c) :: seen)).
    { intros c' Hc' [Heq|Hin].
      - apply Hx. rewrite Heq. apply (in_map (fun c => strip (case_id c))). exact Hc'.
      - apply (Hseen c'); [right; exact Hc' | exact Hin]. }
    destruct (error c) as [msg|]; cbn [opt_str bind];
      rewrite IH by assumption; f_equal; lia.
Qed.

Lemma collect_case_ids_complete (prefix : string) (cs : list CaseResult) :
  forall (idx : nat) (seen : list string),
    forallb nonblank (map case_id cs) = true ->
    collect_case_ids prefix (map case_to_dict cs) idx seen =
    Ok (rev (map (fun c => strip (case_id c)) cs) ++ seen).
Proof.
  induction cs as [|c rest IH]; intros idx seen Hnb; [reflexivity|].
  cbn [map forallb] in Hnb. apply andb_true_iff in Hnb. destruct Hnb as [Hc Hnb].
  cbn [map collect_case_ids].
  change (case_to_dict c) with (PDict (case_dict c)).
  cbn [_require_mapping bind].
  change (get (case_dict c) "case_id") with (PStr (case_id c)).
  rewrite (require_str_complete _ _ Hc). cbn [bind].
  rewrite IH by exact Hnb. cbn [rev]. rewrite <- app_assoc. reflexivity.
Qed.

(** ** What the runner's invariants give the validator *)

Lemma direction_literal (m d : string) :
  Metrics.metric_direction m = Ok d ->
  nonblank m = true /\ strip m = m /\ strip d = d /\ (d = "higher" \/ d = "lower")%string.
Proof.
  intros H.
  destruct (MetricFacts.in_supported m) as [_ Hin].
  destruct (in_dec string_dec m Schema.SUPPORTED_METRICS) as [Hs|Hs].
  - apply MetricFacts.in_supported in Hs.
    destruct Hs as [->|[->|[->|[->| ->]]]]; inversion H; subst d;
      repeat split; auto.
  - exfalso. clear Hin. apply Hs. apply MetricFacts.in_supported.
    unfold Metrics.metric_direction, Metrics._METRIC_DIRECTIONS in H.
    cbn [dict_get] in H.
    destruct (String.eqb "mae" m) eqn:E1; [apply String.eqb_eq in E1; auto|].
    destruct (String.eqb "rmse" m) eqn:E2; [apply String.eqb_eq in E2; auto|].
    destruct (String.eqb "accuracy" m) eqn:E3; [apply String.eqb_eq in E3; auto|].
    destruct (String.eqb "exact_match" m) eqn:E4; [apply String.eqb_eq in E4; auto 6|].
    destruct (String.eqb "f1" m) eqn:E5; [apply String.eqb_eq in E5; auto 6|].
    discriminate H.
Qed.

Lemma case_ids_of (task : Schema.BenchmarkTask) (cases : list Schema.BenchmarkCase)
  (cs : list CaseResult) :
  Forall2 (case_matches task) cases cs ->
  map case_id cs = map Schema.case_id cases.
Proof.
  induction 1 as [|case c cases cs [Hid _] _ IH]; cbn [map]; [reflexivity|].
  rewrite Hid, IH. reflexivity.
Qed.

Lemma strip_clean_ids (ids : list string) :
  forallb clean ids = true ->
  map strip ids = ids /\ forallb nonblank ids = true.
Proof.
  induction ids as [|x ids IH]; cbn [forallb map]; [auto|].
  rewrite andb_true_iff. intros [Hx Hids]. apply clean_spec in Hx.
  destruct Hx as [Hx Hnb]. destruct (IH Hids) as [IH1 IH2].
  rewrite Hx, IH1, Hnb, IH2. auto.
Qed.

Lemma has_errors_dict (t : TaskResult) :
  ((0 <? Z.of_nat (case_failures t))%Z || is_none (get (task_dict t) "score"))
  = has_errors t.
Proof.
  unfold has_errors, score_is_none.
  change (get (task_dict t) "score") with (opt_float (score t)).
  f_equal.
  - destruct (case_failures t); reflexivity.
  - destruct (score t); reflexivity.
Qed.

(** ** One task result *)

Lemma validate_task_complete (source : string) (index : nat)
  (task : Schema.BenchmarkTask) (t : TaskResult) (acc : task_acc) :
  task_matches task t ->
  task_ids_ok task = true ->
  task_measured t = true ->
  ~ In (Schema.task_id task) (task_ids acc) ->
  validate_task py source index (task_to_dict t) acc = Ok (step_acc acc t).
Proof.
  intros [Hid [Hmet [Hdir [Htot [Hcases [Hfail [Hle Hscore]]]]]]] Hok Hmeas Hfresh.
  unfold task_ids_ok in Hok. apply andb_true_iff in Hok. destruct Hok as [Hok Hdist].
  apply andb_true_iff in Hok. destruct Hok as [Hclean Hcclean].
  apply clean_spec in Hclean. destruct Hclean as [Hstrip Hnb].
  apply strip_clean_ids in Hcclean. destruct Hcclean as [Hcstrip Hcnb].
  apply distinct_NoDup in Hdist.
  unfold task_measured in Hmeas. apply andb_true_iff in Hmeas.
  destruct Hmeas as [Hsfin Hcmeas].
  destruct (direction_literal _ _ Hdir) as [Hmnb [_ [Hdstrip Hdlit]]].
  pose proof (case_ids_of _ _ _ Hcases) as Hcids.
  unfold validate_task.
  change (task_to_dict t) with (PDict (task_dict t)).
  cbn [_require_mapping bind].
  rewrite (key_set_complete (task_dict t) _TASK_KEYS) by reflexivity.
  cbn [bind].
  change (get (task_dict t) "task_id") with (PStr (task_id t)).
  change (get (task_dict t) "metric") with (PStr (metric t)).
  change (get (task_dict t) "direction") with (PStr (direction t)).
  change (get (task_dict t) "cases_total") with (PInt (Z.of_nat (cases_total t))).
  change (get (task_dict t) "case_failures") with (PInt (Z.of_nat (case_failures t))).
  change (get (task_dict t) "case_results")
    with (PList (map case_to_dict (case_results t))).
  rewrite require_str_complete by (rewrite Hid; exact Hnb). cbn [bind].
  assert (Hmem : set_mem (strip (task_id t)) (task_ids acc) = false).
  { apply set_mem_not_in. rewrite Hid, Hstrip. exact Hfresh. }
  rewrite Hmem.
  rewrite require_str_complete by (rewrite Hmet; exact Hmnb). cbn [bind].
  assert (Hdnb : nonblank (direction t) = true).
  { unfold nonblank. rewrite Hdstrip. destruct Hdlit as [-> | ->]; reflexivity. }
  rewrite require_str_complete by exact Hdnb. cbn [bind].
  rewrite Hdstrip.
  assert (Hd : negb (String.eqb (direction t) "higher" || String.eqb (direction t) "lower")
               = false).
  { destruct Hdlit as [-> | ->]; reflexivity. }
  rewrite Hd.
  change (get (task_dict t) "score") with (opt_float (score t)).
  assert (Hsc : forall path, exists o,
            _require_optional_finite_number (opt_float (score t)) path = Ok o).
  { intros path. destruct (score t) as [s|]; cbn [opt_float].
    - unfold _require_optional_finite_number, _require_finite_number.
      rewrite Hsfin. cbn [bind]. eauto.
    - cbn. eauto. }
  match goal with
  | |- context [_require_optional_finite_number _ ?p] => destruct (Hsc p) as [o Hsc']
  end.
  rewrite Hsc'. cbn [bind].
  unfold _require_non_negative_int.
  assert (H0 : forall n, (Z.of_nat n <? 0)%Z = false) by (intros n; apply Z.ltb_ge; lia).
  rewrite !H0. cbn [bind].
  assert (Hlt : (Z.of_nat (cases_total t) <? Z.of_nat (case_failures t))%Z = false)
    by (apply Z.ltb_ge; lia).
  rewrite Hlt. cbn [_require_list bind].
  rewrite length_map.
  assert (Hlen : length (case_results t) = cases_total t).
  { rewrite Htot. symmetry. apply (Forall2_length Hcases). }
  rewrite Hlen, Z.eqb_refl. cbn [negb].
  rewrite validate_cases_complete.
  - cbn [bind]. rewrite Z.add_0_l, <- Hfail, Z.eqb_refl. cbn [negb].
    unfold step_acc. rewrite <- has_errors_dict. reflexivity.
  - exact Hcmeas.
  - rewrite Hcids. exact Hcnb.
  - rewrite <- (map_map case_id strip), Hcids, Hcstrip. exact Hdist.
  - intros c _ [].
Qed.

(** ** All task results *)

Lemma step_acc_ids (ts : list TaskResult) (acc : task_acc) (x : string) :
  In x (task_ids (fold_left step_acc ts acc)) <->
  In x (map (fun t => strip (task_id t)) ts) \/ In x (task_ids acc).
Proof.
  revert acc. induction ts as [|t ts IH]; intros acc; cbn [fold_left map].
  - cbn. tauto.
  - rewrite IH. cbn. tauto.
Qed.

Lemma validate_tasks_complete (source : string) :
  forall (tasks : list Schema.BenchmarkTask) (ts : list TaskResult)
         (index : nat) (acc : task_acc),
    Forall2 task_matches tasks ts ->
    forallb task_ids_ok tasks = true ->
    forallb task_measured ts = true ->
    NoDup (map Schema.task_id tasks) ->
    (forall task, In task tasks -> ~ In (Schema.task_id task) (task_ids acc)) ->
    validate_tasks py source (map task_to_dict ts) index acc =
    Ok (fold_left step_acc ts acc).
Proof.
  intros tasks ts index acc H. revert index acc.
  induction H as [|task t tasks ts Hm Hrest IH]; intros index acc Hok Hmeas Hnd Hfresh.
  - reflexivity.
  - cbn [forallb map] in Hok, Hmeas, Hnd. apply andb_true_iff in Hok, Hmeas.
    destruct Hok as [Hok Hoks]. destruct Hmeas as [Hmeas Hmeass].
    inversion Hnd as [|x l Hx Hnd']; subst.
    cbn [map validate_tasks fold_left].
    rewrite (validate_task_complete source index task t acc Hm Hok Hmeas)
      by (apply Hfresh; left; reflexivity).
    cbn [bind]. apply IH; try assumption.
    intros task' Hin [Heq|Hold].
    + destruct Hm as [Hid _]. rewrite Hid in Heq.
      unfold task_ids_ok in Hok. apply andb_true_iff in Hok. destruct Hok as [Hok _].
      apply andb_true_iff in Hok. destruct Hok as [Hclean _].
      apply clean_spec in Hclean. destruct Hclean as [Hstrip _].
      rewrite Hstrip in Heq. apply Hx. rewrite Heq.
      apply in_map. exact Hin.
    + apply (Hfresh task'); [right; exact Hin | exact Hold].
Qed.

Lemma step_acc_totals (ts : list TaskResult) (acc : task_acc) :
  case_totals_sum (fold_left step_acc ts acc) =
  (case_totals_sum acc + Z.of_nat (sum_of cases_total ts))%Z
  /\ case_failures_sum (fold_left step_acc ts acc) =
     (case_failures_sum acc + Z.of_nat (sum_of case_failures ts))%Z
  /\ tasks_with_errors (fold_left step_acc ts acc) =
     (tasks_with_errors acc + Z.of_nat (length (filter has_errors ts)))%Z.
Proof.
  revert acc. induction ts as [|t ts IH]; intros acc; cbn [fold_left].
  - cbn. repeat split; lia.
  - destruct (IH (step_acc acc t)) as [H1 [H2 H3]]. rewrite H1, H2, H3.
    unfold sum_of. cbn [step_acc case_totals_sum case_failures_sum tasks_with_errors
                        fold_right filter].
    destruct (has_errors t); cbn [length]; repeat split; lia.
Qed.

Lemma step_acc_map_other (ts : list TaskResult) (acc : task_acc) (k : string) :
  ~ In k (map (fun t => strip (task_id t)) ts) ->
  dict_get (task_map (fold_left step_acc ts acc)) k = dict_get (task_map acc) k.
Proof.
  revert acc. induction ts as [|t ts IH]; intros acc Hk; cbn [fold_left]; [reflexivity|].
  cbn [map] in Hk. rewrite IH by (intros H; apply Hk; right; exact H).
  cbn [step_acc task_map]. apply dict_get_set_other.
  intros Heq. apply Hk. left. exact Heq.
Qed.

Lemma step_acc_map_lookup (ts : list TaskResult) (acc : task_acc) (t : TaskResult) :
  In t ts ->
  NoDup (map (fun t => strip (task_id t)) ts) ->
  dict_get (task_map (fold_left step_acc ts acc)) (strip (task_id t)) = Some (task_dict t).
Proof.
  revert acc. induction ts as [|t0 ts IH]; intros acc Hin Hnd; [destruct Hin|].
  cbn [map] in Hnd. inversion Hnd as [|x l Hx Hnd']; subst.
  cbn [fold_left]. destruct Hin as [->|Hin].
  - rewrite step_acc_map_other by exact Hx.
    cbn [step_acc task_map]. apply dict_get_set_same.
  - apply IH; assumption.
Qed.

Lemma keys_dict_set {V : Type} (d : list (string * V)) (k : string) (v : V) (x : string) :
  In x (keys (dict_set d k v)) <-> x = k \/ In x (keys d).
Proof.
  unfold keys. induction d as [|[k0 w] d IH]; cbn [dict_set map fst In].
  - intuition congruence.
  - destruct (String.eqb k0 k) eqn:E.
    + apply String.eqb_eq in E. subst k0. cbn [map fst In]. intuition congruence.
    + cbn [map fst In]. rewrite IH. tauto.
Qed.

Lemma step_acc_map_keys (ts : list TaskResult) (acc : task_acc) (x : string) :
  In x (keys (task_map (fold_left step_acc ts acc))) <->
  In x (map (fun t => strip (task_id t)) ts) \/ In x (keys (task_map acc)).
Proof.
  revert acc. induction ts as [|t ts IH]; intros acc; cbn [fold_left map].
  - cbn. tauto.
  - rewrite IH. cbn [step_acc task_map]. rewrite keys_dict_set. cbn [In].
    intuition congruence.
Qed.

(** ** The alignment with the suite *)

Lemma task_keys_of (tasks : list Schema.BenchmarkTask) (ts : list TaskResult) :
  Forall2 task_matches tasks ts ->
  forallb task_ids_ok tasks = true ->
  map (fun t => strip (task_id t)) ts = map Schema.task_id tasks.
Proof.
  induction 1 as [|task t tasks ts Hm _ IH]; cbn [map forallb]; [reflexivity|].
  rewrite andb_true_iff. intros [Hok Hoks].
  destruct Hm as [Hid _]. unfold task_ids_ok in Hok.
  apply andb_true_iff in Hok. destruct Hok as [Hok _].
  apply andb_true_iff in Hok. destruct Hok as [Hclean _].
  apply clean_spec in Hclean. destruct Hclean as [Hstrip _].
  rewrite Hid, Hstrip, IH by exact Hoks. reflexivity.
Qed.

Lemma align_task_complete (source : string) (task_map_ : list (string * pydict))
  (task : Schema.BenchmarkTask) (t : TaskResult) :
  task_matches task t ->
  task_ids_ok task = true ->
  dict_get task_map_ (Schema.task_id task) = Some (task_dict t) ->
  align_task py source task_map_ task = Ok tt.
Proof.
  intros [Hid [Hmet [Hdir [Htot [Hcases [Hfail [Hle Hscore]]]]]]] Hok Hget.
  unfold task_ids_ok in Hok. apply andb_true_iff in Hok. destruct Hok as [Hok Hdist].
  apply andb_true_iff in Hok. destruct Hok as [_ Hcclean].
  apply strip_clean_ids in Hcclean. destruct Hcclean as [Hcstrip Hcnb].
  destruct (direction_literal _ _ Hdir) as [Hmnb [Hmstrip [Hdstrip Hdlit]]].
  pose proof (case_ids_of _ _ _ Hcases) as Hcids.
  unfold align_task. rewrite Hget. cbn [bind].
  change (get (task_dict t) "metric") with (PStr (metric t)).
  change (get (task_dict t) "direction") with (PStr (direction t)).
  change (get (task_dict t) "cases_total") with (PInt (Z.of_nat (cases_total t))).
  change (get (task_dict t) "case_results")
    with (PList (map case_to_dict (case_results t))).
  rewrite require_str_complete by (rewrite Hmet; exact Hmnb). cbn [bind].
  rewrite Hmet, Hmstrip, String.eqb_refl. cbn [negb].
  assert (Hdnb : nonblank (direction t) = true).
  { unfold nonblank. rewrite Hdstrip. destruct Hdlit as [-> | ->]; reflexivity. }
  rewrite require_str_complete by exact Hdnb. cbn [bind].
  rewrite Hdir. cbn [bind]. rewrite Hdstrip, String.eqb_refl. cbn [negb _require_list bind].
  rewrite collect_case_ids_complete by (rewrite Hcids; exact Hcnb).
  cbn [bind]. rewrite app_nil_r.
  rewrite <- (map_map case_id strip), Hcids, Hcstrip.
  rewrite set_eq_complete.
  - cbn [negb]. unfold _require_non_negative_int.
    assert (H0 : (Z.of_nat (cases_total t) <? 0)%Z = false) by (apply Z.ltb_ge; lia).
    rewrite H0. cbn [bind]. rewrite Htot, Z.eqb_refl. reflexivity.
  - intros x. rewrite !set_of_in, <- in_rev. tauto.
Qed.

Lemma align_tasks_complete (source : string) (task_map_ : list (string * pydict))
  (tasks : list Schema.BenchmarkTask) :
  (forall task, In task tasks -> align_task py source task_map_ task = Ok tt) ->
  align_tasks py source task_map_ tasks = Ok tt.
Proof.
  induction tasks as [|task rest IH]; intros H; [reflexivity|].
  cbn [align_tasks]. rewrite H by (left; reflexivity). cbn [bind].
  apply IH. intros task' Hin. apply H. right. exact Hin.
Qed.

Lemma Forall2_in_l {A B : Type} (R : A -> B -> Prop) (l : list A) (l' : list B) (a : A) :
  Forall2 R l l' -> In a l -> exists b, In b l' /\ R a b.
Proof.
  induction 1 as [|x y l l' Hxy _ IH]; intros Hin; [destruct Hin|].
  destruct Hin as [->|Hin].
  - exists y. split; [left; reflexivity | exact Hxy].
  - destruct (IH Hin) as [b [Hb Hr]]. exists b. split; [right; exact Hb | exact Hr].
Qed.

Lemma alignment_complete (source : string) (suite : Schema.BenchmarkSuite)
  (ts : list TaskResult) :
  Forall2 task_matches (Schema.tasks suite) ts ->
  forallb task_ids_ok (Schema.tasks suite) = true ->
  NoDup (map Schema.task_id (Schema.tasks suite)) ->
  _validate_suite_alignment py suite source (Schema.name suite) (Schema.version suite)
    (task_map (fold_left step_acc ts
                 {| task_ids := []; case_totals_sum := 0; case_failures_sum := 0;
                    tasks_with_errors := 0; task_map := [] |})) = Ok tt.
Proof.
  intros Hm Hok Hnd. unfold _validate_suite_alignment.
  rewrite !String.eqb_refl. cbn [negb].
  pose proof (task_keys_of _ _ Hm Hok) as Hkeys.
  rewrite set_eq_complete.
  - cbn [negb]. apply align_tasks_complete. intros task Hin.
    destruct (Forall2_in_l _ _ _ _ Hm Hin) as [t [Ht Hmt]].
    apply (align_task_complete source _ task t Hmt).
    + rewrite forallb_forall in Hok. apply Hok. exact Hin.
    + assert (Hk : Schema.task_id task = strip (task_id t)).
      { destruct Hmt as [Hid _]. rewrite Hid.
        rewrite forallb_forall in Hok. specialize (Hok task Hin).
        unfold task_ids_ok in Hok. apply andb_true_iff in Hok. destruct Hok as [Hok _].
        apply andb_true_iff in Hok. destruct Hok as [Hclean _].
        apply clean_spec in Hclean. destruct Hclean as [Hstrip _].
        symmetry. exact Hstrip. }
      rewrite Hk. apply step_acc_map_lookup; [exact Ht|].
      rewrite Hkeys. exact Hnd.
  - intros x. rewrite !set_of_in, step_acc_map_keys, Hkeys. cbn. tauto.
Qed.

End Complete.

Lemma record_accepted (py : Builtins) (env : Env) (St : Type)
  (adapter_obj : ModelAdapter St) (suite : Schema.BenchmarkSuite) (st : St)
  (prov : option pydict) (r : BenchmarkRun) (source : string) :
  ids_ok suite = true ->
  clean (Schema.version suite) = true ->
  env_ok env adapter_obj = true ->
  run_benchmark py env adapter_obj suite st prov = Ok r ->
  measured r = true ->
  validate_run_artifact py (to_dict r) source None = Ok (run_dict r)
  /\ validate_run_artifact py (to_dict r) source (Some suite) = Ok (run_dict r).
Proof.
  intros Hids Hver Henv Hrun Hmeas.
  pose proof Hrun as Hfields. unfold run_benchmark in Hfields.
  bind_inv Hfields as out Hout.
  assert (Hrid : run_id r = uuid4_hex env) by (inversion Hfields; reflexivity).
  assert (Hstart : started_at r = now_isoformat env 0) by (inversion Hfields; reflexivity).
  assert (Hfin : finished_at r = now_isoformat env 1) by (inversion Hfields; reflexivity).
  clear Hfields Hout out.
  apply run_benchmark_shape in Hrun.
  destruct Hrun as [Hname [Hversion [Hadapter [Hm Hsum]]]].
  unfold ids_ok in Hids. apply andb_true_iff in Hids. destruct Hids as [Hids Hdist].
  apply andb_true_iff in Hids. destruct Hids as [Hnclean Hok].
  apply distinct_NoDup in Hdist.
  apply clean_spec in Hnclean. destruct Hnclean as [Hnstrip Hnnb].
  apply clean_spec in Hver. destruct Hver as [Hvstrip Hvnb].
  unfold env_ok in Henv. apply andb_true_iff in Henv. destruct Henv as [Henv Hanb].
  apply andb_true_iff in Henv. destruct Henv as [Henv Hfnb].
  apply andb_true_iff in Henv. destruct Henv as [Hunb Hsnb].
  assert (Hcommon : forall s,
    validate_run_artifact py (to_dict r) source s =
    bind (match s with
          | Some s' => _validate_suite_alignment py s' source (strip (suite_name r))
                         (strip (suite_version r))
                         (task_map (fold_left step_acc (task_results r)
                            {| task_ids := []; case_totals_sum := 0;
                               case_failures_sum := 0; tasks_with_errors := 0;
                               task_map := [] |}))
          | None => Ok tt
          end) (fun _ => Ok (run_dict r))).
  { intros s. unfold validate_run_artifact.
    change (to_dict r) with (PDict (run_dict r)).
    cbn [_require_mapping bind].
    rewrite (key_set_complete py (run_dict r) _TOP_LEVEL_KEYS) by reflexivity.
    cbn [bind].
    change (get (run_dict r) "run_id") with (PStr (run_id r)).
    change (get (run_dict r) "suite_name") with (PStr (suite_name r)).
    change (get (run_dict r) "suite_version") with (PStr (suite_version r)).
    change (get (run_dict r) "adapter") with (PStr (adapter r)).
    change (get (run_dict r) "started_at") with (PStr (started_at r)).
    change (get (run_dict r) "finished_at") with (PStr (finished_at r)).
    change (get (run_dict r) "summary") with (PDict (summary r)).
    change (get (run_dict r) "task_results")
      with (PList (map task_to_dict (task_results r))).
    change (get (run_dict r) "provenance") with (PDict (provenance r)).
    rewrite require_str_complete by (rewrite Hrid; exact Hunb). cbn [bind].
    rewrite require_str_complete by (rewrite Hname; exact Hnnb). cbn [bind].
    rewrite require_str_complete by (rewrite Hversion; exact Hvnb). cbn [bind].
    rewrite require_str_complete by (rewrite Hadapter; exact Hanb). cbn [bind].
    rewrite require_str_complete by (rewrite Hstart; exact Hsnb). cbn [bind].
    rewrite require_str_complete by (rewrite Hfin; exact Hfnb). cbn [bind].
    cbn [_require_mapping bind].
    rewrite (key_set_complete py (summary r) _SUMMARY_KEYS) by (rewrite Hsum; reflexivity).
    cbn [bind].
    assert (G1 : get (summary r) "tasks_total" = PInt (Z.of_nat (length (task_results r))))
      by (rewrite Hsum; reflexivity).
    assert (G2 : get (summary r) "tasks_with_errors"
                 = PInt (Z.of_nat (length (filter has_errors (task_results r)))))
      by (rewrite Hsum; reflexivity).
    assert (G3 : get (summary r) "cases_total"
                 = PInt (Z.of_nat (sum_of cases_total (task_results r))))
      by (rewrite Hsum; reflexivity).
    assert (G4 : get (summary r) "case_failures"
                 = PInt (Z.of_nat (sum_of case_failures (task_results r))))
      by (rewrite Hsum; reflexivity).
    assert (G5 : get (summary r) "all_cases_succeeded"
                 = PBool (Nat.eqb (sum_of case_failures (task_results r)) 0))
      by (rewrite Hsum; reflexivity).
    rewrite G1, G2, G3, G4, G5.
    unfold _require_non_negative_int.
    assert (H0 : forall n, (Z.of_nat n <? 0)%Z = false) by (intros n; apply Z.ltb_ge; lia).
    rewrite !H0. cbn [bind _require_bool _require_list _require_mapping].
    rewrite (validate_tasks_complete py source (Schema.tasks suite) (task_results r) 0 _
               Hm Hok Hmeas Hdist) by (intros task _ []).
    cbn [bind]. rewrite length_map, Z.eqb_refl. cbn [negb].
    destruct (step_acc_totals (task_results r)
                {| task_ids := []; case_totals_sum := 0; case_failures_sum := 0;
                   tasks_with_errors := 0; task_map := [] |}) as [H1 [H2 H3]].
    rewrite H1, H2, H3. cbn [case_totals_sum case_failures_sum tasks_with_errors].
    rewrite !Z.add_0_l, !Z.eqb_refl. cbn [negb].
    assert (Hall : Bool.eqb (Nat.eqb (sum_of case_failures (task_results r)) 0)
                     (Z.of_nat (sum_of case_failures (task_results r)) =? 0)%Z = true).
    { destruct (sum_of case_failures (task_results r)); reflexivity. }
    rewrite Hall. cbn [negb]. reflexivity. }
  split.
  - rewrite Hcommon. reflexivity.
  - rewrite Hcommon, Hname, Hversion, Hnstrip, Hvstrip.
    rewrite (alignment_complete py source suite (task_results r) Hm Hok Hdist).
    reflexivity.
Qed.

(** When the suite's name, version and identifiers are clean and the
    identifiers unique (as the loader leaves them), the run identifier,
    the two time stamps and the adapter's name are not blank, and the
    record's scores and durations are finite and the durations not
    negative, the record that [run_benchmark] returns is accepted by
    [validate_run_artifact], alone and against the suite, and comes back
    unchanged. *)
Theorem fresh_record_validates (py : Builtins) (env : Env) (St : Type)
  (adapter_obj : ModelAdapter St) (suite : Schema.BenchmarkSuite) (st : St)
  (prov : option pydict) (r : BenchmarkRun) (source : string) :
  ids_ok suite = true ->
  clean (Schema.version suite) = true ->
  env_ok env adapter_obj = true ->
  run_benchmark py env adapter_obj suite st prov = Ok r ->
  measured r = true ->
  validate_run_artifact py (to_dict r) source None = Ok (run_dict r)
  /\ validate_run_artifact py (to_dict r) source (Some suite) = Ok (run_dict r).
Proof. apply record_accepted. Qed.

Lemma fresh_record_validates_witness :
  exists r,
    run_benchmark Samples.builtins Samples.env Samples.GoldenAdapter
      Samples.test_suite tt None = Ok r
    /\ validate_run_artifact Samples.builtins (to_dict r) "candidate"
         (Some Samples.test_suite) = Ok (run_dict r).
Proof.
  destruct (run_benchmark Samples.builtins Samples.env Samples.GoldenAdapter
              Samples.test_suite tt None) as [r|e] eqn:E; [|vm_compute in E; discriminate E].
  exists r. split; [reflexivity|].
  apply (fresh_record_validates Samples.builtins Samples.env unit Samples.GoldenAdapter
           Samples.test_suite tt None r "candidate").
  - reflexivity.
  - reflexivity.
  - reflexivity.
  - exact E.
  - vm_compute in E. inversion E. vm_compute. reflexivity.
Defined.

End FreshRecord.

(* ===================================================================== *)
(** * What a comparison report holds                                       *)
(* ===================================================================== *)

Module ReportFacts.
Import Py Compare PyFacts.
Local Open Scope list_scope.

Definition has_status (s : string) (c : TaskComparison) : bool := String.eqb (status c) s.

Definition count_with_status (s : string) (cs : list TaskComparison) : nat :=
  length (filter (has_status s) cs).

Definition policy_of (policy_arg : option StatisticalPolicy) : StatisticalPolicy :=
  match policy_arg with None => default_policy | Some p => p end.

(** The summary of a report, from its comparisons. *)
Definition report_summary (p : StatisticalPolicy) (cs : list TaskComparison) : pydict :=
  [ ("tasks_total", PInt (Z.of_nat (length cs)));
    ("regressions", PInt (Z.of_nat (count_with_status "regression" cs)));
    ("uncertain", PInt (Z.of_nat (count_with_status "uncertain" cs)));
    ("passed",
     PBool (Nat.eqb (count_with_status "regression" cs) 0
            && (if fail_on_uncertain p then Nat.eqb (count_with_status "uncertain" cs) 0
                else true))) ].

(** A comparison against the task it was made for. *)
Definition comparison_matches (p : StatisticalPolicy) (task : Schema.BenchmarkTask)
  (c : TaskComparison) : Prop :=
  task_id c = Schema.task_id task
  /\ metric c = Schema.metric task
  /\ Metrics.metric_direction (Schema.metric task) = Ok (direction c)
  /\ tolerance c = Schema.regression_tolerance task
  /\ threshold c = py_max (Schema.regression_tolerance task) (min_effect_size p)
  /\ (status c = "pass" \/ status c = "regression"
      \/ (status c = "uncertain" /\ bootstrap_enabled p = true))%string
  /\ (delta c = None ->
      status c = "regression"%string /\ regression_amount c = None
      /\ ci_low c = None /\ ci_high c = None /\ p_regression c = None
      /\ paired_cases c = 0
      /\ (baseline_score c = None \/ candidate_score c = None))
  /\ (forall d, delta c = Some d ->
      exists bs cs,
        baseline_score c = Some bs /\ candidate_score c = Some cs
        /\ d = (cs - bs)%float
        /\ regression_amount c = Some (signed_regression (direction c) d)).

Section Report.
Context (py : Builtins) (R : RandomImpl) (os_seed : nat -> Z).

Lemma compare_task_matches (p : StatisticalPolicy)
  (baseline_tasks candidate_tasks : list (string * pydict)) (task_index : nat)
  (task : Schema.BenchmarkTask) (c : TaskComparison) :
  compare_task py R os_seed p baseline_tasks candidate_tasks task_index task = Ok c ->
  comparison_matches p task c.
Proof.
  unfold compare_task, comparison_matches. intros H.
  destruct (dict_get baseline_tasks (Schema.task_id task)) as [bt|].
  2:{ bind_inv H as d Hd. bind_inv H as s Hs. inversion H; subst c; clear H.
      cbn. repeat split; auto. discriminate. }
  destruct (dict_get candidate_tasks (Schema.task_id task)) as [ct|].
  2:{ bind_inv H as d Hd. bind_inv H as s Hs. inversion H; subst c; clear H.
      cbn. repeat split; auto. discriminate. }
  bind_inv H as bs Hbs. bind_inv H as cs Hcs.
  destruct bs as [bs|].
  2:{ bind_inv H as d Hd. inversion H; subst c; clear H.
      cbn. repeat split; auto. discriminate. }
  destruct cs as [cs|].
  2:{ bind_inv H as d Hd. inversion H; subst c; clear H.
      cbn. repeat split; auto. discriminate. }
  bind_inv H as d Hd. bind_inv H as verdict Hv.
  destruct verdict as [[[[lo hi] pr] n] outcome].
  inversion H; subst c; clear H. cbn.
  repeat split; auto; try discriminate.
  - destruct (bootstrap_enabled p) eqn:Hb.
    + bind_inv Hv as stats Hstats.
      destruct stats as [[[lo' hi'] pr']|]; inversion Hv; subst; cbn.
      * destruct (_ <=? _)%float; cbn; auto.
        destruct (_ <? lo')%float; cbn; auto.
        destruct (hi' <=? _)%float; cbn; auto.
      * destruct (_ <? _)%float; cbn; auto.
    + inversion Hv; subst. destruct (_ <? _)%float; cbn; auto.
  - intros d' Hd'. inversion Hd'; subst d'. exists bs, cs. auto.
Qed.

Lemma count_status_app (s : string) (a b : list TaskComparison) :
  count_with_status s (a ++ b) = count_with_status s a + count_with_status s b.
Proof. unfold count_with_status. rewrite filter_app, length_app. reflexivity. Qed.

Lemma compare_tasks_steps (p : StatisticalPolicy)
  (baseline_tasks candidate_tasks : list (string * pydict))
  (tasks : list Schema.BenchmarkTask) :
  forall (task_index : nat) (acc out : compare_loop),
    compare_tasks py R os_seed p baseline_tasks candidate_tasks task_index tasks acc
    = Ok out ->
    exists cs,
      comparisons out = comparisons acc ++ cs
      /\ Forall2 (comparison_matches p) tasks cs
      /\ regressions out = regressions acc + count_with_status "regression" cs
      /\ uncertain out = uncertain acc + count_with_status "uncertain" cs.
Proof.
  induction tasks as [|task rest IH]; intros task_index acc out H; cbn [compare_tasks] in H.
  - inversion H; subst out. exists []. cbn. rewrite app_nil_r.
    repeat split; try lia. constructor.
  - bind_inv H as c Hc. apply compare_task_matches in Hc.
    apply IH in H. destruct H as [cs [Hcmp [Hm [Hr Hu]]]].
    exists (c :: cs). cbn [Compare.count_status comparisons regressions uncertain] in *.
    rewrite Hcmp, <- app_assoc. split; [reflexivity|].
    split; [constructor; assumption|].
    change (c :: cs) with ([c] ++ cs). rewrite !count_status_app.
    unfold count_with_status at 1 3. unfold has_status. cbn [filter].
    rewrite Hr, Hu.
    destruct Hc as [_ [_ [_ [_ [_ [Hst _]]]]]].
    destruct Hst as [-> | [-> | [-> _]]]; cbn; split; lia.
Qed.

Lemma compare_runs_shape (suite : Schema.BenchmarkSuite)
  (baseline_run candidate_run : pydict) (policy_arg : option StatisticalPolicy)
  (report : ComparisonReport) :
  compare_runs py R os_seed suite baseline_run candidate_run policy_arg = Ok report ->
  suite_name report = Schema.name suite
  /\ suite_version report = Schema.version suite
  /\ Forall2 (comparison_matches (policy_of policy_arg)) (Schema.tasks suite)
       (task_comparisons report)
  /\ summary report = report_summary (policy_of policy_arg) (task_comparisons report).
Proof.
  unfold compare_runs. fold (policy_of policy_arg). intros H.
  bind_inv H as out Hout. apply compare_tasks_steps in Hout.
  destruct Hout as [cs [Hcmp [Hm [Hr Hu]]]].
  cbn [comparisons regressions uncertain app Nat.add] in Hcmp, Hr, Hu.
  inversion H; subst report; clear H.
  cbn [suite_name suite_version task_comparisons summary].
  rewrite Hcmp, Hr, Hu. repeat split; assumption.
Qed.

End Report.

(** A report that [compare_runs] returns has one comparison per task of
    the suite, in the suite's order, with the task's identifier, metric,
    direction and tolerance and the threshold [max(tolerance,
    min_effect_size)]; its status is ['pass'], ['regression'] or, only
    with bootstrap enabled, ['uncertain']; a comparison without a delta
    is a regression with a score missing and every statistic null, one
    with a delta has both scores, [delta = candidate - baseline] and the
    regression amount signed by the direction; and the summary counts
    the comparisons by status, [passed] being true exactly when none is
    a regression and, under [fail_on_uncertain], none is uncertain. *)
Theorem report_mirrors_suite (py : Builtins) (R : RandomImpl) (os_seed : nat -> Z)
  (suite : Schema.BenchmarkSuite) (baseline_run candidate_run : pydict)
  (policy_arg : option StatisticalPolicy) (report : ComparisonReport) :
  compare_runs py R os_seed suite baseline_run candidate_run policy_arg = Ok report ->
  suite_name report = Schema.name suite
  /\ suite_version report = Schema.version suite
  /\ Forall2 (comparison_matches (policy_of policy_arg)) (Schema.tasks suite)
       (task_comparisons report)
  /\ summary report = report_summary (policy_of policy_arg) (task_comparisons report).
Proof. apply compare_runs_shape. Qed.

Lemma report_mirrors_suite_witness :
  exists report,
    compare_runs Samples.builtins Samples.lcg (fun _ => 0%Z) Samples.test_suite
      Fixtures.golden_record Fixtures.shifted_record (Some Fixtures.seeded_policy)
    = Ok report
    /\ Forall2 (comparison_matches Fixtures.seeded_policy)
         (Schema.tasks Samples.test_suite) (task_comparisons report)
    /\ summary report = report_summary Fixtures.seeded_policy (task_comparisons report).
Proof.
  destruct (compare_runs Samples.builtins Samples.lcg (fun _ => 0%Z) Samples.test_suite
              Fixtures.golden_record Fixtures.shifted_record
              (Some Fixtures.seeded_policy)) as [report|e] eqn:E;
    [|vm_compute in E; discriminate E].
  exists report. split; [reflexivity|].
  apply (report_mirrors_suite Samples.builtins Samples.lcg (fun _ => 0%Z)
           Samples.test_suite Fixtures.golden_record Fixtures.shifted_record
           (Some Fixtures.seeded_policy) report) in E.
  split; apply E.
Defined.

(** ** Without bootstrap *)

Section NoBootstrap.
Context (py : Builtins).

Lemma compare_task_no_rng (R R' : RandomImpl) (os_seed os_seed' : nat -> Z)
  (p : StatisticalPolicy) (baseline_tasks candidate_tasks : list (string * pydict))
  (task_index : nat) (task : Schema.BenchmarkTask) :
  bootstrap_enabled p = false ->
  compare_task py R os_seed p baseline_tasks candidate_tasks task_index task =
  compare_task py R' os_seed' p baseline_tasks candidate_tasks task_index task.
Proof.
  intros Hb. unfold compare_task. rewrite Hb. reflexivity.
Qed.

Lemma compare_tasks_no_rng (R R' : RandomImpl) (os_seed os_seed' : nat -> Z)
  (p : StatisticalPolicy) (baseline_tasks candidate_tasks : list (string * pydict))
  (tasks : list Schema.BenchmarkTask) :
  bootstrap_enabled p = false ->
  forall (task_index : nat) (acc : compare_loop),
    compare_tasks py R os_seed p baseline_tasks candidate_tasks task_index tasks acc =
    compare_tasks py R' os_seed' p baseline_tasks candidate_tasks task_index tasks acc.
Proof.
  intros Hb. induction tasks as [|task rest IH]; intros task_index acc; [reflexivity|].
  cbn [compare_tasks].
  rewrite (compare_task_no_rng R R' os_seed os_seed' p _ _ task_index task Hb).
  destruct (compare_task py R' os_seed' p baseline_tasks candidate_tasks task_index task);
    cbn [bind]; [apply IH | reflexivity].
Qed.

Lemma compare_task_point (R : RandomImpl) (os_seed : nat -> Z)
  (p : StatisticalPolicy) (baseline_tasks candidate_tasks : list (string * pydict))
  (task_index : nat) (task : Schema.BenchmarkTask) (c : TaskComparison) :
  bootstrap_enabled p = false ->
  compare_task py R os_seed p baseline_tasks candidate_tasks task_index task = Ok c ->
  ci_low c = None /\ ci_high c = None /\ p_regression c = None /\ paired_cases c = 0
  /\ forall a, regression_amount c = Some a ->
       status c = if (threshold c <? a)%float then "regression"%string else "pass"%string.
Proof.
  intros Hb. unfold compare_task. rewrite Hb. intros H.
  destruct (dict_get baseline_tasks (Schema.task_id task)) as [bt|].
  2:{ bind_inv H as d Hd. bind_inv H as s Hs. inversion H; subst c; clear H.
      cbn. repeat split; auto. discriminate. }
  destruct (dict_get candidate_tasks (Schema.task_id task)) as [ct|].
  2:{ bind_inv H as d Hd. bind_inv H as s Hs. inversion H; subst c; clear H.
      cbn. repeat split; auto. discriminate. }
  bind_inv H as bs Hbs. bind_inv H as cs Hcs.
  destruct bs as [bs|].
  2:{ bind_inv H as d Hd. inversion H; subst c; clear H.
      cbn. repeat split; auto. discriminate. }
  destruct cs as [cs|].
  2:{ bind_inv H as d Hd. inversion H; subst c; clear H.
      cbn. repeat split; auto. discriminate. }
  bind_inv H as d Hd. cbn [bind] in H. inversion H; subst c; clear H. cbn.
  repeat split; auto. intros a Ha. inversion Ha; subst a.
  destruct (_ <? _)%float; reflexivity.
Qed.

End NoBootstrap.

(** With bootstrap disabled ([bootstrap_resamples <= 0], the default),
    [compare_runs] consults no random generator: its result is the same
    for every generator and every operating-system seed. Each comparison
    of a returned report has no confidence interval, no [p_regression]
    and no paired cases, and when both scores are present its status is
    ['regression'] if the regression amount exceeds the threshold and
    ['pass'] otherwise. *)
Theorem point_comparison_without_bootstrap (py : Builtins)
  (suite : Schema.BenchmarkSuite) (baseline_run candidate_run : pydict)
  (policy_arg : option StatisticalPolicy) :
  bootstrap_enabled (policy_of policy_arg) = false ->
  (forall (R R' : RandomImpl) (os_seed os_seed' : nat -> Z),
      compare_runs py R os_seed suite baseline_run candidate_run policy_arg =
      compare_runs py R' os_seed' suite baseline_run candidate_run policy_arg)
  /\ (forall (R : RandomImpl) (os_seed : nat -> Z) (report : ComparisonReport),
         compare_runs py R os_seed suite baseline_run candidate_run policy_arg
         = Ok report ->
         Forall (fun c =>
                   ci_low c = None /\ ci_high c = None /\ p_regression c = None
                   /\ paired_cases c = 0
                   /\ forall a, regression_amount c = Some a ->
                        status c = if (threshold c <? a)%float
                                   then "regression"%string else "pass"%string)
                (task_comparisons report)).
Proof.
  intros Hb. split.
  - intros R R' os_seed os_seed'. unfold compare_runs. fold (policy_of policy_arg).
    rewrite (compare_tasks_no_rng py R R' os_seed os_seed' _ _ _ _ Hb). reflexivity.
  - intros R os_seed report H. unfold compare_runs in H. fold (policy_of policy_arg) in H.
    bind_inv H as out Hout. inversion H; subst report; clear H.
    cbn [task_comparisons].
    assert (G : forall tasks idx acc out',
               compare_tasks py R os_seed (policy_of policy_arg) (_task_map baseline_run)
                 (_task_map candidate_run) idx tasks acc = Ok out' ->
               Forall (fun c =>
                   ci_low c = None /\ ci_high c = None /\ p_regression c = None
                   /\ paired_cases c = 0
                   /\ forall a, regression_amount c = Some a ->
                        status c = if (threshold c <? a)%float
                                   then "regression"%string else "pass"%string)
                 (comparisons acc) ->
               Forall (fun c =>
                   ci_low c = None /\ ci_high c = None /\ p_regression c = None
                   /\ paired_cases c = 0
                   /\ forall a, regression_amount c = Some a ->
                        status c = if (threshold c <? a)%float
                                   then "regression"%string else "pass"%string)
                 (comparisons out')).
    { induction tasks as [|task rest IH]; intros idx acc out' H Hacc; cbn [compare_tasks] in H.
      - inversion H; subst. exact Hacc.
      - bind_inv H as c Hc. apply IH in H; [exact H|].
        cbn [Compare.count_status comparisons]. apply Forall_app. split; [exact Hacc|].
        constructor; [|constructor].
        apply (compare_task_point py R os_seed _ _ _ _ _ _ Hb Hc). }
    apply (G _ _ _ _ Hout). constructor.
Qed.

Lemma point_comparison_without_bootstrap_witness :
  compare_runs Samples.builtins Samples.lcg (fun _ => 0%Z) Samples.test_suite
    Fixtures.golden_record Fixtures.shifted_record None =
  compare_runs Samples.builtins Samples.lcg (fun k => Z.of_nat k) Samples.test_suite
    Fixtures.golden_record Fixtures.shifted_record None.
Proof.
  apply (proj1 (point_comparison_without_bootstrap Samples.builtins Samples.test_suite
                  Fixtures.golden_record Fixtures.shifted_record None eq_refl)).
Defined.

End ReportFacts.

(* ===================================================================== *)
(** * Comparing a record with itself, and comparing validated records      *)
(* ===================================================================== *)

Module CompareFacts.
Import Py Compare PyFacts ReportFacts.
Local Open Scope list_scope.

(** ** [_task_map] and [_case_map] *)

(** The entry of [raw] that a lookup of [id] finds: the last dictionary
    whose [id_key] holds the string [id]. *)
Definition names (id_key id : string) (item : pyval) : option pydict :=
  match item with
  | PDict d => match get d id_key with
               | PStr s => if String.eqb s id then Some d else None
               | _ => None
               end
  | _ => None
  end.

Definition last_named (id_key id : string) (raw : list pyval) (start : option pydict)
  : option pydict :=
  fold_left (fun found item =>
               match names id_key id item with Some d => Some d | None => found end)
            raw start.

Lemma index_by_lookup (id_key : string) (raw : list pyval) :
  forall (acc : list (string * pydict)) (id : string),
    dict_get (index_by id_key raw acc) id = last_named id_key id raw (dict_get acc id).
Proof.
  unfold last_named.
  induction raw as [|item rest IH]; intros acc id; cbn [index_by fold_left]; [reflexivity|].
  destruct item as [| | | | |l|d]; cbn [names]; try apply IH.
  destruct (get d id_key) as [| | | |s| |]; try apply IH.
  rewrite IH. f_equal.
  destruct (String.eqb s id) eqn:E.
  - apply String.eqb_eq in E. subst s. apply dict_get_set_same.
  - apply String.eqb_neq in E. apply dict_get_set_other. exact E.
Qed.

Lemma last_named_in (id_key id : string) (raw : list pyval) :
  forall (start : option pydict) (d : pydict),
    last_named id_key id raw start = Some d ->
    start = Some d \/ (In (PDict d) raw /\ get d id_key = PStr id).
Proof.
  unfold last_named.
  induction raw as [|item rest IH]; intros start d H; cbn [fold_left] in H; [auto|].
  apply IH in H. destruct H as [H|[H1 H2]]; [|right; split; [right|]; assumption].
  destruct (names id_key id item) as [d'|] eqn:E; [|auto].
  inversion H; subst d'. right.
  unfold names in E. destruct item; try discriminate.
  destruct (get l id_key) eqn:G; try discriminate.
  destruct (String.eqb s id) eqn:Es; [|discriminate].
  apply String.eqb_eq in Es. inversion E; subst. split; [left; reflexivity | exact G].
Qed.

Lemma task_map_in (run : pydict) (id : string) (d : pydict) :
  dict_get (_task_map run) id = Some d ->
  exists raw, get run "task_results" = PList raw /\ In (PDict d) raw
              /\ get d "task_id" = PStr id.
Proof.
  unfold _task_map, get. destruct (dict_get run "task_results") as [v|]; [|discriminate].
  destruct v; try discriminate. intros H. rewrite index_by_lookup in H.
  apply last_named_in in H. destruct H as [H|[H1 H2]]; [discriminate|].
  eexists. split; [reflexivity|]. split; assumption.
Qed.

(** ** A record against itself *)

(** The record holds, for the task, an entry whose score is a finite
    number. *)
Definition scored (py : Builtins) (run : pydict) (task : Schema.BenchmarkTask) : Prop :=
  exists (d : pydict) (s : float),
    dict_get (_task_map run) (Schema.task_id task) = Some d
    /\ _extract_score py (Some d) = Ok (Some s)
    /\ is_finite s = true.

Definition comparable (py : Builtins) (run : pydict) (task : Schema.BenchmarkTask) : Prop :=
  In (Schema.metric task) Schema.SUPPORTED_METRICS
  /\ is_nan (Schema.regression_tolerance task) = false
  /\ scored py run task.

Definition unchanged (c : TaskComparison) : Prop :=
  status c = "pass"%string
  /\ exists d, delta c = Some d /\ (d =? 0)%float = true.

Section Self.
Context (py : Builtins) (R : RandomImpl) (os_seed : nat -> Z).

Lemma zero_eqb (d : float) (s : bool) : Prim2SF d = S754_zero s -> (d =? 0)%float = true.
Proof. intros H. rewrite eqb_spec, H. destruct s; reflexivity. Qed.

Lemma signed_zero (direction_ : string) (d : float) :
  Prim2SF d = S754_zero false ->
  exists s, Prim2SF (signed_regression direction_ d) = S754_zero s.
Proof.
  intros H. unfold signed_regression. destruct (String.eqb direction_ "lower").
  - exists false. exact H.
  - exists true. apply (FloatFacts.opp_zero d false H).
Qed.

Lemma compare_task_self (p : StatisticalPolicy) (run : pydict) (task_index : nat)
  (task : Schema.BenchmarkTask) :
  (0 <=? min_effect_size p)%float = true ->
  comparable py run task ->
  (forall c, compare_task py R os_seed p (_task_map run) (_task_map run) task_index task
             = Ok c -> unchanged c)
  /\ (bootstrap_enabled p = false ->
      exists c, compare_task py R os_seed p (_task_map run) (_task_map run) task_index task
                = Ok c).
Proof.
  intros Hmes [Hsup [Hnan [d [s [Hget [Hscore Hfin]]]]]].
  destruct (MetricFacts.supported_direction (Schema.metric task) Hsup)
    as [dir [Hdir _]].
  pose proof (FloatFacts.sub_self s Hfin) as Hdelta.
  destruct (signed_zero dir _ Hdelta) as [sg Hamount].
  pose proof (FloatFacts.max_nonneg _ _ Hnan Hmes) as Hthr.
  fold (py_max (Schema.regression_tolerance task) (min_effect_size p)) in Hthr.
  destruct (FloatFacts.leb_zero_nonneg _ _ sg Hamount Hthr) as [Hle Hlt].
  unfold compare_task. rewrite Hget, Hscore. cbn [bind]. rewrite Hdir. cbn [bind].
  rewrite Hlt, Hle.
  split.
  - intros c H. bind_inv H as verdict Hv.
    destruct verdict as [[[[lo hi] pr] n] outcome].
    inversion H; subst c; clear H. unfold unchanged. cbn.
    split; [|exists (s - s)%float; split; [reflexivity | apply (zero_eqb _ _ Hdelta)]].
    destruct (bootstrap_enabled p).
    + bind_inv Hv as stats Hstats.
      destruct stats as [[[lo' hi'] pr']|]; inversion Hv; reflexivity.
    + inversion Hv. reflexivity.
  - intros Hb. rewrite Hb. cbn [bind]. eauto.
Qed.

Lemma compare_tasks_self (p : StatisticalPolicy) (run : pydict)
  (tasks : list Schema.BenchmarkTask) :
  (0 <=? min_effect_size p)%float = true ->
  Forall (comparable py run) tasks ->
  forall (task_index : nat) (acc : compare_loop),
    (forall out,
        compare_tasks py R os_seed p (_task_map run) (_task_map run) task_index tasks acc
        = Ok out ->
        exists cs, comparisons out = comparisons acc ++ cs /\ Forall unchanged cs
                   /\ regressions out = regressions acc /\ uncertain out = uncertain acc)
    /\ (bootstrap_enabled p = false ->
        exists out,
          compare_tasks py R os_seed p (_task_map run) (_task_map run) task_index tasks acc
          = Ok out).
Proof.
  intros Hmes Hall. induction Hall as [|task rest Htask Hrest IH]; intros task_index acc.
  - cbn [compare_tasks]. split; [|eauto].
    intros out H. inversion H; subst. exists []. rewrite app_nil_r. auto.
  - cbn [compare_tasks].
    destruct (compare_task_self p run task_index task Hmes Htask) as [Hun Hex].
    split.
    + intros out H. bind_inv H as c Hc. specialize (Hun c Hc).
      apply (proj1 (IH _ _)) in H. destruct H as [cs [Hcmp [Hcs [Hr Hu]]]].
      exists (c :: cs). cbn [Compare.count_status comparisons regressions uncertain] in *.
      rewrite Hcmp, <- app_assoc, Hr, Hu.
      destruct Hun as [Hst Hd]. rewrite Hst. cbn.
      repeat split; try reflexivity. constructor; [split; assumption | exact Hcs].
    + intros Hb. destruct (Hex Hb) as [c Hc]. rewrite Hc. cbn [bind].
      apply (proj2 (IH _ _) Hb).
Qed.

End Self.

(** Comparing a record with itself. When the policy's [min_effect_size]
    is at least 0 and, for every task of the suite, the metric is
    supported, the tolerance is not NaN and the record holds a finite
    score, every report that [compare_runs] returns for the record
    against itself passes: each comparison has status ['pass'] and a
    delta equal to 0, and the summary counts no regression and nothing
    uncertain. With bootstrap disabled a report is returned. *)
Theorem self_comparison_passes (py : Builtins) (R : RandomImpl) (os_seed : nat -> Z)
  (suite : Schema.BenchmarkSuite) (run : pydict)
  (policy_arg : option StatisticalPolicy) :
  (0 <=? min_effect_size (policy_of policy_arg))%float = true ->
  Forall (comparable py run) (Schema.tasks suite) ->
  (forall report,
      compare_runs py R os_seed suite run run policy_arg = Ok report ->
      Forall unchanged (task_comparisons report)
      /\ get (summary report) "regressions" = PInt 0
      /\ get (summary report) "uncertain" = PInt 0
      /\ get (summary report) "passed" = PBool true)
  /\ (bootstrap_enabled (policy_of policy_arg) = false ->
      exists report, compare_runs py R os_seed suite run run policy_arg = Ok report).
Proof.
  intros Hmes Hall.
  destruct (compare_tasks_self py R os_seed (policy_of policy_arg) run (Schema.tasks suite)
              Hmes Hall 0 {| comparisons := []; regressions := 0; uncertain := 0 |})
    as [Hun Hex].
  unfold compare_runs. fold (policy_of policy_arg). split.
  - intros report H. bind_inv H as out Hout.
    destruct (Hun out Hout) as [cs [Hcmp [Hcs [Hr Hu]]]].
    cbn [comparisons regressions uncertain app] in Hcmp, Hr, Hu.
    inversion H; subst report; clear H. cbn [task_comparisons summary].
    rewrite Hcmp, Hr, Hu. split; [exact Hcs|].
    repeat split. cbn. destruct (fail_on_uncertain (policy_of policy_arg)); reflexivity.
  - intros Hb. destruct (Hex Hb) as [out Hout]. rewrite Hout. cbn [bind]. eauto.
Qed.

Lemma golden_comparable :
  Forall (comparable Samples.builtins Fixtures.golden_record)
    (Schema.tasks Samples.test_suite).
Proof.
  repeat constructor; cbn; auto 6;
    eexists; eexists; (split; [vm_compute; reflexivity|]);
    (split; [vm_compute; reflexivity | vm_compute; reflexivity]).
Qed.

Lemma self_comparison_passes_witness :
  exists report,
    compare_runs Samples.builtins Samples.lcg (fun _ => 0%Z) Samples.test_suite
      Fixtures.golden_record Fixtures.golden_record None = Ok report
    /\ get (summary report) "passed" = PBool true.
Proof.
  destruct (self_comparison_passes Samples.builtins Samples.lcg (fun _ => 0%Z)
              Samples.test_suite Fixtures.golden_record None eq_refl golden_comparable)
    as [Hpass Hex].
  destruct (Hex eq_refl) as [report Hreport].
  exists report. split; [exact Hreport|]. apply (Hpass report Hreport).
Defined.

End CompareFacts.

(* ===================================================================== *)
(** * Validated records can be compared                                    *)
(* ===================================================================== *)

Module ValidatedCompare.
Import Py Compare PyFacts ReportFacts CompareFacts.
Local Open Scope list_scope.

(** The score of a task entry is null or a number that [float()] takes. *)
Definition score_readable (py : Builtins) (item : pyval) : Prop :=
  exists d, item = PDict d
            /\ exists o, _extract_score py (Some d) = Ok o
                         /\ (o = None <-> get d "score" = PNone).

Definition readable (py : Builtins) (tasks : list (string * pydict)) : Prop :=
  forall id d, dict_get tasks id = Some d -> score_readable py (PDict d).

Section Validated.
Context (py : Builtins).

Lemma finite_number_readable (d : pydict) (path : string) (o : option float) :
  RunArtifact._require_optional_finite_number (get d "score") path = Ok o ->
  score_readable py (PDict d).
Proof.
  intros H. exists d. split; [reflexivity|].
  unfold _extract_score.
  unfold RunArtifact._require_optional_finite_number,
    RunArtifact._require_finite_number in H.
  destruct (get d "score") as [|b|z|f|s|l|m] eqn:G; cbn [bind] in H; try discriminate.
  - exists None. tauto.
  - cbn [py_float]. destruct (is_infinity (Z2float z)); [discriminate|].
    eexists. split; [reflexivity|]. split; discriminate.
  - cbn [py_float]. eexists. split; [reflexivity|]. split; discriminate.
Qed.

Lemma validate_task_readable (source : string) (index : nat) (task_item : pyval)
  (acc acc' : RunArtifact.task_acc) :
  RunArtifact.validate_task py source index task_item acc = Ok acc' ->
  score_readable py task_item.
Proof.
  unfold RunArtifact.validate_task. intros H.
  bind_inv H as task Htask. apply ArtifactSpec.require_mapping_ok in Htask. subst task_item.
  bind_inv H as u Hu. bind_inv H as tid Htid.
  destruct (set_mem tid (RunArtifact.task_ids acc)); [discriminate|].
  bind_inv H as m Hm. bind_inv H as dir Hdir.
  destruct (negb (String.eqb dir "higher" || String.eqb dir "lower")); [discriminate|].
  bind_inv H as o Ho.
  apply (finite_number_readable _ _ _ Ho).
Qed.

Lemma validate_tasks_readable (source : string) (tasks : list pyval) :
  forall (index : nat) (acc acc' : RunArtifact.task_acc),
    RunArtifact.validate_tasks py source tasks index acc = Ok acc' ->
    Forall (score_readable py) tasks.
Proof.
  induction tasks as [|t rest IH]; intros index acc acc' H;
    cbn [RunArtifact.validate_tasks] in H; [constructor|].
  bind_inv H as a Ha. constructor.
  - apply (validate_task_readable _ _ _ _ _ Ha).
  - apply (IH _ _ _ H).
Qed.

Lemma validated_readable (payload : pyval) (source : string)
  (suite : option Schema.BenchmarkSuite) (v : pydict) :
  RunArtifact.validate_run_artifact py payload source suite = Ok v ->
  readable py (_task_map v).
Proof.
  unfold RunArtifact.validate_run_artifact. intros H.
  bind_inv H as run Hrun. bind_inv H as u1 H1. bind_inv H as s1 Hs1.
  bind_inv H as s2 Hs2. bind_inv H as s3 Hs3. bind_inv H as s4 Hs4.
  bind_inv H as s5 Hs5. bind_inv H as s6 Hs6. bind_inv H as summary Hsummary.
  bind_inv H as u2 H2. bind_inv H as n1 Hn1. bind_inv H as n2 Hn2.
  bind_inv H as n3 Hn3. bind_inv H as n4 Hn4. bind_inv H as b Hb.
  bind_inv H as raw Hraw. bind_inv H as prov Hprov. bind_inv H as acc Hacc.
  apply validate_tasks_readable in Hacc.
  destruct (negb (n1 =? Z.of_nat (length raw))%Z); [discriminate|].
  destruct (negb (n3 =? RunArtifact.case_totals_sum acc)%Z); [discriminate|].
  destruct (negb (n4 =? RunArtifact.case_failures_sum acc)%Z); [discriminate|].
  destruct (negb (n2 =? RunArtifact.tasks_with_errors acc)%Z); [discriminate|].
  destruct (negb (Bool.eqb b (n4 =? 0)%Z)); [discriminate|].
  bind_inv H as u3 H3. inversion H; subst v; clear H.
  intros id d Hget. apply task_map_in in Hget.
  destruct Hget as [raw' [Hraw' [Hin _]]].
  change (get _ "task_results") with (PList raw) in Hraw'.
  inversion Hraw'; subst raw'.
  rewrite Forall_forall in Hacc. apply Hacc. exact Hin.
Qed.

Lemma extract_readable (tasks : list (string * pydict)) (id : string) :
  readable py tasks ->
  exists o, _extract_score py (dict_get tasks id) = Ok o.
Proof.
  intros Hr. destruct (dict_get tasks id) as [d|] eqn:E.
  - destruct (Hr id d E) as [d' [Hd [o [Ho _]]]]. inversion Hd; subst d'. eauto.
  - cbn. eauto.
Qed.

Lemma compare_task_total (R : RandomImpl) (os_seed : nat -> Z) (p : StatisticalPolicy)
  (baseline_tasks candidate_tasks : list (string * pydict)) (task_index : nat)
  (task : Schema.BenchmarkTask) :
  readable py baseline_tasks -> readable py candidate_tasks ->
  In (Schema.metric task) Schema.SUPPORTED_METRICS ->
  bootstrap_enabled p = false ->
  exists c,
    compare_task py R os_seed p baseline_tasks candidate_tasks task_index task = Ok c.
Proof.
  intros Hb Hc Hsup Hoff.
  destruct (MetricFacts.supported_direction _ Hsup) as [dir [Hdir _]].
  destruct (extract_readable baseline_tasks (Schema.task_id task) Hb) as [bs Hbs].
  destruct (extract_readable candidate_tasks (Schema.task_id task) Hc) as [cs Hcs].
  unfold compare_task. rewrite Hoff, Hdir.
  destruct (dict_get baseline_tasks (Schema.task_id task)) as [bt|].
  - destruct (dict_get candidate_tasks (Schema.task_id task)) as [ct|].
    + rewrite Hbs, Hcs. cbn [bind].
      destruct bs, cs; cbn [bind]; eauto.
    + rewrite Hbs. cbn [bind]. eauto.
  - rewrite Hcs. cbn [bind]. eauto.
Qed.

Lemma compare_tasks_total (R : RandomImpl) (os_seed : nat -> Z) (p : StatisticalPolicy)
  (baseline_tasks candidate_tasks : list (string * pydict))
  (tasks : list Schema.BenchmarkTask) :
  readable py baseline_tasks -> readable py candidate_tasks ->
  Forall (fun task => In (Schema.metric task) Schema.SUPPORTED_METRICS) tasks ->
  bootstrap_enabled p = false ->
  forall (task_index : nat) (acc : compare_loop),
  exists out,
    compare_tasks py R os_seed p baseline_tasks candidate_tasks task_index tasks acc
    = Ok out.
Proof.
  intros Hb Hc Hall Hoff.
  induction Hall as [|task rest Htask _ IH]; intros task_index acc; cbn [compare_tasks].
  - eauto.
  - destruct (compare_task_total R os_seed p _ _ task_index task Hb Hc Htask Hoff)
      as [c Hcmp].
    rewrite Hcmp. cbn [bind]. apply IH.
Qed.

End Validated.

(** Two records that [validate_run_artifact] accepted can always be
    compared point by point: for a suite of supported metrics and with
    bootstrap disabled, [compare_runs] returns a report and does not
    raise, since every score the validator let through is null or a
    number that [float()] converts. *)
Theorem validated_records_compare (py : Builtins) (R : RandomImpl) (os_seed : nat -> Z)
  (suite : Schema.BenchmarkSuite) (baseline candidate : pyval)
  (baseline_source candidate_source : string)
  (checked_against : option Schema.BenchmarkSuite)
  (baseline_run candidate_run : pydict) (policy_arg : option StatisticalPolicy) :
  RunArtifact.validate_run_artifact py baseline baseline_source checked_against
  = Ok baseline_run ->
  RunArtifact.validate_run_artifact py candidate candidate_source checked_against
  = Ok candidate_run ->
  Forall (fun task => In (Schema.metric task) Schema.SUPPORTED_METRICS)
    (Schema.tasks suite) ->
  bootstrap_enabled (policy_of policy_arg) = false ->
  exists report,
    compare_runs py R os_seed suite baseline_run candidate_run policy_arg = Ok report.
Proof.
  intros Hb Hc Hall Hoff.
  apply validated_readable in Hb. apply validated_readable in Hc.
  unfold compare_runs. fold (policy_of policy_arg).
  destruct (compare_tasks_total py R os_seed (policy_of policy_arg) _ _ _ Hb Hc Hall Hoff 0
              {| comparisons := []; regressions := 0; uncertain := 0 |}) as [out Hout].
  rewrite Hout. cbn [bind]. eauto.
Qed.

Lemma validated_records_compare_witness :
  exists report,
    compare_runs Samples.builtins Samples.lcg (fun _ => 0%Z) Samples.test_suite
      Fixtures.golden_record Fixtures.failing_record None = Ok report.
Proof.
  apply (validated_records_compare Samples.builtins Samples.lcg (fun _ => 0%Z)
           Samples.test_suite (PDict Fixtures.golden_record) (PDict Fixtures.failing_record)
           "baseline" "candidate" (Some Samples.test_suite)
           Fixtures.golden_record Fixtures.failing_record None).
  - vm_compute. reflexivity.
  - vm_compute. reflexivity.
  - repeat (apply Forall_cons || apply Forall_nil); cbn; auto 6.
  - reflexivity.
Defined.

End ValidatedCompare.

(* ===================================================================== *)
(** * Looking up tasks and pairing cases                                   *)
(* ===================================================================== *)

Module PairingFacts.
Import Py Compare PyFacts CompareFacts.
Local Open Scope list_scope.

Lemma keys_set_absent {V : Type} (d : list (string * V)) (k : string) (v : V) :
  ~ In k (keys d) -> keys (dict_set d k v) = keys d ++ [k].
Proof.
  unfold keys. induction d as [|[k0 w] d IH]; cbn [dict_set map fst app]; intros H.
  - reflexivity.
  - destruct (String.eqb k0 k) eqn:E.
    + apply String.eqb_eq in E. exfalso. apply H. left. exact E.
    + cbn [map fst]. rewrite IH; [reflexivity|]. intros Hin. apply H. right. exact Hin.
Qed.

Lemma dict_set_nodup {V : Type} (d : list (string * V)) (k : string) (v : V) :
  NoDup (keys d) -> NoDup (keys (dict_set d k v)).
Proof.
  intros H. destruct (in_dec string_dec k (keys d)) as [Hin|Hout].
  - rewrite keys_set_present by exact Hin. exact H.
  - rewrite keys_set_absent by exact Hout.
    apply NoDup_app; [exact H | repeat constructor; intros [] |].
    intros x Hx [<-|[]]. contradiction.
Qed.

Lemma index_by_nodup (id_key : string) (raw : list pyval) :
  forall acc, NoDup (keys acc) -> NoDup (keys (index_by id_key raw acc)).
Proof.
  induction raw as [|item rest IH]; intros acc H; cbn [index_by]; [exact H|].
  destruct item; try (apply IH; exact H).
  destruct (get l id_key); try (apply IH; exact H).
  apply IH. apply dict_set_nodup. exact H.
Qed.

Lemma dict_get_in {V : Type} (d : list (string * V)) (k : string) (v : V) :
  dict_get d k = Some v -> In (k, v) d.
Proof.
  induction d as [|[k0 w] d IH]; cbn [dict_get]; intros H; [discriminate|].
  destruct (String.eqb k0 k) eqn:E.
  - apply String.eqb_eq in E. inversion H; subst. left. reflexivity.
  - right. apply IH. exact H.
Qed.

Lemma in_dict_get {V : Type} (d : list (string * V)) (k : string) (v : V) :
  NoDup (keys d) -> In (k, v) d -> dict_get d k = Some v.
Proof.
  unfold keys. induction d as [|[k0 w] d IH]; cbn [dict_get map fst]; intros Hnd Hin;
    [destruct Hin|].
  inversion Hnd as [|x l Hx Hnd']; subst.
  destruct Hin as [Heq|Hin].
  - inversion Heq; subst. rewrite String.eqb_refl. reflexivity.
  - destruct (String.eqb k0 k) eqn:E; [|apply IH; assumption].
    apply String.eqb_eq in E. subst k0. exfalso. apply Hx.
    apply (in_map fst) in Hin. exact Hin.
Qed.

Lemma task_map_nodup (run : pydict) : NoDup (keys (_task_map run)).
Proof.
  unfold _task_map. destruct (dict_get run "task_results") as [v|]; [|constructor].
  destruct v; try constructor. apply index_by_nodup. constructor.
Qed.

Lemma case_map_nodup (task : pydict) : NoDup (keys (_case_map task)).
Proof.
  unfold _case_map. destruct (dict_get task "case_results") as [v|]; [|constructor].
  destruct v; try constructor. apply index_by_nodup. constructor.
Qed.

(** [_task_map] and [_case_map] give, for an identifier, the last entry
    of the list that is a dictionary holding that identifier as a
    string; entries that are not dictionaries, or whose identifier is not
    a string, are passed over, and anything but a list under the key
    gives an empty map. No identifier occurs twice in the map. *)
Theorem lookup_finds_last_entry (run task : pydict) (id : string) :
  dict_get (_task_map run) id =
    match get run "task_results" with
    | PList raw => last_named "task_id" id raw None
    | _ => None
    end
  /\ dict_get (_case_map task) id =
       match get task "case_results" with
       | PList raw => last_named "case_id" id raw None
       | _ => None
       end
  /\ NoDup (keys (_task_map run))
  /\ NoDup (keys (_case_map task)).
Proof.
  split; [|split; [|split; [apply task_map_nodup | apply case_map_nodup]]].
  - unfold _task_map, get. destruct (dict_get run "task_results") as [v|]; [|reflexivity].
    destruct v; try reflexivity. apply index_by_lookup.
  - unfold _case_map, get. destruct (dict_get task "case_results") as [v|]; [|reflexivity].
    destruct v; try reflexivity. apply index_by_lookup.
Qed.

(** ** Paired cases *)

(** The two case entries give a pair: neither has an error, and none of
    the four values is null. *)
Definition pairable (baseline_case candidate_case : pydict) : bool :=
  is_none (get baseline_case "error") && is_none (get candidate_case "error")
  && negb (is_none (get baseline_case "expected"))
  && negb (is_none (get baseline_case "predicted"))
  && negb (is_none (get candidate_case "expected"))
  && negb (is_none (get candidate_case "predicted")).

Lemma paired_case_eq (candidate_cases : list (string * pydict)) (id : string)
  (baseline_case : pydict) :
  paired_case candidate_cases (id, baseline_case) =
  match dict_get candidate_cases id with
  | Some candidate_case =>
      if pairable baseline_case candidate_case then
        [(get baseline_case "expected", get baseline_case "predicted",
          get candidate_case "expected", get candidate_case "predicted")]
      else []
  | None => []
  end.
Proof.
  unfold paired_case, pairable.
  destruct (dict_get candidate_cases id) as [cc|]; [|reflexivity].
  destruct (is_none (get baseline_case "error")),
           (is_none (get cc "error")),
           (is_none (get baseline_case "expected")),
           (is_none (get baseline_case "predicted")),
           (is_none (get cc "expected")),
           (is_none (get cc "predicted")); reflexivity.
Qed.

Lemma paired_case_spec (candidate_cases : list (string * pydict)) (id : string)
  (baseline_case : pydict) (q : pyval * pyval * pyval * pyval) :
  In q (paired_case candidate_cases (id, baseline_case)) <->
  exists candidate_case,
    dict_get candidate_cases id = Some candidate_case
    /\ pairable baseline_case candidate_case = true
    /\ q = (get baseline_case "expected", get baseline_case "predicted",
            get candidate_case "expected", get candidate_case "predicted").
Proof.
  rewrite paired_case_eq.
  destruct (dict_get candidate_cases id) as [cc|].
  2:{ split; [intros [] | intros [cc [H _]]; discriminate]. }
  destruct (pairable baseline_case cc) eqn:Hp.
  - split.
    + intros [H|[]]. exists cc. auto.
    + intros [cc' [Hcc [_ Hq]]]. inversion Hcc; subst cc'. left. auto.
  - split; [intros [] |].
    intros [cc' [Hcc [Hp' _]]]. inversion Hcc; subst cc'. congruence.
Qed.

(** [_paired_cases] returns exactly the pairs of the cases that occur,
    by identifier, in both task entries, have no error on either side and
    no null among their expected and predicted values; so there are no
    more pairs than baseline cases. *)
Theorem paired_cases_spec (baseline_task candidate_task : pydict) :
  (forall q,
      In q (_paired_cases baseline_task candidate_task) <->
      exists id baseline_case candidate_case,
        dict_get (_case_map baseline_task) id = Some baseline_case
        /\ dict_get (_case_map candidate_task) id = Some candidate_case
        /\ pairable baseline_case candidate_case = true
        /\ q = (get baseline_case "expected", get baseline_case "predicted",
                get candidate_case "expected", get candidate_case "predicted"))
  /\ length (_paired_cases baseline_task candidate_task)
     <= length (_case_map baseline_task).
Proof.
  unfold _paired_cases. split.
  - intros q. rewrite in_flat_map. split.
    + intros [[id bc] [Hin Hq]]. apply paired_case_spec in Hq.
      destruct Hq as [cc [Hcc [Hp Hq]]]. exists id, bc, cc.
      split; [apply in_dict_get; [apply case_map_nodup | exact Hin]|]. auto.
    + intros [id [bc [cc [Hb [Hc [Hp Hq]]]]]]. exists (id, bc).
      split; [apply dict_get_in; exact Hb|].
      apply paired_case_spec. exists cc. auto.
  - induction (_case_map baseline_task) as [|[id bc] rest IH]; cbn [flat_map length];
      [lia|].
    rewrite length_app.
    assert (H1 : length (paired_case (_case_map candidate_task) (id, bc)) <= 1).
    { rewrite paired_case_eq.
      destruct (dict_get (_case_map candidate_task) id) as [cc|]; [|cbn; lia].
      destruct (pairable bc cc); cbn; lia. }
    lia.
Qed.

End PairingFacts.

(* ===================================================================== *)
(** * schema.py: loading a suite from a mapping                            *)
(* ===================================================================== *)

Module SchemaLoader.
Import Py Schema.
Local Open Scope string_scope.

Section WithBuiltins.
Context (py : Builtins).

(** [str(value)]: a string is itself; [None], booleans and integers print
    as in f-strings; for a float, a list or a dictionary [str] is [repr]. *)
Definition py_str (value : pyval) : string :=
  match value with
  | PStr s => s
  | PNone => "None"
  | PBool b => str_bool b
  | PInt z => str_int z
  | _ => py_repr py value
  end.

(** [d.get(key, default)]. *)
Definition get_default (d : pydict) (key : string) (default : pyval) : pyval :=
  match dict_get d key with Some v => v | None => default end.

Definition _required_str (data : pydict) (key : string) : result string :=
  match get data key with
  | PNone => Raise (ValueError ("Missing required key: " ++ key))
  | value =>
      let value_str := strip (py_str value) in
      if String.eqb value_str "" then
        Raise (ValueError ("Key '" ++ key ++ "' must be a non-empty string"))
      else Ok value_str
  end.

Definition _float (value : pyval) (key : string) : result float :=
  match py_float py value with
  | Ok f => Ok f
  | Raise (TypeError _) | Raise (ValueError _) =>
      Raise (ValueError ("'" ++ key ++ "' must be numeric"))
  | Raise e => Raise e
  end.

Definition _parse_case (item : pyval) (task_id : string) : result BenchmarkCase :=
  match item with
  | PDict item_ =>
      case_id <- _required_str item_ "id" ;;
      match get_default item_ "input" (PDict []) with
      | PDict input_data =>
          match get item_ "expected" with
          | PDict expected =>
              match get_default item_ "tags" (PList []) with
              | PList tags_raw =>
                  Ok {| case_id := case_id;
                        input := input_data;
                        expected := expected;
                        tags := map py_str tags_raw |}
              | _ =>
                  Raise (ValueError ("task '" ++ task_id ++ "' case '" ++ case_id
                                       ++ "' tags must be a list"))
              end
          | _ =>
              Raise (ValueError ("task '" ++ task_id ++ "' case '" ++ case_id
                                   ++ "' must include mapping expected"))
          end
      | _ =>
          Raise (ValueError ("task '" ++ task_id ++ "' case '" ++ case_id
                               ++ "' has non-mapping input"))
      end
  | _ => Raise (ValueError ("Cases in task '" ++ task_id ++ "' must be mappings"))
  end.

(** The loop [for raw_case in cases_raw]. *)
Fixpoint parse_cases (task_id : string) (cases_raw : list pyval)
  (seen_cases : list string) (cases : list BenchmarkCase)
  : result (list BenchmarkCase) :=
  match cases_raw with
  | [] => Ok cases
  | raw_case :: rest =>
      case <- _parse_case raw_case task_id ;;
      if set_mem (case_id case) seen_cases then
        Raise (ValueError ("Duplicate case id '" ++ case_id case ++ "' in task '"
                             ++ task_id ++ "'"))
      else parse_cases task_id rest (case_id case :: seen_cases) (cases ++ [case])%list
  end.

(** [", ".join(sorted(SUPPORTED_METRICS))]. *)
Definition allowed_metrics : string :=
  Eval vm_compute in
    (fix join (l : list string) : string :=
       match l with
       | [] => ""
       | [x] => x
       | x :: rest => x ++ ", " ++ join rest
       end) (sorted_str SUPPORTED_METRICS).

Definition _parse_task (item : pyval) : result BenchmarkTask :=
  match item with
  | PDict item_ =>
      task_id <- _required_str item_ "id" ;;
      metric <- _required_str item_ "metric" ;;
      if negb (set_mem metric SUPPORTED_METRICS) then
        Raise (ValueError ("Unsupported metric '" ++ metric ++ "' for task '" ++ task_id
                             ++ "'. Allowed: " ++ allowed_metrics))
      else
        prediction_key <- _required_str item_ "prediction_key" ;;
        let expected_key := py_str (get_default item_ "expected_key" (PStr prediction_key)) in
        regression_tolerance <-
          _float (get_default item_ "regression_tolerance" (PFloat 0)) "regression_tolerance" ;;
        weight <- _float (get_default item_ "weight" (PFloat 1)) "weight" ;;
        let positive_label := get_default item_ "positive_label" (PInt 1) in
        match get item_ "cases" with
        | PList (first :: more) =>
            cases <- parse_cases task_id (first :: more) [] [] ;;
            Ok {| task_id := task_id;
                  metric := metric;
                  prediction_key := prediction_key;
                  expected_key := expected_key;
                  regression_tolerance := regression_tolerance;
                  weight := weight;
                  positive_label := positive_label;
                  cases := cases |}
        | _ =>
            Raise (ValueError ("task '" ++ task_id ++ "' must include a non-empty cases list"))
        end
  | _ => Raise (ValueError "Each task must be a mapping")
  end.

(** The loop [for item in tasks_raw]. *)
Fixpoint parse_tasks (tasks_raw : list pyval) (seen_tasks : list string)
  (tasks : list BenchmarkTask) : result (list BenchmarkTask) :=
  match tasks_raw with
  | [] => Ok tasks
  | item :: rest =>
      task <- _parse_task item ;;
      if set_mem (task_id task) seen_tasks then
        Raise (ValueError ("Duplicate task id: " ++ task_id task))
      else parse_tasks rest (task_id task :: seen_tasks) (tasks ++ [task])%list
  end.

Definition suite_from_mapping (data : pydict) : result BenchmarkSuite :=
  name <- _required_str data "name" ;;
  let version := py_str (get_default data "version" (PStr "0.0.1")) in
  let description := py_str (get_default data "description" (PStr "")) in
  match get data "tasks" with
  | PList (first :: more) =>
      tasks <- parse_tasks (first :: more) [] [] ;;
      let metadata :=
        match get_default data "metadata" (PDict []) with
        | PDict metadata_raw => metadata_raw
        | _ => []
        end in
      Ok {| name := name;
            version := version;
            description := description;
            tasks := tasks;
            metadata := metadata |}
  | _ => Raise (ValueError "suite.tasks must be a non-empty list")
  end.

End WithBuiltins.

(** The payload of [cli._starter_suite_payload], which [refua-bench init]
    writes and loads. *)
Definition _starter_suite_payload (name : string) : pydict :=
  [ ("name", PStr name);
    ("version", PStr "1.0.0");
    ("description", PStr "Starter suite for Refua benchmarking and regression gates.");
    ("tasks",
      PList
        [ PDict
            [ ("id", PStr "affinity_mae");
              ("metric", PStr "mae");
              ("prediction_key", PStr "affinity");
              ("regression_tolerance", PFloat 0.05);
              ("weight", PFloat 2);
              ("cases",
                PList
                  [ PDict [ ("id", PStr "kras_mrtx1133");
                            ("input", PDict [ ("target", PStr "KRAS");
                                              ("ligand", PStr "MRTX1133") ]);
                            ("expected", PDict [ ("affinity", PFloat (-9.3)) ]) ];
                    PDict [ ("id", PStr "egfr_osimertinib");
                            ("input", PDict [ ("target", PStr "EGFR");
                                              ("ligand", PStr "Osimertinib") ]);
                            ("expected", PDict [ ("affinity", PFloat (-8.7)) ]) ] ]) ];
          PDict
            [ ("id", PStr "admet_toxicity_accuracy");
              ("metric", PStr "accuracy");
              ("prediction_key", PStr "toxic");
              ("regression_tolerance", PFloat 0.02);
              ("cases",
                PList
                  [ PDict [ ("id", PStr "case_1");
                            ("input", PDict [ ("smiles", PStr "CCO") ]);
                            ("expected", PDict [ ("toxic", PInt 0) ]) ];
                    PDict [ ("id", PStr "case_2");
                            ("input", PDict [ ("smiles", PStr "CC(=O)O") ]);
                            ("expected", PDict [ ("toxic", PInt 0) ]) ];
                    PDict [ ("id", PStr "case_3");
                            ("input", PDict [ ("smiles", PStr "N#CCN") ]);
                            ("expected", PDict [ ("toxic", PInt 1) ]) ] ]) ] ]) ].

End SchemaLoader.

(* ===================================================================== *)
(** * What a loaded suite satisfies                                        *)
(* ===================================================================== *)

Module LoaderFacts.
Import Py Schema SchemaLoader PyFacts FreshRecord.
Local Open Scope list_scope.

(** ** [strip] *)

Definition starts_clean (s : string) : Prop :=
  match s with
  | EmptyString => True
  | String c _ => is_space c = false
  end.

Lemma lstrip_starts_clean (s : string) : starts_clean (lstrip s).
Proof.
  induction s as [|c s IH]; cbn [lstrip]; [exact I|].
  destruct (is_space c) eqn:E; [exact IH | exact E].
Qed.

Lemma lstrip_fixed (s : string) : starts_clean s -> lstrip s = s.
Proof. destruct s as [|c s]; cbn; [reflexivity | intros ->; reflexivity]. Qed.

Lemma rstrip_starts_clean (s : string) : starts_clean s -> starts_clean (rstrip s).
Proof.
  destruct s as [|c s]; cbn [rstrip starts_clean]; [auto|].
  intros H. destruct (rstrip s); [rewrite H|]; exact H.
Qed.

Lemma rstrip_cons (c : ascii) (s : string) :
  rstrip (String c s) =
  match rstrip s with
  | EmptyString => if is_space c then EmptyString else String c EmptyString
  | String d r => String c (String d r)
  end.
Proof. cbn [rstrip]. destruct (rstrip s); reflexivity. Qed.

Lemma rstrip_idempotent (s : string) : rstrip (rstrip s) = rstrip s.
Proof.
  induction s as [|c s IH]; [reflexivity|].
  rewrite (rstrip_cons c s).
  destruct (rstrip s) as [|d r] eqn:E.
  - destruct (is_space c) eqn:Ec; [reflexivity|].
    rewrite rstrip_cons. cbn [rstrip]. rewrite Ec. reflexivity.
  - rewrite rstrip_cons, IH. reflexivity.
Qed.

Lemma strip_idempotent (s : string) : strip (strip s) = strip s.
Proof.
  unfold strip.
  rewrite (lstrip_fixed (rstrip (lstrip s)))
    by (apply rstrip_starts_clean, lstrip_starts_clean).
  apply rstrip_idempotent.
Qed.

Section Loaded.
Context (py : Builtins).

Lemma required_str_clean (data : pydict) (key : string) (s : string) :
  _required_str py data key = Ok s -> clean s = true.
Proof.
  unfold _required_str, clean. intros H.
  assert (G : exists v, s = strip (py_str py v) /\ String.eqb (strip (py_str py v)) "" = false).
  { destruct (get data key) as [|b|z|f|x|l|d]; try discriminate;
      match type of H with
      | (if String.eqb (strip (py_str py ?v)) "" then _ else _) = _ =>
          exists v; destruct (String.eqb (strip (py_str py v)) ""); [discriminate|];
          inversion H; auto
      end. }
  destruct G as [v [-> Hne]].
  rewrite strip_idempotent, String.eqb_refl, Hne. reflexivity.
Qed.

Lemma parse_case_id (item : pyval) (task_id_ : string) (case : BenchmarkCase) :
  _parse_case py item task_id_ = Ok case -> clean (case_id case) = true.
Proof.
  unfold _parse_case. intros H. destruct item; try discriminate.
  bind_inv H as cid Hcid. apply required_str_clean in Hcid.
  destruct (get_default l "input" (PDict [])); try discriminate.
  destruct (get l "expected"); try discriminate.
  destruct (get_default l "tags" (PList [])); try discriminate.
  inversion H; subst case. exact Hcid.
Qed.

(** The loop over the cases keeps the identifiers clean and pairwise
    different, and different from those seen before. *)
Lemma parse_cases_ids (task_id_ : string) (cases_raw : list pyval) :
  forall (seen : list string) (acc out : list BenchmarkCase),
    parse_cases py task_id_ cases_raw seen acc = Ok out ->
    exists new,
      out = acc ++ new
      /\ length new = length cases_raw
      /\ forallb clean (map case_id new) = true
      /\ NoDup (map case_id new)
      /\ (forall c, In c new -> ~ In (case_id c) seen).
Proof.
  induction cases_raw as [|raw rest IH]; intros seen acc out H; cbn [parse_cases] in H.
  - inversion H; subst out. exists []. rewrite app_nil_r.
    repeat split; [constructor | intros c []].
  - bind_inv H as case Hcase. apply parse_case_id in Hcase.
    destruct (set_mem (case_id case) seen) eqn:Hmem; [discriminate|].
    apply set_mem_not_in in Hmem.
    apply IH in H. destruct H as [new [Hout [Hlen [Hclean [Hnd Hseen]]]]].
    exists (case :: new). rewrite Hout, <- app_assoc. split; [reflexivity|].
    cbn [length map forallb]. rewrite Hlen, Hcase, Hclean.
    repeat split.
    + constructor; [|exact Hnd]. intros Hin. apply in_map_iff in Hin.
      destruct Hin as [c [Hc Hin]]. apply (Hseen c Hin). left. symmetry. exact Hc.
    + intros c [<-|Hin]; [exact Hmem|].
      intros Hc. apply (Hseen c Hin). right. exact Hc.
Qed.

(** What [_parse_task] guarantees for the task it returns. *)
Definition task_well_formed (task : BenchmarkTask) : Prop :=
  task_ids_ok task = true
  /\ cases task <> []
  /\ In (metric task) SUPPORTED_METRICS
  /\ clean (prediction_key task) = true.

Lemma parse_task_well_formed (item : pyval) (task : BenchmarkTask) :
  _parse_task py item = Ok task -> task_well_formed task.
Proof.
  unfold _parse_task. intros H. destruct item; try discriminate.
  bind_inv H as tid Htid. apply required_str_clean in Htid.
  bind_inv H as m Hm.
  destruct (negb (set_mem m SUPPORTED_METRICS)) eqn:Hsup; [discriminate|].
  apply negb_false_iff, set_mem_in in Hsup.
  bind_inv H as pk Hpk. apply required_str_clean in Hpk.
  bind_inv H as tol Htol. bind_inv H as w Hw.
  destruct (get l "cases") as [| | | | |raws|]; try discriminate.
  destruct raws as [|first more]; [discriminate|].
  bind_inv H as cs Hcs. apply parse_cases_ids in Hcs.
  destruct Hcs as [new [Hout [Hlen [Hclean [Hnd _]]]]]. cbn [app] in Hout. subst cs.
  inversion H; subst task; clear H.
  unfold task_well_formed, task_ids_ok. cbn [task_id cases metric prediction_key].
  rewrite Htid, Hclean. apply distinct_NoDup in Hnd. rewrite Hnd.
  repeat split; try assumption.
  intros ->. discriminate Hlen.
Qed.

Lemma parse_tasks_well_formed (tasks_raw : list pyval) :
  forall (seen : list string) (acc out : list BenchmarkTask),
    parse_tasks py tasks_raw seen acc = Ok out ->
    exists new,
      out = acc ++ new
      /\ length new = length tasks_raw
      /\ Forall task_well_formed new
      /\ NoDup (map task_id new)
      /\ (forall t, In t new -> ~ In (task_id t) seen).
Proof.
  induction tasks_raw as [|raw rest IH]; intros seen acc out H; cbn [parse_tasks] in H.
  - inversion H; subst out. exists []. rewrite app_nil_r.
    repeat split; [constructor | constructor | intros t []].
  - bind_inv H as task Htask. apply parse_task_well_formed in Htask.
    destruct (set_mem (task_id task) seen) eqn:Hmem; [discriminate|].
    apply set_mem_not_in in Hmem.
    apply IH in H. destruct H as [new [Hout [Hlen [Hwf [Hnd Hseen]]]]].
    exists (task :: new). rewrite Hout, <- app_assoc. split; [reflexivity|].
    cbn [length map]. rewrite Hlen.
    repeat split.
    + constructor; assumption.
    + constructor; [|exact Hnd]. intros Hin. apply in_map_iff in Hin.
      destruct Hin as [t [Ht Hin]]. apply (Hseen t Hin). left. symmetry. exact Ht.
    + intros t [<-|Hin]; [exact Hmem|].
      intros Ht. apply (Hseen t Hin). right. exact Ht.
Qed.

Lemma suite_from_mapping_ids (data : pydict) (suite : BenchmarkSuite) :
  suite_from_mapping py data = Ok suite ->
  ids_ok suite = true
  /\ tasks suite <> []
  /\ Forall task_well_formed (tasks suite).
Proof.
  unfold suite_from_mapping. intros H.
  bind_inv H as n Hn. apply required_str_clean in Hn.
  destruct (get data "tasks") as [| | | | |raws|]; try discriminate.
  destruct raws as [|first more]; [discriminate|].
  bind_inv H as ts Hts. apply parse_tasks_well_formed in Hts.
  destruct Hts as [new [Hout [Hlen [Hwf [Hnd _]]]]]. cbn [app] in Hout. subst ts.
  inversion H; subst suite; clear H.
  unfold ids_ok. cbn [name tasks]. rewrite Hn.
  apply distinct_NoDup in Hnd. rewrite Hnd.
  assert (Hall : forallb task_ids_ok new = true).
  { apply forallb_forall. intros t Ht. rewrite Forall_forall in Hwf.
    apply (Hwf t Ht). }
  rewrite Hall. repeat split; [|exact Hwf].
  intros ->. discriminate Hlen.
Qed.

End Loaded.

(** A suite that [suite_from_mapping] returns is well formed: its name
    and every task and case identifier are non-empty and unchanged by
    [strip]; task identifiers are pairwise different, and so are the
    case identifiers of each task; there is at least one task and every
    task has at least one case, a supported metric and a non-empty
    prediction key. *)
Theorem loaded_suite_well_formed (py : Builtins) (data : pydict) (suite : BenchmarkSuite) :
  suite_from_mapping py data = Ok suite ->
  ids_ok suite = true
  /\ tasks suite <> []
  /\ Forall task_well_formed (tasks suite).
Proof. apply suite_from_mapping_ids. Qed.

Lemma loaded_suite_well_formed_witness :
  exists suite,
    suite_from_mapping Samples.builtins (_starter_suite_payload "starter") = Ok suite
    /\ ids_ok suite = true.
Proof.
  destruct (suite_from_mapping Samples.builtins (_starter_suite_payload "starter"))
    as [suite|e] eqn:E; [|vm_compute in E; discriminate E].
  exists suite. split; [reflexivity|].
  apply (loaded_suite_well_formed Samples.builtins (_starter_suite_payload "starter")
           suite E).
Defined.

End LoaderFacts.

(* ===================================================================== *)
(** * From the loader to the validator                                     *)
(* ===================================================================== *)

Module Pipeline.
Import Py Runner RunArtifact SchemaLoader FreshRecord.
Local Open Scope list_scope.

(** The chain of the [gate] command: a suite loaded by
    [suite_from_mapping], run by [run_benchmark] against any prediction
    source, gives a record that [validate_run_artifact] accepts against
    the same suite, provided the suite's version is non-empty and
    unchanged by [strip] (the loader does not strip it), the run
    identifier, time stamps and adapter name are not blank, and the
    scores and durations measured are finite and the durations not
    negative. *)
Theorem loaded_suite_record_validates (py : Builtins) (env : Env) (St : Type)
  (adapter_obj : ModelAdapter St) (data : pydict) (suite : Schema.BenchmarkSuite)
  (st : St) (prov : option pydict) (r : BenchmarkRun) (source : string) :
  suite_from_mapping py data = Ok suite ->
  clean (Schema.version suite) = true ->
  env_ok env adapter_obj = true ->
  run_benchmark py env adapter_obj suite st prov = Ok r ->
  measured r = true ->
  validate_run_artifact py (to_dict r) source (Some suite) = Ok (run_dict r).
Proof.
  intros Hload Hver Henv Hrun Hmeas.
  apply LoaderFacts.suite_from_mapping_ids in Hload. destruct Hload as [Hids _].
  apply (record_accepted py env St adapter_obj suite st prov r source
           Hids Hver Henv Hrun Hmeas).
Qed.

Lemma loaded_suite_record_validates_witness :
  exists suite r,
    suite_from_mapping Samples.builtins (_starter_suite_payload "starter") = Ok suite
    /\ run_benchmark Samples.builtins Samples.env Samples.GoldenAdapter suite tt None = Ok r
    /\ validate_run_artifact Samples.builtins (to_dict r) "candidate" (Some suite)
       = Ok (run_dict r).
Proof.
  destruct (suite_from_mapping Samples.builtins (_starter_suite_payload "starter"))
    as [suite|e] eqn:E; [|vm_compute in E; discriminate E].
  exists suite.
  destruct (run_benchmark Samples.builtins Samples.env Samples.GoldenAdapter suite tt None)
    as [r|e] eqn:Er;
    [|vm_compute in E; inversion E; subst suite; vm_compute in Er; discriminate Er].
  exists r. split; [reflexivity|]. split; [reflexivity|].
  apply (loaded_suite_record_validates Samples.builtins Samples.env unit
           Samples.GoldenAdapter (_starter_suite_payload "starter") suite tt None r
           "candidate" E).
  - vm_compute in E. inversion E. reflexivity.
  - reflexivity.
  - exact Er.
  - vm_compute in E. inversion E; subst suite. vm_compute in Er. inversion Er.
    vm_compute. reflexivity.
Defined.

(** The version is read with [str] and not stripped: a suite document
    with a blank version loads, and the record of its run is refused. *)
Example blank_version_record_refused :
  exists suite r,
    suite_from_mapping Samples.builtins
      (dict_set (_starter_suite_payload "starter") "version" (PStr " ")) = Ok suite
    /\ run_benchmark Samples.builtins Samples.env Samples.GoldenAdapter suite tt None = Ok r
    /\ validate_run_artifact Samples.builtins (to_dict r) "candidate" (Some suite)
       = Raise (ValueError "candidate.suite_version must be a non-empty string").
Proof.
  eexists. eexists. split; [vm_compute; reflexivity|].
  split; vm_compute; reflexivity.
Qed.

End Pipeline.

(* ===================================================================== *)
(** * adapters.py: the built-in prediction sources                         *)
(* ===================================================================== *)

Module Adapters.
Import Py Schema.
Local Open Scope string_scope.

(** [adapters.GoldenAdapter]: the prediction is a copy of the case's
    expected mapping. *)
Definition GoldenAdapter : Runner.ModelAdapter unit :=
  {| Runner.name := "golden";
     Runner.predict := fun st _ case => (inr (expected case), st) |}.

(** The inner loop of [FileAdapter._normalize_predictions]; the keys of a
    mapping are strings here, and [str] of a string is the string. *)
Fixpoint normalize_cases (items : pydict) (cases : pydict) : pydict :=
  match items with
  | [] => cases
  | (case_id, case_prediction) :: rest =>
      normalize_cases rest (dict_set cases case_id case_prediction)
  end.

Fixpoint normalize_tasks (items : pydict) (normalized : list (string * pydict))
  : result (list (string * pydict)) :=
  match items with
  | [] => Ok normalized
  | (task_id, task_payload) :: rest =>
      match task_payload with
      | PDict task_payload_ =>
          normalize_tasks rest
            (dict_set normalized task_id (normalize_cases task_payload_ []))
      | _ => Raise (ValueError "Each task in predictions file must be a mapping")
      end
  end.

Definition _normalize_predictions (payload : pydict) : result (list (string * pydict)) :=
  normalize_tasks payload [].

Section WithBuiltins.
Context (py : Builtins).

(** [FileAdapter.predict]; a [KeyError] reaches the runner as [str(exc)],
    the [repr] of its message. *)
Definition file_predict (_predictions : list (string * pydict))
  (task : BenchmarkTask) (case : BenchmarkCase) : string + pydict :=
  match dict_get _predictions (task_id task) with
  | None =>
      inl (py_repr py (PStr ("No predictions for task '" ++ task_id task ++ "'")))
  | Some task_data =>
      match dict_get task_data (case_id case) with
      | None =>
          inl (py_repr py (PStr ("No prediction for case '" ++ case_id case
                                   ++ "' in task '" ++ task_id task ++ "'")))
      | Some (PDict case_prediction) => inr case_prediction
      | Some case_prediction => inr [(prediction_key task, case_prediction)]
      end
  end.

Definition FileAdapter (_predictions : list (string * pydict))
  : Runner.ModelAdapter unit :=
  {| Runner.name := "file";
     Runner.predict := fun st task case => (file_predict _predictions task case, st) |}.

(** [FileAdapter(config)], from the payload of the predictions file. *)
Definition new_FileAdapter (payload : pydict) : result (Runner.ModelAdapter unit) :=
  _predictions <- _normalize_predictions payload ;;
  Ok (FileAdapter _predictions).

End WithBuiltins.

(** The predictions of [cli._starter_candidate_predictions]. *)
Definition _starter_candidate_predictions : pydict :=
  [ ("affinity_mae",
      PDict [ ("kras_mrtx1133", PDict [("affinity", PFloat (-9.15))]);
              ("egfr_osimertinib", PDict [("affinity", PFloat (-8.5))]) ]);
    ("admet_toxicity_accuracy",
      PDict [ ("case_1", PDict [("toxic", PInt 0)]);
              ("case_2", PDict [("toxic", PInt 1)]);
              ("case_3", PDict [("toxic", PInt 1)]) ]) ].

End Adapters.

(* ===================================================================== *)
(** * What the runner records of a prediction                              *)
(* ===================================================================== *)

Module AdapterFacts.
Import Py Runner PyFacts RunRecord Adapters.
Local Open Scope list_scope.

(** A prediction source that keeps no state between calls. *)
Definition stateless {St : Type} (adapter_obj : ModelAdapter St) : Prop :=
  forall st task case, snd (predict adapter_obj st task case) = st.

(** What a case result records of the outcome of [predict]. *)
Definition recorded (py : Builtins) (task : Schema.BenchmarkTask)
  (case : Schema.BenchmarkCase) (outcome : string + pydict) (c : CaseResult) : Prop :=
  match outcome with
  | inl msg => error c = Some msg /\ predicted c = PNone
  | inr output =>
      match dict_get output (Schema.prediction_key task) with
      | Some v => error c = None /\ predicted c = v
      | None =>
          error c = Some (py_repr py (PStr (missing_prediction_key task case)))
          /\ predicted c = PNone
      end
  end.

Section Stateless.
Context (py : Builtins) (env : Env) {St : Type} (adapter_obj : ModelAdapter St).
Hypothesis Hstateless : stateless adapter_obj.

Lemma run_case_recorded (task : Schema.BenchmarkTask) (acc : @task_loop St)
  (case : Schema.BenchmarkCase) :
  exists c,
    loop_case_results (run_case py env adapter_obj task acc case) =
    loop_case_results acc ++ [c]
    /\ recorded py task case (fst (predict adapter_obj (loop_state acc) task case)) c
    /\ loop_state (run_case py env adapter_obj task acc case) = loop_state acc.
Proof.
  unfold run_case. pose proof (Hstateless (loop_state acc) task case) as Hst.
  destruct (predict adapter_obj (loop_state acc) task case) as [[msg|output] st'];
    cbn [fst snd] in *; subst st'.
  - eexists. cbn. repeat split.
  - unfold recorded.
    destruct (dict_get output (Schema.prediction_key task)) as [v|];
      eexists; cbn; repeat split.
Qed.

Lemma fold_run_case_recorded (task : Schema.BenchmarkTask)
  (cases : list Schema.BenchmarkCase) :
  forall acc : @task_loop St,
  exists cs,
    loop_case_results (fold_left (run_case py env adapter_obj task) cases acc) =
    loop_case_results acc ++ cs
    /\ Forall2 (fun case c =>
                  recorded py task case
                    (fst (predict adapter_obj (loop_state acc) task case)) c) cases cs
    /\ loop_state (fold_left (run_case py env adapter_obj task) cases acc) = loop_state acc.
Proof.
  induction cases as [|case rest IH]; intros acc; cbn [fold_left].
  - exists []. rewrite app_nil_r. repeat split. constructor.
  - destruct (run_case_recorded task acc case) as [c [Hres [Hrec Hst]]].
    destruct (IH (run_case py env adapter_obj task acc case)) as [cs [Hres' [Hrec' Hst']]].
    exists (c :: cs). rewrite Hres', Hres, <- app_assoc, Hst', Hst.
    repeat split. constructor; [exact Hrec|]. rewrite Hst in Hrec'. exact Hrec'.
Qed.

Lemma run_task_recorded (task : Schema.BenchmarkTask) (st st' : St) (tick tick' : nat)
  (t : TaskResult) :
  _run_task py env adapter_obj task st tick = Ok (t, st', tick') ->
  st' = st
  /\ Forall2 (fun case c => recorded py task case (fst (predict adapter_obj st task case)) c)
       (Schema.cases task) (case_results t).
Proof.
  unfold _run_task, run_cases. intros H.
  destruct (fold_run_case_recorded task (Schema.cases task)
              {| expected_values := []; predicted_values := [];
                 loop_case_results := []; loop_case_failures := 0;
                 loop_state := st; loop_tick := tick |}) as [cs [Hres [Hrec Hst]]].
  cbn [loop_case_results loop_state app] in Hres, Hrec, Hst.
  bind_inv H as sc Hsc. bind_inv H as d Hd.
  inversion H; subst t st' tick'; clear H. cbn [case_results].
  rewrite Hres, Hst. split; [reflexivity | exact Hrec].
Qed.

Lemma run_tasks_recorded (tasks : list Schema.BenchmarkTask) :
  forall acc out : @suite_loop St,
    run_tasks py env adapter_obj tasks acc = Ok out ->
    exists ts,
      acc_task_results out = acc_task_results acc ++ ts
      /\ acc_state out = acc_state acc
      /\ Forall2 (fun task t =>
                    Forall2 (fun case c =>
                               recorded py task case
                                 (fst (predict adapter_obj (acc_state acc) task case)) c)
                      (Schema.cases task) (case_results t)) tasks ts.
Proof.
  induction tasks as [|task rest IH]; intros acc out H; cbn [run_tasks] in H.
  - inversion H; subst out. exists []. rewrite app_nil_r. repeat split. constructor.
  - bind_inv H as o Ho. destruct o as [[t st'] tick'].
    apply run_task_recorded in Ho. destruct Ho as [-> Hrec].
    apply IH in H. cbn [acc_task_results acc_state] in H.
    destruct H as [ts [Hres [Hst Hall]]].
    exists (t :: ts). rewrite Hres, <- app_assoc, Hst.
    repeat split. constructor; assumption.
Qed.

Lemma run_benchmark_recorded (suite : Schema.BenchmarkSuite) (st : St)
  (prov : option pydict) (r : BenchmarkRun) :
  run_benchmark py env adapter_obj suite st prov = Ok r ->
  Forall2 (fun task t =>
             Forall2 (fun case c =>
                        recorded py task case (fst (predict adapter_obj st task case)) c)
               (Schema.cases task) (case_results t))
    (Schema.tasks suite) (task_results r).
Proof.
  unfold run_benchmark. intros H. bind_inv H as out Hout.
  apply run_tasks_recorded in Hout. cbn [acc_task_results acc_state app] in Hout.
  destruct Hout as [ts [Hres [_ Hall]]].
  inversion H; subst r. cbn [task_results]. rewrite Hres. exact Hall.
Qed.

End Stateless.

(** For a prediction source that keeps no state, each case result of a
    record records the outcome of [predict] on its case: the message of
    the exception it raised, with a null prediction; or the message of
    the missing prediction key, with a null prediction; or else the
    value under the prediction key, with no error. *)
Theorem record_holds_outcomes (py : Builtins) (env : Env) (St : Type)
  (adapter_obj : ModelAdapter St) (suite : Schema.BenchmarkSuite) (st : St)
  (prov : option pydict) (r : BenchmarkRun) :
  stateless adapter_obj ->
  run_benchmark py env adapter_obj suite st prov = Ok r ->
  Forall2 (fun task t =>
             Forall2 (fun case c =>
                        recorded py task case (fst (predict adapter_obj st task case)) c)
               (Schema.cases task) (case_results t))
    (Schema.tasks suite) (task_results r).
Proof. intros Hs. apply run_benchmark_recorded. exact Hs. Qed.

Lemma record_holds_outcomes_witness :
  exists r,
    run_benchmark Samples.builtins Samples.env Samples.FailingAdapter
      Samples.test_suite tt None = Ok r
    /\ Forall2 (fun task t =>
                  Forall2 (fun case c =>
                             recorded Samples.builtins task case
                               (fst (predict Samples.FailingAdapter tt task case)) c)
                    (Schema.cases task) (case_results t))
         (Schema.tasks Samples.test_suite) (task_results r).
Proof.
  destruct (run_benchmark Samples.builtins Samples.env Samples.FailingAdapter
              Samples.test_suite tt None) as [r|e] eqn:E; [|vm_compute in E; discriminate E].
  exists r. split; [reflexivity|].
  apply (record_holds_outcomes Samples.builtins Samples.env unit Samples.FailingAdapter
           Samples.test_suite tt None r).
  - intros st task case. reflexivity.
  - exact E.
Defined.

(** ** The golden source *)

(** Every case of the suite has an expected value under its task's
    prediction key. *)
Definition answers_all (suite : Schema.BenchmarkSuite) : bool :=
  forallb (fun task =>
             forallb (fun case =>
                        dict_mem (Schema.expected case) (Schema.prediction_key task))
                     (Schema.cases task))
          (Schema.tasks suite).

Definition golden_case (task : Schema.BenchmarkTask) (case : Schema.BenchmarkCase)
  (c : CaseResult) : Prop :=
  error c = None
  /\ predicted c = get (Schema.expected case) (Schema.prediction_key task)
  /\ (Schema.expected_key task = Schema.prediction_key task -> predicted c = expected c).

Lemma Forall2_and {A B : Type} (P Q : A -> B -> Prop) (l : list A) (l' : list B) :
  Forall2 P l l' -> Forall2 Q l l' -> Forall2 (fun a b => P a b /\ Q a b) l l'.
Proof.
  intros HP. induction HP as [|a b l l' Hab _ IH]; intros HQ; inversion HQ; subst;
    constructor; auto.
Qed.

Lemma Forall2_impl_in {A B : Type} (P Q : A -> B -> Prop) (l : list A) (l' : list B) :
  (forall a b, In a l -> In b l' -> P a b -> Q a b) ->
  Forall2 P l l' -> Forall2 Q l l'.
Proof.
  intros H HP. induction HP as [|a b l l' Hab _ IH]; constructor.
  - apply H; [left; reflexivity | left; reflexivity | exact Hab].
  - apply IH. intros x y Hx Hy. apply H; right; assumption.
Qed.

Lemma no_failures_count (cs : list CaseResult) :
  Forall (fun c => error c = None) cs -> count_failed cs = 0.
Proof.
  unfold count_failed. induction 1 as [|c cs Hc _ IH]; cbn [filter]; [reflexivity|].
  unfold failed at 1. rewrite Hc. exact IH.
Qed.

Lemma sum_zero (f : TaskResult -> nat) (ts : list TaskResult) :
  Forall (fun t => f t = 0) ts -> sum_of f ts = 0.
Proof.
  unfold sum_of. induction 1 as [|t ts Ht _ IH]; cbn [fold_right]; [reflexivity|].
  rewrite Ht, IH. reflexivity.
Qed.

(** The golden source answers every case with the case's own expected
    mapping. When every case holds a value under its task's prediction
    key, a record of the golden source has no failed case: each case
    result has no error and predicts the value found in the expected
    mapping (the expected value itself when the task's expected key is
    its prediction key), every task has [case_failures = 0] and the
    summary says [all_cases_succeeded]. *)
Theorem golden_record_has_no_failures (py : Builtins) (env : Env)
  (suite : Schema.BenchmarkSuite) (prov : option pydict) (r : BenchmarkRun) :
  answers_all suite = true ->
  run_benchmark py env GoldenAdapter suite tt prov = Ok r ->
  Forall2 (fun task t =>
             Forall2 (golden_case task) (Schema.cases task) (case_results t)
             /\ case_failures t = 0)
    (Schema.tasks suite) (task_results r)
  /\ get (summary r) "case_failures" = PInt 0
  /\ get (summary r) "all_cases_succeeded" = PBool true.
Proof.
  intros Hall Hrun.
  pose proof (run_benchmark_recorded py env GoldenAdapter (fun _ _ _ => eq_refl)
                suite tt prov r Hrun) as Hrec.
  apply run_benchmark_shape in Hrun. destruct Hrun as [_ [_ [_ [Hm Hsum]]]].
  assert (Hgold :
    Forall2 (fun task t =>
               Forall2 (golden_case task) (Schema.cases task) (case_results t)
               /\ case_failures t = 0)
      (Schema.tasks suite) (task_results r)).
  { pose proof (Forall2_and _ _ _ _ Hrec Hm) as Hboth.
    revert Hboth. apply Forall2_impl_in.
    intros task t Htask _ [Hcases [_ [_ [_ [_ [Hcm [Hcf _]]]]]]].
    unfold answers_all in Hall. rewrite forallb_forall in Hall.
    specialize (Hall task Htask). rewrite forallb_forall in Hall.
    assert (Hg : Forall2 (golden_case task) (Schema.cases task) (case_results t)).
    { pose proof (Forall2_and _ _ _ _ Hcases Hcm) as Hb. revert Hb.
      apply Forall2_impl_in. intros case c Hcase _ [Hr [_ [Hexp _]]].
      specialize (Hall case Hcase). unfold dict_mem in Hall.
      cbn [GoldenAdapter predict fst] in Hr. unfold recorded in Hr.
      unfold golden_case, get.
      destruct (dict_get (Schema.expected case) (Schema.prediction_key task)) as [v|] eqn:E;
        [|discriminate].
      destruct Hr as [He Hp]. repeat split; try assumption.
      intros Hk. rewrite Hp, Hexp, Hk. unfold get. rewrite E. reflexivity. }
    split; [exact Hg|]. rewrite Hcf. apply no_failures_count.
    clear - Hg. induction Hg as [|case c l l' [He _] _ IH]; constructor; assumption. }
  split; [exact Hgold|].
  assert (Hzero : sum_of case_failures (task_results r) = 0).
  { apply sum_zero. clear - Hgold.
    induction Hgold as [|task t l l' [_ Hz] _ IH]; constructor; assumption. }
  rewrite Hsum. unfold RunRecord.summary_of. cbn [get dict_get String.eqb Ascii.eqb Bool.eqb].
  rewrite Hzero. split; reflexivity.
Qed.

Lemma golden_record_has_no_failures_witness :
  exists r,
    run_benchmark Samples.builtins Samples.env GoldenAdapter Samples.test_suite tt None
    = Ok r
    /\ get (summary r) "all_cases_succeeded" = PBool true.
Proof.
  destruct (run_benchmark Samples.builtins Samples.env GoldenAdapter Samples.test_suite
              tt None) as [r|e] eqn:E; [|vm_compute in E; discriminate E].
  exists r. split; [reflexivity|].
  apply (golden_record_has_no_failures Samples.builtins Samples.env Samples.test_suite
           None r eq_refl E).
Defined.

End AdapterFacts.

(* ===================================================================== *)
(** * The file source                                                      *)
(* ===================================================================== *)

Module FileFacts.
Import Py Runner PyFacts RunRecord Adapters AdapterFacts.
Local Open Scope list_scope.

Lemma normalize_cases_lookup (items : pydict) :
  NoDup (keys items) ->
  forall (acc : pydict) (k : string),
    dict_get (normalize_cases items acc) k =
    match dict_get items k with Some v => Some v | None => dict_get acc k end.
Proof.
  unfold keys. induction items as [|[k0 v0] rest IH]; intros Hnd acc k;
    cbn [normalize_cases dict_get map fst] in *; [reflexivity|].
  inversion Hnd as [|x l Hx Hnd']; subst.
  rewrite IH by exact Hnd'.
  destruct (String.eqb k0 k) eqn:E.
  - apply String.eqb_eq in E. subst k0.
    assert (Hnone : dict_get rest k = None) by (apply dict_get_none_keys; exact Hx).
    rewrite Hnone. apply dict_get_set_same.
  - apply String.eqb_neq in E.
    rewrite (dict_get_set_other acc k0 k v0 E). reflexivity.
Qed.

(** A predictions payload as a file gives it: no key twice, at either
    level. *)
Definition unique_keys (payload : pydict) : Prop :=
  NoDup (keys payload)
  /\ forall k d, In (k, PDict d) payload -> NoDup (keys d).

Lemma normalize_tasks_lookup (items : pydict) :
  unique_keys items ->
  forall (acc out : list (string * pydict)),
    normalize_tasks items acc = Ok out ->
    forall k,
      match dict_get items k with
      | Some (PDict d) =>
          exists cases, dict_get out k = Some cases
                        /\ forall c, dict_get cases c = dict_get d c
      | Some _ => False
      | None => dict_get out k = dict_get acc k
      end.
Proof.
  unfold unique_keys, keys. induction items as [|[k0 v0] rest IH];
    intros [Hnd Hin] acc out H k; cbn [normalize_tasks dict_get map fst] in *.
  - inversion H. reflexivity.
  - inversion Hnd as [|x l Hx Hnd']; subst.
    destruct v0 as [| | | | | |d0]; try discriminate.
    assert (Hrest : NoDup (map fst rest)
                    /\ forall k d, In (k, PDict d) rest -> NoDup (map fst d)).
    { split; [exact Hnd'|]. intros k' d Hk. apply (Hin k' d). right. exact Hk. }
    specialize (IH Hrest _ _ H k).
    destruct (String.eqb k0 k) eqn:E.
    + apply String.eqb_eq in E. subst k0.
      assert (Hnone : dict_get rest k = None) by (apply dict_get_none_keys; exact Hx).
      rewrite Hnone in IH. rewrite IH, dict_get_set_same.
      eexists. split; [reflexivity|]. intros c.
      rewrite normalize_cases_lookup by (apply (Hin k d0); left; reflexivity).
      destruct (dict_get d0 c); reflexivity.
    + apply String.eqb_neq in E.
      destruct (dict_get rest k) as [v|]; [exact IH|].
      rewrite IH. apply dict_get_set_other. exact E.
Qed.

Section File.
Context (py : Builtins).

(** What the file source answers for a case, read off the payload. *)
Definition file_outcome (payload : pydict) (task : Schema.BenchmarkTask)
  (case : Schema.BenchmarkCase) : string + pydict :=
  match dict_get payload (Schema.task_id task) with
  | Some (PDict task_data) =>
      match dict_get task_data (Schema.case_id case) with
      | Some (PDict case_prediction) => inr case_prediction
      | Some case_prediction => inr [(Schema.prediction_key task, case_prediction)]
      | None =>
          inl (py_repr py (PStr ("No prediction for case '" ++ Schema.case_id case
                                   ++ "' in task '" ++ Schema.task_id task ++ "'")%string))
      end
  | _ =>
      inl (py_repr py (PStr ("No predictions for task '" ++ Schema.task_id task
                               ++ "'")%string))
  end.

Lemma file_predict_outcome (payload : pydict) (_predictions : list (string * pydict))
  (task : Schema.BenchmarkTask) (case : Schema.BenchmarkCase) :
  unique_keys payload ->
  _normalize_predictions payload = Ok _predictions ->
  file_predict py _predictions task case = file_outcome payload task case.
Proof.
  intros Hu Hn. unfold _normalize_predictions in Hn.
  pose proof (normalize_tasks_lookup payload Hu [] _predictions Hn (Schema.task_id task))
    as Hk.
  unfold file_predict, file_outcome.
  destruct (dict_get payload (Schema.task_id task)) as [v|].
  - destruct v; try contradiction.
    destruct Hk as [cases [Hget Hsame]]. rewrite Hget, Hsame. reflexivity.
  - rewrite Hk. reflexivity.
Qed.

End File.

(** The file source, built from a predictions payload whose keys are
    unique, answers a case with the payload's entry for the task and the
    case: a mapping is returned as it is, any other value is wrapped
    under the task's prediction key (so it is always recorded as the
    prediction, with no error), and a missing task or case is a failure
    with the [KeyError]'s message. Each case result of a record holds
    that outcome. *)
Theorem file_record_holds_predictions (py : Builtins) (env : Env)
  (payload : pydict) (adapter_obj : ModelAdapter unit)
  (suite : Schema.BenchmarkSuite) (prov : option pydict) (r : BenchmarkRun) :
  unique_keys payload ->
  new_FileAdapter py payload = Ok adapter_obj ->
  run_benchmark py env adapter_obj suite tt prov = Ok r ->
  Forall2 (fun task t =>
             Forall2 (fun case c => recorded py task case (file_outcome py payload task case) c)
               (Schema.cases task) (case_results t))
    (Schema.tasks suite) (task_results r).
Proof.
  intros Hu Hnew Hrun. unfold new_FileAdapter in Hnew.
  bind_inv Hnew as preds Hpreds. inversion Hnew; subst adapter_obj; clear Hnew.
  pose proof (run_benchmark_recorded py env (FileAdapter py preds) (fun _ _ _ => eq_refl)
                suite tt prov r Hrun) as Hrec.
  revert Hrec. apply Forall2_impl_in. intros task t _ _.
  apply Forall2_impl_in. intros case c _ _.
  cbn [FileAdapter predict fst].
  rewrite (file_predict_outcome py payload preds task case Hu Hpreds). auto.
Qed.

Lemma starter_predictions_unique : unique_keys _starter_candidate_predictions.
Proof.
  split.
  - repeat constructor; cbn; intuition discriminate.
  - intros k d [H|[H|[]]]; inversion H; subst;
      repeat constructor; cbn; intuition discriminate.
Qed.

Lemma file_record_holds_predictions_witness :
  exists suite adapter_obj r,
    SchemaLoader.suite_from_mapping Samples.builtins
      (SchemaLoader._starter_suite_payload "starter") = Ok suite
    /\ new_FileAdapter Samples.builtins _starter_candidate_predictions = Ok adapter_obj
    /\ run_benchmark Samples.builtins Samples.env adapter_obj suite tt None = Ok r
    /\ Forall2 (fun task t =>
                  Forall2 (fun case c =>
                             recorded Samples.builtins task case
                               (file_outcome Samples.builtins
                                  _starter_candidate_predictions task case) c)
                    (Schema.cases task) (case_results t))
         (Schema.tasks suite) (task_results r).
Proof.
  destruct (SchemaLoader.suite_from_mapping Samples.builtins
              (SchemaLoader._starter_suite_payload "starter")) as [suite|e] eqn:E;
    [|vm_compute in E; discriminate E].
  exists suite.
  destruct (new_FileAdapter Samples.builtins _starter_candidate_predictions)
    as [adapter_obj|e] eqn:Ea; [|vm_compute in Ea; discriminate Ea].
  exists adapter_obj.
  destruct (run_benchmark Samples.builtins Samples.env adapter_obj suite tt None)
    as [r|e] eqn:Er.
  - exists r. repeat split.
    apply (file_record_holds_predictions Samples.builtins Samples.env
             _starter_candidate_predictions adapter_obj suite None r
             starter_predictions_unique Ea Er).
  - exfalso. vm_compute in E. inversion E; subst suite.
    vm_compute in Ea. inversion Ea; subst adapter_obj.
    vm_compute in Er. discriminate Er.
Defined.

End FileFacts.

(* ===================================================================== *)
(** * baseline_registry.py                                                 *)
(* ===================================================================== *)

Module BaselineRegistry.
Import Py.
Local Open Scope string_scope.

(** The exceptions of this module. *)
Inductive registry_error : Type :=
| RegistryValueError : string -> registry_error
| RegistryKeyError : string -> registry_error.

Definition REGISTRY_VERSION : Z := 1.

(** The registry [load_registry] returns when the file does not exist. *)
Definition empty_registry : pydict :=
  [ ("version", PInt REGISTRY_VERSION); ("baselines", PDict []) ].

(** The checks of [load_registry] on the parsed file. A boolean is an
    [int] for [isinstance]. *)
Definition load_registry (payload : pyval) : registry_error + pydict :=
  match payload with
  | PDict payload_ =>
      match get payload_ "version" with
      | PInt _ | PBool _ =>
          match get payload_ "baselines" with
          | PDict _ => inr payload_
          | _ => inl (RegistryValueError "Registry must include object 'baselines'")
          end
      | _ => inl (RegistryValueError "Registry must include integer 'version'")
      end
  | _ => inl (RegistryValueError "Registry JSON must be an object")
  end.

Definition get_baseline_entry (registry : pydict) (suite_name baseline_name : string)
  : option pydict :=
  match get registry "baselines" with
  | PDict baselines_root =>
      match get baselines_root suite_name with
      | PDict suite_entries =>
          match get suite_entries baseline_name with
          | PDict baseline_payload =>
              match get baseline_payload "current" with
              | PDict current => Some current
              | _ => None
              end
          | _ => None
          end
      | _ => None
      end
  | _ => None
  end.

(** The path is returned as the string it is built from. *)
Definition resolve_baseline_path (registry : pydict) (suite_name baseline_name : string)
  : registry_error + string :=
  match get_baseline_entry registry suite_name baseline_name with
  | None =>
      inl (RegistryKeyError ("No baseline named '" ++ baseline_name ++ "' for suite '"
                               ++ suite_name ++ "'"))
  | Some entry =>
      match get entry "run_path" with
      | PStr (String c rest) => inr (String c rest)
      | _ =>
          inl (RegistryValueError ("Baseline '" ++ baseline_name ++ "' for suite '"
                                     ++ suite_name ++ "' has invalid run_path"))
      end
  end.

(** [d.setdefault(key, default)]: the value under [key], and the
    dictionary after the call. *)
Definition setdefault (d : pydict) (key : string) (default : pyval) : pyval * pydict :=
  match dict_get d key with
  | Some v => (v, d)
  | None => (default, dict_set d key default)
  end.

Definition opt_str (o : option string) : pyval :=
  match o with Some s => PStr s | None => PNone end.

Definition opt_dict (o : option pydict) : pyval :=
  match o with Some d => PDict d | None => PNone end.

(** The entry [promote_baseline] writes. [run_path] is
    [str(target_path.resolve())] and [promoted_at] the time stamp. *)
Definition current_entry (suite_name suite_version baseline_name run_path promoted_at : string)
  (run_payload : pydict) (notes : option string)
  (provenance compare_summary : option pydict) : pydict :=
  [ ("suite_name", PStr suite_name);
    ("suite_version", PStr suite_version);
    ("baseline_name", PStr baseline_name);
    ("run_path", PStr run_path);
    ("run_id", get run_payload "run_id");
    ("updated_at", PStr promoted_at);
    ("notes", opt_str notes);
    ("summary", get run_payload "summary");
    ("provenance", PDict (match provenance with None => [] | Some p => p end));
    ("compare_summary", opt_dict compare_summary) ].

(** The part of [promote_baseline] that works on the registry, once the
    candidate file has been read and copied. The registry is changed in
    place: the result is the outcome of the call and the registry after
    it. A dictionary reached through the registry is part of it, so a
    change to it is written back to where it was found. *)
Definition promote_baseline (registry : pydict)
  (suite_name suite_version baseline_name run_path promoted_at : string)
  (run_payload : pydict) (notes : option string)
  (provenance compare_summary : option pydict)
  : (registry_error + pydict) * pydict :=
  let (baselines_root, registry1) := setdefault registry "baselines" (PDict []) in
  match baselines_root with
  | PDict baselines_root_ =>
      let (suite_entries, baselines_root1) :=
        setdefault baselines_root_ suite_name (PDict []) in
      let registry2 := dict_set registry1 "baselines" (PDict baselines_root1) in
      match suite_entries with
      | PDict suite_entries_ =>
          let (baseline_entry, suite_entries1) :=
            setdefault suite_entries_ baseline_name (PDict []) in
          let registry3 :=
            dict_set registry2 "baselines"
              (PDict (dict_set baselines_root1 suite_name (PDict suite_entries1))) in
          match baseline_entry with
          | PDict baseline_entry_ =>
              let (history, baseline_entry1) :=
                setdefault baseline_entry_ "history" (PList []) in
              let store (entry : pydict) : pydict :=
                dict_set registry3 "baselines"
                  (PDict (dict_set baselines_root1 suite_name
                            (PDict (dict_set suite_entries1 baseline_name (PDict entry))))) in
              match history with
              | PList history_ =>
                  let current :=
                    current_entry suite_name suite_version baseline_name run_path
                      promoted_at run_payload notes provenance compare_summary in
                  let baseline_entry2 :=
                    dict_set baseline_entry1 "history"
                      (PList (history_ ++ [PDict current])) in
                  let baseline_entry3 := dict_set baseline_entry2 "current" (PDict current) in
                  (inr current, store baseline_entry3)
              | _ =>
                  (inl (RegistryValueError
                          ("Registry history for suite '" ++ suite_name ++ "' baseline '"
                             ++ baseline_name ++ "' must be a list")),
                   store baseline_entry1)
              end
          | _ =>
              (inl (RegistryValueError
                      ("Registry entry for suite '" ++ suite_name ++ "' baseline '"
                         ++ baseline_name ++ "' must be an object")),
               registry3)
          end
      | _ =>
          (inl (RegistryValueError
                  ("Registry entry for suite '" ++ suite_name ++ "' must be an object")),
           registry2)
      end
  | _ => (inl (RegistryValueError "Registry 'baselines' must be an object"), registry1)
  end.

(** The history of a baseline, empty when there is none. *)
Definition history_of (registry : pydict) (suite_name baseline_name : string) : list pyval :=
  match get registry "baselines" with
  | PDict baselines_root =>
      match get baselines_root suite_name with
      | PDict suite_entries =>
          match get suite_entries baseline_name with
          | PDict baseline_payload =>
              match get baseline_payload "history" with
              | PList history => history
              | _ => []
              end
          | _ => []
          end
      | _ => []
      end
  | _ => []
  end.

End BaselineRegistry.

(* ===================================================================== *)
(** * Promoting and looking up baselines                                   *)
(* ===================================================================== *)

Module RegistryFacts.
Import Py PyFacts BaselineRegistry.
Local Open Scope list_scope.

Lemma dict_set_same {V : Type} (d : list (string * V)) (k : string) (v : V) :
  dict_get d k = Some v -> dict_set d k v = d.
Proof.
  induction d as [|[k0 w] d IH]; cbn [dict_get dict_set]; intros H; [discriminate|].
  destruct (String.eqb k0 k) eqn:E.
  - apply String.eqb_eq in E. inversion H; subst. reflexivity.
  - rewrite IH by exact H. reflexivity.
Qed.

Lemma dict_set_set {V : Type} (d : list (string * V)) (k : string) (v w : V) :
  dict_set (dict_set d k v) k w = dict_set d k w.
Proof.
  induction d as [|[k0 u] d IH]; cbn [dict_set].
  - rewrite String.eqb_refl. reflexivity.
  - destruct (String.eqb k0 k) eqn:E; cbn [dict_set]; rewrite E; [reflexivity|].
    rewrite IH. reflexivity.
Qed.

Lemma get_set_eq (d : pydict) (k k' : string) (v : pyval) :
  get (dict_set d k v) k' = if String.eqb k k' then v else get d k'.
Proof.
  destruct (String.eqb k k') eqn:E.
  - apply String.eqb_eq in E. subst. apply get_set_same.
  - apply String.eqb_neq in E. apply get_set_other. exact E.
Qed.

Lemma setdefault_spec (d : pydict) (key : string) (default : pyval) :
  let (v, d') := setdefault d key default in
  get d' key = v
  /\ (forall k, k <> key -> get d' k = get d k)
  /\ (dict_get d key <> None -> d' = d /\ get d key = v)
  /\ (dict_get d key = None -> v = default /\ d' = dict_set d key default).
Proof.
  unfold setdefault, get. destruct (dict_get d key) as [v|] eqn:E.
  - rewrite E. repeat split; try congruence.
  - rewrite dict_get_set_same. repeat split; try congruence.
    intros k Hk. rewrite dict_get_set_other by congruence. reflexivity.
Qed.

Ltac reg_simpl :=
  repeat (first
    [ rewrite dict_get_set_same
    | rewrite dict_get_set_other by discriminate
    | rewrite String.eqb_refl
    | progress (cbn [fst snd dict_get dict_set app]) ]).

Section Promote.
Context (registry : pydict)
  (suite_name suite_version baseline_name run_path promoted_at : string)
  (run_payload : pydict) (notes : option string)
  (provenance compare_summary : option pydict).

Let promoted :=
  promote_baseline registry suite_name suite_version baseline_name run_path promoted_at
    run_payload notes provenance compare_summary.

Let current :=
  current_entry suite_name suite_version baseline_name run_path promoted_at run_payload
    notes provenance compare_summary.

Lemma promote_success (c : pydict) :
  fst promoted = inr c ->
  c = current
  /\ get_baseline_entry (snd promoted) suite_name baseline_name = Some current
  /\ history_of (snd promoted) suite_name baseline_name =
     history_of registry suite_name baseline_name ++ [PDict current].
Proof.
  unfold promoted, promote_baseline, get_baseline_entry, history_of, setdefault, get.
  fold current.
  destruct (dict_get registry "baselines") as [[| | | | | |broot]|] eqn:Eb;
    cbn [fst snd dict_get]; try (intros H; discriminate H).
  - destruct (dict_get broot suite_name) as [[| | | | | |se]|] eqn:Es;
      cbn [fst snd dict_get]; try (intros H; discriminate H).
    + destruct (dict_get se baseline_name) as [[| | | | | |be]|] eqn:Ebe;
        cbn [fst snd dict_get]; try (intros H; discriminate H).
      * destruct (dict_get be "history") as [[| | | | |h|]|] eqn:Eh;
          cbn [fst snd dict_get]; try (intros H; discriminate H);
          intros H; inversion H; (split; [reflexivity|]); reg_simpl; auto.
      * intros H; inversion H; (split; [reflexivity|]); reg_simpl; auto.
    + intros H; inversion H; (split; [reflexivity|]); reg_simpl; auto.
  - intros H; inversion H; (split; [reflexivity|]); reg_simpl; auto.
Qed.

Lemma promote_failure (e : registry_error) :
  fst promoted = inl e -> snd promoted = registry.
Proof.
  unfold promoted, promote_baseline, setdefault.
  destruct (dict_get registry "baselines") as [[| | | | | |broot]|] eqn:Eb;
    cbn [fst snd dict_get]; try reflexivity; try (intros H; discriminate H).
  - destruct (dict_get broot suite_name) as [[| | | | | |se]|] eqn:Es;
      cbn [fst snd dict_get]; try (intros H; discriminate H);
      try (intros _; apply dict_set_same; exact Eb).
    destruct (dict_get se baseline_name) as [[| | | | | |be]|] eqn:Ebe;
      cbn [fst snd dict_get]; try (intros H; discriminate H);
      try (intros _; rewrite dict_set_set, (dict_set_same broot suite_name _ Es);
           apply dict_set_same; exact Eb).
    destruct (dict_get be "history") as [[| | | | |h|]|] eqn:Eh;
      cbn [fst snd dict_get]; try (intros H; discriminate H);
      intros _;
      rewrite !dict_set_set, (dict_set_same se baseline_name _ Ebe),
        (dict_set_same broot suite_name _ Es);
      apply dict_set_same; exact Eb.
Qed.

Lemma promote_frame (other_suite other_baseline : string) :
  other_suite <> suite_name \/ other_baseline <> baseline_name ->
  get_baseline_entry (snd promoted) other_suite other_baseline =
  get_baseline_entry registry other_suite other_baseline
  /\ history_of (snd promoted) other_suite other_baseline =
     history_of registry other_suite other_baseline.
Proof.
  intros Hother.
  destruct (fst promoted) as [e|c] eqn:Hres.
  { rewrite (promote_failure e Hres). split; reflexivity. }
  revert Hres.
  unfold promoted, promote_baseline, get_baseline_entry, history_of, setdefault, get.
  assert (Hcase : forall (d : pydict) (k k' : string) (v : pyval),
             dict_get (dict_set d k v) k' =
             if String.eqb k k' then Some v else dict_get d k').
  { intros d k k' v. destruct (String.eqb k k') eqn:E.
    - apply String.eqb_eq in E. subst. apply dict_get_set_same.
    - apply String.eqb_neq in E. apply dict_get_set_other. exact E. }
  assert (Hfin : forall P : Prop,
             ((String.eqb suite_name other_suite = true ->
               String.eqb baseline_name other_baseline = true -> False) -> P) -> P).
  { intros P HP. apply HP. intros E1 E2.
    apply String.eqb_eq in E1, E2. subst.
    destruct Hother as [Ho|Ho]; apply Ho; reflexivity. }
  apply Hfin. clear Hfin Hother. intros Hother.
  destruct (dict_get registry "baselines") as [[| | | | | |broot]|] eqn:Eb;
    cbn [fst snd dict_get]; try (intros H; discriminate H).
  - destruct (dict_get broot suite_name) as [[| | | | | |se]|] eqn:Es;
      cbn [fst snd dict_get]; try (intros H; discriminate H).
    + destruct (dict_get se baseline_name) as [[| | | | | |be]|] eqn:Ebe;
        cbn [fst snd dict_get]; try (intros H; discriminate H).
      * destruct (dict_get be "history") as [[| | | | |h|]|] eqn:Eh;
          cbn [fst snd dict_get]; try (intros H; discriminate H);
          intros _; repeat (rewrite dict_get_set_same || rewrite Hcase); cbn [dict_get];
          (destruct (String.eqb suite_name other_suite) eqn:E1; [|split; reflexivity]);
          apply String.eqb_eq in E1; subst other_suite; rewrite Es;
          repeat (rewrite dict_get_set_same || rewrite Hcase); cbn [dict_get];
          (destruct (String.eqb baseline_name other_baseline) eqn:E2;
           [exfalso; apply Hother; reflexivity
           | split; reflexivity]).
      * intros _; repeat (rewrite dict_get_set_same || rewrite Hcase); cbn [dict_get];
          (destruct (String.eqb suite_name other_suite) eqn:E1; [|split; reflexivity]);
          apply String.eqb_eq in E1; subst other_suite; rewrite Es;
          repeat (rewrite dict_get_set_same || rewrite Hcase); cbn [dict_get];
          (destruct (String.eqb baseline_name other_baseline) eqn:E2;
           [exfalso; apply Hother; reflexivity
           | split; reflexivity]).
    + intros _; repeat (rewrite dict_get_set_same || rewrite Hcase); cbn [dict_get];
        (destruct (String.eqb suite_name other_suite) eqn:E1; [|split; reflexivity]);
        apply String.eqb_eq in E1; subst other_suite; rewrite Es;
          repeat (rewrite dict_get_set_same || rewrite Hcase); cbn [dict_get];
        (destruct (String.eqb baseline_name other_baseline) eqn:E2;
         [exfalso; apply Hother; reflexivity
         | split; reflexivity]).
  - intros _; repeat (rewrite dict_get_set_same || rewrite Hcase); cbn [dict_get];
      (destruct (String.eqb suite_name other_suite) eqn:E1; [|split; reflexivity]);
      repeat (rewrite dict_get_set_same || rewrite Hcase); cbn [dict_get];
      (destruct (String.eqb baseline_name other_baseline) eqn:E2;
       [exfalso; apply Hother; reflexivity | split; reflexivity]).
Qed.

End Promote.

(** A promotion that succeeds returns the entry it wrote; the registry
    then gives that entry for the suite and the baseline, resolves the
    baseline to the entry's run path (when the path is not empty), and
    the baseline's history is the history before with the entry added at
    its end. *)
Theorem promoted_baseline_is_current (registry : pydict)
  (suite_name suite_version baseline_name run_path promoted_at : string)
  (run_payload : pydict) (notes : option string)
  (provenance compare_summary : option pydict) (entry : pydict) :
  fst (promote_baseline registry suite_name suite_version baseline_name run_path
         promoted_at run_payload notes provenance compare_summary) = inr entry ->
  let registry' :=
    snd (promote_baseline registry suite_name suite_version baseline_name run_path
           promoted_at run_payload notes provenance compare_summary) in
  entry = current_entry suite_name suite_version baseline_name run_path promoted_at
            run_payload notes provenance compare_summary
  /\ get_baseline_entry registry' suite_name baseline_name = Some entry
  /\ (run_path <> ""%string ->
      resolve_baseline_path registry' suite_name baseline_name = inr run_path)
  /\ history_of registry' suite_name baseline_name =
     history_of registry suite_name baseline_name ++ [PDict entry].
Proof.
  intros H registry'.
  destruct (promote_success registry suite_name suite_version baseline_name run_path
              promoted_at run_payload notes provenance compare_summary entry H)
    as [Hentry [Hget Hhist]].
  subst registry'. rewrite <- Hentry in Hget, Hhist.
  repeat split; try assumption.
  intros Hpath. unfold resolve_baseline_path. rewrite Hget, Hentry.
  change (get (current_entry _ _ _ _ _ _ _ _ _) "run_path") with (PStr run_path).
  destruct run_path; [contradiction | reflexivity].
Qed.

Lemma promoted_baseline_is_current_witness :
  get_baseline_entry
    (snd (promote_baseline empty_registry "suite" "1.0.0" "main" "/store/run.json"
            "2025-01-01T00:00:00+00:00" Fixtures.golden_record None None None))
    "suite" "main"
  = Some (current_entry "suite" "1.0.0" "main" "/store/run.json"
            "2025-01-01T00:00:00+00:00" Fixtures.golden_record None None None).
Proof.
  apply (promoted_baseline_is_current empty_registry "suite" "1.0.0" "main"
           "/store/run.json" "2025-01-01T00:00:00+00:00" Fixtures.golden_record
           None None None
           (current_entry "suite" "1.0.0" "main" "/store/run.json"
              "2025-01-01T00:00:00+00:00" Fixtures.golden_record None None None)).
  reflexivity.
Defined.

(** A promotion, whether it succeeds or fails, leaves every other
    baseline as it was: for another suite or another baseline name the
    registry gives the same entry and the same history as before. *)
Theorem promotion_keeps_other_baselines (registry : pydict)
  (suite_name suite_version baseline_name run_path promoted_at : string)
  (run_payload : pydict) (notes : option string)
  (provenance compare_summary : option pydict)
  (other_suite other_baseline : string) :
  other_suite <> suite_name \/ other_baseline <> baseline_name ->
  let registry' :=
    snd (promote_baseline registry suite_name suite_version baseline_name run_path
           promoted_at run_payload notes provenance compare_summary) in
  get_baseline_entry registry' other_suite other_baseline =
  get_baseline_entry registry other_suite other_baseline
  /\ history_of registry' other_suite other_baseline =
     history_of registry other_suite other_baseline.
Proof. intros H. apply promote_frame. exact H. Qed.

Lemma promotion_keeps_other_baselines_witness :
  let registry :=
    snd (promote_baseline empty_registry "suite" "1.0.0" "main" "/store/a.json"
           "2025-01-01T00:00:00+00:00" Fixtures.golden_record None None None) in
  get_baseline_entry
    (snd (promote_baseline registry "suite" "1.0.0" "nightly" "/store/b.json"
            "2025-01-02T00:00:00+00:00" Fixtures.shifted_record None None None))
    "suite" "main"
  = get_baseline_entry registry "suite" "main".
Proof.
  intros registry.
  apply (promotion_keeps_other_baselines registry "suite" "1.0.0" "nightly" "/store/b.json"
           "2025-01-02T00:00:00+00:00" Fixtures.shifted_record None None None
           "suite" "main").
  right. discriminate.
Defined.

(** A promotion that fails leaves the registry exactly as it was:
    [setdefault] only adds a key where the check that follows cannot
    fail. *)
Theorem failed_promotion_changes_nothing (registry : pydict)
  (suite_name suite_version baseline_name run_path promoted_at : string)
  (run_payload : pydict) (notes : option string)
  (provenance compare_summary : option pydict) (e : registry_error) :
  fst (promote_baseline registry suite_name suite_version baseline_name run_path
         promoted_at run_payload notes provenance compare_summary) = inl e ->
  snd (promote_baseline registry suite_name suite_version baseline_name run_path
         promoted_at run_payload notes provenance compare_summary) = registry.
Proof. apply promote_failure. Qed.

Lemma failed_promotion_changes_nothing_witness :
  snd (promote_baseline [("version", PInt 1); ("baselines", PDict [("suite", PList [])])]
         "suite" "1.0.0" "main" "/store/a.json" "2025-01-01T00:00:00+00:00"
         Fixtures.golden_record None None None)
  = [("version", PInt 1); ("baselines", PDict [("suite", PList [])])].
Proof.
  apply (failed_promotion_changes_nothing
           [("version", PInt 1); ("baselines", PDict [("suite", PList [])])]
           "suite" "1.0.0" "main" "/store/a.json" "2025-01-01T00:00:00+00:00"
           Fixtures.golden_record None None None
           (RegistryValueError "Registry entry for suite 'suite' must be an object")).
  reflexivity.
Defined.

End RegistryFacts.

(* ===================================================================== *)
(** * cli.py: the policy from the command line and the exit status         *)
(* ===================================================================== *)

Module Cli.
Import Py Compare.
Local Open Scope string_scope.

(** [_policy_from_args]. The three numbers come from [argparse] with
    [type=float] and [type=int], so [float()] and [int()] leave them as
    they are. *)
Definition _policy_from_args (min_effect_size : float) (bootstrap_resamples : Z)
  (confidence_level : float) (bootstrap_seed : option Z) (fail_on_uncertain : bool)
  : result StatisticalPolicy :=
  if (min_effect_size <? 0)%float then
    Raise (ValueError "--min-effect-size must be >= 0")
  else if (bootstrap_resamples <? 0)%Z then
    Raise (ValueError "--bootstrap-resamples must be >= 0")
  else if (confidence_level <=? 0)%float || (1 <=? confidence_level)%float then
    Raise (ValueError "--confidence-level must be between 0 and 1")
  else
    Ok {| Compare.min_effect_size := min_effect_size;
          Compare.bootstrap_resamples := bootstrap_resamples;
          Compare.confidence_level := confidence_level;
          Compare.bootstrap_seed := bootstrap_seed;
          Compare.fail_on_uncertain := fail_on_uncertain |}.

Definition opt_float (o : option float) : pyval :=
  match o with Some f => PFloat f | None => PNone end.

(** [ComparisonReport.to_dict], that is [dataclasses.asdict]. *)
Definition comparison_to_dict (c : TaskComparison) : pyval :=
  PDict [ ("task_id", PStr (task_id c));
          ("metric", PStr (metric c));
          ("direction", PStr (direction c));
          ("baseline_score", opt_float (baseline_score c));
          ("candidate_score", opt_float (candidate_score c));
          ("tolerance", PFloat (tolerance c));
          ("threshold", PFloat (threshold c));
          ("delta", opt_float (delta c));
          ("regression_amount", opt_float (regression_amount c));
          ("ci_low", opt_float (ci_low c));
          ("ci_high", opt_float (ci_high c));
          ("p_regression", opt_float (p_regression c));
          ("paired_cases", PInt (Z.of_nat (paired_cases c)));
          ("status", PStr (status c));
          ("message", PStr (message c)) ].

Definition to_dict (r : ComparisonReport) : pydict :=
  [ ("suite_name", PStr (suite_name r));
    ("suite_version", PStr (suite_version r));
    ("summary", PDict (summary r));
    ("policy", PDict (policy r));
    ("task_comparisons", PList (map comparison_to_dict (task_comparisons r))) ].

Section WithInt.
(** [int(s)] for a string is taken as given; [None] stands for
    [ValueError]. *)
Context (int_of_str : string -> option Z).

(** [int(value)]. *)
Definition py_int (value : pyval) : result Z :=
  match value with
  | PInt z => Ok z
  | PBool b => Ok (bool_Z b)
  | PFloat f => float_trunc f
  | PStr s =>
      match int_of_str s with
      | Some z => Ok z
      | None => Raise (ValueError "invalid literal for int() with base 10")
      end
  | _ => Raise (TypeError "int() argument must be a string, a bytes-like object or a real number")
  end.

Definition summary_count (summary_ : pyval) (key : string) : result Z :=
  match summary_ with
  | PDict d =>
      py_int (match dict_get d key with Some v => v | None => PInt 0 end)
  | _ => Ok 0%Z
  end.

Definition _comparison_failed (compare_payload : pydict) (fail_on_uncertain_ : bool)
  : result bool :=
  let summary_ :=
    match dict_get compare_payload "summary" with Some v => v | None => PDict [] end in
  regressions_ <- summary_count summary_ "regressions" ;;
  uncertain_ <- summary_count summary_ "uncertain" ;;
  if (0 <? regressions_)%Z then Ok true
  else if fail_on_uncertain_ && (0 <? uncertain_)%Z then Ok true
  else Ok false.

End WithInt.

End Cli.

Module CliFacts.
Import Py Compare Cli ReportFacts FloatFacts.
Local Open Scope list_scope.

Lemma nan_not_ltb (p x : float) : is_nan p = true -> (p <? x)%float = false.
Proof.
  rewrite is_nan_spec, ltb_spec.
  destruct (Prim2SF p); try discriminate. intros _. reflexivity.
Qed.

Lemma leb_not_ltb (x y : float) : (x <=? y)%float = true -> (y <? x)%float = false.
Proof.
  intros H. destruct (FloatOrder.leb_not_nan x y H) as [Hx Hy].
  destruct (y <? x)%float eqn:E; [|reflexivity]. exfalso.
  rewrite is_nan_spec in Hx, Hy. rewrite leb_spec in H. rewrite ltb_spec in E.
  apply (FloatOrder.sf_leb_key _ _ Hx Hy) in H.
  apply (FloatOrder.sf_ltb_key _ _ Hy Hx) in E.
  exact (FloatOrder.key_lt_irrefl _ _ E H).
Qed.

Lemma ltb_not_leb (x y : float) : (x <? y)%float = true -> (y <=? x)%float = false.
Proof.
  intros H. destruct (y <=? x)%float eqn:E; [|reflexivity].
  rewrite (leb_not_ltb _ _ E) in H. discriminate H.
Qed.

(** The arguments [_policy_from_args] lets through. *)
Definition accepted_effect_size (x : float) : Prop :=
  is_nan x = true \/ (0 <=? x)%float = true.

Definition accepted_confidence_level (x : float) : Prop :=
  is_nan x = true \/ ((0 <? x)%float = true /\ (x <? 1)%float = true).

Lemma policy_from_args_returns (min_effect_size_ : float) (bootstrap_resamples_ : Z)
  (confidence_level_ : float) (bootstrap_seed_ : option Z) (fail_on_uncertain_ : bool) :
  (0 <= bootstrap_resamples_)%Z ->
  accepted_effect_size min_effect_size_ ->
  accepted_confidence_level confidence_level_ ->
  _policy_from_args min_effect_size_ bootstrap_resamples_ confidence_level_
    bootstrap_seed_ fail_on_uncertain_ =
  Ok {| min_effect_size := min_effect_size_;
        bootstrap_resamples := bootstrap_resamples_;
        confidence_level := confidence_level_;
        bootstrap_seed := bootstrap_seed_;
        fail_on_uncertain := fail_on_uncertain_ |}.
Proof.
  intros Hr Hm Hc. unfold _policy_from_args.
  assert (Em : (min_effect_size_ <? 0)%float = false).
  { destruct Hm as [Hm|Hm]; [apply nan_not_ltb | apply leb_not_ltb]; exact Hm. }
  assert (Er : (bootstrap_resamples_ <? 0)%Z = false) by (apply Z.ltb_ge; exact Hr).
  assert (Ec0 : (confidence_level_ <=? 0)%float = false).
  { destruct Hc as [Hc|[Hc _]].
    - apply (QuantileFacts.nan_not_leb _ 0 Hc).
    - apply ltb_not_leb; exact Hc. }
  assert (Ec1 : (1 <=? confidence_level_)%float = false).
  { destruct Hc as [Hc|[_ Hc]].
    - apply (QuantileFacts.nan_not_leb _ 1 Hc).
    - apply ltb_not_leb; exact Hc. }
  rewrite Em, Er, Ec0, Ec1. reflexivity.
Qed.

Lemma policy_from_args_inv (min_effect_size_ : float) (bootstrap_resamples_ : Z)
  (confidence_level_ : float) (bootstrap_seed_ : option Z) (fail_on_uncertain_ : bool)
  (p : StatisticalPolicy) :
  _policy_from_args min_effect_size_ bootstrap_resamples_ confidence_level_
    bootstrap_seed_ fail_on_uncertain_ = Ok p ->
  p = {| min_effect_size := min_effect_size_;
         bootstrap_resamples := bootstrap_resamples_;
         confidence_level := confidence_level_;
         bootstrap_seed := bootstrap_seed_;
         fail_on_uncertain := fail_on_uncertain_ |}
  /\ (0 <= bootstrap_resamples_)%Z
  /\ (is_nan min_effect_size_ = false -> (0 <=? min_effect_size_)%float = true)
  /\ (is_nan confidence_level_ = false ->
      (0 <? confidence_level_)%float = true /\ (confidence_level_ <? 1)%float = true).
Proof.
  unfold _policy_from_args. intros H.
  destruct (min_effect_size_ <? 0)%float eqn:Hm; [discriminate|].
  destruct (bootstrap_resamples_ <? 0)%Z eqn:Hr; [discriminate|].
  destruct (confidence_level_ <=? 0)%float eqn:Hc0; [discriminate|].
  destruct (1 <=? confidence_level_)%float eqn:Hc1; [discriminate|].
  inversion H; subst p; clear H.
  split; [reflexivity|]. split; [apply Z.ltb_ge; exact Hr|]. split.
  - intros Hnan. apply FloatOrder.leb_total; [exact Hnan | reflexivity | exact Hm].
  - intros Hnan. split.
    + destruct (0 <? confidence_level_)%float eqn:E; [reflexivity|].
      rewrite (FloatOrder.leb_total 0 confidence_level_ eq_refl Hnan E) in Hc0.
      discriminate.
    + destruct (confidence_level_ <? 1)%float eqn:E; [reflexivity|].
      rewrite (FloatOrder.leb_total confidence_level_ 1 Hnan eq_refl E) in Hc1.
      discriminate.
Qed.

(** [_policy_from_args] accepts exactly the arguments for which none of
    its comparisons holds, and the accepted policy holds the arguments
    unchanged. A NaN compares false with everything, so a NaN
    [min_effect_size] or [confidence_level] is accepted; any other
    accepted [min_effect_size] is at least 0 and any other accepted
    [confidence_level] lies strictly between 0 and 1; and with
    [bootstrap_resamples >= 0] every such pair of values is accepted. *)
Theorem policy_from_args_accepts (min_effect_size_ : float) (bootstrap_resamples_ : Z)
  (confidence_level_ : float) (bootstrap_seed_ : option Z) (fail_on_uncertain_ : bool) :
  let given :=
    {| min_effect_size := min_effect_size_;
       bootstrap_resamples := bootstrap_resamples_;
       confidence_level := confidence_level_;
       bootstrap_seed := bootstrap_seed_;
       fail_on_uncertain := fail_on_uncertain_ |} in
  let outcome :=
    _policy_from_args min_effect_size_ bootstrap_resamples_ confidence_level_
      bootstrap_seed_ fail_on_uncertain_ in
  (forall p, outcome = Ok p ->
     p = given
     /\ (0 <= bootstrap_resamples_)%Z
     /\ (is_nan min_effect_size_ = false -> (0 <=? min_effect_size_)%float = true)
     /\ (is_nan confidence_level_ = false ->
         (0 <? confidence_level_)%float = true
         /\ (confidence_level_ <? 1)%float = true))
  /\ ((0 <= bootstrap_resamples_)%Z ->
      is_nan min_effect_size_ = true \/ (0 <=? min_effect_size_)%float = true ->
      is_nan confidence_level_ = true
      \/ ((0 <? confidence_level_)%float = true
          /\ (confidence_level_ <? 1)%float = true) ->
      outcome = Ok given).
Proof.
  cbv zeta. split.
  - intros p H. apply policy_from_args_inv. exact H.
  - intros Hr Hm Hc. apply policy_from_args_returns; assumption.
Qed.

(** A NaN effect size and a NaN confidence level, accepted. *)
Lemma policy_from_args_accepts_witness :
  _policy_from_args nan 200 nan (Some 7%Z) true =
  Ok {| min_effect_size := nan; bootstrap_resamples := 200;
        confidence_level := nan; bootstrap_seed := Some 7%Z;
        fail_on_uncertain := true |}.
Proof.
  apply (proj2 (policy_from_args_accepts nan 200 nan (Some 7%Z) true)).
  - discriminate.
  - left. reflexivity.
  - left. reflexivity.
Defined.

(** The edge the comparisons leave open. *)
Example nan_policy_accepted :
  exists p, _policy_from_args nan 0 nan None false = Ok p.
Proof. eexists. reflexivity. Qed.

Section Exit.
Context (py : Builtins) (R : RandomImpl) (os_seed : nat -> Z)
  (int_of_str : string -> option Z).

Lemma comparison_failed_of_summary (p : StatisticalPolicy) (cs : list TaskComparison)
  (payload : pydict) :
  dict_get payload "summary" = Some (PDict (report_summary p cs)) ->
  _comparison_failed int_of_str payload (fail_on_uncertain p) =
  Ok (negb (Nat.eqb (count_with_status "regression" cs) 0
            && (if fail_on_uncertain p
                then Nat.eqb (count_with_status "uncertain" cs) 0 else true))).
Proof.
  intros Hs. unfold _comparison_failed. rewrite Hs. unfold report_summary.
  cbn [summary_count dict_get String.eqb Ascii.eqb Bool.eqb py_int bind].
  destruct (count_with_status "regression" cs) as [|n];
    destruct (count_with_status "uncertain" cs) as [|m];
    destruct (fail_on_uncertain p); reflexivity.
Qed.

End Exit.

(** The exit status follows the report: for a report that [compare_runs]
    returned, [_comparison_failed], given the report's dictionary and the
    policy's [fail_on_uncertain], says failed exactly when the report's
    [summary.passed] is false. *)
Theorem exit_status_follows_passed (py : Builtins) (R : RandomImpl) (os_seed : nat -> Z)
  (int_of_str : string -> option Z) (suite : Schema.BenchmarkSuite)
  (baseline_run candidate_run : pydict) (policy_arg : option StatisticalPolicy)
  (report : ComparisonReport) :
  compare_runs py R os_seed suite baseline_run candidate_run policy_arg = Ok report ->
  exists passed,
    get (summary report) "passed" = PBool passed
    /\ _comparison_failed int_of_str (to_dict report)
         (fail_on_uncertain (policy_of policy_arg)) = Ok (negb passed).
Proof.
  intros H. apply compare_runs_shape in H. destruct H as [_ [_ [_ Hsum]]].
  eexists. split.
  - rewrite Hsum. reflexivity.
  - apply comparison_failed_of_summary. cbn. rewrite Hsum. reflexivity.
Qed.

Lemma exit_status_follows_passed_witness :
  exists passed,
    _comparison_failed (fun _ => None)
      (match compare_runs Samples.builtins Samples.lcg (fun _ => 0%Z) Samples.test_suite
               Fixtures.golden_record Fixtures.shifted_record None with
       | Ok report => to_dict report
       | Raise _ => []
       end) false = Ok (negb passed).
Proof.
  destruct (compare_runs Samples.builtins Samples.lcg (fun _ => 0%Z) Samples.test_suite
              Fixtures.golden_record Fixtures.shifted_record None) as [report|e] eqn:E;
    [|vm_compute in E; discriminate E].
  destruct (exit_status_follows_passed Samples.builtins Samples.lcg (fun _ => 0%Z)
              (fun _ => None) Samples.test_suite Fixtures.golden_record
              Fixtures.shifted_record None report E) as [passed [_ H]].
  exists passed. exact H.
Defined.

End CliFacts.

(* ===================================================================== *)
(** * Arithmetic that cannot give NaN                                      *)
(* ===================================================================== *)

Module NoNaN.
Import Py FloatFacts Rounding.
Local Open Scope Z_scope.









End NoNaN.

(* ===================================================================== *)
(** * The verdict under bootstrap                                          *)
(* ===================================================================== *)

Module BootstrapFacts.
Import Py Compare PyFacts.
Local Open Scope list_scope.

Section Bootstrap.
Context (py : Builtins) (R : RandomImpl) (os_seed : nat -> Z).








End Bootstrap.





Definition entry_of (run : pydict) : pydict :=
  match dict_get (_task_map run) "affinity_mae" with Some d => d | None => [] end.

Definition score_of (run : pydict) : float :=
  match _extract_score Samples.builtins (Some (entry_of run)) with
  | Ok (Some s) => s
  | _ => 0%float
  end.


End BootstrapFacts.

(* ===================================================================== *)
(** * baseline_registry._slug                                              *)
(* ===================================================================== *)

Module Slug.
Import Py.
Local Open Scope string_scope.

(** [str.lower] and [str.isalnum] on the code points below 256, the
    range of the strings of this development. *)
Definition lower_char (c : ascii) : ascii :=
  let n := nat_of_ascii c in
  if (Nat.leb 65 n && Nat.leb n 90) || (Nat.leb 192 n && Nat.leb n 214)
     || (Nat.leb 216 n && Nat.leb n 222)
  then ascii_of_nat (n + 32) else c.

Definition is_alnum (c : ascii) : bool :=
  let n := nat_of_ascii c in
  (Nat.leb 48 n && Nat.leb n 57) || (Nat.leb 65 n && Nat.leb n 90)
  || (Nat.leb 97 n && Nat.leb n 122)
  || Nat.eqb n 170 || Nat.eqb n 178 || Nat.eqb n 179 || Nat.eqb n 181
  || Nat.eqb n 185 || Nat.eqb n 186 || (Nat.leb 188 n && Nat.leb n 190)
  || (Nat.leb 192 n && Nat.leb n 214) || (Nat.leb 216 n && Nat.leb n 246)
  || (Nat.leb 248 n && Nat.leb n 255).

Fixpoint lower (s : string) : string :=
  match s with
  | EmptyString => EmptyString
  | String c rest => String (lower_char c) (lower rest)
  end.

Definition is_dash (c : ascii) : bool := Ascii.eqb c "-".

(** The loop [for char in ...]: a character that is not alphanumeric
    becomes a dash. *)
Fixpoint dashed (s : string) : string :=
  match s with
  | EmptyString => EmptyString
  | String c rest => String (if is_alnum c then c else "-"%char) (dashed rest)
  end.

(** [s.strip("-")]. *)
Fixpoint lstrip_dash (s : string) : string :=
  match s with
  | String c rest => if is_dash c then lstrip_dash rest else s
  | EmptyString => EmptyString
  end.

Fixpoint rstrip_dash (s : string) : string :=
  match s with
  | EmptyString => EmptyString
  | String c rest =>
      match rstrip_dash rest with
      | EmptyString => if is_dash c then EmptyString else String c EmptyString
      | r => String c r
      end
  end.

Definition strip_dash (s : string) : string := rstrip_dash (lstrip_dash s).

(** ["--" in s]. *)
Fixpoint has_double_dash (s : string) : bool :=
  match s with
  | String c rest =>
      match rest with
      | String d _ => (is_dash c && is_dash d) || has_double_dash rest
      | EmptyString => false
      end
  | EmptyString => false
  end.

(** [s.replace("--", "-")]: the occurrences are replaced from the left,
    without overlap. *)
Fixpoint replace_double_dash (s : string) : string :=
  match s with
  | String c rest =>
      match rest with
      | String d rest' =>
          if is_dash c && is_dash d then String "-" (replace_double_dash rest')
          else String c (replace_double_dash rest)
      | EmptyString => s
      end
  | EmptyString => EmptyString
  end.

(** The loop [while "--" in slug]; each turn shortens the string, so its
    length bounds the number of turns. *)
Fixpoint collapse (turns : nat) (slug : string) : string :=
  match turns with
  | O => slug
  | S turns' =>
      if has_double_dash slug then collapse turns' (replace_double_dash slug)
      else slug
  end.

Definition _slug (value : string) : string :=
  let slug := strip_dash (dashed (strip (lower value))) in
  let slug := collapse (String.length slug) slug in
  if String.eqb slug "" then "default" else slug.

End Slug.

Module SlugFacts.
Import Py Slug.
Local Open Scope string_scope.

Fixpoint all_chars (P : ascii -> bool) (s : string) : bool :=
  match s with
  | EmptyString => true
  | String c rest => P c && all_chars P rest
  end.

(** A character of a slug: alphanumeric and already lower case, or a
    dash. *)
Definition slug_char (c : ascii) : bool :=
  (is_alnum c && Ascii.eqb (lower_char c) c) || is_dash c.

Definition first_is (P : ascii -> bool) (s : string) : bool :=
  match s with
  | EmptyString => false
  | String c _ => P c
  end.

Fixpoint last_is (P : ascii -> bool) (s : string) : bool :=
  match s with
  | EmptyString => false
  | String c EmptyString => P c
  | String _ rest => last_is P rest
  end.

(** ** Facts about single characters, by enumeration *)

Lemma each_ascii (P : ascii -> bool) :
  (forall b0 b1 b2 b3 b4 b5 b6 b7, P (Ascii b0 b1 b2 b3 b4 b5 b6 b7) = true) ->
  forall c, P c = true.
Proof. intros H [b0 b1 b2 b3 b4 b5 b6 b7]. apply H. Qed.

Lemma lowered_slug_char (c : ascii) :
  (if is_alnum (lower_char c) then slug_char (lower_char c) else true) = true.
Proof.
  revert c. apply (each_ascii (fun c =>
    if is_alnum (lower_char c) then slug_char (lower_char c) else true)).
  intros [] [] [] [] [] [] [] []; vm_compute; reflexivity.
Qed.

Lemma slug_char_facts (c : ascii) :
  (if slug_char c
   then Ascii.eqb (lower_char c) c && negb (is_space c)
        && Ascii.eqb (if is_alnum c then c else "-"%char) c
        && negb (Ascii.eqb c "/") && negb (Ascii.eqb c "\") && negb (Ascii.eqb c ".")
        && negb (Ascii.eqb c "000")
   else true) = true.
Proof.
  revert c. apply (each_ascii (fun c =>
    if slug_char c
    then Ascii.eqb (lower_char c) c && negb (is_space c)
         && Ascii.eqb (if is_alnum c then c else "-"%char) c
         && negb (Ascii.eqb c "/") && negb (Ascii.eqb c "\") && negb (Ascii.eqb c ".")
         && negb (Ascii.eqb c "000")
    else true)).
  intros [] [] [] [] [] [] [] []; vm_compute; reflexivity.
Qed.

(** ** The steps of [_slug] keep the characters *)

Lemma all_chars_impl (P Q : ascii -> bool) (s : string) :
  (forall c, P c = true -> Q c = true) -> all_chars P s = true -> all_chars Q s = true.
Proof.
  intros H. induction s as [|c s IH]; cbn [all_chars]; [reflexivity|].
  rewrite !andb_true_iff. intros [Hc Hs]. auto.
Qed.

Lemma dashed_chars (s : string) :
  all_chars (fun c => Ascii.eqb (lower_char c) c) s = true ->
  all_chars slug_char (dashed s) = true.
Proof.
  induction s as [|c s IH]; cbn [dashed all_chars]; [reflexivity|].
  rewrite andb_true_iff. intros [Hc Hs]. rewrite (IH Hs), andb_true_r.
  unfold slug_char. destruct (is_alnum c) eqn:E; [rewrite E, Hc|]; reflexivity.
Qed.

Lemma lower_idempotent_char (c : ascii) :
  Ascii.eqb (lower_char (lower_char c)) (lower_char c) = true.
Proof.
  revert c. apply (each_ascii (fun c =>
    Ascii.eqb (lower_char (lower_char c)) (lower_char c))).
  intros [] [] [] [] [] [] [] []; vm_compute; reflexivity.
Qed.

Lemma lower_chars (s : string) :
  all_chars (fun c => Ascii.eqb (lower_char c) c) (lower s) = true.
Proof.
  induction s as [|c s IH]; cbn [lower all_chars]; [reflexivity|].
  rewrite lower_idempotent_char, IH. reflexivity.
Qed.

Lemma lstrip_chars (P : ascii -> bool) (s : string) :
  all_chars P s = true -> all_chars P (lstrip s) = true.
Proof.
  induction s as [|c s IH]; cbn [lstrip all_chars]; [reflexivity|].
  rewrite andb_true_iff. intros [Hc Hs].
  destruct (is_space c); [auto | cbn [all_chars]; rewrite Hc, Hs; reflexivity].
Qed.

Lemma rstrip_chars (P : ascii -> bool) (s : string) :
  all_chars P s = true -> all_chars P (rstrip s) = true.
Proof.
  induction s as [|c s IH]; cbn [rstrip all_chars]; [reflexivity|].
  rewrite andb_true_iff. intros [Hc Hs]. specialize (IH Hs).
  destruct (rstrip s) as [|d r].
  - destruct (is_space c); cbn [all_chars]; [reflexivity | rewrite Hc; reflexivity].
  - cbn [all_chars] in *. rewrite Hc, IH. reflexivity.
Qed.

Lemma lstrip_dash_chars (P : ascii -> bool) (s : string) :
  all_chars P s = true -> all_chars P (lstrip_dash s) = true.
Proof.
  induction s as [|c s IH]; cbn [lstrip_dash all_chars]; [reflexivity|].
  rewrite andb_true_iff. intros [Hc Hs].
  destruct (is_dash c); [auto | cbn [all_chars]; rewrite Hc, Hs; reflexivity].
Qed.

Lemma rstrip_dash_chars (P : ascii -> bool) (s : string) :
  all_chars P s = true -> all_chars P (rstrip_dash s) = true.
Proof.
  induction s as [|c s IH]; cbn [rstrip_dash all_chars]; [reflexivity|].
  rewrite andb_true_iff. intros [Hc Hs]. specialize (IH Hs).
  destruct (rstrip_dash s) as [|d r].
  - destruct (is_dash c); cbn [all_chars]; [reflexivity | rewrite Hc; reflexivity].
  - cbn [all_chars] in *. rewrite Hc, IH. reflexivity.
Qed.

(** ** One replacement *)

(** The facts about [replace_double_dash] go by induction on the length,
    since it steps over two characters at a time. *)
Lemma replace_facts (P : ascii -> bool) (n : nat) :
  forall s, String.length s <= n ->
    String.length (replace_double_dash s) <= String.length s
    /\ (has_double_dash s = true ->
        String.length (replace_double_dash s) < String.length s)
    /\ (has_double_dash s = false -> replace_double_dash s = s)
    /\ (P "-"%char = true -> all_chars P s = true ->
        all_chars P (replace_double_dash s) = true)
    /\ (first_is is_dash s = false -> first_is is_dash (replace_double_dash s) = false)
    /\ (last_is is_dash s = false -> s <> "" ->
        last_is is_dash (replace_double_dash s) = false /\ replace_double_dash s <> "").
Proof.
  induction n as [|n IH]; intros s Hlen.
  - destruct s; [|cbn in Hlen; lia]. cbn.
    repeat split; auto; try lia; try discriminate; try congruence.
  - destruct s as [|c [|d rest]].
    + cbn. repeat split; auto; try lia; try discriminate; try congruence.
    + cbn. repeat split; auto; try lia; try discriminate; try congruence.
    + cbn [String.length] in Hlen.
      assert (H1 : String.length (String d rest) <= n) by (cbn [String.length]; lia).
      assert (H2 : String.length rest <= n) by lia.
      destruct (IH (String d rest) H1) as [A1 [A2 [A3 [A4 [A5 A6]]]]].
      destruct (IH rest H2) as [B1 [B2 [B3 [B4 [B5 B6]]]]].
      change (replace_double_dash (String c (String d rest)))
        with (if is_dash c && is_dash d then String "-" (replace_double_dash rest)
              else String c (replace_double_dash (String d rest))).
      change (has_double_dash (String c (String d rest)))
        with ((is_dash c && is_dash d) || has_double_dash (String d rest)).
      destruct (is_dash c && is_dash d) eqn:E.
      * apply andb_true_iff in E. destruct E as [Ec Ed].
        refine (conj _ (conj _ (conj _ (conj _ (conj _ _))))).
        -- cbn [String.length]. lia.
        -- intros _. cbn [String.length]. lia.
        -- cbn [orb]. discriminate.
        -- intros HP Hall. cbn [all_chars] in Hall.
           apply andb_true_iff in Hall. destruct Hall as [_ Hall].
           apply andb_true_iff in Hall. destruct Hall as [_ Hr].
           cbn [all_chars]. rewrite HP, (B4 HP Hr). reflexivity.
        -- cbn [first_is]. rewrite Ec. discriminate.
        -- intros Hlast _. destruct rest as [|x rest'].
           ++ cbn [last_is] in Hlast. congruence.
           ++ change (last_is is_dash (String c (String d (String x rest'))))
                with (last_is is_dash (String x rest')) in Hlast.
              destruct (B6 Hlast ltac:(discriminate)) as [Hl Hne].
              split; [|discriminate].
              destruct (replace_double_dash (String x rest')) eqn:Er; [congruence|].
              exact Hl.
      * refine (conj _ (conj _ (conj _ (conj _ (conj _ _))))).
        -- cbn [String.length] in *. lia.
        -- cbn [orb]. intros H. specialize (A2 H). cbn [String.length] in *. lia.
        -- cbn [orb]. intros H. rewrite (A3 H). reflexivity.
        -- intros HP Hall.
           change (all_chars P (String c (String d rest)))
             with (P c && all_chars P (String d rest)) in Hall.
           apply andb_true_iff in Hall. destruct Hall as [Hc Hr].
           change (all_chars P (String c (replace_double_dash (String d rest))))
             with (P c && all_chars P (replace_double_dash (String d rest))).
           rewrite Hc. apply (A4 HP Hr).
        -- cbn [first_is]. auto.
        -- intros Hlast _.
           change (last_is is_dash (String c (String d rest)))
             with (last_is is_dash (String d rest)) in Hlast.
           destruct (A6 Hlast ltac:(discriminate)) as [Hl Hne].
           split; [|discriminate].
           destruct (replace_double_dash (String d rest)) eqn:Er; [congruence|].
           exact Hl.
Qed.

(** ** The loop *)

Lemma collapse_facts (P : ascii -> bool) (n : nat) :
  forall s, String.length s <= n ->
    has_double_dash (collapse n s) = false
    /\ (has_double_dash s = false -> collapse n s = s)
    /\ (P "-"%char = true -> all_chars P s = true -> all_chars P (collapse n s) = true)
    /\ (first_is is_dash s = false -> first_is is_dash (collapse n s) = false)
    /\ (last_is is_dash s = false -> s <> "" ->
        last_is is_dash (collapse n s) = false /\ collapse n s <> "").
Proof.
  induction n as [|n IH]; intros s Hlen.
  - destruct s; [|cbn in Hlen; lia]. cbn.
    repeat split; auto; try discriminate; try congruence.
  - cbn [collapse].
    destruct (replace_facts P (S n) s Hlen) as [R1 [R2 [R3 [R4 [R5 R6]]]]].
    destruct (has_double_dash s) eqn:E.
    + specialize (R2 eq_refl).
      destruct (IH (replace_double_dash s) ltac:(lia)) as [C1 [C2 [C3 [C4 C5]]]].
      refine (conj C1 (conj _ (conj _ (conj _ _)))).
      * discriminate.
      * intros HP Hall. apply (C3 HP (R4 HP Hall)).
      * intros Hf. apply (C4 (R5 Hf)).
      * intros Hl Hne. destruct (R6 Hl Hne) as [Hl' Hne']. apply (C5 Hl' Hne').
    + repeat split; auto.
Qed.

(** ** Stripping *)

Lemma lstrip_dash_first (s : string) : first_is is_dash (lstrip_dash s) = false.
Proof.
  induction s as [|c s IH]; cbn [lstrip_dash]; [reflexivity|].
  destruct (is_dash c) eqn:E; [exact IH | cbn [first_is]; exact E].
Qed.

Lemma rstrip_dash_first (s : string) :
  first_is is_dash s = false -> first_is is_dash (rstrip_dash s) = false.
Proof.
  destruct s as [|c s]; cbn [rstrip_dash first_is]; [auto|].
  intros H. destruct (rstrip_dash s); [rewrite H|]; cbn [first_is]; exact H.
Qed.

Lemma rstrip_dash_last (s : string) : last_is is_dash (rstrip_dash s) = false.
Proof.
  induction s as [|c s IH]; cbn [rstrip_dash]; [reflexivity|].
  destruct (rstrip_dash s) as [|d r].
  - destruct (is_dash c) eqn:E; [reflexivity | cbn [last_is]; exact E].
  - exact IH.
Qed.

Lemma lstrip_dash_fixed (s : string) : first_is is_dash s = false -> lstrip_dash s = s.
Proof. destruct s as [|c s]; cbn; [reflexivity | intros ->; reflexivity]. Qed.

Lemma rstrip_dash_fixed (s : string) : last_is is_dash s = false -> rstrip_dash s = s.
Proof.
  induction s as [|c s IH]; [reflexivity|]. intros H.
  destruct s as [|d r].
  - cbn in *. rewrite H. reflexivity.
  - change (last_is is_dash (String c (String d r)))
      with (last_is is_dash (String d r)) in H.
    change (rstrip_dash (String c (String d r)))
      with (match rstrip_dash (String d r) with
            | EmptyString => if is_dash c then EmptyString else String c EmptyString
            | r0 => String c r0
            end).
    rewrite (IH H). reflexivity.
Qed.

Lemma strip_fixed (s : string) :
  all_chars (fun c => negb (is_space c)) s = true -> strip s = s.
Proof.
  intros H. unfold strip.
  assert (Hl : lstrip s = s).
  { destruct s as [|c s]; [reflexivity|]. cbn [all_chars] in H.
    apply andb_true_iff in H. destruct H as [Hc _]. apply negb_true_iff in Hc.
    cbn [lstrip]. rewrite Hc. reflexivity. }
  rewrite Hl. clear Hl.
  induction s as [|c s IH]; [reflexivity|].
  cbn [all_chars] in H. apply andb_true_iff in H. destruct H as [Hc Hs].
  apply negb_true_iff in Hc. cbn [rstrip]. rewrite (IH Hs), Hc.
  destruct s; reflexivity.
Qed.

Lemma lower_fixed (s : string) :
  all_chars (fun c => Ascii.eqb (lower_char c) c) s = true -> lower s = s.
Proof.
  induction s as [|c s IH]; cbn [all_chars lower]; [reflexivity|].
  rewrite andb_true_iff. intros [Hc Hs]. apply Ascii.eqb_eq in Hc.
  rewrite Hc, (IH Hs). reflexivity.
Qed.

Lemma dashed_fixed (s : string) :
  all_chars (fun c => Ascii.eqb (if is_alnum c then c else "-"%char) c) s = true ->
  dashed s = s.
Proof.
  induction s as [|c s IH]; cbn [all_chars dashed]; [reflexivity|].
  rewrite andb_true_iff. intros [Hc Hs]. apply Ascii.eqb_eq in Hc.
  rewrite Hc, (IH Hs). reflexivity.
Qed.

(** The characters a path component must not hold. *)
Definition path_safe_char (c : ascii) : bool :=
  negb (Ascii.eqb c "/") && negb (Ascii.eqb c "\") && negb (Ascii.eqb c ".")
  && negb (Ascii.eqb c "000") && negb (is_space c).

Lemma slug_char_split (c : ascii) :
  slug_char c = true ->
  Ascii.eqb (lower_char c) c = true
  /\ negb (is_space c) = true
  /\ Ascii.eqb (if is_alnum c then c else "-"%char) c = true
  /\ path_safe_char c = true.
Proof.
  intros H. pose proof (slug_char_facts c) as F. rewrite H in F.
  unfold path_safe_char.
  repeat (apply andb_true_iff in F; destruct F as [F ?]).
  repeat split; try assumption.
  repeat (apply andb_true_iff; split); assumption.
Qed.

(** What the stripped and collapsed string satisfies, before the
    default is put in for an empty one. *)
Definition well_formed_slug (s : string) : Prop :=
  s <> ""
  /\ all_chars slug_char s = true
  /\ has_double_dash s = false
  /\ first_is is_dash s = false
  /\ last_is is_dash s = false.

Lemma slug_well_formed (value : string) : well_formed_slug (_slug value).
Proof.
  unfold _slug.
  set (raw := strip_dash (dashed (strip (lower value)))).
  assert (Hchars : all_chars slug_char raw = true).
  { subst raw. unfold strip_dash, strip.
    apply rstrip_dash_chars, lstrip_dash_chars, dashed_chars, rstrip_chars, lstrip_chars,
      lower_chars. }
  assert (Hfirst : first_is is_dash raw = false).
  { subst raw. unfold strip_dash. apply rstrip_dash_first, lstrip_dash_first. }
  assert (Hlast : last_is is_dash raw = false).
  { subst raw. unfold strip_dash. apply rstrip_dash_last. }
  destruct (collapse_facts slug_char (String.length raw) raw (Nat.le_refl _))
    as [C1 [_ [C3 [C4 C5]]]].
  destruct (String.eqb (collapse (String.length raw) raw) "") eqn:E.
  - unfold well_formed_slug. repeat split; try reflexivity. discriminate.
  - apply String.eqb_neq in E. unfold well_formed_slug.
    assert (Hne : raw <> "").
    { intros Hr. apply E. rewrite Hr. reflexivity. }
    repeat split; auto. apply (C5 Hlast Hne).
Qed.

Lemma slug_fixed (s : string) : well_formed_slug s -> _slug s = s.
Proof.
  intros [Hne [Hchars [Hdd [Hfirst Hlast]]]].
  unfold _slug.
  rewrite (lower_fixed s)
    by (revert Hchars; apply all_chars_impl; intros c Hc; apply (slug_char_split c Hc)).
  rewrite (strip_fixed s)
    by (revert Hchars; apply all_chars_impl; intros c Hc; apply (slug_char_split c Hc)).
  rewrite (dashed_fixed s)
    by (revert Hchars; apply all_chars_impl; intros c Hc; apply (slug_char_split c Hc)).
  unfold strip_dash. rewrite (lstrip_dash_fixed s Hfirst), (rstrip_dash_fixed s Hlast).
  destruct (collapse_facts slug_char (String.length s) s (Nat.le_refl _)) as [_ [C2 _]].
  rewrite (C2 Hdd).
  apply String.eqb_neq in Hne. rewrite Hne. reflexivity.
Qed.

(** [_slug] always returns a name that is safe as one path component:
    it is not empty; every character is a lower-case letter or a digit
    or a dash, so none is a slash, a backslash, a dot, a NUL or white
    space (and the name is neither [.] nor [..]); there is no double
    dash, and no dash at either end. The loop that collapses dashes ends
    within as many turns as the string is long. A slug is its own slug.
    (Strings hold the code points below 256 here.) *)
Theorem slug_is_safe_component (value : string) :
  _slug value <> ""
  /\ all_chars slug_char (_slug value) = true
  /\ all_chars path_safe_char (_slug value) = true
  /\ has_double_dash (_slug value) = false
  /\ first_is is_dash (_slug value) = false
  /\ last_is is_dash (_slug value) = false
  /\ _slug (_slug value) = _slug value.
Proof.
  pose proof (slug_well_formed value) as Hwf.
  pose proof (slug_fixed _ Hwf) as Hfix.
  destruct Hwf as [Hne [Hchars [Hdd [Hfirst Hlast]]]].
  repeat split; try assumption.
  revert Hchars. apply all_chars_impl. intros c Hc. apply (slug_char_split c Hc).
Qed.

Example slug_examples :
  _slug "  My Suite / v1.0  " = "my-suite-v1-0"
  /\ _slug "../../etc" = "etc"
  /\ _slug "---" = "default"
  /\ _slug "a -- b" = "a-b".
Proof. repeat split; vm_compute; reflexivity. Qed.

End SlugFacts.

(* ===================================================================== *)
(** * A violation in a task entry names the entry                          *)
(* ===================================================================== *)

Module TaskViolations.
Import Py RunArtifact PyFacts ArtifactSpec ArtifactFacts MetricCheck.
Local Open Scope list_scope.

(** The path of the [i]-th task entry, as the validator names it. *)
Definition task_path (source : string) (i : nat) : string :=
  (source ++ ".task_results[" ++ str_nat i ++ "]")%string.

(** The payload with the entry under [key] of its [i]-th task entry
    replaced. *)
Definition mutate_task (payload : pyval) (i : nat) (key : string) (nv : pyval) : pyval :=
  match payload with
  | PDict run =>
      match get run "task_results" with
      | PList tasks =>
          match nth_error tasks i with
          | Some (PDict task) =>
              PDict (dict_set run "task_results"
                       (PList (firstn i tasks
                               ++ PDict (dict_set task key nv) :: skipn (S i) tasks)))
          | _ => payload
          end
      | _ => payload
      end
  | _ => payload
  end.

(** The payload in which the [j]-th case of the [i]-th task entry takes
    the identifier of the [k]-th case of that entry. *)
Definition duplicate_case_id (payload : pyval) (i j k : nat) : pyval :=
  match field payload "task_results" with
  | PList tasks =>
      match field (nth i tasks PNone) "case_results" with
      | PList cases =>
          match nth_error cases j, nth_error cases k with
          | Some (PDict case), Some other =>
              mutate_task payload i "case_results"
                (PList (firstn j cases
                        ++ PDict (dict_set case "case_id" (field other "case_id"))
                        :: skipn (S j) cases))
          | _, _ => payload
          end
      | _ => payload
      end
  | _ => payload
  end.

(** The payload with the entry under [key] of the [j]-th case of its
    [i]-th task entry replaced. *)
Definition mutate_case (payload : pyval) (i j : nat) (key : string) (nv : pyval) : pyval :=
  match field payload "task_results" with
  | PList tasks =>
      match field (nth i tasks PNone) "case_results" with
      | PList cases =>
          match nth_error cases j with
          | Some (PDict case) =>
              mutate_task payload i "case_results"
                (PList (firstn j cases ++ PDict (dict_set case key nv)
                        :: skipn (S j) cases))
          | _ => payload
          end
      | _ => payload
      end
  | _ => payload
  end.

Definition duplicate_case_message (path id : string) : string :=
  ("Duplicate case_id in " ++ path ++ ": '" ++ id ++ "'")%string.

Section Tasks.
Context (py : Builtins).

(** ** One counter of a task entry replaced *)

Lemma counter_replaced (source : string) (index : nat) (task : pydict)
  (acc out : task_acc) (key : string) (nv : pyval) :
  validate_task py source index (PDict task) acc = Ok out ->
  key = "cases_total"%string \/ key = "case_failures"%string ->
  nv <> get task key ->
  exists msg,
    validate_task py source index (PDict (dict_set task key nv)) acc
    = Raise (ValueError msg)
    /\ String.prefix (task_path source index) msg = true.
Proof.
  intros H Hkey Hnv. unfold validate_task in *.
  fold (task_path source index) in *.
  cbn [_require_mapping bind] in *.
  bind_inv H as u Hkeys.
  bind_inv H as task_id Hid.
  destruct (set_mem task_id (task_ids acc)) eqn:Hmem; [discriminate|].
  bind_inv H as mt Hmt.
  bind_inv H as dir Hdir.
  destruct (negb (String.eqb dir "higher" || String.eqb dir "lower")) eqn:Hd;
    [discriminate|].
  bind_inv H as sc Hsc.
  bind_inv H as ct Hct.
  bind_inv H as cf Hcf.
  destruct (ct <? cf)%Z eqn:Hle; [discriminate|].
  bind_inv H as cases Hcases.
  destruct (negb (Z.of_nat (length cases) =? ct)%Z) eqn:Hlen; [discriminate|].
  bind_inv H as obs Hobs.
  destruct (negb (obs =? cf)%Z) eqn:Hob; [discriminate|].
  clear H.
  destruct (require_int_ok _ _ _ Hct) as [Gct _].
  destruct (require_int_ok _ _ _ Hcf) as [Gcf _].
  apply negb_false_iff, Z.eqb_eq in Hlen.
  apply negb_false_iff, Z.eqb_eq in Hob.
  assert (Hin : In key (keys task)).
  { apply get_in_keys. destruct Hkey as [-> | ->]; congruence. }
  rewrite (validate_key_set_keys py (dict_set task key nv) task)
    by (apply keys_set_present; exact Hin).
  rewrite Hkeys. cbn [bind].
  destruct Hkey as [-> | ->];
    rewrite ?get_set_same, !get_set_other by discriminate;
    rewrite Hid; cbn [bind]; rewrite Hmem, Hmt; cbn [bind];
    rewrite Hdir; cbn [bind]; rewrite Hd, Hsc; cbn [bind].
  - (* cases_total *)
    destruct (_require_non_negative_int nv (task_path source index ++ ".cases_total"))
      as [n|e] eqn:E.
    + apply require_int_ok in E. destruct E as [-> _]. cbn [bind].
      rewrite Hcf. cbn [bind].
      destruct (n <? cf)%Z.
      * eexists. split; [reflexivity | apply prefix_app].
      * rewrite Hcases. cbn [bind].
        assert (Hne : (Z.of_nat (length cases) =? n)%Z = false).
        { apply Z.eqb_neq. intros Heq. apply Hnv. rewrite Gct. congruence. }
        rewrite Hne. cbn [negb]. eexists. split; [reflexivity | apply prefix_app].
    + apply require_int_raise in E. subst e. cbn [bind].
      eexists. split; [reflexivity|]. rewrite append_assoc. apply prefix_app.
  - (* case_failures *)
    rewrite Hct. cbn [bind].
    destruct (_require_non_negative_int nv (task_path source index ++ ".case_failures"))
      as [n|e] eqn:E.
    + apply require_int_ok in E. destruct E as [-> _]. cbn [bind].
      destruct (ct <? n)%Z.
      * eexists. split; [reflexivity | apply prefix_app].
      * rewrite Hcases. cbn [bind]. rewrite Hlen, Z.eqb_refl. cbn [negb].
        rewrite Hobs. cbn [bind].
        assert (Hne : (obs =? n)%Z = false).
        { apply Z.eqb_neq. intros Heq. apply Hnv. rewrite Gcf. congruence. }
        rewrite Hne. cbn [negb]. eexists. split; [reflexivity | apply prefix_app].
    + apply require_int_raise in E. subst e. cbn [bind].
      eexists. split; [reflexivity|]. rewrite append_assoc. apply prefix_app.
Qed.

(** ** One case identifier repeated *)

Lemma case_id_valid (path : string) (other : pydict) (s : string) (post : list pyval) :
  get other "case_id" = PStr s ->
  forall (mid : list pyval) (idx : nat) (seen : list string) (obs r : Z),
    validate_cases py path (mid ++ PDict other :: post) idx seen obs = Ok r ->
    strip s <> ""%string /\ ~ In (strip s) seen.
Proof.
  intros Hs. induction mid as [|c mid IH]; intros idx seen obs r H;
    cbn [app validate_cases] in H.
  - cbn [_require_mapping bind] in H.
    bind_inv H as u Hkeys.
    bind_inv H as id Hid. rewrite Hs in Hid. apply require_str_ok in Hid.
    destruct Hid as [s' [Hs' [-> Hne]]]. inversion Hs'; subst s'.
    destruct (set_mem (strip s) seen) eqn:Hmem; [discriminate|].
    apply set_mem_not_in in Hmem. split; assumption.
  - bind_inv H as case Hcase.
    bind_inv H as u Hkeys.
    bind_inv H as id Hid.
    destruct (set_mem id seen) eqn:Hmem; [discriminate|].
    bind_inv H as dur Hdur.
    bind_inv H as obs' Hobs.
    apply IH in H. destruct H as [Hne Hnot]. split; [exact Hne|].
    intros Hin. apply Hnot. right. exact Hin.
Qed.

Lemma duplicate_ahead (path : string) (other : pydict) (s : string) (post : list pyval) :
  get other "case_id" = PStr s ->
  forall (mid : list pyval) (idx : nat) (seen seen' : list string) (obs r : Z),
    validate_cases py path (mid ++ PDict other :: post) idx seen obs = Ok r ->
    In (strip s) seen' ->
    (forall x, In x seen' -> x = strip s \/ In x seen) ->
    validate_cases py path (mid ++ PDict other :: post) idx seen' obs
    = Raise (ValueError (duplicate_case_message path (strip s))).
Proof.
  intros Hs. induction mid as [|c mid IH]; intros idx seen seen' obs r H Hin Hsub;
    cbn [app validate_cases] in *.
  - cbn [_require_mapping bind] in *.
    bind_inv H as u Hkeys. rewrite Hkeys. cbn [bind].
    bind_inv H as id Hid. rewrite Hid. cbn [bind].
    rewrite Hs in Hid. apply require_str_ok in Hid.
    destruct Hid as [s' [Hs' [-> _]]]. inversion Hs'; subst s'.
    apply set_mem_in in Hin. rewrite Hin. reflexivity.
  - bind_inv H as case Hcase. rewrite Hcase. cbn [bind].
    bind_inv H as u Hkeys. rewrite Hkeys. cbn [bind].
    bind_inv H as id Hid. rewrite Hid. cbn [bind].
    destruct (set_mem id seen) eqn:Hmem; [discriminate|].
    apply set_mem_not_in in Hmem.
    destruct (set_mem id seen') eqn:Hmem'.
    + apply set_mem_in in Hmem'. destruct (Hsub id Hmem') as [-> | Hold];
        [reflexivity | contradiction].
    + bind_inv H as dur Hdur. rewrite Hdur. cbn [bind].
      bind_inv H as obs' Hobs. rewrite Hobs. cbn [bind].
      apply (IH _ (id :: seen) (id :: seen') _ _ H).
      * right. exact Hin.
      * intros x [<- | Hx]; [right; left; reflexivity|].
        destruct (Hsub x Hx) as [-> | Hold]; [left; reflexivity | right; right; exact Hold].
Qed.

Lemma duplicate_behind (path : string) (case : pydict) (s : string) (post : list pyval) :
  strip s <> ""%string ->
  forall (pre : list pyval) (idx : nat) (seen : list string) (obs r : Z),
    validate_cases py path (pre ++ PDict case :: post) idx seen obs = Ok r ->
    In (strip s) seen
    \/ (exists c, In c pre /\ field c "case_id" = PStr s)
    \/ (exists other, In (PDict other) post /\ get other "case_id" = PStr s) ->
    validate_cases py path
      (pre ++ PDict (dict_set case "case_id" (PStr s)) :: post) idx seen obs
    = Raise (ValueError (duplicate_case_message path (strip s))).
Proof.
  intros Hne. induction pre as [|c pre IH]; intros idx seen obs r H Hwhere;
    cbn [app validate_cases] in *.
  - cbn [_require_mapping bind] in *.
    bind_inv H as u Hkeys.
    bind_inv H as id Hid.
    assert (Hin : In "case_id"%string (keys case)).
    { apply get_in_keys. apply require_str_ok in Hid.
      destruct Hid as [s' [Hs' _]]. rewrite Hs'. discriminate. }
    rewrite (validate_key_set_keys py (dict_set case "case_id" (PStr s)) case)
      by (apply keys_set_present; exact Hin).
    rewrite Hkeys. cbn [bind]. rewrite get_set_same.
    assert (Hreq : forall p, _require_non_empty_str (PStr s) p = Ok (strip s)).
    { intros p. simpl. destruct (String.eqb (strip s) "") eqn:E; [|reflexivity].
      apply String.eqb_eq in E. contradiction. }
    rewrite Hreq. cbn [bind].
    destruct (set_mem id seen) eqn:Hmem; [discriminate|].
    bind_inv H as dur Hdur.
    bind_inv H as obs' Hobs.
    destruct Hwhere as [Hseen | [[c [[] _]] | [other [Hother Hs]]]].
    + apply set_mem_in in Hseen. rewrite Hseen. reflexivity.
    + destruct (set_mem (strip s) seen) eqn:Hmem'; [reflexivity|].
      rewrite !get_set_other by discriminate.
      rewrite Hdur. cbn [bind]. rewrite Hobs. cbn [bind].
      destruct (in_split _ _ Hother) as [mid [post' ->]].
      apply (duplicate_ahead path other s post' Hs mid _ (id :: seen) _ _ _ H).
      * left. reflexivity.
      * intros x [<- | Hx]; [left; reflexivity | right; right; exact Hx].
  - bind_inv H as case0 Hcase. rewrite Hcase. cbn [bind].
    bind_inv H as u Hkeys. rewrite Hkeys. cbn [bind].
    bind_inv H as id Hid. rewrite Hid. cbn [bind].
    destruct (set_mem id seen) eqn:Hmem; [discriminate|].
    bind_inv H as dur Hdur. rewrite Hdur. cbn [bind].
    bind_inv H as obs' Hobs. rewrite Hobs. cbn [bind].
    apply (IH _ _ _ _ H).
    destruct Hwhere as [Hseen | [[c0 [[<- | Hc0] Hs]] | Hpost]].
    + left. right. exact Hseen.
    + left. left. apply require_mapping_ok in Hcase. subst c. cbn [field] in Hs.
      rewrite Hs in Hid. apply require_str_ok in Hid.
      destruct Hid as [s' [Hs' [-> _]]]. inversion Hs'. reflexivity.
    + right. left. exists c0. split; assumption.
    + right. right. exact Hpost.
Qed.

Lemma nth_error_elsewhere {A : Type} (l : list A) (j k : nat) (x y : A) :
  nth_error l j = Some x -> nth_error l k = Some y -> j <> k ->
  In y (firstn j l) \/ In y (skipn (S j) l).
Proof.
  revert j k. induction l as [|a l IH]; intros [|j] [|k] Hj Hk Hne;
    cbn [nth_error firstn skipn] in *; try discriminate; try congruence.
  - right. apply (nth_error_In _ _ Hk).
  - left. left. congruence.
  - destruct (IH j k Hj Hk) as [H|H]; [congruence | left; right; exact H | right; exact H].
Qed.

Lemma duplicated_id_rejected (path : string) (cases : list pyval) (j k : nat)
  (case : pydict) (other : pyval) (r : Z) :
  validate_cases py path cases 0 [] 0 = Ok r ->
  nth_error cases j = Some (PDict case) ->
  nth_error cases k = Some other ->
  j <> k ->
  exists s,
    field other "case_id" = PStr s
    /\ validate_cases py path
         (firstn j cases ++ PDict (dict_set case "case_id" (field other "case_id"))
          :: skipn (S j) cases) 0 [] 0
       = Raise (ValueError (duplicate_case_message path (strip s))).
Proof.
  intros H Hj Hk Hne.
  destruct (split_nth _ _ _ Hj) as [Hsplit _].
  destruct (validate_cases_ok py _ _ _ _ _ _ H) as [_ [ids [Hids _]]].
  assert (Hother : exists s, field other "case_id" = PStr s).
  { pose proof (map_nth_error (fun c => field c "case_id") _ _ Hk) as Hm.
    rewrite Hids in Hm. apply nth_error_In, in_map_iff in Hm.
    destruct Hm as [s [Hs _]]. exists s. symmetry. exact Hs. }
  destruct Hother as [s Hs]. exists s. split; [exact Hs|]. rewrite Hs.
  assert (Hd : exists d, other = PDict d).
  { destruct other; cbn [field] in Hs; try discriminate. eauto. }
  destruct Hd as [d ->]. cbn [field] in Hs.
  assert (Hvalid : strip s <> ""%string).
  { destruct (in_split _ _ (nth_error_In _ _ Hk)) as [a [b Hab]].
    rewrite Hab in H. apply (case_id_valid path d s b Hs a _ _ _ _ H). }
  rewrite Hsplit in H.
  apply (duplicate_behind path case s _ Hvalid _ _ _ _ _ H).
  right. destruct (nth_error_elsewhere _ _ _ _ _ Hj Hk Hne) as [Hin|Hin].
  - left. exists (PDict d). split; [exact Hin | exact Hs].
  - right. exists d. split; [exact Hin | exact Hs].
Qed.

Lemma case_results_replaced (source : string) (index : nat) (task : pydict)
  (acc out : task_acc) (cases cases' : list pyval) (e : exn) :
  validate_task py source index (PDict task) acc = Ok out ->
  get task "case_results" = PList cases ->
  length cases' = length cases ->
  validate_cases py (task_path source index) cases' 0 [] 0 = Raise e ->
  validate_task py source index (PDict (dict_set task "case_results" (PList cases'))) acc
  = Raise e.
Proof.
  intros H Hget Hlen Hraise. unfold validate_task in *.
  fold (task_path source index) in *.
  cbn [_require_mapping bind] in *.
  bind_inv H as u Hkeys.
  bind_inv H as task_id Hid.
  destruct (set_mem task_id (task_ids acc)) eqn:Hmem; [discriminate|].
  bind_inv H as mt Hmt.
  bind_inv H as dir Hdir.
  destruct (negb (String.eqb dir "higher" || String.eqb dir "lower")) eqn:Hd;
    [discriminate|].
  bind_inv H as sc Hsc.
  bind_inv H as ct Hct.
  bind_inv H as cf Hcf.
  destruct (ct <? cf)%Z eqn:Hle; [discriminate|].
  bind_inv H as cases0 Hcases. rewrite Hget in Hcases. cbn [_require_list] in Hcases.
  inversion Hcases; subst cases0; clear Hcases.
  destruct (negb (Z.of_nat (length cases) =? ct)%Z) eqn:Hl; [discriminate|].
  clear H.
  assert (Hin : In "case_results"%string (keys task)).
  { apply get_in_keys. rewrite Hget. discriminate. }
  rewrite (validate_key_set_keys py (dict_set task "case_results" (PList cases')) task)
    by (apply keys_set_present; exact Hin).
  rewrite Hkeys. cbn [bind].
  rewrite get_set_same, !get_set_other by discriminate.
  rewrite Hid. cbn [bind]. rewrite Hmem, Hmt. cbn [bind].
  rewrite Hdir. cbn [bind]. rewrite Hd, Hsc. cbn [bind].
  rewrite Hct. cbn [bind]. rewrite Hcf. cbn [bind]. rewrite Hle.
  cbn [_require_list bind]. rewrite Hlen, Hl, Hraise. reflexivity.
Qed.

(** ** The error of one case set or cleared *)

Lemma key_set_present (d : pydict) (required : list string) (path : string) (u : unit) :
  _validate_key_set py d required path = Ok u ->
  forall k, In k required -> In k (keys d).
Proof.
  unfold _validate_key_set. intros H k Hk.
  destruct (sorted_str (set_diff required (set_of (keys d)))) as [|x l] eqn:E;
    [|discriminate].
  assert (Hnil : set_diff required (set_of (keys d)) = []).
  { apply length_zero_iff_nil. unfold sorted_str in E.
    rewrite <- (SortFacts.sorted_by_length String.ltb), E. reflexivity. }
  destruct (set_mem k (set_of (keys d))) eqn:Hmem.
  - apply set_mem_in in Hmem. apply FreshRecord.set_of_in. exact Hmem.
  - exfalso. assert (Hin : In k (set_diff required (set_of (keys d)))).
    { unfold set_diff. apply filter_In. split; [exact Hk | rewrite Hmem; reflexivity]. }
    rewrite Hnil in Hin. exact Hin.
Qed.

Lemma validate_cases_shift (path : string) (cases : list pyval) :
  forall (idx : nat) (seen : list string) (obs obs' r : Z),
    validate_cases py path cases idx seen obs = Ok r ->
    validate_cases py path cases idx seen obs' = Ok (r + (obs' - obs))%Z.
Proof.
  induction cases as [|c cases IH]; intros idx seen obs obs' r H;
    cbn [validate_cases] in *.
  - inversion H; subst r. f_equal. lia.
  - bind_inv H as case Hcase. rewrite Hcase. cbn [bind].
    bind_inv H as u Hkeys. rewrite Hkeys. cbn [bind].
    bind_inv H as id Hid. rewrite Hid. cbn [bind].
    destruct (set_mem id seen); [discriminate|].
    bind_inv H as dur Hdur. rewrite Hdur. cbn [bind].
    bind_inv H as observed Hobs.
    destruct (get case "error"); try discriminate Hobs;
      inversion Hobs; subst observed; cbn [bind];
      rewrite (IH _ _ _ _ _ H); f_equal; lia.
Qed.

Lemma error_replaced (path : string) (case : pydict) (nv : pyval) (post : list pyval) :
  is_none nv = negb (is_none (get case "error")) ->
  forall (pre : list pyval) (idx : nat) (seen : list string) (obs r : Z),
    validate_cases py path (pre ++ PDict case :: post) idx seen obs = Ok r ->
    (exists msg,
        validate_cases py path (pre ++ PDict (dict_set case "error" nv) :: post)
          idx seen obs = Raise (ValueError msg)
        /\ String.prefix path msg = true)
    \/ (exists r',
           validate_cases py path (pre ++ PDict (dict_set case "error" nv) :: post)
             idx seen obs = Ok r'
           /\ r' <> r).
Proof.
  intros Hflip. induction pre as [|c pre IH]; intros idx seen obs r H;
    cbn [app validate_cases] in *.
  - cbn [_require_mapping bind] in *.
    bind_inv H as u Hkeys.
    assert (Hin : In "error"%string (keys case)).
    { apply (key_set_present _ _ _ _ Hkeys). cbn. auto 6. }
    rewrite (validate_key_set_keys py (dict_set case "error" nv) case)
      by (apply keys_set_present; exact Hin).
    rewrite Hkeys. cbn [bind].
    rewrite get_set_same, !get_set_other by discriminate.
    bind_inv H as id Hid. rewrite Hid. cbn [bind].
    destruct (set_mem id seen); [discriminate|].
    bind_inv H as dur Hdur. rewrite Hdur. cbn [bind].
    bind_inv H as observed Hobs.
    destruct (get case "error") eqn:Herr; try discriminate Hobs;
      inversion Hobs; subst observed; clear Hobs;
      destruct nv; cbn [is_none negb] in Hflip; try discriminate Hflip; cbn [bind];
      try (left; eexists; split; [reflexivity|]; rewrite !append_assoc; apply prefix_app).
    + right. eexists. split; [apply (validate_cases_shift _ _ _ _ _ _ _ H)|]. lia.
    + right. eexists. split; [apply (validate_cases_shift _ _ _ _ _ _ _ H)|]. lia.
  - bind_inv H as case0 Hcase. rewrite Hcase. cbn [bind].
    bind_inv H as u Hkeys. rewrite Hkeys. cbn [bind].
    bind_inv H as id Hid. rewrite Hid. cbn [bind].
    destruct (set_mem id seen); [discriminate|].
    bind_inv H as dur Hdur. rewrite Hdur. cbn [bind].
    bind_inv H as observed Hobs. rewrite Hobs. cbn [bind].
    apply (IH _ _ _ _ H).
Qed.

Lemma case_results_miscounted (source : string) (index : nat) (task : pydict)
  (acc out : task_acc) (cases cases' : list pyval) (r r' : Z) :
  validate_task py source index (PDict task) acc = Ok out ->
  get task "case_results" = PList cases ->
  length cases' = length cases ->
  validate_cases py (task_path source index) cases 0 [] 0 = Ok r ->
  validate_cases py (task_path source index) cases' 0 [] 0 = Ok r' ->
  r' <> r ->
  exists msg,
    validate_task py source index (PDict (dict_set task "case_results" (PList cases'))) acc
    = Raise (ValueError msg)
    /\ String.prefix (task_path source index) msg = true.
Proof.
  intros H Hget Hlen Hr Hr' Hne. unfold validate_task in *.
  fold (task_path source index) in *.
  cbn [_require_mapping bind] in *.
  bind_inv H as u Hkeys.
  bind_inv H as task_id Hid.
  destruct (set_mem task_id (task_ids acc)) eqn:Hmem; [discriminate|].
  bind_inv H as mt Hmt.
  bind_inv H as dir Hdir.
  destruct (negb (String.eqb dir "higher" || String.eqb dir "lower")) eqn:Hd;
    [discriminate|].
  bind_inv H as sc Hsc.
  bind_inv H as ct Hct.
  bind_inv H as cf Hcf.
  destruct (ct <? cf)%Z eqn:Hle; [discriminate|].
  bind_inv H as cases0 Hcases. rewrite Hget in Hcases. cbn [_require_list] in Hcases.
  inversion Hcases; subst cases0; clear Hcases.
  destruct (negb (Z.of_nat (length cases) =? ct)%Z) eqn:Hl; [discriminate|].
  bind_inv H as obs Hobs. rewrite Hr in Hobs. inversion Hobs; subst obs; clear Hobs.
  destruct (negb (r =? cf)%Z) eqn:Hob; [discriminate|].
  apply negb_false_iff, Z.eqb_eq in Hob. subst cf. clear H.
  assert (Hin : In "case_results"%string (keys task)).
  { apply get_in_keys. rewrite Hget. discriminate. }
  rewrite (validate_key_set_keys py (dict_set task "case_results" (PList cases')) task)
    by (apply keys_set_present; exact Hin).
  rewrite Hkeys. cbn [bind].
  rewrite get_set_same, !get_set_other by discriminate.
  rewrite Hid. cbn [bind]. rewrite Hmem, Hmt. cbn [bind].
  rewrite Hdir. cbn [bind]. rewrite Hd, Hsc. cbn [bind].
  rewrite Hct. cbn [bind]. rewrite Hcf. cbn [bind]. rewrite Hle.
  cbn [_require_list bind]. rewrite Hlen, Hl, Hr'. cbn [bind].
  assert (E : (r' =? r)%Z = false) by (apply Z.eqb_neq; exact Hne).
  rewrite E. cbn [negb]. eexists. split; [reflexivity | apply prefix_app].
Qed.

(** ** From the task entry to the whole payload *)

Lemma task_entry_rejected (run : pydict) (source : string)
  (suite : option Schema.BenchmarkSuite) (v : pydict) (pre post : list pyval)
  (entry entry' : pyval) :
  validate_run_artifact py (PDict run) source suite = Ok v ->
  get run "task_results" = PList (pre ++ entry :: post) ->
  (forall acc out,
      validate_task py source (length pre) entry acc = Ok out ->
      exists e, validate_task py source (length pre) entry' acc = Raise e) ->
  exists acc out e,
    validate_task py source (length pre) entry acc = Ok out
    /\ validate_task py source (length pre) entry' acc = Raise e
    /\ validate_run_artifact py
         (PDict (dict_set run "task_results" (PList (pre ++ entry' :: post))))
         source suite = Raise e.
Proof.
  intros H Htr Hentry.
  rewrite validate_staged in *.
  cbn [_require_mapping bind] in *.
  bind_inv H as names Hnames.
  bind_inv H as summary Hsummary.
  bind_inv H as u Hkeys.
  bind_inv H as counts Hcounts.
  bind_inv H as tasks' Htasks. rewrite Htr in Htasks. cbn [_require_list] in Htasks.
  inversion Htasks; subst tasks'; clear Htasks.
  bind_inv H as prov Hprov.
  bind_inv H as acc Hacc. clear H.
  rewrite validate_tasks_app in Hacc.
  bind_inv Hacc as mid Hmid. cbn [validate_tasks Nat.add] in Hacc.
  bind_inv Hacc as mid2 Hmid2.
  destruct (Hentry _ _ Hmid2) as [e He].
  exists mid, mid2, e. split; [exact Hmid2|]. split; [exact He|].
  assert (Hin : In "task_results"%string (keys run)).
  { apply get_in_keys. rewrite Htr. discriminate. }
  unfold read_header in *.
  rewrite (validate_key_set_keys py (dict_set run "task_results" _) run)
    by (apply keys_set_present; exact Hin).
  rewrite get_set_same, !get_set_other by discriminate.
  rewrite Hnames. cbn [bind]. rewrite Hsummary. cbn [bind].
  rewrite Hkeys. cbn [bind]. rewrite Hcounts. cbn [bind _require_list].
  rewrite Hprov. cbn [bind].
  rewrite validate_tasks_app. rewrite Hmid. cbn [bind validate_tasks Nat.add].
  rewrite He. reflexivity.
Qed.

Lemma task_counter_rejected (payload : pyval) (source : string)
  (suite : option Schema.BenchmarkSuite) (v : pydict) (tasks : list pyval)
  (i : nat) (key : string) (nv : pyval) :
  validate_run_artifact py payload source suite = Ok v ->
  field payload "task_results" = PList tasks ->
  i < length tasks ->
  key = "cases_total"%string \/ key = "case_failures"%string ->
  nv <> field (nth i tasks PNone) key ->
  exists msg,
    validate_run_artifact py (mutate_task payload i key nv) source suite
    = Raise (ValueError msg)
    /\ String.prefix (task_path source i) msg = true.
Proof.
  intros H Htr Hi Hkey Hnv.
  assert (Hrun : exists run, payload = PDict run).
  { rewrite validate_staged in H. bind_inv H as run Hrun.
    apply require_mapping_ok in Hrun. eauto. }
  destruct Hrun as [run ->]. cbn [field] in Htr.
  destruct (nth_error tasks i) as [entry|] eqn:Hnth;
    [|apply nth_error_None in Hnth; lia].
  rewrite (nth_error_nth _ _ PNone Hnth) in Hnv.
  destruct (split_nth _ _ _ Hnth) as [Hsplit Hlen].
  assert (Hd : exists task, entry = PDict task).
  { pose proof H as H'. rewrite validate_staged in H'.
    cbn [_require_mapping bind] in H'.
    bind_inv H' as names Hnames. bind_inv H' as summary Hsummary.
    bind_inv H' as u Hkeys. bind_inv H' as counts Hcounts.
    bind_inv H' as tasks' Htasks. rewrite Htr in Htasks. cbn [_require_list] in Htasks.
    inversion Htasks; subst tasks'; clear Htasks.
    bind_inv H' as prov Hprov. bind_inv H' as acc Hacc.
    rewrite Hsplit, validate_tasks_app in Hacc.
    bind_inv Hacc as mid Hmid. cbn [validate_tasks] in Hacc.
    bind_inv Hacc as mid2 Hmid2. unfold validate_task in Hmid2.
    bind_inv Hmid2 as task Htask. apply require_mapping_ok in Htask. eauto. }
  destruct Hd as [task ->]. cbn [field] in Hnv.
  unfold mutate_task. rewrite Htr, Hnth.
  remember (firstn i tasks) as pre eqn:Hpre.
  remember (skipn (S i) tasks) as post eqn:Hpost.
  rewrite Hsplit in Htr.
  destruct (task_entry_rejected run source suite v pre post (PDict task)
              (PDict (dict_set task key nv)) H Htr) as [acc [out [e [Hok [He Hall]]]]].
  { intros acc out Hok.
    destruct (counter_replaced source (length pre) task acc out key nv Hok Hkey Hnv)
      as [msg [Hmsg _]].
    eexists. exact Hmsg. }
  destruct (counter_replaced source (length pre) task acc out key nv Hok Hkey Hnv)
    as [msg [Hmsg Hprefix]].
  rewrite Hmsg in He. inversion He; subst e.
  exists msg. split; [exact Hall|]. rewrite <- Hlen. exact Hprefix.
Qed.

Lemma task_entry_accepted (run : pydict) (source : string)
  (suite : option Schema.BenchmarkSuite) (v : pydict) (pre post : list pyval)
  (entry : pyval) :
  validate_run_artifact py (PDict run) source suite = Ok v ->
  get run "task_results" = PList (pre ++ entry :: post) ->
  exists acc out, validate_task py source (length pre) entry acc = Ok out.
Proof.
  intros H Htr. rewrite validate_staged in H.
  cbn [_require_mapping bind] in H.
  bind_inv H as names Hnames.
  bind_inv H as summary Hsummary.
  bind_inv H as u Hkeys.
  bind_inv H as counts Hcounts.
  bind_inv H as tasks' Htasks. rewrite Htr in Htasks. cbn [_require_list] in Htasks.
  inversion Htasks; subst tasks'; clear Htasks.
  bind_inv H as prov Hprov.
  bind_inv H as acc Hacc. clear H.
  rewrite validate_tasks_app in Hacc.
  bind_inv Hacc as mid Hmid. cbn [validate_tasks Nat.add] in Hacc.
  bind_inv Hacc as mid2 Hmid2. eauto.
Qed.

Lemma validate_task_cases (source : string) (index : nat) (task : pydict)
  (acc out : task_acc) (cases : list pyval) :
  validate_task py source index (PDict task) acc = Ok out ->
  get task "case_results" = PList cases ->
  exists obs, validate_cases py (task_path source index) cases 0 [] 0 = Ok obs.
Proof.
  intros H Hget. unfold validate_task in H. fold (task_path source index) in H.
  cbn [_require_mapping bind] in H.
  bind_inv H as u Hkeys.
  bind_inv H as task_id Hid.
  destruct (set_mem task_id (task_ids acc)); [discriminate|].
  bind_inv H as mt Hmt.
  bind_inv H as dir Hdir.
  destruct (negb (String.eqb dir "higher" || String.eqb dir "lower")); [discriminate|].
  bind_inv H as sc Hsc.
  bind_inv H as ct Hct.
  bind_inv H as cf Hcf.
  destruct (ct <? cf)%Z; [discriminate|].
  bind_inv H as cases0 Hcases. rewrite Hget in Hcases. cbn [_require_list] in Hcases.
  inversion Hcases; subst cases0; clear Hcases.
  destruct (negb (Z.of_nat (length cases) =? ct)%Z); [discriminate|].
  bind_inv H as obs Hobs. eauto.
Qed.

Lemma valid_case_is_dict (path : string) (cases : list pyval) (r : Z) (j : nat)
  (c : pyval) :
  validate_cases py path cases 0 [] 0 = Ok r ->
  nth_error cases j = Some c ->
  exists case, c = PDict case.
Proof.
  intros H Hj.
  destruct (validate_cases_ok py _ _ _ _ _ _ H) as [_ [ids [Hids _]]].
  pose proof (map_nth_error (fun c => field c "case_id") _ _ Hj) as Hm.
  rewrite Hids in Hm. apply nth_error_In, in_map_iff in Hm.
  destruct Hm as [s [Hs _]].
  destruct c; cbn [field] in Hs; try discriminate. eauto.
Qed.

Lemma replaced_length {A : Type} (l : list A) (j : nat) (x y : A) :
  nth_error l j = Some x ->
  length (firstn j l ++ y :: skipn (S j) l) = length l.
Proof.
  intros H. destruct (split_nth _ _ _ H) as [Hs _].
  rewrite Hs at 3. rewrite !length_app. reflexivity.
Qed.

Lemma case_id_rejected (payload : pyval) (source : string)
  (suite : option Schema.BenchmarkSuite) (v : pydict) (tasks cases : list pyval)
  (i j k : nat) :
  validate_run_artifact py payload source suite = Ok v ->
  field payload "task_results" = PList tasks ->
  field (nth i tasks PNone) "case_results" = PList cases ->
  j < length cases -> k < length cases -> j <> k ->
  exists s,
    field (nth k cases PNone) "case_id" = PStr s
    /\ validate_run_artifact py (duplicate_case_id payload i j k) source suite
       = Raise (ValueError (duplicate_case_message (task_path source i) (strip s))).
Proof.
  intros H Htr Hcr Hj Hk Hne.
  assert (Hrun : exists run, payload = PDict run).
  { rewrite validate_staged in H. bind_inv H as run Hrun.
    apply require_mapping_ok in Hrun. eauto. }
  destruct Hrun as [run ->]. cbn [field] in Htr.
  destruct (nth_error tasks i) as [entry|] eqn:Hnth.
  2:{ apply nth_error_None in Hnth. rewrite nth_overflow in Hcr by exact Hnth.
      discriminate Hcr. }
  rewrite (nth_error_nth _ _ PNone Hnth) in Hcr.
  destruct entry as [| | | | | |task]; try discriminate Hcr. cbn [field] in Hcr.
  destruct (split_nth _ _ _ Hnth) as [Hsplit Hlen].
  destruct (nth_error cases j) as [cj|] eqn:Hnj; [|apply nth_error_None in Hnj; lia].
  destruct (nth_error cases k) as [ck|] eqn:Hnk; [|apply nth_error_None in Hnk; lia].
  rewrite (nth_error_nth _ _ PNone Hnk).
  pose proof Htr as Htr'. rewrite Hsplit in Htr'.
  destruct (task_entry_accepted run source suite v _ _ _ H Htr') as [acc0 [out0 Hok0]].
  rewrite Hlen in Hok0.
  destruct (validate_task_cases source i task acc0 out0 cases Hok0 Hcr) as [obs Hobs].
  destruct (valid_case_is_dict _ _ _ _ _ Hobs Hnj) as [case ->].
  destruct (duplicated_id_rejected (task_path source i) cases j k case ck obs
              Hobs Hnj Hnk Hne) as [s [Hs Hraise]].
  exists s. split; [exact Hs|].
  unfold duplicate_case_id. cbn [field]. rewrite Htr.
  rewrite (nth_error_nth _ _ PNone Hnth). cbn [field]. rewrite Hcr, Hnj, Hnk.
  unfold mutate_task. rewrite Htr, Hnth.
  destruct (task_entry_rejected run source suite v (firstn i tasks)
              (skipn (S i) tasks) (PDict task)
              (PDict (dict_set task "case_results"
                        (PList (firstn j cases
                                ++ PDict (dict_set case "case_id" (field ck "case_id"))
                                :: skipn (S j) cases)))) H Htr')
    as [acc [out [e [Hok [He Hall]]]]].
  { intros acc out Hok. rewrite Hlen in *. eexists.
    apply (case_results_replaced source i task acc out cases _ _ Hok Hcr).
    - apply (replaced_length _ _ _ _ Hnj).
    - exact Hraise. }
  rewrite Hlen in Hok, He.
  rewrite (case_results_replaced source i task acc out cases _ _ Hok Hcr
             (replaced_length _ _ _ _ Hnj) Hraise) in He.
  inversion He; subst e. exact Hall.
Qed.

Lemma case_error_rejected (payload : pyval) (source : string)
  (suite : option Schema.BenchmarkSuite) (v : pydict) (tasks cases : list pyval)
  (i j : nat) (nv : pyval) :
  validate_run_artifact py payload source suite = Ok v ->
  field payload "task_results" = PList tasks ->
  field (nth i tasks PNone) "case_results" = PList cases ->
  j < length cases ->
  is_none nv = negb (is_none (field (nth j cases PNone) "error")) ->
  exists msg,
    validate_run_artifact py (mutate_case payload i j "error" nv) source suite
    = Raise (ValueError msg)
    /\ String.prefix (task_path source i) msg = true.
Proof.
  intros H Htr Hcr Hj Hflip.
  assert (Hrun : exists run, payload = PDict run).
  { rewrite validate_staged in H. bind_inv H as run Hrun.
    apply require_mapping_ok in Hrun. eauto. }
  destruct Hrun as [run ->]. cbn [field] in Htr.
  destruct (nth_error tasks i) as [entry|] eqn:Hnth.
  2:{ apply nth_error_None in Hnth. rewrite nth_overflow in Hcr by exact Hnth.
      discriminate Hcr. }
  rewrite (nth_error_nth _ _ PNone Hnth) in Hcr.
  destruct entry as [| | | | | |task]; try discriminate Hcr. cbn [field] in Hcr.
  destruct (split_nth _ _ _ Hnth) as [Hsplit Hlen].
  destruct (nth_error cases j) as [cj|] eqn:Hnj; [|apply nth_error_None in Hnj; lia].
  rewrite (nth_error_nth _ _ PNone Hnj) in Hflip.
  pose proof Htr as Htr'. rewrite Hsplit in Htr'.
  destruct (task_entry_accepted run source suite v _ _ _ H Htr') as [acc0 [out0 Hok0]].
  rewrite Hlen in Hok0.
  destruct (validate_task_cases source i task acc0 out0 cases Hok0 Hcr) as [obs Hobs].
  destruct (valid_case_is_dict _ _ _ _ _ Hobs Hnj) as [case ->]. cbn [field] in Hflip.
  destruct (split_nth _ _ _ Hnj) as [Hcsplit _].
  pose proof Hobs as Hobs'. rewrite Hcsplit in Hobs'.
  set (cases' := firstn j cases ++ PDict (dict_set case "error" nv) :: skipn (S j) cases).
  assert (Hlen' : length cases' = length cases) by (apply (replaced_length _ _ _ _ Hnj)).
  assert (Hentry : forall acc out,
             validate_task py source i (PDict task) acc = Ok out ->
             exists msg,
               validate_task py source i
                 (PDict (dict_set task "case_results" (PList cases'))) acc
               = Raise (ValueError msg)
               /\ String.prefix (task_path source i) msg = true).
  { intros acc out Hok.
    destruct (error_replaced (task_path source i) case nv _ Hflip _ _ _ _ _ Hobs')
      as [[msg [Hraise Hprefix]] | [r' [Hr' Hne]]].
    - exists msg. split; [|exact Hprefix].
      apply (case_results_replaced source i task acc out cases cases' _ Hok Hcr Hlen' Hraise).
    - apply (case_results_miscounted source i task acc out cases cases' obs r'
               Hok Hcr Hlen' Hobs Hr' Hne). }
  unfold mutate_case. cbn [field]. rewrite Htr.
  rewrite (nth_error_nth _ _ PNone Hnth). cbn [field]. rewrite Hcr, Hnj.
  unfold mutate_task. rewrite Htr, Hnth. fold cases'.
  destruct (task_entry_rejected run source suite v (firstn i tasks)
              (skipn (S i) tasks) (PDict task)
              (PDict (dict_set task "case_results" (PList cases'))) H Htr')
    as [acc [out [e [Hok [He Hall]]]]].
  { intros acc out Hok. rewrite Hlen in *.
    destruct (Hentry acc out Hok) as [msg [Hmsg _]]. eexists. exact Hmsg. }
  rewrite Hlen in Hok, He.
  destruct (Hentry acc out Hok) as [msg [Hmsg Hprefix]].
  rewrite Hmsg in He. inversion He; subst e.
  exists msg. split; [exact Hall | exact Hprefix].
Qed.

End Tasks.

(** C4. An accepted payload satisfies every cross-consistency condition, per
    task and in the summary; a payload that violates one is rejected; and a
    single violation brought into an accepted payload makes the call raise
    a [ValueError] whose message names the offending path. When one entry
    of the summary is replaced by any other value, the message starts with
    [<source>.summary.<key>]. When [cases_total] or [case_failures] of the
    [i]-th task entry is replaced by any other value (so that
    [case_failures] exceeds [cases_total], or [cases_total] is not the
    number of case results, or [case_failures] is not the number of cases
    with an error), the message starts with [<source>.task_results[i]].
    When a case of the [i]-th task entry takes the identifier of another
    case of that entry, the message is
    [Duplicate case_id in <source>.task_results[i]: '<id>']. When the
    error of a case of the [i]-th task entry is set where it was null, or
    made null where it was set, the message again starts with
    [<source>.task_results[i]]. *)
Theorem validator_cross_consistency :
  forall (py : Builtins) (payload : pyval) (source : string)
         (suite : option Schema.BenchmarkSuite),
    (forall v, validate_run_artifact py payload source suite = Ok v ->
               summary_consistent payload)
    /\ (~ summary_consistent payload ->
        exists e, validate_run_artifact py payload source suite = Raise e)
    /\ (forall v key nv,
           validate_run_artifact py payload source suite = Ok v ->
           In key _SUMMARY_KEYS ->
           nv <> field (field payload "summary") key ->
           exists msg,
             validate_run_artifact py (mutate_summary payload key nv) source suite
             = Raise (ValueError msg)
             /\ String.prefix (source ++ ".summary." ++ key) msg = true)
    /\ (forall v tasks i key nv,
           validate_run_artifact py payload source suite = Ok v ->
           field payload "task_results" = PList tasks ->
           i < length tasks ->
           key = "cases_total"%string \/ key = "case_failures"%string ->
           nv <> field (nth i tasks PNone) key ->
           exists msg,
             validate_run_artifact py (mutate_task payload i key nv) source suite
             = Raise (ValueError msg)
             /\ String.prefix (task_path source i) msg = true)
    /\ (forall v tasks cases i j k,
           validate_run_artifact py payload source suite = Ok v ->
           field payload "task_results" = PList tasks ->
           field (nth i tasks PNone) "case_results" = PList cases ->
           j < length cases -> k < length cases -> j <> k ->
           exists id,
             field (nth k cases PNone) "case_id" = PStr id
             /\ validate_run_artifact py (duplicate_case_id payload i j k) source suite
                = Raise (ValueError
                           (duplicate_case_message (task_path source i) (strip id))))
    /\ (forall v tasks cases i j nv,
           validate_run_artifact py payload source suite = Ok v ->
           field payload "task_results" = PList tasks ->
           field (nth i tasks PNone) "case_results" = PList cases ->
           j < length cases ->
           is_none nv = negb (is_none (field (nth j cases PNone) "error")) ->
           exists msg,
             validate_run_artifact py (mutate_case payload i j "error" nv) source suite
             = Raise (ValueError msg)
             /\ String.prefix (task_path source i) msg = true).
Proof.
  intros py payload source suite. split; [|split; [|split; [|split; [|split]]]].
  - intros v H. eapply validate_sound; eauto.
  - intros Hno.
    destruct (validate_run_artifact py payload source suite) as [v|e] eqn:E.
    + exfalso. apply Hno. eapply validate_sound; eauto.
    + exists e. reflexivity.
  - intros v key nv H Hkey Hnv.
    exact (mutated_entry_rejected py payload source suite v key nv H Hkey Hnv).
  - intros v tasks i key nv H Htr Hi Hkey Hnv.
    exact (task_counter_rejected py payload source suite v tasks i key nv
             H Htr Hi Hkey Hnv).
  - intros v tasks cases i j k H Htr Hcr Hj Hk Hne.
    exact (case_id_rejected py payload source suite v tasks cases i j k
             H Htr Hcr Hj Hk Hne).
  - intros v tasks cases i j nv H Htr Hcr Hj Hflip.
    exact (case_error_rejected py payload source suite v tasks cases i j nv
             H Htr Hcr Hj Hflip).
Qed.

(** C4 on the fixture: in the golden record, [cases_total] of the summary
    set to 999 as in the package's test, [case_failures] of the first task
    entry set to 5, and the second case of the first task entry given the
    identifier of the first. *)
Lemma validator_cross_consistency_witness :
  (exists msg,
     validate_run_artifact Samples.builtins
       (mutate_summary (PDict Fixtures.golden_record) "cases_total" (PInt 999))
       "candidate" (Some Samples.test_suite)
     = Raise (ValueError msg)
     /\ String.prefix ("candidate" ++ ".summary." ++ "cases_total") msg = true)
  /\ (exists msg,
        validate_run_artifact Samples.builtins
          (mutate_task (PDict Fixtures.golden_record) 0 "case_failures" (PInt 5))
          "candidate" (Some Samples.test_suite)
        = Raise (ValueError msg)
        /\ String.prefix (task_path "candidate" 0) msg = true)
  /\ (exists id,
        validate_run_artifact Samples.builtins
          (duplicate_case_id (PDict Fixtures.golden_record) 0 1 0)
          "candidate" (Some Samples.test_suite)
        = Raise (ValueError
                   (duplicate_case_message (task_path "candidate" 0) (strip id)))).
Proof.
  destruct (validator_cross_consistency Samples.builtins
              (PDict Fixtures.golden_record) "candidate" (Some Samples.test_suite))
    as [_ [_ [Hsummary [Htask [Hcase _]]]]].
  split; [|split].
  - eapply Hsummary.
    + vm_compute. reflexivity.
    + vm_compute. tauto.
    + vm_compute. discriminate.
  - eapply Htask.
    + vm_compute. reflexivity.
    + vm_compute. reflexivity.
    + vm_compute. lia.
    + right. reflexivity.
    + vm_compute. discriminate.
  - pose (tasks := match field (PDict Fixtures.golden_record) "task_results" with
                    | PList l => l
                    | _ => []
                    end).
    pose (cases := match field (nth 0 tasks PNone) "case_results" with
                    | PList l => l
                    | _ => []
                    end).
    destruct (Hcase Fixtures.golden_record tasks cases 0 1 0) as [id [_ H]].
    + vm_compute. reflexivity.
    + vm_compute. reflexivity.
    + vm_compute. reflexivity.
    + vm_compute. lia.
    + vm_compute. lia.
    + discriminate.
    + exists id. exact H.
Defined.

Example task_violation_messages :
  validate_run_artifact Samples.builtins
    (mutate_task (PDict Fixtures.golden_record) 0 "case_failures" (PInt 5))
    "candidate" (Some Samples.test_suite)
  = Raise (ValueError "candidate.task_results[0].case_failures cannot exceed cases_total")
  /\ validate_run_artifact Samples.builtins
       (mutate_task (PDict Fixtures.golden_record) 0 "cases_total" (PInt 3))
       "candidate" (Some Samples.test_suite)
     = Raise (ValueError
                "candidate.task_results[0].cases_total=3 does not match len(case_results)=2")
  /\ validate_run_artifact Samples.builtins
       (mutate_task (PDict Fixtures.golden_record) 0 "case_failures" (PInt 1))
       "candidate" (Some Samples.test_suite)
     = Raise (ValueError
                "candidate.task_results[0].case_failures=1 does not match observed failures 0")
  /\ validate_run_artifact Samples.builtins
       (duplicate_case_id (PDict Fixtures.golden_record) 0 1 0)
       "candidate" (Some Samples.test_suite)
     = Raise (ValueError "Duplicate case_id in candidate.task_results[0]: 'a'")
  /\ validate_run_artifact Samples.builtins
       (mutate_case (PDict Fixtures.golden_record) 0 1 "error" (PStr "boom"))
       "candidate" (Some Samples.test_suite)
     = Raise (ValueError
                "candidate.task_results[0].case_failures=0 does not match observed failures 1").
Proof. repeat split; vm_compute; reflexivity. Qed.

End TaskViolations.

(* ===================================================================== *)
(** * The generator of each task                                           *)
(* ===================================================================== *)

Module SeededBootstrap.
Import Py Compare PyFacts.
Local Open Scope list_scope.

Section Seeded.
Context (py : Builtins) (R : RandomImpl) (os_seed : nat -> Z).

(** The statistics of comparison [c] are those of a bootstrap over [pairs]
    whose resamples are drawn, in order, from the generator state [r]: the
    interval's ends are the quantiles of the resampled regression amounts
    and [p_regression] is the share of hits; when a metric of a resample
    raises [ValueError] there are none. *)
Definition statistics_drawn_from (r : rng R) (policy_ : StatisticalPolicy)
  (task : Schema.BenchmarkTask) (pairs : list (pyval * pyval * pyval * pyval))
  (c : TaskComparison) : Prop :=
  match resample py R (Schema.metric task) (direction c) (Schema.positive_label task)
          pairs (threshold c) (Z.to_nat (bootstrap_resamples policy_)) r [] 0 with
  | Ok (Some (samples, hits)) =>
      let alpha := (1 - confidence_level policy_)%float in
      exists lo hi,
        _quantile samples (alpha / 2)%float = Ok lo
        /\ _quantile samples (1 - alpha / 2)%float = Ok hi
        /\ ci_low c = Some lo /\ ci_high c = Some hi
        /\ p_regression c = Some (Metrics.count_div hits (length samples))
  | Ok None => ci_low c = None /\ ci_high c = None /\ p_regression c = None
  | Raise _ => False
  end.

(** The comparison at position [k] of the loop's output is the one
    [compare_task] makes with the index [task_index + k]. *)
Lemma compare_tasks_nth (p : StatisticalPolicy)
  (baseline_tasks candidate_tasks : list (string * pydict))
  (tasks : list Schema.BenchmarkTask) :
  forall (task_index : nat) (acc out : compare_loop),
    compare_tasks py R os_seed p baseline_tasks candidate_tasks task_index tasks acc
    = Ok out ->
    exists cs,
      comparisons out = comparisons acc ++ cs
      /\ forall k task,
           nth_error tasks k = Some task ->
           exists c,
             nth_error cs k = Some c
             /\ compare_task py R os_seed p baseline_tasks candidate_tasks
                  (task_index + k) task = Ok c.
Proof.
  induction tasks as [|task rest IH]; intros task_index acc out H; cbn [compare_tasks] in H.
  - inversion H; subst out. exists []. split; [rewrite app_nil_r; reflexivity|].
    intros [|k] task Hk; discriminate Hk.
  - bind_inv H as c Hc. apply IH in H. destruct H as [cs [Hcmp Hnth]].
    exists (c :: cs). split.
    + rewrite Hcmp. cbn [count_status comparisons]. rewrite <- app_assoc. reflexivity.
    + intros [|k] task' Hk; cbn [nth_error] in *.
      * inversion Hk; subst task'. exists c. rewrite Nat.add_0_r. split; [reflexivity|exact Hc].
      * destruct (Hnth k task' Hk) as [c' [Hc' Hcmp']]. exists c'.
        rewrite <- Nat.add_succ_comm. split; assumption.
Qed.

Lemma compare_runs_nth (suite : Schema.BenchmarkSuite)
  (baseline_run candidate_run : pydict) (p : StatisticalPolicy)
  (report : ComparisonReport) (i : nat) (task : Schema.BenchmarkTask) :
  compare_runs py R os_seed suite baseline_run candidate_run (Some p) = Ok report ->
  nth_error (Schema.tasks suite) i = Some task ->
  exists c,
    nth_error (task_comparisons report) i = Some c
    /\ compare_task py R os_seed p (_task_map baseline_run) (_task_map candidate_run)
         i task = Ok c.
Proof.
  unfold compare_runs. intros H Hi.
  bind_inv H as out Hout. apply compare_tasks_nth in Hout.
  destruct Hout as [cs [Hcmp Hnth]]. cbn [comparisons app] in Hcmp.
  inversion H; subst report; clear H. cbn [task_comparisons].
  rewrite Hcmp. destruct (Hnth i task Hi) as [c [Hc Hcmp']].
  exists c. split; assumption.
Qed.

(** With a seed [s] in the policy, the bootstrap of the task at index [i]
    draws from the generator seeded with [s + i]. *)
Lemma compare_task_seeded_draws (p : StatisticalPolicy) (s : Z)
  (baseline_tasks candidate_tasks : list (string * pydict)) (i : nat)
  (task : Schema.BenchmarkTask) (baseline_entry candidate_entry : pydict)
  (bs cs : float) (c : TaskComparison) :
  bootstrap_seed p = Some s ->
  bootstrap_enabled p = true ->
  dict_get baseline_tasks (Schema.task_id task) = Some baseline_entry ->
  dict_get candidate_tasks (Schema.task_id task) = Some candidate_entry ->
  _extract_score py (Some baseline_entry) = Ok (Some bs) ->
  _extract_score py (Some candidate_entry) = Ok (Some cs) ->
  2 <= length (_paired_cases baseline_entry candidate_entry) ->
  compare_task py R os_seed p baseline_tasks candidate_tasks i task = Ok c ->
  statistics_drawn_from (Random R (s + Z.of_nat i)) p task
    (_paired_cases baseline_entry candidate_entry) c.
Proof.
  intros Hseed Hon Hb Hc Hbs Hcs Hlen H.
  unfold compare_task in H. rewrite Hb, Hc, Hbs, Hcs in H. cbn [bind] in H.
  bind_inv H as direction_ Hdir. rewrite Hon in H.
  bind_inv H as verdict Hv. bind_inv Hv as stats Hstats.
  unfold _bootstrap_regression_stats in Hstats.
  assert (E1 : Nat.ltb (length (_paired_cases baseline_entry candidate_entry)) 2 = false)
    by (apply Nat.ltb_ge; exact Hlen).
  assert (E2 : (bootstrap_resamples p <=? 0)%Z = false).
  { unfold bootstrap_enabled in Hon. apply Z.ltb_lt in Hon. apply Z.leb_gt. exact Hon. }
  rewrite E1, E2, Hseed in Hstats. cbn [orb _seed_for_task make_rng] in Hstats.
  bind_inv Hstats as drawn Hdrawn.
  unfold statistics_drawn_from.
  destruct verdict as [[[[lo hi] pr] n] outcome].
  inversion H; subst c; clear H. cbn [direction threshold ci_low ci_high p_regression].
  rewrite Hdrawn.
  destruct drawn as [[samples hits]|].
  - bind_inv Hstats as lo' Hlo. bind_inv Hstats as hi' Hhi.
    inversion Hstats; subst stats; clear Hstats.
    inversion Hv; subst. exists lo', hi'. repeat split; assumption.
  - inversion Hstats; subst stats; clear Hstats.
    inversion Hv; subst. repeat split.
Qed.

End Seeded.

(** C8. With a seed in the policy, [compare_runs] does not depend on what
    the operating system would have supplied to an unseeded generator: two
    calls on the same suite, run records and policy return the same outcome
    (the same report, hence the same [ci_low], [ci_high] and [p_regression]
    for every task, or the same exception). And in a report [compare_runs]
    returns, the task at index [i] of the suite has its comparison at
    index [i], and when the bootstrap runs for it (bootstrap enabled, an
    entry and a score in both records, two paired cases or more) the
    statistics of that comparison are those drawn from the generator
    seeded with [bootstrap_seed + i]. *)
Theorem compare_runs_seeded_deterministic
  (py : Builtins) (R : RandomImpl) (os1 os2 : nat -> Z)
  (suite : Schema.BenchmarkSuite) (baseline_run candidate_run : pydict)
  (policy_ : StatisticalPolicy) (s : Z) :
  bootstrap_seed policy_ = Some s ->
  compare_runs py R os1 suite baseline_run candidate_run (Some policy_) =
  compare_runs py R os2 suite baseline_run candidate_run (Some policy_)
  /\ (forall (report : ComparisonReport) (i : nat) (task : Schema.BenchmarkTask)
             (baseline_entry candidate_entry : pydict) (bs cs : float),
         compare_runs py R os1 suite baseline_run candidate_run (Some policy_)
         = Ok report ->
         nth_error (Schema.tasks suite) i = Some task ->
         bootstrap_enabled policy_ = true ->
         dict_get (_task_map baseline_run) (Schema.task_id task) = Some baseline_entry ->
         dict_get (_task_map candidate_run) (Schema.task_id task) = Some candidate_entry ->
         _extract_score py (Some baseline_entry) = Ok (Some bs) ->
         _extract_score py (Some candidate_entry) = Ok (Some cs) ->
         2 <= length (_paired_cases baseline_entry candidate_entry) ->
         exists c,
           nth_error (task_comparisons report) i = Some c
           /\ statistics_drawn_from py R (Random R (s + Z.of_nat i)) policy_ task
                (_paired_cases baseline_entry candidate_entry) c).
Proof.
  intros Hseed. split.
  - unfold compare_runs.
    rewrite (Determinism.compare_tasks_seeded py R os1 os2 policy_ s _ _ _ Hseed).
    reflexivity.
  - intros report i task baseline_entry candidate_entry bs cs H Hi Hon Hb Hc Hbs Hcs Hlen.
    destruct (compare_runs_nth py R os1 suite baseline_run candidate_run policy_
                report i task H Hi) as [c [Hnth Hcmp]].
    exists c. split; [exact Hnth|].
    exact (compare_task_seeded_draws py R os1 policy_ s _ _ i task baseline_entry
             candidate_entry bs cs c Hseed Hon Hb Hc Hbs Hcs Hlen Hcmp).
Qed.

(** The entry of a task in a run record, and its score. *)
Definition entry_of (run : pydict) (id : string) : pydict :=
  match dict_get (_task_map run) id with Some d => d | None => [] end.

Definition score_of (run : pydict) (id : string) : float :=
  match _extract_score Samples.builtins (Some (entry_of run id)) with
  | Ok (Some x) => x
  | _ => 0%float
  end.

Definition toxicity_task : Schema.BenchmarkTask :=
  Samples.mk_task "tox_acc" "accuracy" "toxic" 0.01
    [ Samples.mk_case "c1" [("toxic", PInt 0)];
      Samples.mk_case "c2" [("toxic", PInt 1)] ].

(** C8 on the fixture: a bootstrap comparison seeded with 7 of two records
    of the test suite, under two different supplies of operating-system
    seeds; the second task, at index 1, draws from the generator seeded
    with 8. *)
Lemma compare_runs_seeded_deterministic_witness :
  compare_runs Samples.builtins Samples.lcg (fun _ => 0%Z) Samples.test_suite
    Fixtures.golden_record Fixtures.shifted_record (Some Fixtures.seeded_policy) =
  compare_runs Samples.builtins Samples.lcg (fun k => Z.of_nat k + 5)%Z Samples.test_suite
    Fixtures.golden_record Fixtures.shifted_record (Some Fixtures.seeded_policy)
  /\ exists report c,
       compare_runs Samples.builtins Samples.lcg (fun _ => 0%Z) Samples.test_suite
         Fixtures.golden_record Fixtures.shifted_record (Some Fixtures.seeded_policy)
       = Ok report
       /\ nth_error (task_comparisons report) 1 = Some c
       /\ statistics_drawn_from Samples.builtins Samples.lcg
            (Random Samples.lcg (7 + Z.of_nat 1)) Fixtures.seeded_policy toxicity_task
            (_paired_cases (entry_of Fixtures.golden_record "tox_acc")
               (entry_of Fixtures.shifted_record "tox_acc")) c.
Proof.
  destruct (compare_runs_seeded_deterministic Samples.builtins Samples.lcg
              (fun _ => 0%Z) (fun k => Z.of_nat k + 5)%Z Samples.test_suite
              Fixtures.golden_record Fixtures.shifted_record Fixtures.seeded_policy 7%Z
              eq_refl) as [Hsame Hdraws].
  split; [exact Hsame|].
  destruct (compare_runs Samples.builtins Samples.lcg (fun _ => 0%Z) Samples.test_suite
              Fixtures.golden_record Fixtures.shifted_record
              (Some Fixtures.seeded_policy)) as [report|e] eqn:E;
    [|vm_compute in E; discriminate E].
  destruct (Hdraws report 1 toxicity_task (entry_of Fixtures.golden_record "tox_acc")
              (entry_of Fixtures.shifted_record "tox_acc")
              (score_of Fixtures.golden_record "tox_acc")
              (score_of Fixtures.shifted_record "tox_acc")) as [c [Hc Hstat]];
    [ reflexivity | reflexivity | reflexivity
    | vm_compute; reflexivity | vm_compute; reflexivity
    | vm_compute; reflexivity | vm_compute; reflexivity
    | vm_compute; lia | ].
  exists report, c. split; [reflexivity|]. split; assumption.
Defined.

(** The statistics of that task, drawn from the generator seeded with 8,
    are not those the generator seeded with 7 gives. *)
Example seeds_differ_by_task :
  resample Samples.builtins Samples.lcg "accuracy" "higher" (PInt 1)
    (_paired_cases (entry_of Fixtures.golden_record "tox_acc")
       (entry_of Fixtures.shifted_record "tox_acc")) 0.01 20
    (Random Samples.lcg 8) [] 0 <>
  resample Samples.builtins Samples.lcg "accuracy" "higher" (PInt 1)
    (_paired_cases (entry_of Fixtures.golden_record "tox_acc")
       (entry_of Fixtures.shifted_record "tox_acc")) 0.01 20
    (Random Samples.lcg 7) [] 0.
Proof. vm_compute. intros H. discriminate H. Qed.

End SeededBootstrap.
